(** * DDrawCompat: the D3dDdi resource engine (D3dDdi/Resource.cpp)

    A shallow embedding of [D3dDdi::Resource]: the per-subresource validity
    flags, the materialization functions ([loadVidMemResource] and friends),
    the blit router, construction and fix-up, the downscale chain and the
    presentation rectangle.

    Conventions.
    - [LONG]/[int] and [UINT] values are integers of [Z]; every arithmetic
      operation of the source is followed by its 32-bit wrap-around
      ([wrapLONG], [wrapUINT]); [/] on [LONG] is [Z.quot] (truncation), and
      a division that traps (by zero, or [LONG_MIN / -1]) is an error value
      or ends the run as undefined.
    - A [Resource*] or a driver handle is a key of the device's resource
      table; a nullable pointer is an [option].
    - A member function of [Resource] takes the key [this] of the object
      and runs in the monad [M] over the [World]: the resource table, the
      file-level globals, the [LOG_ONCE] statics and the trace of calls made
      to the driver, the shader blitter, the surface repository and the log.
    - Answers of the collaborators (driver results, repository surfaces,
      configuration, monitor rectangles) come from an [Env]; an answer that
      may change over time is indexed by the length of the trace at the
      moment of the call.
    - Debug logging ([LOG_FUNC], [LOG_RESULT]) is left out. *)

From Stdlib Require Import ZArith Lia List Bool.
From stdpp Require Import base option list gmap.

Local Open Scope Z_scope.

(** ** Machine integers *)

Definition wrapLONG (z : Z) : Z := (z + 2147483648) mod 4294967296 - 2147483648.
Definition wrapUINT (z : Z) : Z := z mod 4294967296.

Definition LONG_MIN : Z := -2147483648.
Definition LONG_MAX : Z := 2147483647.

Definition addL (a b : Z) : Z := wrapLONG (a + b).
Definition subL (a b : Z) : Z := wrapLONG (a - b).
Definition mulL (a b : Z) : Z := wrapLONG (a * b).
(** [a / b] on [LONG], where the division is defined. *)
Definition divL (a b : Z) : Z := wrapLONG (Z.quot a b).
(** The divisions that trap: by zero, and [LONG_MIN / -1], whose quotient
    is no [LONG]. A division by a constant other than 0 and -1 never does. *)
Definition divTraps (a b : Z) : bool := (b =? 0) || ((a =? LONG_MIN) && (b =? -1)).

(** ** Result codes *)

Definition HRESULT := Z.
Definition S_OK : HRESULT := 0.
Definition S_FALSE : HRESULT := 1.
Definition E_FAIL : HRESULT := -2147467259.        (* 0x80004005 *)
Definition E_ABORT : HRESULT := -2147467260.       (* 0x80004004 *)
Definition E_OUTOFMEMORY : HRESULT := -2147024882. (* 0x8007000E *)
Definition FAILED (hr : HRESULT) : bool := hr <? 0.
Definition SUCCEEDED (hr : HRESULT) : bool := 0 <=? hr.

(** ** Driver types *)

(** A handle is an integer; as a notation, so that the keys of the
    resource table have one type. *)
Abbreviation HANDLE := Z (only parsing).

Record RECT := mkRECT { left : Z; top : Z; right : Z; bottom : Z }.

Definition RECT_eqb (a b : RECT) : bool :=
  (left a =? left b) && (top a =? top b) && (right a =? right b) && (bottom a =? bottom b).

Definition emptyRECT : RECT := mkRECT 0 0 0 0.

(** [IsRectEmpty], [OffsetRect], [EqualRect], [IntersectRect] of the Windows API. *)
Definition IsRectEmpty (r : RECT) : bool := (right r <=? left r) || (bottom r <=? top r).

Definition OffsetRect (r : RECT) (dx dy : Z) : RECT :=
  mkRECT (addL (left r) dx) (addL (top r) dy) (addL (right r) dx) (addL (bottom r) dy).

Definition EqualRect (a b : RECT) : bool := RECT_eqb a b.

Definition IntersectRect (a b : RECT) : RECT :=
  let r := mkRECT (Z.max (left a) (left b)) (Z.max (top a) (top b))
                  (Z.min (right a) (right b)) (Z.min (bottom a) (bottom b)) in
  if IsRectEmpty a || IsRectEmpty b || IsRectEmpty r then emptyRECT else r.

(** [D3DDDIFORMAT], the values this file names. *)
Definition D3DDDIFORMAT := Z.
Definition D3DDDIFMT_UNKNOWN : D3DDDIFORMAT := 0.
Definition D3DDDIFMT_A8R8G8B8 : D3DDDIFORMAT := 21.
Definition D3DDDIFMT_X8R8G8B8 : D3DDDIFORMAT := 22.
Definition D3DDDIFMT_R5G6B5 : D3DDDIFORMAT := 23.
Definition D3DDDIFMT_X8B8G8R8 : D3DDDIFORMAT := 33.
Definition D3DDDIFMT_P8 : D3DDDIFORMAT := 41.
Definition FOURCC_NULL : D3DDDIFORMAT := 1280070990.  (* MAKEFOURCC('N','U','L','L') *)
Definition FOURCC_INTZ : D3DDDIFORMAT := 1515474505.  (* MAKEFOURCC('I','N','T','Z') *)

Inductive D3DDDI_POOL :=
| D3DDDIPOOL_SYSTEMMEM
| D3DDDIPOOL_VIDEOMEMORY
| D3DDDIPOOL_LOCALVIDMEM
| D3DDDIPOOL_NONLOCALVIDMEM.

Definition isSystemMem (p : D3DDDI_POOL) : bool :=
  match p with D3DDDIPOOL_SYSTEMMEM => true | _ => false end.

Definition D3DDDIMULTISAMPLE_TYPE := Z.
Definition D3DDDIMULTISAMPLE_NONE : D3DDDIMULTISAMPLE_TYPE := 0.

(** The bits of [D3DDDI_RESOURCEFLAGS] that the file reads or writes:
    those set by [getResourceTypeFlags], and [MightDrawFromLocked]. *)
Record D3DDDI_RESOURCEFLAGS := mkFlags {
  RenderTarget : bool;
  ZBuffer : bool;
  DMap : bool;
  Points : bool;
  RtPatches : bool;
  NPatches : bool;
  Video : bool;
  CaptureBuffer : bool;
  MatchGdiPrimary : bool;
  Primary : bool;
  Texture : bool;
  CubeMap : bool;
  VertexBuffer : bool;
  IndexBuffer : bool;
  DecodeRenderTarget : bool;
  DecodeCompressedBuffer : bool;
  VideoProcessRenderTarget : bool;
  Overlay : bool;
  TextApi : bool;
  MightDrawFromLocked : bool
}.

Definition noFlags : D3DDDI_RESOURCEFLAGS :=
  mkFlags false false false false false false false false false false
          false false false false false false false false false false.

Definition setTexture (b : bool) (f : D3DDDI_RESOURCEFLAGS) : D3DDDI_RESOURCEFLAGS :=
  mkFlags (RenderTarget f) (ZBuffer f) (DMap f) (Points f) (RtPatches f) (NPatches f)
          (Video f) (CaptureBuffer f) (MatchGdiPrimary f) (Primary f) b (CubeMap f)
          (VertexBuffer f) (IndexBuffer f) (DecodeRenderTarget f) (DecodeCompressedBuffer f)
          (VideoProcessRenderTarget f) (Overlay f) (TextApi f) (MightDrawFromLocked f).

(** [0 != (f.Value & flags.Value)] where [flags] is [g_resourceTypeFlags]
    with [RenderTarget] cleared, as in [createLockResource]. *)
Definition hasTypeFlagOtherThanRenderTarget (f : D3DDDI_RESOURCEFLAGS) : bool :=
  ZBuffer f || DMap f || Points f || RtPatches f || NPatches f || Video f ||
  CaptureBuffer f || MatchGdiPrimary f || Primary f || Texture f || CubeMap f ||
  VertexBuffer f || IndexBuffer f || DecodeRenderTarget f || DecodeCompressedBuffer f ||
  VideoProcessRenderTarget f || Overlay f || TextApi f.

Record D3DDDI_SURFACEINFO := mkSurfaceInfo {
  Width : Z;
  Height : Z;
  Depth : Z;
  pSysMem : Z;
  SysMemPitch : Z
}.

Definition setWidth (v : Z) (s : D3DDDI_SURFACEINFO) : D3DDDI_SURFACEINFO :=
  mkSurfaceInfo v (Height s) (Depth s) (pSysMem s) (SysMemPitch s).
Definition setHeight (v : Z) (s : D3DDDI_SURFACEINFO) : D3DDDI_SURFACEINFO :=
  mkSurfaceInfo (Width s) v (Depth s) (pSysMem s) (SysMemPitch s).

(** [Resource::Data]: [D3DDDIARG_CREATERESOURCE2] with its surface list
    copied into [surfaceData]; [SurfCount] is the length of that copy. *)
Record Data := mkData {
  Format : D3DDDIFORMAT;
  Pool : D3DDDI_POOL;
  MultisampleType : D3DDDIMULTISAMPLE_TYPE;
  MultisampleQuality : Z;
  surfaceData : list D3DDDI_SURFACEINFO;
  Flags : D3DDDI_RESOURCEFLAGS;
  hResource : HANDLE
}.

Definition SurfCount (d : Data) : nat := length (surfaceData d).

Definition setFormat (v : D3DDDIFORMAT) (d : Data) : Data :=
  mkData v (Pool d) (MultisampleType d) (MultisampleQuality d) (surfaceData d) (Flags d) (hResource d).
Definition setMultisample (t q : Z) (d : Data) : Data :=
  mkData (Format d) (Pool d) t q (surfaceData d) (Flags d) (hResource d).
Definition setSurfaceData (v : list D3DDDI_SURFACEINFO) (d : Data) : Data :=
  mkData (Format d) (Pool d) (MultisampleType d) (MultisampleQuality d) v (Flags d) (hResource d).
Definition setFlags (v : D3DDDI_RESOURCEFLAGS) (d : Data) : Data :=
  mkData (Format d) (Pool d) (MultisampleType d) (MultisampleQuality d) (surfaceData d) v (hResource d).
Definition setHResource (v : HANDLE) (d : Data) : Data :=
  mkData (Format d) (Pool d) (MultisampleType d) (MultisampleQuality d) (surfaceData d) (Flags d) v.

(** [D3DDDIARG_LOCK], [D3DDDIARG_UNLOCK], [D3DDDIARG_BLT], [D3DDDIARG_COLORFILL]. *)
Record D3DDDIARG_LOCK := mkLock {
  lock_hResource : HANDLE;
  lock_SubResourceIndex : nat;
  lock_Area : RECT;
  lock_AreaValid : bool;
  lock_ReadOnly : bool;
  lock_NotifyOnly : bool;
  lock_pSurfData : Z;
  lock_Pitch : Z
}.

Definition emptyLock : D3DDDIARG_LOCK := mkLock 0 0%nat emptyRECT false false false 0 0.

Record D3DDDIARG_UNLOCK := mkUnlock {
  unlock_hResource : HANDLE;
  unlock_SubResourceIndex : nat;
  unlock_NotifyOnly : bool
}.

Record D3DDDIARG_BLT := mkBlt {
  hSrcResource : HANDLE;
  SrcSubResourceIndex : nat;
  SrcRect : RECT;
  hDstResource : HANDLE;
  DstSubResourceIndex : nat;
  DstRect : RECT;
  ColorKey : Z;
  Point : bool;
  Linear : bool;
  MirrorLeftRight : bool;
  MirrorUpDown : bool;
  SrcColorKey : bool;
  DstColorKey : bool
}.

Definition emptyBlt : D3DDDIARG_BLT :=
  mkBlt 0 0%nat emptyRECT 0 0%nat emptyRECT 0 false false false false false false.

Definition setSrc (h : HANDLE) (i : nat) (r : RECT) (d : D3DDDIARG_BLT) : D3DDDIARG_BLT :=
  mkBlt h i r (hDstResource d) (DstSubResourceIndex d) (DstRect d) (ColorKey d)
        (Point d) (Linear d) (MirrorLeftRight d) (MirrorUpDown d) (SrcColorKey d) (DstColorKey d).
Definition setDst (h : HANDLE) (i : nat) (r : RECT) (d : D3DDDIARG_BLT) : D3DDDIARG_BLT :=
  mkBlt (hSrcResource d) (SrcSubResourceIndex d) (SrcRect d) h i r (ColorKey d)
        (Point d) (Linear d) (MirrorLeftRight d) (MirrorUpDown d) (SrcColorKey d) (DstColorKey d).
Definition setPoint (d : D3DDDIARG_BLT) : D3DDDIARG_BLT :=
  mkBlt (hSrcResource d) (SrcSubResourceIndex d) (SrcRect d) (hDstResource d)
        (DstSubResourceIndex d) (DstRect d) (ColorKey d)
        true (Linear d) (MirrorLeftRight d) (MirrorUpDown d) (SrcColorKey d) (DstColorKey d).
Definition setLinear (d : D3DDDIARG_BLT) : D3DDDIARG_BLT :=
  mkBlt (hSrcResource d) (SrcSubResourceIndex d) (SrcRect d) (hDstResource d)
        (DstSubResourceIndex d) (DstRect d) (ColorKey d)
        (Point d) true (MirrorLeftRight d) (MirrorUpDown d) (SrcColorKey d) (DstColorKey d).

Record D3DDDIARG_COLORFILL := mkColorFill {
  cf_hResource : HANDLE;
  cf_SubResourceIndex : nat;
  cf_DstRect : RECT;
  cf_Color : Z
}.

(** ** The resource *)

(** [Resource::LockData]. *)
Record LockData := mkLockData {
  data : Z;
  pitch : Z;
  isSysMemUpToDate : bool;
  isVidMemUpToDate : bool;
  isMsaaUpToDate : bool;
  isMsaaResolvedUpToDate : bool;
  isRefLocked : bool
}.

(** A value-initialised entry, as [std::vector::resize] makes it. *)
Definition newLockData : LockData := mkLockData 0 0 false false false false false.

Definition setData (p s : Z) (l : LockData) : LockData :=
  mkLockData p s (isSysMemUpToDate l) (isVidMemUpToDate l) (isMsaaUpToDate l)
             (isMsaaResolvedUpToDate l) (isRefLocked l).
Definition setSysMemUpToDate (b : bool) (l : LockData) : LockData :=
  mkLockData (data l) (pitch l) b (isVidMemUpToDate l) (isMsaaUpToDate l)
             (isMsaaResolvedUpToDate l) (isRefLocked l).
Definition setVidMemUpToDate (b : bool) (l : LockData) : LockData :=
  mkLockData (data l) (pitch l) (isSysMemUpToDate l) b (isMsaaUpToDate l)
             (isMsaaResolvedUpToDate l) (isRefLocked l).
Definition setMsaaUpToDate (b : bool) (l : LockData) : LockData :=
  mkLockData (data l) (pitch l) (isSysMemUpToDate l) (isVidMemUpToDate l) b
             (isMsaaResolvedUpToDate l) (isRefLocked l).
Definition setMsaaResolvedUpToDate (b : bool) (l : LockData) : LockData :=
  mkLockData (data l) (pitch l) (isSysMemUpToDate l) (isVidMemUpToDate l) (isMsaaUpToDate l)
             b (isRefLocked l).
Definition setRefLocked (b : bool) (l : LockData) : LockData :=
  mkLockData (data l) (pitch l) (isSysMemUpToDate l) (isVidMemUpToDate l) (isMsaaUpToDate l)
             (isMsaaResolvedUpToDate l) b.

(** [SurfaceRepository::Surface]: the resource it holds (null when the
    repository could not supply one) and its size. *)
Record Surface := mkSurface {
  resource : option HANDLE;
  width : Z;
  height : Z
}.

Definition noSurface : Surface := mkSurface None 0 0.

Definition hasResource (s : Surface) : bool :=
  match resource s with Some _ => true | None => false end.

Record Resource := mkResource {
  m_handle : HANDLE;
  m_origData : Data;
  m_fixedData : Data;
  m_formatInfo_bytesPerPixel : Z;
  m_lockBuffer : option Z;
  m_lockResource : option HANDLE;
  m_lockData : list LockData;
  m_lockRefSurface : Surface;
  m_msaaSurface : Surface;
  m_msaaResolvedSurface : Surface;
  m_nullSurface : Surface;
  m_formatConfig : D3DDDIFORMAT;
  m_multiSampleConfig : Z * Z;
  m_scaledSize : Z * Z;
  m_isOversized : bool;
  m_isSurfaceRepoResource : bool;
  m_isClampable : bool;
  m_isPrimary : bool;
  m_isPalettizedTextureUpToDate : bool
}.

Definition hasLockResource (r : Resource) : bool :=
  match m_lockResource r with Some _ => true | None => false end.

(** Field updates of [Resource]. *)
Definition set_m_handle (v : HANDLE) (r : Resource) : Resource :=
  mkResource v (m_origData r) (m_fixedData r) (m_formatInfo_bytesPerPixel r) (m_lockBuffer r)
    (m_lockResource r) (m_lockData r) (m_lockRefSurface r) (m_msaaSurface r)
    (m_msaaResolvedSurface r) (m_nullSurface r) (m_formatConfig r) (m_multiSampleConfig r)
    (m_scaledSize r) (m_isOversized r) (m_isSurfaceRepoResource r) (m_isClampable r)
    (m_isPrimary r) (m_isPalettizedTextureUpToDate r).
Definition set_m_fixedData (v : Data) (r : Resource) : Resource :=
  mkResource (m_handle r) (m_origData r) v (m_formatInfo_bytesPerPixel r) (m_lockBuffer r)
    (m_lockResource r) (m_lockData r) (m_lockRefSurface r) (m_msaaSurface r)
    (m_msaaResolvedSurface r) (m_nullSurface r) (m_formatConfig r) (m_multiSampleConfig r)
    (m_scaledSize r) (m_isOversized r) (m_isSurfaceRepoResource r) (m_isClampable r)
    (m_isPrimary r) (m_isPalettizedTextureUpToDate r).
Definition set_m_formatInfo_bytesPerPixel (v : Z) (r : Resource) : Resource :=
  mkResource (m_handle r) (m_origData r) (m_fixedData r) v (m_lockBuffer r) (m_lockResource r)
    (m_lockData r) (m_lockRefSurface r) (m_msaaSurface r) (m_msaaResolvedSurface r)
    (m_nullSurface r) (m_formatConfig r) (m_multiSampleConfig r) (m_scaledSize r)
    (m_isOversized r) (m_isSurfaceRepoResource r) (m_isClampable r) (m_isPrimary r)
    (m_isPalettizedTextureUpToDate r).
Definition set_m_lockBuffer (v : option Z) (r : Resource) : Resource :=
  mkResource (m_handle r) (m_origData r) (m_fixedData r) (m_formatInfo_bytesPerPixel r) v
    (m_lockResource r) (m_lockData r) (m_lockRefSurface r) (m_msaaSurface r)
    (m_msaaResolvedSurface r) (m_nullSurface r) (m_formatConfig r) (m_multiSampleConfig r)
    (m_scaledSize r) (m_isOversized r) (m_isSurfaceRepoResource r) (m_isClampable r)
    (m_isPrimary r) (m_isPalettizedTextureUpToDate r).
Definition set_m_lockResource (v : option HANDLE) (r : Resource) : Resource :=
  mkResource (m_handle r) (m_origData r) (m_fixedData r) (m_formatInfo_bytesPerPixel r)
    (m_lockBuffer r) v (m_lockData r) (m_lockRefSurface r) (m_msaaSurface r)
    (m_msaaResolvedSurface r) (m_nullSurface r) (m_formatConfig r) (m_multiSampleConfig r)
    (m_scaledSize r) (m_isOversized r) (m_isSurfaceRepoResource r) (m_isClampable r)
    (m_isPrimary r) (m_isPalettizedTextureUpToDate r).
Definition set_m_lockData (v : list LockData) (r : Resource) : Resource :=
  mkResource (m_handle r) (m_origData r) (m_fixedData r) (m_formatInfo_bytesPerPixel r)
    (m_lockBuffer r) (m_lockResource r) v (m_lockRefSurface r) (m_msaaSurface r)
    (m_msaaResolvedSurface r) (m_nullSurface r) (m_formatConfig r) (m_multiSampleConfig r)
    (m_scaledSize r) (m_isOversized r) (m_isSurfaceRepoResource r) (m_isClampable r)
    (m_isPrimary r) (m_isPalettizedTextureUpToDate r).
Definition set_m_lockRefSurface (v : Surface) (r : Resource) : Resource :=
  mkResource (m_handle r) (m_origData r) (m_fixedData r) (m_formatInfo_bytesPerPixel r)
    (m_lockBuffer r) (m_lockResource r) (m_lockData r) v (m_msaaSurface r)
    (m_msaaResolvedSurface r) (m_nullSurface r) (m_formatConfig r) (m_multiSampleConfig r)
    (m_scaledSize r) (m_isOversized r) (m_isSurfaceRepoResource r) (m_isClampable r)
    (m_isPrimary r) (m_isPalettizedTextureUpToDate r).
Definition set_m_msaaSurface (v : Surface) (r : Resource) : Resource :=
  mkResource (m_handle r) (m_origData r) (m_fixedData r) (m_formatInfo_bytesPerPixel r)
    (m_lockBuffer r) (m_lockResource r) (m_lockData r) (m_lockRefSurface r) v
    (m_msaaResolvedSurface r) (m_nullSurface r) (m_formatConfig r) (m_multiSampleConfig r)
    (m_scaledSize r) (m_isOversized r) (m_isSurfaceRepoResource r) (m_isClampable r)
    (m_isPrimary r) (m_isPalettizedTextureUpToDate r).
Definition set_m_msaaResolvedSurface (v : Surface) (r : Resource) : Resource :=
  mkResource (m_handle r) (m_origData r) (m_fixedData r) (m_formatInfo_bytesPerPixel r)
    (m_lockBuffer r) (m_lockResource r) (m_lockData r) (m_lockRefSurface r) (m_msaaSurface r) v
    (m_nullSurface r) (m_formatConfig r) (m_multiSampleConfig r) (m_scaledSize r)
    (m_isOversized r) (m_isSurfaceRepoResource r) (m_isClampable r) (m_isPrimary r)
    (m_isPalettizedTextureUpToDate r).
Definition set_m_nullSurface (v : Surface) (r : Resource) : Resource :=
  mkResource (m_handle r) (m_origData r) (m_fixedData r) (m_formatInfo_bytesPerPixel r)
    (m_lockBuffer r) (m_lockResource r) (m_lockData r) (m_lockRefSurface r) (m_msaaSurface r)
    (m_msaaResolvedSurface r) v (m_formatConfig r) (m_multiSampleConfig r) (m_scaledSize r)
    (m_isOversized r) (m_isSurfaceRepoResource r) (m_isClampable r) (m_isPrimary r)
    (m_isPalettizedTextureUpToDate r).
Definition set_m_formatConfig (v : D3DDDIFORMAT) (r : Resource) : Resource :=
  mkResource (m_handle r) (m_origData r) (m_fixedData r) (m_formatInfo_bytesPerPixel r)
    (m_lockBuffer r) (m_lockResource r) (m_lockData r) (m_lockRefSurface r) (m_msaaSurface r)
    (m_msaaResolvedSurface r) (m_nullSurface r) v (m_multiSampleConfig r) (m_scaledSize r)
    (m_isOversized r) (m_isSurfaceRepoResource r) (m_isClampable r) (m_isPrimary r)
    (m_isPalettizedTextureUpToDate r).
Definition set_m_multiSampleConfig (v : Z * Z) (r : Resource) : Resource :=
  mkResource (m_handle r) (m_origData r) (m_fixedData r) (m_formatInfo_bytesPerPixel r)
    (m_lockBuffer r) (m_lockResource r) (m_lockData r) (m_lockRefSurface r) (m_msaaSurface r)
    (m_msaaResolvedSurface r) (m_nullSurface r) (m_formatConfig r) v (m_scaledSize r)
    (m_isOversized r) (m_isSurfaceRepoResource r) (m_isClampable r) (m_isPrimary r)
    (m_isPalettizedTextureUpToDate r).
Definition set_m_scaledSize (v : Z * Z) (r : Resource) : Resource :=
  mkResource (m_handle r) (m_origData r) (m_fixedData r) (m_formatInfo_bytesPerPixel r)
    (m_lockBuffer r) (m_lockResource r) (m_lockData r) (m_lockRefSurface r) (m_msaaSurface r)
    (m_msaaResolvedSurface r) (m_nullSurface r) (m_formatConfig r) (m_multiSampleConfig r) v
    (m_isOversized r) (m_isSurfaceRepoResource r) (m_isClampable r) (m_isPrimary r)
    (m_isPalettizedTextureUpToDate r).
Definition set_m_isOversized (v : bool) (r : Resource) : Resource :=
  mkResource (m_handle r) (m_origData r) (m_fixedData r) (m_formatInfo_bytesPerPixel r)
    (m_lockBuffer r) (m_lockResource r) (m_lockData r) (m_lockRefSurface r) (m_msaaSurface r)
    (m_msaaResolvedSurface r) (m_nullSurface r) (m_formatConfig r) (m_multiSampleConfig r)
    (m_scaledSize r) v (m_isSurfaceRepoResource r) (m_isClampable r) (m_isPrimary r)
    (m_isPalettizedTextureUpToDate r).
Definition set_m_isClampable (v : bool) (r : Resource) : Resource :=
  mkResource (m_handle r) (m_origData r) (m_fixedData r) (m_formatInfo_bytesPerPixel r)
    (m_lockBuffer r) (m_lockResource r) (m_lockData r) (m_lockRefSurface r) (m_msaaSurface r)
    (m_msaaResolvedSurface r) (m_nullSurface r) (m_formatConfig r) (m_multiSampleConfig r)
    (m_scaledSize r) (m_isOversized r) (m_isSurfaceRepoResource r) v (m_isPrimary r)
    (m_isPalettizedTextureUpToDate r).
Definition set_m_isPrimary (v : bool) (r : Resource) : Resource :=
  mkResource (m_handle r) (m_origData r) (m_fixedData r) (m_formatInfo_bytesPerPixel r)
    (m_lockBuffer r) (m_lockResource r) (m_lockData r) (m_lockRefSurface r) (m_msaaSurface r)
    (m_msaaResolvedSurface r) (m_nullSurface r) (m_formatConfig r) (m_multiSampleConfig r)
    (m_scaledSize r) (m_isOversized r) (m_isSurfaceRepoResource r) (m_isClampable r) v
    (m_isPalettizedTextureUpToDate r).
Definition set_m_isPalettizedTextureUpToDate (v : bool) (r : Resource) : Resource :=
  mkResource (m_handle r) (m_origData r) (m_fixedData r) (m_formatInfo_bytesPerPixel r)
    (m_lockBuffer r) (m_lockResource r) (m_lockData r) (m_lockRefSurface r) (m_msaaSurface r)
    (m_msaaResolvedSurface r) (m_nullSurface r) (m_formatConfig r) (m_multiSampleConfig r)
    (m_scaledSize r) (m_isOversized r) (m_isSurfaceRepoResource r) (m_isClampable r)
    (m_isPrimary r) v.

(** ** What the engine does to its collaborators *)

Inductive RepoCall :=
| GetTempRenderTarget (w h index : Z)
| GetTempTexture (w h : Z) (fmt : D3DDDIFORMAT)
| GetTempSysMemSurface (w h : Z)
| GetSurface (w h : Z) (fmt : D3DDDIFORMAT) (caps : Z) (surfCount : nat).

Inductive ShaderOp :=
| TextureBltPoint
| TextureBltLinear
| DepthBlt
| PalettizedBlt
| CursorBlt
| GammaBlt
| GenBilinearBlt
| LockRefBlt.

Inductive LogMessage :=
| UnsupportedMsaaDepthBufferResolve
| CopySubResourceRegionFailed (hr : HRESULT).

Inductive Event :=
| EvCreateResource (d : Data)
| EvDestroyResource (h : HANDLE)
| EvBlt (d : D3DDDIARG_BLT)
| EvLock (d : D3DDDIARG_LOCK)
| EvUnlock (d : D3DDDIARG_UNLOCK)
| EvColorFill (d : D3DDDIARG_COLORFILL)
| EvShader (op : ShaderOp) (dst : HANDLE) (dstIndex : nat) (dstRect : RECT)
           (src : HANDLE) (srcIndex : nat) (srcRect : RECT)
| EvResolveDepth (msaa resolved : HANDLE)
| EvRepo (c : RepoCall)
| EvRepoRelease (s : Surface)
| EvRepoSurfaceCheck (b : bool)
| EvCpuBlt (dst dstPitch dstWidth dstHeight src srcPitch srcWidth srcHeight bpp : Z)
           (dstColorKey srcColorKey : option Z)
| EvCpuColorFill (dst dstPitch dstWidth dstHeight bpp color : Z)
| EvHeapAlloc (size : Z)
| EvUpdatePalette
| EvCursorClipRect (r : RECT)
| EvCursorEmulated (b : bool)
| EvVirtualScreenFullscreen (b : bool)
| EvCaptureWindow (hwnd : Z) (r : RECT)
| EvLog (m : LogMessage).

(** A visible layered window: its handle, rectangle and whether it has a region. *)
Record LayeredWindow := mkLayeredWindow {
  hwnd : Z;
  rect : RECT;
  colorKeyed : bool
}.

(** The collaborators. The fields indexed by [nat] are asked at a moment
    of the run, given as the number of events so far. *)
Record Env := mkEnv {
  (* Adapter::getInfo() *)
  isMsaaDepthResolveSupported : bool;
  dwMaxTextureWidth : Z;
  dwMaxTextureHeight : Z;
  formatOp_SRGBWRITE : D3DDDIFORMAT -> bool;
  (* D3dDdi::getFormatInfo(format).bytesPerPixel, D3dDdi::convertFrom32Bit, Rect::transform *)
  getFormatInfo_bytesPerPixel : D3DDDIFORMAT -> Z;
  convertFrom32Bit : D3DDDIFORMAT -> Z -> Z;
  rect_transform : RECT -> RECT -> RECT -> RECT;
  (* Adapter::getMultisampleConfig, Adapter::getScaledSize *)
  adapter_getMultisampleConfig : nat -> D3DDDIFORMAT -> Z * Z;
  adapter_getScaledSize : nat -> Z * Z -> Z * Z;
  (* Config:: *)
  cfg_renderColorDepth : nat -> Z;
  cfg_resolutionScaleFilterIsPoint : nat -> bool;
  cfg_bltFilterIsBilinear : nat -> bool;
  cfg_displayFilterIsBilinear : nat -> bool;
  (* the source DDraw::setBltSrc writes into a blit, if one is pending *)
  ddraw_bltSrc : nat -> option (HANDLE * nat * RECT);
  (* DDraw::PrimarySurface::getMonitorRect, DDraw::RealPrimarySurface::getMonitorRect *)
  primary_monitorRect : nat -> RECT;
  realPrimary_monitorRect : nat -> RECT;
  (* Gdi::VirtualScreen::getSurfaceDesc: None when lpSurface is null *)
  virtualScreen_surfaceDesc : nat -> RECT -> option D3DDDI_SURFACEINFO;
  (* SurfaceRepository *)
  repo_inCreateSurface : nat -> bool;
  repo_answer : nat -> RepoCall -> Surface;
  repo_hasGammaRampTexture : nat -> bool;
  (* ShaderBlitter::isGammaRampDefault, Gdi::Cursor, Gdi::Window *)
  shader_isGammaRampDefault : nat -> bool;
  cursor_isEmulated : nat -> bool;
  window_visibleLayeredWindows : nat -> list LayeredWindow;
  (* HeapAlloc, DDraw::Surface::alignBuffer, DDraw::Surface::ALIGNMENT *)
  heap_alloc : nat -> Z -> Z;
  surface_alignBuffer : Z -> Z;
  surface_ALIGNMENT : Z;
  (* the driver *)
  drv_createResource : nat -> Data -> HRESULT * HANDLE;
  drv_blt : nat -> D3DDDIARG_BLT -> HRESULT;
  drv_lock : nat -> D3DDDIARG_LOCK -> HRESULT * (Z * Z);
  drv_unlock : nat -> D3DDDIARG_UNLOCK -> HRESULT;
  drv_colorFill : nat -> D3DDDIARG_COLORFILL -> HRESULT
}.

(** ** The state and the monad *)

Record World := mkWorld {
  resources : gmap Z Resource;
  g_presentationRect : RECT;
  g_formatOverride : D3DDDIFORMAT;
  g_msaaOverride : Z * Z;
  logged_msaaDepthResolve : bool;
  logged_copyFailed : bool;
  trace : list Event
}.

Definition set_resources (v : gmap Z Resource) (w : World) : World :=
  mkWorld v (g_presentationRect w) (g_formatOverride w) (g_msaaOverride w)
          (logged_msaaDepthResolve w) (logged_copyFailed w) (trace w).
Definition set_g_presentationRect (v : RECT) (w : World) : World :=
  mkWorld (resources w) v (g_formatOverride w) (g_msaaOverride w)
          (logged_msaaDepthResolve w) (logged_copyFailed w) (trace w).
Definition set_g_formatOverride (v : D3DDDIFORMAT) (w : World) : World :=
  mkWorld (resources w) (g_presentationRect w) v (g_msaaOverride w)
          (logged_msaaDepthResolve w) (logged_copyFailed w) (trace w).
Definition set_g_msaaOverride (v : Z * Z) (w : World) : World :=
  mkWorld (resources w) (g_presentationRect w) (g_formatOverride w) v
          (logged_msaaDepthResolve w) (logged_copyFailed w) (trace w).
Definition set_logged_msaaDepthResolve (v : bool) (w : World) : World :=
  mkWorld (resources w) (g_presentationRect w) (g_formatOverride w) (g_msaaOverride w)
          v (logged_copyFailed w) (trace w).
Definition set_logged_copyFailed (v : bool) (w : World) : World :=
  mkWorld (resources w) (g_presentationRect w) (g_formatOverride w) (g_msaaOverride w)
          (logged_msaaDepthResolve w) v (trace w).
Definition set_trace (v : list Event) (w : World) : World :=
  mkWorld (resources w) (g_presentationRect w) (g_formatOverride w) (g_msaaOverride w)
          (logged_msaaDepthResolve w) (logged_copyFailed w) v.

(** How a call ends: with a value and a new state; in undefined behaviour
    (a null or dangling pointer, an index past a vector's end, a division
    by zero); or cut off by the fuel of the model. *)
Inductive Outcome (A : Type) : Type :=
| Ok (a : A) (w : World)
| Undefined
| OutOfFuel.
Arguments Ok {A} a w.
Arguments Undefined {A}.
Arguments OutOfFuel {A}.

Definition M (A : Type) : Type := World -> Outcome A.

Definition ret {A} (a : A) : M A := fun w => Ok a w.

Definition bind {A B} (m : M A) (k : A -> M B) : M B :=
  fun w => match m w with
           | Ok a w' => k a w'
           | Undefined => Undefined
           | OutOfFuel => OutOfFuel
           end.

Notation "'let*' x := m 'in' k" := (bind m (fun x => k))
  (at level 10, x pattern, m at level 100, k at level 200).
Notation "'run' m ;; k" := (bind m (fun _ => k))
  (at level 10, m at level 99, k at level 200).

Definition undefined {A} : M A := fun _ => Undefined.
Definition outOfFuel {A} : M A := fun _ => OutOfFuel.

Definition when (b : bool) (m : M unit) : M unit := if b then m else ret tt.

Definition getWorld : M World := fun w => Ok w w.
Definition modifyWorld (f : World -> World) : M unit := fun w => Ok tt (f w).

(** The moment of the run. *)
Definition now : M nat := fun w => Ok (length (trace w)) w.

(** The trace holds the most recent event first. *)
Definition emit (e : Event) : M unit := modifyWorld (fun w => set_trace (e :: trace w) w).

(** [*p] for a nullable pointer. *)
Definition deref {A} (p : option A) : M A :=
  match p with Some a => ret a | None => undefined end.

(** The object behind a [Resource*] or [Resource&]. *)
Definition getResource (h : HANDLE) : M Resource :=
  let* w := getWorld in deref (resources w !! h).

Definition modifyResource (h : HANDLE) (f : Resource -> Resource) : M unit :=
  let* r := getResource h in
  modifyWorld (fun w => set_resources (<[h := f r]> (resources w)) w).

(** [m_lockData[i]], read and written. *)
Definition lockDataAt (this : HANDLE) (i : nat) : M LockData :=
  let* r := getResource this in deref (m_lockData r !! i).

Definition modifyLockData (this : HANDLE) (i : nat) (f : LockData -> LockData) : M unit :=
  let* l := lockDataAt this i in
  modifyResource this (fun r => set_m_lockData (<[i := f l]> (m_lockData r)) r).

(** [m_fixedData.pSurfList[i]]. *)
Definition fixedSurfaceAt (this : HANDLE) (i : nat) : M D3DDDI_SURFACEINFO :=
  let* r := getResource this in deref (surfaceData (m_fixedData r) !! i).

(** [static_cast<LONG>] of a [UINT]. *)
Definition toLONG (z : Z) : Z := wrapLONG z.

(** A step that may end the enclosing function early: [inl] carries the
    value returned at once, [inr] what the rest of the function goes on with. *)
Definition orReturn {A B} (m : M (B + A)) (k : A -> M B) : M B :=
  let* x := m in
  match x with inl b => ret b | inr a => k a end.

Notation "'let?' x := m 'in' k" := (orReturn m (fun x => k))
  (at level 10, x pattern, m at level 100, k at level 200).

(** ** The presentation rectangle *)

(** [calculateScaledRect]: [None] stands for a division that traps, as
    the one by the size of an empty source rectangle does. *)
Definition calculateScaledRect (srcRect dstRect : RECT) : option RECT :=
  let srcWidth := subL (right srcRect) (left srcRect) in
  let srcHeight := subL (bottom srcRect) (top srcRect) in
  let dstWidth := subL (right dstRect) (left dstRect) in
  let dstHeight := subL (bottom dstRect) (top dstRect) in
  let rect := mkRECT 0 0 dstWidth dstHeight in
  let scaled :=
    if mulL dstHeight srcWidth <? mulL dstWidth srcHeight then
      if divTraps (mulL dstHeight srcWidth) srcHeight then None
      else Some (mkRECT 0 0 (divL (mulL dstHeight srcWidth) srcHeight) dstHeight)
    else
      if divTraps (mulL dstWidth srcHeight) srcWidth then None
      else Some (mkRECT 0 0 dstWidth (divL (mulL dstWidth srcHeight) srcWidth)) in
  match scaled with
  | None => None
  | Some rect =>
    Some (OffsetRect rect (divL (subL dstWidth (right rect)) 2)
                          (divL (subL dstHeight (bottom rect)) 2))
  end.

(** [divCeil]: [None] stands for a division that traps. *)
Definition divCeil (n d : Z) : option Z :=
  let s := subL (addL n d) 1 in
  if divTraps s d then None else Some (divL s d).

(** ** The engine *)

Section Engine.

Variable env : Env.

(** *** Calls to the collaborators *)

Definition pfnBlt (d : D3DDDIARG_BLT) : M HRESULT :=
  let* t := now in
  run emit (EvBlt d) ;;
  ret (drv_blt env t d).

(** The driver writes the locked pointer and pitch into the argument. *)
Definition pfnLock (d : D3DDDIARG_LOCK) : M (HRESULT * D3DDDIARG_LOCK) :=
  let* t := now in
  run emit (EvLock d) ;;
  let '(hr, (p, s)) := drv_lock env t d in
  ret (hr, mkLock (lock_hResource d) (lock_SubResourceIndex d) (lock_Area d) (lock_AreaValid d)
                  (lock_ReadOnly d) (lock_NotifyOnly d) p s).

Definition pfnUnlock (d : D3DDDIARG_UNLOCK) : M HRESULT :=
  let* t := now in
  run emit (EvUnlock d) ;;
  ret (drv_unlock env t d).

Definition pfnColorFill (d : D3DDDIARG_COLORFILL) : M HRESULT :=
  let* t := now in
  run emit (EvColorFill d) ;;
  ret (drv_colorFill env t d).

(** [Device::createPrivateResource]: the driver writes the new handle into [hResource]. *)
Definition createPrivateResource (d : Data) : M (HRESULT * Data) :=
  let* t := now in
  run emit (EvCreateResource d) ;;
  let '(hr, h) := drv_createResource env t d in
  ret (hr, setHResource h d).

Definition repoCall (c : RepoCall) : M Surface :=
  let* t := now in
  run emit (EvRepo c) ;;
  ret (repo_answer env t c).

Definition textureBlt (dst : HANDLE) (dstIndex : nat) (dstRect : RECT)
    (src : HANDLE) (srcIndex : nat) (srcRect : RECT) (linear : bool) : M unit :=
  emit (EvShader (if linear then TextureBltLinear else TextureBltPoint)
                 dst dstIndex dstRect src srcIndex srcRect).

(** [DDraw::setBltSrc]. *)
Definition setBltSrc (d : D3DDDIARG_BLT) : M D3DDDIARG_BLT :=
  let* t := now in
  match ddraw_bltSrc env t with
  | Some (h, i, r) => ret (setSrc h i r d)
  | None => ret d
  end.

(** Modelled from the spec: the [LOG_ONCE] macro of Common/Log.h, which is
    not part of the sources at hand ("reported once via a rate-limited
    warning"): a static flag at the place of use, and the message is
    written the first time only. *)
Definition logOnce (logged : World -> bool) (setLogged : bool -> World -> World)
    (m : LogMessage) : M unit :=
  let* w := getWorld in
  if logged w then ret tt
  else run emit (EvLog m) ;; modifyWorld (setLogged true).

Definition logUnsupportedMsaaDepthBufferResolve : M unit :=
  logOnce logged_msaaDepthResolve set_logged_msaaDepthResolve UnsupportedMsaaDepthBufferResolve.

(** *** Small member functions *)

Definition clearUpToDateFlags (this : HANDLE) (subResourceIndex : nat) : M unit :=
  run modifyLockData this subResourceIndex (setMsaaUpToDate false) ;;
  run modifyLockData this subResourceIndex (setMsaaResolvedUpToDate false) ;;
  run modifyLockData this subResourceIndex (setVidMemUpToDate false) ;;
  modifyLockData this subResourceIndex (setSysMemUpToDate false).

Definition getRect (this : HANDLE) (subResourceIndex : nat) : M RECT :=
  let* si := fixedSurfaceAt this subResourceIndex in
  ret (mkRECT 0 0 (toLONG (Width si)) (toLONG (Height si))).

Definition isValidRect (this : HANDLE) (subResourceIndex : nat) (rect : RECT) : M bool :=
  if (0 <=? left rect) && (0 <=? top rect) && (left rect <? right rect) && (top rect <? bottom rect)
  then
    let* si := fixedSurfaceAt this subResourceIndex in
    ret ((right rect <=? toLONG (Width si)) && (bottom rect <=? toLONG (Height si)))
  else ret false.

Definition clipRect (this : HANDLE) (subResourceIndex : nat) (rect : RECT) : M RECT :=
  let* si := fixedSurfaceAt this subResourceIndex in
  ret (mkRECT (Z.max (left rect) 0) (Z.max (top rect) 0)
              (Z.min (right rect) (toLONG (Width si))) (Z.min (bottom rect) (toLONG (Height si)))).

Definition scaleRect (this : HANDLE) (rect : RECT) : M RECT :=
  let* si := fixedSurfaceAt this 0 in
  let* me := getResource this in
  let origWidth := toLONG (Width si) in
  let origHeight := toLONG (Height si) in
  let cx := fst (m_scaledSize me) in
  let cy := snd (m_scaledSize me) in
  if divTraps (mulL (left rect) cx) origWidth || divTraps (mulL (top rect) cy) origHeight ||
     divTraps (mulL (right rect) cx) origWidth || divTraps (mulL (bottom rect) cy) origHeight
  then undefined
  else ret (mkRECT (divL (mulL (left rect) cx) origWidth) (divL (mulL (top rect) cy) origHeight)
                   (divL (mulL (right rect) cx) origWidth) (divL (mulL (bottom rect) cy) origHeight)).

Definition copySubResourceRegion (dst : HANDLE) (dstIndex : nat) (dstRect : RECT)
    (src : HANDLE) (srcIndex : nat) (srcRect : RECT) : M HRESULT :=
  let d := setPoint (setSrc src srcIndex srcRect (setDst dst dstIndex dstRect emptyBlt)) in
  let* result := pfnBlt d in
  run when (FAILED result)
       (logOnce logged_copyFailed set_logged_copyFailed (CopySubResourceRegionFailed result)) ;;
  ret result.

(** [copySubResource(Resource&, Resource&, UINT)]: each side's own rectangle. *)
Definition copySubResource (dstResource srcResource : HANDLE) (subResourceIndex : nat) : M HRESULT :=
  let* dstRect := getRect dstResource subResourceIndex in
  let* srcRect := getRect srcResource subResourceIndex in
  copySubResourceRegion dstResource subResourceIndex dstRect srcResource subResourceIndex srcRect.

(** [copySubResource(HANDLE, HANDLE, UINT)]: the rectangle of [this] on both sides. *)
Definition copySubResourceH (this : HANDLE) (dstResource srcResource : HANDLE)
    (subResourceIndex : nat) : M HRESULT :=
  let* r := getRect this subResourceIndex in
  copySubResourceRegion dstResource subResourceIndex r srcResource subResourceIndex r.

(** [m_lockResource.get()]: the raw handle, null when there is none. *)
Definition lockResourceHandle (r : Resource) : HANDLE := default 0 (m_lockResource r).

Definition notifyLock (this : HANDLE) (subResourceIndex : nat) : M unit :=
  let* me := getResource this in
  let h := if isSystemMem (Pool (m_fixedData me)) then m_handle me else lockResourceHandle me in
  let lock := mkLock h subResourceIndex emptyRECT false false true 0 0 in
  run pfnLock lock ;;
  run pfnUnlock (mkUnlock h subResourceIndex true) ;;
  ret tt.

Definition getNextRenderTarget (this : HANDLE) (currentRt : HANDLE) (width height : Z) : M Surface :=
  let* nextRt := repoCall (GetTempRenderTarget width height 0) in
  if decide (resource nextRt = Some currentRt)
  then repoCall (GetTempRenderTarget width height 1)
  else ret nextRt.

(** [downscale]: [rt], [srcWidth] and [srcHeight] are passed by reference;
    their final values are returned. One unit of fuel per test of the loop. *)
Fixpoint downscale (fuel : nat) (this : HANDLE) (rt : HANDLE) (srcWidth srcHeight : Z)
    (dstWidth dstHeight : Z) (dryRun : bool) : M (HANDLE * (Z * Z)) :=
  match fuel with
  | O => outOfFuel
  | S fuel' =>
    if (mulL 2 dstWidth <? srcWidth) || (mulL 2 dstHeight <? srcHeight) then
      let newSrcWidth := Z.max dstWidth (divL (addL srcWidth 1) 2) in
      let newSrcHeight := Z.max dstHeight (divL (addL srcHeight 1) 2) in
      let* nextRt := getNextRenderTarget this rt (wrapUINT newSrcWidth) (wrapUINT newSrcHeight) in
      match resource nextRt with
      | None => ret (rt, (srcWidth, srcHeight))
      | Some next =>
        run when (negb dryRun)
             (textureBlt next 0 (mkRECT 0 0 newSrcWidth newSrcHeight)
                         rt 0 (mkRECT 0 0 srcWidth srcHeight) true) ;;
        downscale fuel' this next newSrcWidth newSrcHeight dstWidth dstHeight dryRun
      end
    else ret (rt, (srcWidth, srcHeight))
  end.

Definition resolveMsaaDepthBuffer (this : HANDLE) : M unit :=
  let* me := getResource this in
  let* msaa := deref (resource (m_msaaSurface me)) in
  let* resolved := deref (resource (m_msaaResolvedSurface me)) in
  emit (EvResolveDepth msaa resolved).

(** *** The shader blit *)

Definition swapLeftRight (r : RECT) : RECT := mkRECT (right r) (top r) (left r) (bottom r).
Definition swapTopBottom (r : RECT) : RECT := mkRECT (left r) (bottom r) (right r) (top r).

Definition shaderBlt (this : HANDLE) (d : D3DDDIARG_BLT) (dstResource srcResource : HANDLE)
    : M HRESULT :=
  let* me := getResource this in
  let* src := getResource srcResource in
  let? (srcRes, srcIndex, srcRect) :=
    (if negb (Texture (Flags (m_fixedData src))) || isSystemMem (Pool (m_fixedData src)) then
       let width := wrapUINT (subL (right (SrcRect d)) (left (SrcRect d))) in
       let height := wrapUINT (subL (bottom (SrcRect d)) (top (SrcRect d))) in
       let* texture :=
         (if ZBuffer (Flags (m_fixedData me)) then ret (resource (m_msaaResolvedSurface me))
          else let* s := repoCall (GetTempTexture width height (Format (m_fixedData src))) in
               ret (resource s)) in
       match texture with
       | None => ret (inl E_OUTOFMEMORY)
       | Some tex =>
         let srcRect := mkRECT 0 0 (toLONG width) (toLONG height) in
         let* result := copySubResourceRegion tex 0 srcRect
                          (hSrcResource d) (SrcSubResourceIndex d) (SrcRect d) in
         if FAILED result then ret (inl result)
         else
           run when (isSystemMem (Pool (m_fixedData src)))
                (notifyLock srcResource (SrcSubResourceIndex d)) ;;
           ret (inr (tex, 0%nat, srcRect))
       end
     else ret (inr (srcResource, SrcSubResourceIndex d, SrcRect d))) in
  let? (dstRes, dstIndex, dstRect) :=
    (if negb (RenderTarget (Flags (m_fixedData me))) then
       let width := subL (right (DstRect d)) (left (DstRect d)) in
       let height := subL (bottom (DstRect d)) (top (DstRect d)) in
       let* rt := repoCall (GetTempRenderTarget (wrapUINT width) (wrapUINT height) 0) in
       match resource rt with
       | None => ret (inl E_OUTOFMEMORY)
       | Some rtRes =>
         let dstRect := mkRECT 0 0 width height in
         if SrcColorKey d then
           let* result := copySubResourceRegion rtRes 0 dstRect
                            (hDstResource d) (DstSubResourceIndex d) (DstRect d) in
           if FAILED result then ret (inl result) else ret (inr (rtRes, 0%nat, dstRect))
         else ret (inr (rtRes, 0%nat, dstRect))
       end
     else ret (inr (dstResource, DstSubResourceIndex d, DstRect d))) in
  let srcRect := if MirrorLeftRight d then swapLeftRight srcRect else srcRect in
  let srcRect := if MirrorUpDown d then swapTopBottom srcRect else srcRect in
  run (if ZBuffer (Flags (m_fixedData me)) then
         let* null := deref (resource (m_nullSurface me)) in
         emit (EvShader DepthBlt dstRes 0 dstRect srcRes 0 srcRect)
       else textureBlt dstRes dstIndex dstRect srcRes srcIndex srcRect (Linear d)) ;;
  if negb (RenderTarget (Flags (m_fixedData me))) then
    let* result := copySubResourceRegion (hDstResource d) (DstSubResourceIndex d) (DstRect d)
                     dstRes dstIndex dstRect in
    if FAILED result then ret result else ret S_OK
  else ret S_OK.

(** *** Materialization

    [loadVidMemResource], [loadMsaaResolvedResource] and
    [loadFromLockRefResource] call one another. The bodies below take the
    function they call back as [loadVidMemResource_rec]; [loadVidMemResource]
    closes the loop by recursion on the fuel. *)

Definition isScaled (si0 : D3DDDI_SURFACEINFO) (scaledSize : Z * Z) : bool :=
  negb (toLONG (Width si0) =? fst scaledSize) || negb (toLONG (Height si0) =? snd scaledSize).

Section LoadBodies.

Variable loadVidMemResource_rec : HANDLE -> nat -> M unit.

Definition loadFromLockRefResource_body (this : HANDLE) (subResourceIndex : nat) : M unit :=
  let* l := lockDataAt this subResourceIndex in
  if isRefLocked l then
    run modifyLockData this subResourceIndex (setRefLocked false) ;;
    run loadVidMemResource_rec this subResourceIndex ;;
    let* me := getResource this in
    let* si := fixedSurfaceAt this subResourceIndex in
    let srcRect := mkRECT 0 0 (toLONG (Width si)) (toLONG (Height si)) in
    let? (srcResource, srcIndex) :=
      (if negb (Texture (Flags (m_fixedData me))) then
         let* texture := repoCall (GetTempTexture (Width si) (Height si) (Format (m_fixedData me))) in
         match resource texture with
         | None => ret (inl tt)
         | Some tex =>
           run copySubResourceRegion tex 0 srcRect (m_handle me) subResourceIndex srcRect ;;
           ret (inr (tex, 0%nat))
         end
       else ret (inr (this, subResourceIndex))) in
    let dstRect := mkRECT 0 0 (toLONG (width (m_msaaResolvedSurface me)))
                              (toLONG (height (m_msaaResolvedSurface me))) in
    let* resolved := deref (resource (m_msaaResolvedSurface me)) in
    let* lockRef := deref (resource (m_lockRefSurface me)) in
    run emit (EvShader LockRefBlt resolved subResourceIndex dstRect srcResource srcIndex srcRect) ;;
    modifyLockData this subResourceIndex (setMsaaResolvedUpToDate true)
  else ret tt.

Definition loadMsaaResolvedResource_body (this : HANDLE) (subResourceIndex : nat) : M unit :=
  run loadFromLockRefResource_body this subResourceIndex ;;
  let* l := lockDataAt this subResourceIndex in
  if isMsaaResolvedUpToDate l then ret tt
  else
    run (if isMsaaUpToDate l then
           let* me := getResource this in
           if ZBuffer (Flags (m_fixedData me)) then
             if isMsaaDepthResolveSupported env then resolveMsaaDepthBuffer this
             else logUnsupportedMsaaDepthBufferResolve
           else
             let* resolved := deref (resource (m_msaaResolvedSurface me)) in
             let* msaa := deref (resource (m_msaaSurface me)) in
             run copySubResource resolved msaa subResourceIndex ;;
             ret tt
         else
           run loadVidMemResource_rec this subResourceIndex ;;
           let* me := getResource this in
           let* si0 := fixedSurfaceAt this 0 in
           if ZBuffer (Flags (m_fixedData me)) || negb (isScaled si0 (m_scaledSize me)) then
             let* resolved := deref (resource (m_msaaResolvedSurface me)) in
             run copySubResource resolved this subResourceIndex ;;
             ret tt
           else
             let* srcRect := getRect this subResourceIndex in
             let* resolved := deref (resource (m_msaaResolvedSurface me)) in
             let* dstRect := getRect resolved subResourceIndex in
             let blt := setDst resolved subResourceIndex dstRect
                          (setSrc this subResourceIndex srcRect emptyBlt) in
             run shaderBlt this blt resolved this ;;
             ret tt) ;;
    modifyLockData this subResourceIndex (setMsaaResolvedUpToDate true).

Definition loadVidMemResource_body (fuel : nat) (this : HANDLE) (subResourceIndex : nat) : M unit :=
  let* l := lockDataAt this subResourceIndex in
  if isVidMemUpToDate l then ret tt
  else
    run modifyLockData this subResourceIndex (setVidMemUpToDate true) ;;
    let* l := lockDataAt this subResourceIndex in
    if isMsaaUpToDate l || isMsaaResolvedUpToDate l then
      run loadMsaaResolvedResource_body this subResourceIndex ;;
      let* me := getResource this in
      let* t := now in
      if negb (RenderTarget (Flags (m_fixedData me))) || cfg_resolutionScaleFilterIsPoint env t then
        let* si0 := fixedSurfaceAt this 0 in
        if ZBuffer (Flags (m_fixedData me)) || negb (isScaled si0 (m_scaledSize me)) then
          let* resolved := deref (resource (m_msaaResolvedSurface me)) in
          run copySubResource this resolved subResourceIndex ;;
          ret tt
        else
          let* resolved := deref (resource (m_msaaResolvedSurface me)) in
          let* srcRect := getRect resolved subResourceIndex in
          let* dstRect := getRect this subResourceIndex in
          let blt := setDst this subResourceIndex dstRect
                       (setSrc resolved subResourceIndex srcRect emptyBlt) in
          run shaderBlt this blt this resolved ;;
          ret tt
      else
        let* resolved := deref (resource (m_msaaResolvedSurface me)) in
        let* srcRect := getRect resolved subResourceIndex in
        let* dstRect := getRect this subResourceIndex in
        run emit (EvRepoSurfaceCheck false) ;;
        let* (src, (w, h)) := downscale fuel this resolved (right srcRect) (bottom srcRect)
                                        (right dstRect) (bottom dstRect) false in
        let srcRect := mkRECT (left srcRect) (top srcRect) w h in
        let srcIndex := if decide (src = resolved) then subResourceIndex else 0%nat in
        let* (src, srcIndex, srcRect) :=
          (if negb (RECT_eqb dstRect srcRect) &&
              negb (formatOp_SRGBWRITE env (Format (m_fixedData me))) then
             let* nextRt := getNextRenderTarget this src (wrapUINT (right dstRect))
                                                (wrapUINT (bottom dstRect)) in
             match resource nextRt with
             | Some next =>
               run textureBlt next 0 dstRect src srcIndex srcRect true ;;
               ret (next, 0%nat, dstRect)
             | None => ret (src, srcIndex, srcRect)
             end
           else ret (src, srcIndex, srcRect)) in
        run emit (EvRepoSurfaceCheck true) ;;
        if RECT_eqb dstRect srcRect then
          run copySubResourceRegion (m_handle me) subResourceIndex dstRect src srcIndex srcRect ;;
          ret tt
        else textureBlt this subResourceIndex dstRect src srcIndex srcRect true
    else
      let* me := getResource this in
      run copySubResourceH this this (lockResourceHandle me) subResourceIndex ;;
      run notifyLock this subResourceIndex ;;
      modifyLockData this subResourceIndex (setRefLocked false).

End LoadBodies.

Fixpoint loadVidMemResource (fuel : nat) (this : HANDLE) (subResourceIndex : nat) : M unit :=
  match fuel with
  | O => outOfFuel
  | S fuel' => loadVidMemResource_body (loadVidMemResource fuel') fuel' this subResourceIndex
  end.

Definition loadMsaaResolvedResource (fuel : nat) : HANDLE -> nat -> M unit :=
  loadMsaaResolvedResource_body (loadVidMemResource fuel).

Definition loadFromLockRefResource (fuel : nat) : HANDLE -> nat -> M unit :=
  loadFromLockRefResource_body (loadVidMemResource fuel).

Definition loadMsaaResource (fuel : nat) (this : HANDLE) (subResourceIndex : nat) : M unit :=
  let* l := lockDataAt this subResourceIndex in
  if negb (isMsaaUpToDate l) then
    let* me := getResource this in
    run (if hasResource (m_msaaResolvedSurface me) then
           run loadMsaaResolvedResource fuel this subResourceIndex ;;
           if ZBuffer (Flags (m_fixedData me)) then
             if hasResource (m_nullSurface me) then
               let* resolved := deref (resource (m_msaaResolvedSurface me)) in
               let* r := getRect resolved 0 in
               let* msaa := deref (resource (m_msaaSurface me)) in
               emit (EvShader DepthBlt msaa 0 r resolved 0 r)
             else ret tt
           else
             let* msaa := deref (resource (m_msaaSurface me)) in
             let* resolved := deref (resource (m_msaaResolvedSurface me)) in
             run copySubResource msaa resolved subResourceIndex ;;
             ret tt
         else
           run loadVidMemResource fuel this subResourceIndex ;;
           let* msaa := deref (resource (m_msaaSurface me)) in
           run copySubResource msaa this subResourceIndex ;;
           ret tt) ;;
    modifyLockData this subResourceIndex (setMsaaUpToDate true)
  else ret tt.

Definition loadSysMemResource (fuel : nat) (this : HANDLE) (subResourceIndex : nat) : M unit :=
  let* l := lockDataAt this subResourceIndex in
  if negb (isSysMemUpToDate l) then
    run loadVidMemResource fuel this subResourceIndex ;;
    let* me := getResource this in
    run copySubResourceH this (lockResourceHandle me) this subResourceIndex ;;
    run notifyLock this subResourceIndex ;;
    modifyLockData this subResourceIndex (setSysMemUpToDate true)
  else ret tt.

(** *** Preparing a subresource for an access *)

Definition prepareForBltSrc (fuel : nat) (this : HANDLE) (d : D3DDDIARG_BLT) : M HANDLE :=
  let* me := getResource this in
  run when (hasLockResource me || hasResource (m_msaaResolvedSurface me))
       (loadVidMemResource fuel this (SrcSubResourceIndex d)) ;;
  ret this.

(** [prepareForBltDst(HANDLE&, UINT, RECT&)]: returns the handle and the
    rectangle as the call leaves them, and the resource written to. *)
Definition prepareForBltDstAt (fuel : nat) (this : HANDLE) (res : HANDLE)
    (subResourceIndex : nat) (rect : RECT) : M (HANDLE * RECT * HANDLE) :=
  run modifyResource this (set_m_isPalettizedTextureUpToDate false) ;;
  let* me := getResource this in
  if hasLockResource me || hasResource (m_msaaResolvedSurface me) then
    run loadFromLockRefResource fuel this subResourceIndex ;;
    let* l := lockDataAt this subResourceIndex in
    if isMsaaUpToDate l then
      let* msaa := deref (resource (m_msaaSurface me)) in
      run clearUpToDateFlags this subResourceIndex ;;
      run modifyLockData this subResourceIndex (setMsaaUpToDate true) ;;
      let* rect' := scaleRect this rect in
      ret (msaa, rect', msaa)
    else if isMsaaResolvedUpToDate l then
      let* resolved := deref (resource (m_msaaResolvedSurface me)) in
      run clearUpToDateFlags this subResourceIndex ;;
      run modifyLockData this subResourceIndex (setMsaaResolvedUpToDate true) ;;
      let* rect' := scaleRect this rect in
      ret (resolved, rect', resolved)
    else
      run loadVidMemResource fuel this subResourceIndex ;;
      run clearUpToDateFlags this subResourceIndex ;;
      run modifyLockData this subResourceIndex (setVidMemUpToDate true) ;;
      ret (res, rect, this)
  else ret (res, rect, this).

Definition prepareForBltDst (fuel : nat) (this : HANDLE) (d : D3DDDIARG_BLT)
    : M (D3DDDIARG_BLT * HANDLE) :=
  let* (res, rect, dstRes) :=
    prepareForBltDstAt fuel this (hDstResource d) (DstSubResourceIndex d) (DstRect d) in
  ret (setDst res (DstSubResourceIndex d) rect d, dstRes).

Definition prepareForCpuRead (fuel : nat) (this : HANDLE) (subResourceIndex : nat) : M unit :=
  let* me := getResource this in
  when (hasLockResource me) (loadSysMemResource fuel this subResourceIndex).

Definition prepareForCpuWrite (fuel : nat) (this : HANDLE) (subResourceIndex : nat) : M unit :=
  let* me := getResource this in
  if hasLockResource me then
    run (if hasResource (m_lockRefSurface me) then
           let* l := lockDataAt this subResourceIndex in
           if isMsaaResolvedUpToDate l || isMsaaUpToDate l then
             run loadVidMemResource fuel this subResourceIndex ;;
             let* lockRef := deref (resource (m_lockRefSurface me)) in
             run copySubResourceH this lockRef (m_handle me) subResourceIndex ;;
             modifyLockData this subResourceIndex (setRefLocked true)
           else ret tt
         else ret tt) ;;
    run loadSysMemResource fuel this subResourceIndex ;;
    run clearUpToDateFlags this subResourceIndex ;;
    modifyLockData this subResourceIndex (setSysMemUpToDate true)
  else ret tt.

Definition prepareForGpuRead (fuel : nat) (this : HANDLE) (subResourceIndex : nat) : M HANDLE :=
  let* me := getResource this in
  if hasLockResource me then
    run loadFromLockRefResource fuel this subResourceIndex ;;
    match resource (m_msaaResolvedSurface me) with
    | Some resolved =>
      run loadMsaaResolvedResource fuel this subResourceIndex ;;
      ret resolved
    | None =>
      run loadVidMemResource fuel this subResourceIndex ;;
      ret this
    end
  else ret this.

Definition prepareForGpuWrite (fuel : nat) (this : HANDLE) (subResourceIndex : nat) : M unit :=
  let* me := getResource this in
  if hasLockResource me || hasResource (m_msaaResolvedSurface me) then
    if hasResource (m_msaaSurface me) then
      run loadMsaaResource fuel this subResourceIndex ;;
      run clearUpToDateFlags this subResourceIndex ;;
      modifyLockData this subResourceIndex (setMsaaUpToDate true)
    else if hasResource (m_msaaResolvedSurface me) then
      run loadMsaaResolvedResource fuel this subResourceIndex ;;
      run clearUpToDateFlags this subResourceIndex ;;
      modifyLockData this subResourceIndex (setMsaaResolvedUpToDate true)
    else
      run loadVidMemResource fuel this subResourceIndex ;;
      run clearUpToDateFlags this subResourceIndex ;;
      modifyLockData this subResourceIndex (setVidMemUpToDate true)
  else ret tt.

(** *** Locks *)

Definition setLockResult (p s : Z) (d : D3DDDIARG_LOCK) : D3DDDIARG_LOCK :=
  mkLock (lock_hResource d) (lock_SubResourceIndex d) (lock_Area d) (lock_AreaValid d)
         (lock_ReadOnly d) (lock_NotifyOnly d) p s.

Definition bltLock (fuel : nat) (this : HANDLE) (d : D3DDDIARG_LOCK)
    : M (HRESULT * D3DDDIARG_LOCK) :=
  let* me := getResource this in
  run when (hasLockResource me)
       (if lock_ReadOnly d then prepareForCpuRead fuel this (lock_SubResourceIndex d)
        else prepareForCpuWrite fuel this (lock_SubResourceIndex d)) ;;
  let* lockData := lockDataAt this (lock_SubResourceIndex d) in
  let ptr := data lockData in
  let ptr := if lock_AreaValid d
             then wrapUINT (ptr + wrapUINT (top (lock_Area d) * pitch lockData +
                                            left (lock_Area d) * m_formatInfo_bytesPerPixel me))
             else ptr in
  ret (S_OK, setLockResult ptr (pitch lockData) d).

Definition lock (fuel : nat) (this : HANDLE) (d : D3DDDIARG_LOCK)
    : M (HRESULT * D3DDDIARG_LOCK) :=
  let* me := getResource this in
  if negb (MultisampleType (m_fixedData me) =? D3DDDIMULTISAMPLE_NONE) then ret (E_FAIL, d)
  else
    let* blt := setBltSrc emptyBlt in
    if negb (hSrcResource blt =? 0) then ret (E_ABORT, d)
    else if hasLockResource me || m_isOversized me then bltLock fuel this d
    else
      run when (negb (lock_ReadOnly d))
           (modifyResource this (set_m_isPalettizedTextureUpToDate false)) ;;
      run when (ZBuffer (Flags (m_fixedData me)) && hasResource (m_msaaResolvedSurface me))
           (run loadVidMemResource fuel this 0 ;;
            when (negb (lock_ReadOnly d))
              (run modifyLockData this 0 (setMsaaUpToDate false) ;;
               modifyLockData this 0 (setMsaaResolvedUpToDate false))) ;;
      pfnLock d.

Definition unlock (this : HANDLE) (d : D3DDDIARG_UNLOCK) : M HRESULT :=
  let* me := getResource this in
  if hasLockResource me || m_isOversized me then ret S_OK else pfnUnlock d.

(** *** The blit router *)

Definition mirrorSign (b : bool) : Z := subL 1 (mulL 2 (if b then 1 else 0)).

(** The pointer a CPU blit starts at inside a system-memory surface. *)
Definition surfacePtr (l : LockData) (r : RECT) (bpp : Z) : Z :=
  wrapUINT (data l + wrapUINT (top r * pitch l + left r * bpp)).

Definition bltViaCpu (fuel : nat) (this : HANDLE) (d : D3DDDIARG_BLT) (srcResource : HANDLE)
    : M HRESULT :=
  let* me := getResource this in
  let* src := getResource srcResource in
  if negb (Format (m_fixedData me) =? Format (m_fixedData src)) ||
     (0 =? m_formatInfo_bytesPerPixel me) ||
     (negb (D3DDDIFMT_P8 =? Format (m_fixedData me)) &&
      negb (m_isOversized me) && negb (m_isOversized src))
  then ret S_FALSE
  else
    let srcLock :=
      if isSystemMem (Pool (m_fixedData src))
      then mkLock (hSrcResource d) (SrcSubResourceIndex d) emptyRECT false false true 0 0
      else mkLock (hSrcResource d) (SrcSubResourceIndex d) (SrcRect d) true true false 0 0 in
    let* (result, srcLock) := lock fuel srcResource srcLock in
    if FAILED result then ret result
    else
      let dstLock :=
        if isSystemMem (Pool (m_fixedData me))
        then mkLock (hDstResource d) (DstSubResourceIndex d) emptyRECT false false true 0 0
        else mkLock (hDstResource d) (DstSubResourceIndex d) (DstRect d) true false false 0 0 in
      let* (result, dstLock) := lock fuel this dstLock in
      run when (SUCCEEDED result)
           (let* srcLock :=
              (if isSystemMem (Pool (m_fixedData src)) then
                 let* lockData := lockDataAt srcResource (SrcSubResourceIndex d) in
                 ret (setLockResult (surfacePtr lockData (SrcRect d) (m_formatInfo_bytesPerPixel me))
                                    (pitch lockData) srcLock)
               else ret srcLock) in
            let* dstLock :=
              (if isSystemMem (Pool (m_fixedData me)) then
                 let* lockData := lockDataAt this (DstSubResourceIndex d) in
                 ret (setLockResult (surfacePtr lockData (DstRect d) (m_formatInfo_bytesPerPixel me))
                                    (pitch lockData) dstLock)
               else ret dstLock) in
            run emit (EvCpuBlt (lock_pSurfData dstLock) (lock_Pitch dstLock)
                       (subL (right (DstRect d)) (left (DstRect d)))
                       (subL (bottom (DstRect d)) (top (DstRect d)))
                       (lock_pSurfData srcLock) (lock_Pitch srcLock)
                       (mulL (mirrorSign (MirrorLeftRight d))
                             (subL (right (SrcRect d)) (left (SrcRect d))))
                       (mulL (mirrorSign (MirrorUpDown d))
                             (subL (bottom (SrcRect d)) (top (SrcRect d))))
                       (m_formatInfo_bytesPerPixel me)
                       (if DstColorKey d then Some (ColorKey d) else None)
                       (if SrcColorKey d then Some (ColorKey d) else None)) ;;
            run unlock this (mkUnlock (lock_hResource dstLock) (lock_SubResourceIndex dstLock)
                                      (lock_NotifyOnly dstLock)) ;;
            ret tt) ;;
      run unlock srcResource (mkUnlock (lock_hResource srcLock) (lock_SubResourceIndex srcLock)
                                       (lock_NotifyOnly srcLock)) ;;
      ret result.

Definition bltViaGpu (fuel : nat) (this : HANDLE) (d : D3DDDIARG_BLT) (srcResource : HANDLE)
    : M HRESULT :=
  let* src := getResource srcResource in
  run when (hasLockResource src) (loadFromLockRefResource fuel srcResource (SrcSubResourceIndex d)) ;;
  let* me := getResource this in
  let* src := getResource srcResource in
  let* useResolved :=
    (if hasResource (m_msaaResolvedSurface me) && hasResource (m_msaaResolvedSurface src) then
       let* l := lockDataAt srcResource (SrcSubResourceIndex d) in
       ret (isMsaaResolvedUpToDate l || isMsaaUpToDate l)
     else ret false) in
  let* (srcRes, d) :=
    (if useResolved then
       run loadMsaaResolvedResource fuel srcResource (SrcSubResourceIndex d) ;;
       let* srcRes := deref (resource (m_msaaResolvedSurface src)) in
       let* srcRect := scaleRect srcResource (SrcRect d) in
       let d := setSrc srcRes (SrcSubResourceIndex d) srcRect d in
       let* l := lockDataAt this (DstSubResourceIndex d) in
       run when (negb (isMsaaUpToDate l))
            (loadMsaaResolvedResource fuel this (DstSubResourceIndex d)) ;;
       ret (srcRes, d)
     else
       run prepareForBltSrc fuel srcResource d ;;
       ret (srcResource, d)) in
  let* (d, dstRes) := prepareForBltDst fuel this d in
  let* me := getResource this in
  let* src := getResource srcResource in
  let* t := now in
  let d :=
    if negb (ZBuffer (Flags (m_fixedData me))) then
      if negb (isSystemMem (Pool (m_fixedData me))) &&
         negb (isSystemMem (Pool (m_fixedData src))) && cfg_bltFilterIsBilinear env t
      then setLinear d else setPoint d
    else d in
  let wantShader :=
    negb (isSystemMem (Pool (m_fixedData me))) &&
    ((ZBuffer (Flags (m_fixedData me)) &&
      bool_decide (Some dstRes = resource (m_msaaSurface me)) && hasResource (m_nullSurface me)) ||
     RenderTarget (Flags (m_fixedData me)) ||
     (negb (ZBuffer (Flags (m_fixedData me))) &&
      (SrcColorKey d || MirrorLeftRight d || MirrorUpDown d ||
       negb (subL (right (DstRect d)) (left (DstRect d)) =?
             subL (right (SrcRect d)) (left (SrcRect d))) ||
       negb (subL (bottom (DstRect d)) (top (DstRect d)) =?
             subL (bottom (SrcRect d)) (top (SrcRect d)))))) in
  let* done :=
    (if wantShader then
       let* hr := shaderBlt this d dstRes srcRes in ret (SUCCEEDED hr)
     else ret false) in
  if done then ret S_OK
  else
    let* srcResData := getResource srcRes in
    let* d :=
      (if negb (bool_decide (dstRes = this)) && isSystemMem (Pool (m_fixedData srcResData)) then
         let r := mkRECT 0 0 (subL (right (SrcRect d)) (left (SrcRect d)))
                             (subL (bottom (SrcRect d)) (top (SrcRect d))) in
         run copySubResourceRegion this (DstSubResourceIndex d) r
               srcRes (SrcSubResourceIndex d) (SrcRect d) ;;
         ret (setSrc this (DstSubResourceIndex d) r d)
       else ret d) in
    let* result := pfnBlt d in
    run (if isSystemMem (Pool (m_fixedData me)) then notifyLock this (DstSubResourceIndex d)
         else when (isSystemMem (Pool (m_fixedData src)))
                (notifyLock srcResource (SrcSubResourceIndex d))) ;;
    ret result.

Definition clearRectInterior (this : HANDLE) (subResourceIndex : nat) (r : RECT) : M unit :=
  let* me := getResource this in
  run pfnColorFill (mkColorFill (m_handle me) subResourceIndex r 0) ;;
  ret tt.

Definition clearRectExterior (this : HANDLE) (subResourceIndex : nat) (r : RECT) : M unit :=
  let* si := fixedSurfaceAt this subResourceIndex in
  let width := toLONG (Width si) in
  let height := toLONG (Height si) in
  run when (0 <? left r) (clearRectInterior this subResourceIndex (mkRECT 0 0 (left r) height)) ;;
  run when (right r <? width)
       (clearRectInterior this subResourceIndex (mkRECT (right r) 0 width height)) ;;
  run when (0 <? top r)
       (clearRectInterior this subResourceIndex (mkRECT (left r) 0 (right r) (top r))) ;;
  when (bottom r <? height)
    (clearRectInterior this subResourceIndex (mkRECT (left r) (bottom r) (right r) height)).

Fixpoint presentLayeredWindowsLoop (monitorRect : RECT) (dst : HANDLE) (dstSubResourceIndex : nat)
    (dstRect : RECT) (layeredWindows : list LayeredWindow) : M unit :=
  match layeredWindows with
  | [] => ret tt
  | layeredWindow :: rest =>
    let visibleRect := IntersectRect (rect layeredWindow) monitorRect in
    run (if IsRectEmpty visibleRect then ret tt
         else
           let srcRect := mkRECT 0 0 (subL (right visibleRect) (left visibleRect))
                                     (subL (bottom visibleRect) (top visibleRect)) in
           let* windowSurface :=
             repoCall (GetTempSysMemSurface (wrapUINT (right srcRect)) (wrapUINT (bottom srcRect))) in
           let* texture :=
             repoCall (GetTempTexture (wrapUINT (right srcRect)) (wrapUINT (bottom srcRect))
                                      D3DDDIFMT_A8R8G8B8) in
           match resource windowSurface, resource texture with
           | Some ws, Some tex =>
             run emit (EvCaptureWindow (hwnd layeredWindow) visibleRect) ;;
             run copySubResourceRegion tex 0 srcRect ws 0 srcRect ;;
             run notifyLock tex 0 ;;
             let visibleRect := rect_transform env visibleRect monitorRect dstRect in
             textureBlt dst dstSubResourceIndex visibleRect tex 0 srcRect false
           | _, _ => ret tt
           end) ;;
    presentLayeredWindowsLoop monitorRect dst dstSubResourceIndex dstRect rest
  end.

Definition presentLayeredWindows (this : HANDLE) (dst : HANDLE) (dstSubResourceIndex : nat)
    (dstRect : RECT) : M unit :=
  let* t := now in
  presentLayeredWindowsLoop (primary_monitorRect env t) dst dstSubResourceIndex dstRect
                            (window_visibleLayeredWindows env t).

Definition presentationBlt (fuel : nat) (this : HANDLE) (d : D3DDDIARG_BLT) (srcResource : HANDLE)
    : M HRESULT :=
  let* src := getResource srcResource in
  let* srcResource :=
    (if hasLockResource src then
       let* l := lockDataAt srcResource (SrcSubResourceIndex d) in
       run when (isSysMemUpToDate l && negb (RenderTarget (Flags (m_fixedData src))))
            (run modifyLockData srcResource (SrcSubResourceIndex d) (setVidMemUpToDate false) ;;
             modifyLockData srcResource (SrcSubResourceIndex d) (setMsaaResolvedUpToDate false)) ;;
       prepareForGpuRead fuel srcResource (SrcSubResourceIndex d)
     else ret srcResource) in
  let* si := fixedSurfaceAt srcResource (SrcSubResourceIndex d) in
  let srcWidth := toLONG (Width si) in
  let srcHeight := toLONG (Height si) in
  let d := setSrc (hSrcResource d) (SrcSubResourceIndex d) (mkRECT 0 0 srcWidth srcHeight) d in
  let* w := getWorld in
  let d := if negb (IsRectEmpty (g_presentationRect w))
           then setDst (hDstResource d) (DstSubResourceIndex d) (g_presentationRect w) d else d in
  let* rtSurface := repoCall (GetTempRenderTarget (wrapUINT srcWidth) (wrapUINT srcHeight) 0) in
  let rt := default this (resource rtSurface) in
  let rtIndex := if hasResource rtSurface then 0%nat else DstSubResourceIndex d in
  let rtRect := if hasResource rtSurface then SrcRect d else DstRect d in
  let* src := getResource srcResource in
  let? srcResource :=
    (if isSystemMem (Pool (m_fixedData src)) then
       let* texture := repoCall (GetTempTexture (wrapUINT srcWidth) (wrapUINT srcHeight)
                                                (Format (m_fixedData src))) in
       match resource texture with
       | None => ret (inl E_OUTOFMEMORY)
       | Some tex =>
         run copySubResourceRegion tex 0 (SrcRect d)
               (hSrcResource d) (SrcSubResourceIndex d) (SrcRect d) ;;
         ret (inr tex)
       end
     else ret (inr srcResource)) in
  let* src := getResource srcResource in
  run (if D3DDDIFMT_P8 =? Format (m_origData src) then
         emit (EvShader PalettizedBlt rt rtIndex rtRect srcResource (SrcSubResourceIndex d) (SrcRect d))
       else
         run copySubResourceRegion rt rtIndex rtRect srcResource (SrcSubResourceIndex d) (SrcRect d) ;;
         ret tt) ;;
  let* w := getWorld in
  run when (negb (IsRectEmpty (g_presentationRect w))) (presentLayeredWindows this rt rtIndex rtRect) ;;
  let* t := now in
  run when (cursor_isEmulated env t) (emit (EvShader CursorBlt rt rtIndex rtRect 0 0 emptyRECT)) ;;
  if negb (hasResource rtSurface) then ret S_OK
  else
    let dstWidth := subL (right (DstRect d)) (left (DstRect d)) in
    let dstHeight := subL (bottom (DstRect d)) (top (DstRect d)) in
    let* (rt, (srcRight, srcBottom)) :=
      downscale fuel this rt (right (SrcRect d)) (bottom (SrcRect d)) dstWidth dstHeight false in
    let d := setSrc (hSrcResource d) (SrcSubResourceIndex d)
                    (mkRECT (left (SrcRect d)) (top (SrcRect d)) srcRight srcBottom) d in
    let* t := now in
    let* rtGamma :=
      (if negb (shader_isGammaRampDefault env t) && repo_hasGammaRampTexture env t then
         let* s := getNextRenderTarget this rt (wrapUINT dstWidth) (wrapUINT dstHeight) in
         ret (resource s)
       else ret None) in
    let useGamma := match rtGamma with Some _ => true | None => false end in
    let rtNext := default this rtGamma in
    let rtNextIndex := if useGamma then 0%nat else DstSubResourceIndex d in
    let rtNextRect := if useGamma then mkRECT 0 0 dstWidth dstHeight else DstRect d in
    let* t := now in
    run (if cfg_displayFilterIsBilinear env t then
           emit (EvShader GenBilinearBlt rtNext rtNextIndex rtNextRect rt 0 (SrcRect d))
         else
           run pfnBlt (setPoint (setDst rtNext rtNextIndex rtNextRect
                                        (setSrc rt 0 (SrcRect d) emptyBlt))) ;;
           ret tt) ;;
    run when useGamma
         (emit (EvShader GammaBlt this (DstSubResourceIndex d) (DstRect d) rtNext 0 rtNextRect)) ;;
    run clearRectExterior this (DstSubResourceIndex d) (DstRect d) ;;
    ret S_OK.

Definition blt (fuel : nat) (this : HANDLE) (d : D3DDDIARG_BLT) : M HRESULT :=
  let* me := getResource this in
  if ZBuffer (Flags (m_fixedData me)) && hasResource (m_msaaSurface me) &&
     negb (isMsaaDepthResolveSupported env)
  then run logUnsupportedMsaaDepthBufferResolve ;; ret S_OK
  else
    let* validDst := isValidRect this (DstSubResourceIndex d) (DstRect d) in
    if negb validDst then ret S_OK
    else
      let* d := setBltSrc d in
      let* w := getWorld in
      match (if decide (resources w !! hSrcResource d = None) then None else Some (hSrcResource d)) with
      | Some srcResource =>
        let* validSrc := isValidRect srcResource (SrcSubResourceIndex d) (SrcRect d) in
        let* src := getResource srcResource in
        if negb validSrc then ret S_OK
        else if isSystemMem (Pool (m_fixedData me)) && isSystemMem (Pool (m_fixedData src))
        then pfnBlt d
        else if MatchGdiPrimary (Flags (m_fixedData me)) then presentationBlt fuel this d srcResource
        else
          let* result := bltViaCpu fuel this d srcResource in
          if negb (S_FALSE =? result) then ret result
          else bltViaGpu fuel this d srcResource
      | None =>
        let* (d, _) := prepareForBltDst fuel this d in
        pfnBlt d
      end.

Definition colorFill (fuel : nat) (this : HANDLE) (d : D3DDDIARG_COLORFILL) : M HRESULT :=
  let* dstRect := clipRect this (cf_SubResourceIndex d) (cf_DstRect d) in
  if (right dstRect <=? left dstRect) || (bottom dstRect <=? top dstRect) then ret S_OK
  else
    let* me := getResource this in
    let? _ :=
      (if hasLockResource me then
         let* lockData := lockDataAt this (cf_SubResourceIndex d) in
         if isSysMemUpToDate lockData && negb (isVidMemUpToDate lockData) then
           run emit (EvCpuColorFill
                       (surfacePtr lockData dstRect (m_formatInfo_bytesPerPixel me))
                       (pitch lockData)
                       (subL (right dstRect) (left dstRect)) (subL (bottom dstRect) (top dstRect))
                       (m_formatInfo_bytesPerPixel me)
                       (convertFrom32Bit env (Format (m_fixedData me)) (cf_Color d))) ;;
           ret (inl S_OK)
         else ret (inr tt)
       else ret (inr tt)) in
    let color := if D3DDDIFMT_P8 =? Format (m_fixedData me)
                 then wrapUINT (Z.shiftl (cf_Color d) 16) else cf_Color d in
    let* (res, rect, _) := prepareForBltDstAt fuel this (cf_hResource d) (cf_SubResourceIndex d) dstRect in
    pfnColorFill (mkColorFill res (cf_SubResourceIndex d) rect color).

(** *** Reconfiguration *)

Definition DDSCAPS_TEXTURE : Z := 4096.
Definition DDSCAPS_3DDEVICE : Z := 8192.
Definition DDSCAPS_VIDEOMEMORY : Z := 16384.
Definition DDSCAPS_ZBUFFER : Z := 131072.

Definition getMultisampleConfig (this : HANDLE) : M (Z * Z) :=
  let* me := getResource this in
  let* t := now in
  if negb (Texture (Flags (m_fixedData me))) &&
     (negb (m_isPrimary me) || RenderTarget (Flags (m_fixedData me)))
  then ret (adapter_getMultisampleConfig env t (Format (m_fixedData me)))
  else ret (D3DDDIMULTISAMPLE_NONE, 0).

Definition getFormatConfig (this : HANDLE) : M D3DDDIFORMAT :=
  let* me := getResource this in
  let* t := now in
  let fmt := Format (m_fixedData me) in
  if (D3DDDIFMT_X8R8G8B8 =? fmt) || (D3DDDIFMT_R5G6B5 =? fmt) then
    if cfg_renderColorDepth env t =? 16 then ret D3DDDIFMT_R5G6B5
    else if cfg_renderColorDepth env t =? 32 then ret D3DDDIFMT_X8R8G8B8
    else ret fmt
  else ret fmt.

Definition getScaledSize (this : HANDLE) : M (Z * Z) :=
  let* si := fixedSurfaceAt this 0 in
  let* me := getResource this in
  let* t := now in
  let size := (toLONG (Width si), toLONG (Height si)) in
  if negb (Texture (Flags (m_fixedData me))) then ret (adapter_getScaledSize env t size)
  else ret size.

Definition pairZ_eqb (a b : Z * Z) : bool := (fst a =? fst b) && (snd a =? snd b).

(** The loop of [updateConfig] over the lock entries, from index [i] on. *)
Fixpoint updateConfigFlush (fuel : nat) (this : HANDLE) (i count : nat) : M unit :=
  match count with
  | O => ret tt
  | S count' =>
    let* l := lockDataAt this i in
    run when (isMsaaUpToDate l || isMsaaResolvedUpToDate l) (loadVidMemResource fuel this i) ;;
    run modifyLockData this i (setMsaaUpToDate false) ;;
    run modifyLockData this i (setMsaaResolvedUpToDate false) ;;
    run modifyLockData this i (setRefLocked false) ;;
    updateConfigFlush fuel this (S i) count'
  end.

Definition updateConfig (fuel : nat) (this : HANDLE) : M unit :=
  let* me := getResource this in
  let f := Flags (m_fixedData me) in
  if m_isSurfaceRepoResource me || isSystemMem (Pool (m_fixedData me)) ||
     (D3DDDIFMT_P8 =? Format (m_fixedData me)) || MatchGdiPrimary f ||
     (negb (m_isPrimary me) && negb (RenderTarget f) && negb (ZBuffer f)) ||
     (negb (ZBuffer f) && negb (hasLockResource me))
  then ret tt
  else
    let* msaa := getMultisampleConfig this in
    let* formatConfig := getFormatConfig this in
    let* scaledSize := getScaledSize this in
    if pairZ_eqb (m_multiSampleConfig me) msaa && (m_formatConfig me =? formatConfig) &&
       pairZ_eqb (m_scaledSize me) scaledSize
    then ret tt
    else
      run modifyResource this (set_m_multiSampleConfig msaa) ;;
      run modifyResource this (set_m_formatConfig formatConfig) ;;
      run modifyResource this (set_m_scaledSize scaledSize) ;;
      run when (hasResource (m_msaaSurface me) || hasResource (m_msaaResolvedSurface me))
           (updateConfigFlush fuel this 0 (length (m_lockData me))) ;;
      run modifyResource this (set_m_msaaSurface noSurface) ;;
      run modifyResource this (set_m_msaaResolvedSurface noSurface) ;;
      run modifyResource this (set_m_nullSurface noSurface) ;;
      run modifyResource this (set_m_lockRefSurface noSurface) ;;
      let* si0 := fixedSurfaceAt this 0 in
      let scaled := isScaled si0 scaledSize in
      let cx := wrapUINT (fst scaledSize) in
      let cy := wrapUINT (snd scaledSize) in
      let count := SurfCount (m_fixedData me) in
      if negb (D3DDDIMULTISAMPLE_NONE =? fst msaa) ||
         negb (Format (m_fixedData me) =? formatConfig) || scaled
      then
        let caps := Z.lor (if ZBuffer f then DDSCAPS_ZBUFFER else DDSCAPS_3DDEVICE)
                          DDSCAPS_VIDEOMEMORY in
        run when (negb (D3DDDIMULTISAMPLE_NONE =? fst msaa))
             (run modifyWorld (set_g_msaaOverride msaa) ;;
              let* s := repoCall (GetSurface cx cy formatConfig caps count) in
              run modifyResource this (set_m_msaaSurface s) ;;
              modifyWorld (set_g_msaaOverride (D3DDDIMULTISAMPLE_NONE, 0))) ;;
        let* me1 := getResource this in
        run when (ZBuffer f && hasResource (m_msaaSurface me1) && isMsaaDepthResolveSupported env)
             (run modifyWorld (set_g_formatOverride FOURCC_NULL) ;;
              run modifyWorld (set_g_msaaOverride msaa) ;;
              let* s := repoCall (GetSurface cx cy D3DDDIFMT_X8R8G8B8
                                    (Z.lor DDSCAPS_3DDEVICE DDSCAPS_VIDEOMEMORY) count) in
              run modifyResource this (set_m_nullSurface s) ;;
              run modifyWorld (set_g_msaaOverride (D3DDDIMULTISAMPLE_NONE, 0)) ;;
              modifyWorld (set_g_formatOverride
                             (if hasResource s then FOURCC_INTZ else D3DDDIFMT_UNKNOWN))) ;;
        let msaaResolvedSurfaceCaps :=
          Z.lor caps (if ZBuffer f || negb scaled then 0 else DDSCAPS_TEXTURE) in
        let msaaResolvedSurfaceFormat :=
          if ZBuffer f || negb scaled then formatConfig else D3DDDIFMT_A8R8G8B8 in
        let* s := repoCall (GetSurface cx cy msaaResolvedSurfaceFormat msaaResolvedSurfaceCaps count) in
        run modifyResource this (set_m_msaaResolvedSurface s) ;;
        run modifyWorld (set_g_formatOverride D3DDDIFMT_UNKNOWN) ;;
        let* me2 := getResource this in
        run when (negb (hasResource (m_msaaResolvedSurface me2)) && hasResource (m_msaaSurface me2))
             (run modifyResource this (set_m_msaaSurface noSurface) ;;
              let* s := repoCall (GetSurface cx cy msaaResolvedSurfaceFormat
                                    msaaResolvedSurfaceCaps count) in
              modifyResource this (set_m_msaaResolvedSurface s)) ;;
        let* me3 := getResource this in
        when (negb (ZBuffer f) && hasResource (m_msaaResolvedSurface me3))
          (let* s := repoCall (GetSurface (Width si0) (Height si0) (Format (m_fixedData me))
                                 (Z.lor DDSCAPS_TEXTURE DDSCAPS_VIDEOMEMORY) count) in
           run modifyResource this (set_m_lockRefSurface s) ;;
           when scaled
             (let* rt := deref (resource (m_msaaResolvedSurface me3)) in
              let* srcRect := getRect rt 0 in
              let* dstRect := getRect this 0 in
              let* (rt, (w, h)) := downscale fuel this rt (right srcRect) (bottom srcRect)
                                             (right dstRect) (bottom dstRect) true in
              let srcRect := mkRECT (left srcRect) (top srcRect) w h in
              when (negb (RECT_eqb dstRect srcRect) &&
                    negb (formatOp_SRGBWRITE env (Format (m_fixedData me))))
                (run getNextRenderTarget this rt (wrapUINT (right dstRect))
                                         (wrapUINT (bottom dstRect)) ;;
                 ret tt)))
      else ret tt.

Definition setAsPrimary (fuel : nat) (this : HANDLE) : M unit :=
  let* me := getResource this in
  if negb (m_isPrimary me) then
    run modifyResource this (set_m_isPrimary true) ;;
    updateConfig fuel this
  else ret tt.

(** *** Construction and fix-up *)

Definition calculatePresentationRect : M RECT :=
  let* t := now in
  match calculateScaledRect (primary_monitorRect env t) (realPrimary_monitorRect env t) with
  | Some r => ret r
  | None => undefined
  end.

(** [setFullscreenMode] reads [m_origData] only; it is called on the object
    under construction, given here by value. *)
Definition setFullscreenMode (me : Resource) (isFullscreen : bool) : M unit :=
  let* w := getWorld in
  if Bool.eqb (negb (IsRectEmpty (g_presentationRect w))) isFullscreen then ret tt
  else
    run emit EvUpdatePalette ;;
    if isFullscreen then
      let* r := calculatePresentationRect in
      run modifyWorld (set_g_presentationRect r) ;;
      let* si := deref (surfaceData (m_origData me) !! 0%nat) in
      let primaryRect := mkRECT 0 0 (toLONG (Width si)) (toLONG (Height si)) in
      let* t := now in
      run emit (EvCursorClipRect (primary_monitorRect env t)) ;;
      run when (negb (EqualRect r primaryRect)) (emit (EvCursorEmulated true)) ;;
      emit (EvVirtualScreenFullscreen (MatchGdiPrimary (Flags (m_origData me))))
    else
      run modifyWorld (set_g_presentationRect emptyRECT) ;;
      run emit (EvVirtualScreenFullscreen false) ;;
      run emit (EvCursorEmulated false) ;;
      emit (EvCursorClipRect emptyRECT).

(** The clamp of [fixResourceData] on the first surface. *)
Definition clampSurface (si : D3DDDI_SURFACEINFO) : D3DDDI_SURFACEINFO * bool :=
  let '(si, over1) :=
    if dwMaxTextureWidth env <? Width si then (setWidth (dwMaxTextureWidth env) si, true)
    else (si, false) in
  let '(si, over2) :=
    if dwMaxTextureHeight env <? Height si then (setHeight (dwMaxTextureHeight env) si, true)
    else (si, false) in
  (si, over1 || over2).

(** [fixResourceData], on the object under construction. *)
Definition fixResourceData (me : Resource) : M Resource :=
  let* t := now in
  let* w := getWorld in
  let fixedData := m_fixedData me in
  let fixedData :=
    if MatchGdiPrimary (Flags fixedData) then
      let r := realPrimary_monitorRect env t in
      let fixedData :=
        if negb (IsRectEmpty r) then
          setSurfaceData
            (map (fun surface => setHeight (wrapUINT (subL (bottom r) (top r)))
                                   (setWidth (wrapUINT (subL (right r) (left r))) surface))
                 (surfaceData fixedData)) fixedData
        else fixedData in
      setFormat D3DDDIFMT_X8R8G8B8 fixedData
    else fixedData in
  let fixedData :=
    if negb (D3DDDIFMT_UNKNOWN =? g_formatOverride w) then
      let fixedData := setFormat (g_formatOverride w) fixedData in
      if ZBuffer (Flags fixedData) then setFlags (setTexture true (Flags fixedData)) fixedData
      else fixedData
    else fixedData in
  let fixedData :=
    if negb (D3DDDIMULTISAMPLE_NONE =? fst (g_msaaOverride w))
    then setMultisample (fst (g_msaaOverride w)) (snd (g_msaaOverride w)) fixedData
    else fixedData in
  match surfaceData fixedData with
  | [si] =>
    if isSystemMem (Pool fixedData) && (0 =? Depth si) &&
       negb (0 =? getFormatInfo_bytesPerPixel env (Format fixedData))
    then
      let '(si', oversized) := clampSurface si in
      ret (set_m_isOversized (m_isOversized me || oversized)
             (set_m_fixedData (setSurfaceData [si'] fixedData) me))
    else ret (set_m_fixedData fixedData me)
  | _ => ret (set_m_fixedData fixedData me)
  end.

(** [std::vector::resize]. *)
Definition resize (n : nat) (l : list LockData) : list LockData :=
  take n l ++ replicate (n - length l) newLockData.

(** The lock entries [createSysMemResource] writes: one per surface, all
    fields assigned. *)
Definition sysMemLockData (surfaceInfo : list D3DDDI_SURFACEINFO) (r : Resource) : list LockData :=
  imap (fun i l =>
          match surfaceInfo !! i with
          | Some si =>
            mkLockData (pSysMem si) (SysMemPitch si) true true
                       (hasResource (m_msaaSurface r))
                       (hasResource (m_msaaResolvedSurface r)) false
          | None => l
          end)
       (resize (length surfaceInfo) (m_lockData r)).

Definition createSysMemResource (this : HANDLE) (surfaceInfo : list D3DDDI_SURFACEINFO) : M unit :=
  let* me := getResource this in
  let d := mkData (Format (m_fixedData me)) D3DDDIPOOL_SYSTEMMEM D3DDDIMULTISAMPLE_NONE 0
                  surfaceInfo noFlags 0 in
  let* (result, d) := createPrivateResource d in
  when (SUCCEEDED result)
    (run modifyResource this (set_m_lockResource (Some (hResource d))) ;;
     modifyResource this (fun r => set_m_lockData (sysMemLockData surfaceInfo r) r)).

(** The layout of the lock buffer: pitch of each surface and its offset
    from the start of the buffer. *)
Definition lockSurfaceInfo (bpp : Z) (prev : option D3DDDI_SURFACEINFO)
    (si : D3DDDI_SURFACEINFO) : D3DDDI_SURFACEINFO :=
  let sysMemPitch := Z.land (wrapUINT (Width si * bpp + 3)) 4294967292 in
  let offset :=
    match prev with
    | None => 0
    | Some p =>
      let a := surface_ALIGNMENT env in
      wrapUINT (pSysMem p +
                wrapUINT (wrapUINT (wrapUINT (SysMemPitch p * Height p) + a - 1) / a * a))
    end in
  mkSurfaceInfo (Width si) (Height si) 0 offset sysMemPitch.

Fixpoint lockLayout (bpp : Z) (prev : option D3DDDI_SURFACEINFO)
    (l : list D3DDDI_SURFACEINFO) : list D3DDDI_SURFACEINFO :=
  match l with
  | [] => []
  | si :: rest =>
    let cur := lockSurfaceInfo bpp prev si in
    cur :: lockLayout bpp (Some cur) rest
  end.

Definition createLockResource (this : HANDLE) : M unit :=
  let* me := getResource this in
  if isSystemMem (Pool (m_fixedData me)) || m_isSurfaceRepoResource me ||
     (0 =? m_formatInfo_bytesPerPixel me) ||
     hasTypeFlagOtherThanRenderTarget (Flags (m_fixedData me))
  then ret tt
  else
    let surfaceInfo := lockLayout (m_formatInfo_bytesPerPixel me) None
                                  (surfaceData (m_fixedData me)) in
    let* back := deref (last surfaceInfo) in
    let bufferSize := wrapUINT (pSysMem back + wrapUINT (SysMemPitch back * Height back)
                                + surface_ALIGNMENT env) in
    let* t := now in
    run emit (EvHeapAlloc bufferSize) ;;
    let buffer := heap_alloc env t bufferSize in
    run modifyResource this (set_m_lockBuffer (Some buffer)) ;;
    let bufferStart := surface_alignBuffer env buffer in
    let surfaceInfo :=
      map (fun si => mkSurfaceInfo (Width si) (Height si) (Depth si)
                       (wrapUINT (bufferStart + pSysMem si)) (SysMemPitch si)) surfaceInfo in
    run createSysMemResource this surfaceInfo ;;
    let* me := getResource this in
    when (negb (hasLockResource me))
      (run modifyResource this (set_m_lockBuffer None) ;;
       modifyResource this (set_m_lockData [])).

(** The lock entries the constructor writes for a depth buffer in video
    memory: [m_lockData.resize(m_origData.SurfCount)], then the four flags
    of each entry. *)
Definition depthLockData (r : Resource) : list LockData :=
  map (fun l => setMsaaResolvedUpToDate (hasResource (m_msaaResolvedSurface r))
                  (setMsaaUpToDate (hasResource (m_msaaSurface r))
                     (setVidMemUpToDate true (setSysMemUpToDate true l))))
      (resize (SurfCount (m_origData r)) (m_lockData r)).

(** The lock entries the constructor writes for a system-memory resource:
    the caller's pointer and pitch, and the system-memory flag. *)
Definition callerLockData (r : Resource) : list LockData :=
  imap (fun i l =>
          match surfaceData (m_origData r) !! i with
          | Some si => setSysMemUpToDate true (setData (pSysMem si) (SysMemPitch si) l)
          | None => l
          end)
       (resize (SurfCount (m_origData r)) (m_lockData r)).

(** How the constructor ends: with [HResultException] thrown, or with
    the object built and the handle written to the caller's request. *)
Inductive Constructed :=
| Thrown (hr : HRESULT)
| Built (this : HANDLE) (request : Data).

(** The members after the initialiser list. *)
Definition initialResource (d : Data) (inCreateSurface : bool) : Resource :=
  mkResource 0 d d 0 None None [] noSurface noSurface noSurface noSurface
             D3DDDIFMT_UNKNOWN (D3DDDIMULTISAMPLE_NONE, 0) (0, 0)
             false inCreateSurface true false false.

(** [Resource::Resource]. The object enters the resource table under its
    handle once the driver has created it; no exception is thrown after that. *)
Definition Resource_new (fuel : nat) (d : Data) : M Constructed :=
  let* t := now in
  let me := initialResource d (repo_inCreateSurface env t) in
  if VertexBuffer (Flags (m_origData me)) && MightDrawFromLocked (Flags (m_origData me)) &&
     negb (isSystemMem (Pool (m_origData me)))
  then ret (Thrown E_FAIL)
  else
    run when (MatchGdiPrimary (Flags (m_origData me))) (setFullscreenMode me true) ;;
    let* me := fixResourceData me in
    let me := set_m_formatInfo_bytesPerPixel
                (getFormatInfo_bytesPerPixel env (Format (m_fixedData me))) me in
    let me := set_m_formatConfig (Format (m_fixedData me)) me in
    let* si0 := deref (surfaceData (m_fixedData me) !! 0%nat) in
    let me := set_m_scaledSize (toLONG (Width si0), toLONG (Height si0)) me in
    let* (result, fixedData) := createPrivateResource (m_fixedData me) in
    let me := set_m_fixedData fixedData me in
    if FAILED result then ret (Thrown result)
    else
      let this := hResource (m_fixedData me) in
      let me := set_m_handle this me in
      run modifyWorld (fun w => set_resources (<[this := me]> (resources w)) w) ;;
      run updateConfig fuel this ;;
      let* me := getResource this in
      run (if negb (isSystemMem (Pool (m_fixedData me))) && ZBuffer (Flags (m_origData me)) then
             modifyResource this (fun r => set_m_lockData (depthLockData r) r)
           else if isSystemMem (Pool (m_fixedData me)) &&
                   negb (0 =? m_formatInfo_bytesPerPixel me) then
             modifyResource this (fun r => set_m_lockData (callerLockData r) r)
           else createLockResource this) ;;
      ret (Built this (setHResource this d)).

End Engine.

(** * Properties *)

(** ** Arithmetic *)

Lemma wrapLONG_id (z : Z) : LONG_MIN <= z <= LONG_MAX -> wrapLONG z = z.
Proof.
  unfold wrapLONG, LONG_MIN, LONG_MAX. intros H.
  rewrite Z.mod_small by lia. lia.
Qed.

Lemma divTraps_pos (a b : Z) : 0 < b -> divTraps a b = false.
Proof.
  intros H. unfold divTraps.
  destruct (Z.eqb_spec b 0); [lia|]. destruct (Z.eqb_spec b (-1)); [lia|].
  rewrite andb_false_r. reflexivity.
Qed.

Lemma quot_div_pos (a b : Z) : 0 <= a -> 0 < b -> Z.quot a b = a / b.
Proof. intros. apply Z.quot_div_nonneg; lia. Qed.

Lemma div_bounds (a b : Z) : 0 <= a -> 0 < b -> b * (a / b) <= a < b * (a / b) + b.
Proof.
  intros Ha Hb. pose proof (Z.div_mod a b ltac:(lia)) as E.
  pose proof (Z.mod_pos_bound a b Hb). lia.
Qed.

(** ** The presentation rectangle *)

Definition rectWidth (r : RECT) : Z := right r - left r.
Definition rectHeight (r : RECT) : Z := bottom r - top r.

(** The rectangles for which the [int] arithmetic of [calculateScaledRect]
    is defined: a source that is not empty, and sizes whose cross
    products fit in an [int]. *)
Definition scalable (srcRect dstRect : RECT) : Prop :=
  0 < rectWidth srcRect <= LONG_MAX /\ 0 < rectHeight srcRect <= LONG_MAX /\
  0 <= rectWidth dstRect /\ 0 <= rectHeight dstRect /\
  rectWidth dstRect * rectHeight srcRect <= LONG_MAX /\
  rectHeight dstRect * rectWidth srcRect <= LONG_MAX.

(** The rectangle [calculateScaledRect] returns, in exact arithmetic. *)
Definition scaledRect (srcRect dstRect : RECT) : RECT :=
  let srcWidth := rectWidth srcRect in
  let srcHeight := rectHeight srcRect in
  let dstWidth := rectWidth dstRect in
  let dstHeight := rectHeight dstRect in
  let w := if dstHeight * srcWidth <? dstWidth * srcHeight
           then dstHeight * srcWidth / srcHeight else dstWidth in
  let h := if dstHeight * srcWidth <? dstWidth * srcHeight
           then dstHeight else dstWidth * srcHeight / srcWidth in
  mkRECT ((dstWidth - w) / 2) ((dstHeight - h) / 2)
         (w + (dstWidth - w) / 2) (h + (dstHeight - h) / 2).

Lemma calculateScaledRect_eq (srcRect dstRect : RECT) :
  scalable srcRect dstRect ->
  calculateScaledRect srcRect dstRect = Some (scaledRect srcRect dstRect).
Proof.
  unfold scalable, scaledRect, LONG_MAX, rectWidth, rectHeight.
  unfold calculateScaledRect, subL.
  set (srcWidth := right srcRect - left srcRect).
  set (srcHeight := bottom srcRect - top srcRect).
  set (dstWidth := right dstRect - left dstRect).
  set (dstHeight := bottom dstRect - top dstRect).
  clearbody srcWidth srcHeight dstWidth dstHeight.
  intros (Hsw & Hsh & Hdw & Hdh & Hp1 & Hp2).
  assert (Hdw' : dstWidth <= 2147483647) by nia.
  assert (Hdh' : dstHeight <= 2147483647) by nia.
  rewrite !(wrapLONG_id srcWidth), !(wrapLONG_id srcHeight),
          !(wrapLONG_id dstWidth), !(wrapLONG_id dstHeight)
    by (unfold LONG_MIN, LONG_MAX; lia).
  unfold mulL.
  rewrite !(wrapLONG_id (dstHeight * srcWidth)), !(wrapLONG_id (dstWidth * srcHeight))
    by (unfold LONG_MIN, LONG_MAX; nia).
  cbv zeta.
  destruct (dstHeight * srcWidth <? dstWidth * srcHeight) eqn:Hc.
  - apply Z.ltb_lt in Hc.
    rewrite (divTraps_pos _ srcHeight) by lia.
    pose proof (div_bounds (dstHeight * srcWidth) srcHeight ltac:(nia) ltac:(lia)) as Hq.
    set (q := dstHeight * srcWidth / srcHeight) in *.
    assert (0 <= q) by (apply Z.div_pos; nia).
    assert (q <= dstWidth) by nia.
    unfold divL. rewrite quot_div_pos by nia. fold q.
    rewrite (wrapLONG_id q) by (unfold LONG_MIN, LONG_MAX; lia).
    unfold OffsetRect, addL, subL, divL; simpl.
    rewrite (wrapLONG_id (dstWidth - q)) by (unfold LONG_MIN, LONG_MAX; lia).
    rewrite (wrapLONG_id (dstHeight - dstHeight)) by (unfold LONG_MIN, LONG_MAX; lia).
    rewrite !quot_div_pos by lia.
    pose proof (div_bounds (dstWidth - q) 2 ltac:(lia) ltac:(lia)).
    pose proof (div_bounds (dstHeight - dstHeight) 2 ltac:(lia) ltac:(lia)).
    clearbody q.
    set (a := (dstWidth - q) / 2) in *. set (b := (dstHeight - dstHeight) / 2) in *.
    clearbody a b.
    rewrite (wrapLONG_id a), (wrapLONG_id b) by (unfold LONG_MIN, LONG_MAX; lia).
    rewrite !wrapLONG_id by (unfold LONG_MIN, LONG_MAX; lia).
    reflexivity.
  - apply Z.ltb_ge in Hc.
    rewrite (divTraps_pos _ srcWidth) by lia.
    pose proof (div_bounds (dstWidth * srcHeight) srcWidth ltac:(nia) ltac:(lia)) as Hq.
    set (q := dstWidth * srcHeight / srcWidth) in *.
    assert (0 <= q) by (apply Z.div_pos; nia).
    assert (q <= dstHeight) by nia.
    unfold divL. rewrite quot_div_pos by nia. fold q.
    rewrite (wrapLONG_id q) by (unfold LONG_MIN, LONG_MAX; lia).
    unfold OffsetRect, addL, subL, divL; simpl.
    rewrite (wrapLONG_id (dstHeight - q)) by (unfold LONG_MIN, LONG_MAX; lia).
    rewrite (wrapLONG_id (dstWidth - dstWidth)) by (unfold LONG_MIN, LONG_MAX; lia).
    rewrite !quot_div_pos by lia.
    pose proof (div_bounds (dstWidth - dstWidth) 2 ltac:(lia) ltac:(lia)).
    pose proof (div_bounds (dstHeight - q) 2 ltac:(lia) ltac:(lia)).
    clearbody q.
    set (a := (dstWidth - dstWidth) / 2) in *. set (b := (dstHeight - q) / 2) in *.
    clearbody a b.
    rewrite (wrapLONG_id a), (wrapLONG_id b) by (unfold LONG_MIN, LONG_MAX; lia).
    rewrite !wrapLONG_id by (unfold LONG_MIN, LONG_MAX; lia).
    reflexivity.
Qed.

(** The rectangle [scaledRect] keeps the aspect ratio of the source under
    integer division and is centred in the destination's extent: it has
    height [dstHeight] and width [dstHeight * srcWidth / srcHeight] when
    [dstWidth * srcHeight > dstHeight * srcWidth], width [dstWidth] and
    height [dstWidth * srcHeight / srcWidth] otherwise; its origin is
    [((dstWidth - width) / 2, (dstHeight - height) / 2)], and it lies
    within [(0, 0, dstWidth, dstHeight)]. *)
Lemma scaledRect_centered (srcRect dstRect : RECT) :
  scalable srcRect dstRect ->
  let r := scaledRect srcRect dstRect in
  let srcWidth := rectWidth srcRect in
  let srcHeight := rectHeight srcRect in
  let dstWidth := rectWidth dstRect in
  let dstHeight := rectHeight dstRect in
  (dstHeight * srcWidth < dstWidth * srcHeight ->
     rectHeight r = dstHeight /\ rectWidth r = dstHeight * srcWidth / srcHeight /\
     rectWidth r * srcHeight <= rectHeight r * srcWidth < (rectWidth r + 1) * srcHeight) /\
  (dstWidth * srcHeight <= dstHeight * srcWidth ->
     rectWidth r = dstWidth /\ rectHeight r = dstWidth * srcHeight / srcWidth /\
     rectHeight r * srcWidth <= rectWidth r * srcHeight < (rectHeight r + 1) * srcWidth) /\
  left r = (dstWidth - rectWidth r) / 2 /\
  top r = (dstHeight - rectHeight r) / 2 /\
  0 <= left r <= right r /\ right r <= dstWidth /\
  0 <= top r <= bottom r /\ bottom r <= dstHeight.
Proof.
  intros Hs.
  destruct Hs as (Hsw & Hsh & Hdw & Hdh & Hp1 & Hp2).
  unfold scaledRect, LONG_MAX in *. cbv zeta.
  set (srcWidth := rectWidth srcRect) in *. set (srcHeight := rectHeight srcRect) in *.
  set (dstWidth := rectWidth dstRect) in *. set (dstHeight := rectHeight dstRect) in *.
  clearbody srcWidth srcHeight dstWidth dstHeight.
  unfold rectWidth, rectHeight; simpl.
  destruct (dstHeight * srcWidth <? dstWidth * srcHeight) eqn:Hc.
  - apply Z.ltb_lt in Hc.
    pose proof (div_bounds (dstHeight * srcWidth) srcHeight ltac:(nia) ltac:(lia)) as Hq.
    set (q := dstHeight * srcWidth / srcHeight) in *. clearbody q.
    assert (0 <= q) by nia. assert (q <= dstWidth) by nia.
    pose proof (div_bounds (dstWidth - q) 2 ltac:(lia) ltac:(lia)).
    pose proof (div_bounds (dstHeight - dstHeight) 2 ltac:(lia) ltac:(lia)).
    replace (q + (dstWidth - q) / 2 - (dstWidth - q) / 2) with q by lia.
    replace (dstHeight + (dstHeight - dstHeight) / 2 - (dstHeight - dstHeight) / 2)
      with dstHeight by lia.
    set (a := (dstWidth - q) / 2) in *. set (b := (dstHeight - dstHeight) / 2) in *.
    clearbody a b.
    repeat match goal with |- _ /\ _ => split | |- _ -> _ => intro end; try lia; try nia.
  - apply Z.ltb_ge in Hc.
    pose proof (div_bounds (dstWidth * srcHeight) srcWidth ltac:(nia) ltac:(lia)) as Hq.
    set (q := dstWidth * srcHeight / srcWidth) in *. clearbody q.
    assert (0 <= q) by nia. assert (q <= dstHeight) by nia.
    pose proof (div_bounds (dstWidth - dstWidth) 2 ltac:(lia) ltac:(lia)).
    pose proof (div_bounds (dstHeight - q) 2 ltac:(lia) ltac:(lia)).
    replace (dstWidth + (dstWidth - dstWidth) / 2 - (dstWidth - dstWidth) / 2)
      with dstWidth by lia.
    replace (q + (dstHeight - q) / 2 - (dstHeight - q) / 2) with q by lia.
    set (a := (dstWidth - dstWidth) / 2) in *. set (b := (dstHeight - q) / 2) in *.
    clearbody a b.
    repeat match goal with |- _ /\ _ => split | |- _ -> _ => intro end; try lia; try nia.
Qed.

(** ** The downscale chain *)

(** One step of the chain on one dimension, in the words of the
    specification: half the source, rounded up, but not below the destination. *)
Definition halveToward (dst src : Z) : Z := Z.max dst (Z.quot (src + 1) 2).

Definition within2x (dstWidth dstHeight : Z) (s : Z * Z) : Prop :=
  fst s <= 2 * dstWidth /\ snd s <= 2 * dstHeight.

(** The source size after [n] steps. *)
Fixpoint chain (n : nat) (dstWidth dstHeight : Z) (s : Z * Z) : Z * Z :=
  match n with
  | O => s
  | S n' => chain n' dstWidth dstHeight (halveToward dstWidth (fst s), halveToward dstHeight (snd s))
  end.

(** The sizes for which [2 * dst] and [src + 1] do not overflow a [LONG]. *)
Definition downscalable (srcWidth srcHeight dstWidth dstHeight : Z) : Prop :=
  0 < dstWidth <= 1073741823 /\ 0 < dstHeight <= 1073741823 /\
  LONG_MIN <= srcWidth < LONG_MAX /\ LONG_MIN <= srcHeight < LONG_MAX.

(** Fuel that is enough for the loop to finish. *)
Definition downscaleFuel (srcWidth srcHeight dstWidth dstHeight : Z) : nat :=
  S (Z.to_nat (Z.max 0 (srcWidth - dstWidth) + Z.max 0 (srcHeight - dstHeight))).

Definition grantsRenderTargets (env : Env) : Prop :=
  forall t w h index, resource (repo_answer env t (GetTempRenderTarget w h index)) <> None.

Section Downscale.

Variable env : Env.

Lemma getNextRenderTarget_total this rt width height w :
  exists s w', getNextRenderTarget env this rt width height w = Ok s w' /\
               resources w' = resources w /\
               (grantsRenderTargets env -> resource s <> None).
Proof.
  unfold getNextRenderTarget, repoCall, bind, now, emit, modifyWorld, ret. simpl.
  destruct (decide _); simpl; eexists _, _; (split; [reflexivity|]); split; auto.
Qed.

Lemma halveToward_model (dst src : Z) :
  0 < dst <= 1073741823 -> LONG_MIN <= src < LONG_MAX ->
  Z.max dst (divL (addL src 1) 2) = halveToward dst src /\
  mulL 2 dst = 2 * dst /\
  LONG_MIN <= halveToward dst src < LONG_MAX.
Proof.
  unfold halveToward, divL, addL, mulL, LONG_MIN, LONG_MAX. intros Hd Hs.
  rewrite (wrapLONG_id (src + 1)) by (unfold LONG_MIN, LONG_MAX; lia).
  assert (Hq : -2147483648 <= Z.quot (src + 1) 2 <= 1073741823).
  { destruct (Z_le_gt_dec 0 (src + 1)).
    - rewrite quot_div_pos by lia.
      pose proof (div_bounds (src + 1) 2 ltac:(lia) ltac:(lia)). lia.
    - pose proof (Z.quot_opp_l (- (src + 1)) 2 ltac:(lia)) as E.
      rewrite Z.opp_involutive in E. rewrite E.
      rewrite quot_div_pos by lia.
      pose proof (div_bounds (- (src + 1)) 2 ltac:(lia) ltac:(lia)). lia. }
  rewrite (wrapLONG_id (Z.quot (src + 1) 2)) by (unfold LONG_MIN, LONG_MAX; lia).
  rewrite (wrapLONG_id (2 * dst)) by (unfold LONG_MIN, LONG_MAX; lia).
  repeat split; lia.
Qed.

Lemma halveToward_le (dst src : Z) :
  0 < dst ->
  (src <= 2 * dst -> Z.max 0 (halveToward dst src - dst) <= Z.max 0 (src - dst)) /\
  (2 * dst < src -> Z.max 0 (halveToward dst src - dst) < Z.max 0 (src - dst)).
Proof.
  unfold halveToward. intros Hd.
  destruct (Z_le_gt_dec 0 (src + 1)).
  - rewrite quot_div_pos by lia.
    pose proof (div_bounds (src + 1) 2 ltac:(lia) ltac:(lia)). split; lia.
  - pose proof (Z.quot_opp_l (- (src + 1)) 2 ltac:(lia)) as E.
    rewrite Z.opp_involutive in E. rewrite E.
    rewrite quot_div_pos by lia.
    pose proof (div_bounds (- (src + 1)) 2 ltac:(lia) ltac:(lia)). split; lia.
Qed.

(** The loop test of [downscale] is the negation of [within2x]. *)
Lemma loopTest_within2x sw sh dw dh :
  downscalable sw sh dw dh ->
  (mulL 2 dw <? sw) || (mulL 2 dh <? sh) = false <-> within2x dw dh (sw, sh).
Proof.
  intros (Hdw & Hdh & Hsw & Hsh).
  destruct (halveToward_model dw sw Hdw Hsw) as (_ & -> & _).
  destruct (halveToward_model dh sh Hdh Hsh) as (_ & -> & _).
  unfold within2x; simpl. rewrite orb_false_iff, !Z.ltb_ge. tauto.
Qed.

Lemma downscale_within fuel this rt sw sh dw dh dryRun w :
  downscalable sw sh dw dh -> within2x dw dh (sw, sh) ->
  downscale env (S fuel) this rt sw sh dw dh dryRun w = Ok (rt, (sw, sh)) w.
Proof.
  intros Hd Hw. apply (loopTest_within2x _ _ _ _ Hd) in Hw.
  simpl. rewrite Hw. reflexivity.
Qed.

Lemma downscale_terminates fuel : forall this rt sw sh dw dh dryRun w,
  downscalable sw sh dw dh ->
  (downscaleFuel sw sh dw dh <= fuel)%nat ->
  exists res w', downscale env fuel this rt sw sh dw dh dryRun w = Ok res w'.
Proof.
  induction fuel as [|fuel IH]; intros this rt sw sh dw dh dryRun w Hd Hf.
  - unfold downscaleFuel in Hf. lia.
  - pose proof Hd as Hd0. destruct Hd0 as (Hdw & Hdh & Hsw & Hsh).
    destruct (halveToward_model dw sw Hdw Hsw) as (Ew & Mw & Rw).
    destruct (halveToward_model dh sh Hdh Hsh) as (Eh & Mh & Rh).
    simpl. rewrite Ew, Eh.
    destruct ((mulL 2 dw <? sw) || (mulL 2 dh <? sh)) eqn:Hc; [|eexists _, _; reflexivity].
    rewrite Mw, Mh in Hc.
    unfold bind at 1.
    destruct (getNextRenderTarget_total this rt (wrapUINT (halveToward dw sw))
                (wrapUINT (halveToward dh sh)) w) as (s & w1 & -> & _ & _).
    destruct (resource s) as [next|]; [|eexists _, _; reflexivity].
    assert (Hd' : downscalable (halveToward dw sw) (halveToward dh sh) dw dh)
      by (unfold downscalable; auto).
    assert (Hf' : (downscaleFuel (halveToward dw sw) (halveToward dh sh) dw dh <= fuel)%nat).
    { unfold downscaleFuel in *.
      destruct (halveToward_le dw sw ltac:(lia)) as (Lw1 & Lw2).
      destruct (halveToward_le dh sh ltac:(lia)) as (Lh1 & Lh2).
      apply orb_true_iff in Hc. rewrite !Z.ltb_lt in Hc.
      destruct (Z_le_gt_dec sw (2 * dw)); destruct (Z_le_gt_dec sh (2 * dh)); lia. }
    unfold bind. destruct dryRun; simpl; apply IH; assumption.
Qed.

Lemma downscale_granted fuel : forall this rt sw sh dw dh dryRun w,
  downscalable sw sh dw dh ->
  grantsRenderTargets env ->
  (downscaleFuel sw sh dw dh <= fuel)%nat ->
  exists n rt' w',
    downscale env fuel this rt sw sh dw dh dryRun w = Ok (rt', chain n dw dh (sw, sh)) w' /\
    within2x dw dh (chain n dw dh (sw, sh)) /\
    forall k, (k < n)%nat -> ~ within2x dw dh (chain k dw dh (sw, sh)).
Proof.
  induction fuel as [|fuel IH]; intros this rt sw sh dw dh dryRun w Hd Hg Hf.
  - unfold downscaleFuel in Hf. lia.
  - pose proof Hd as Hd0. destruct Hd0 as (Hdw & Hdh & Hsw & Hsh).
    destruct (halveToward_model dw sw Hdw Hsw) as (Ew & Mw & Rw).
    destruct (halveToward_model dh sh Hdh Hsh) as (Eh & Mh & Rh).
    destruct ((mulL 2 dw <? sw) || (mulL 2 dh <? sh)) eqn:Hc.
    + assert (Hnot : ~ within2x dw dh (sw, sh)).
      { intros Hw. apply (loopTest_within2x _ _ _ _ Hd) in Hw. congruence. }
      simpl. rewrite Hc, Ew, Eh.
      rewrite Mw, Mh in Hc.
      unfold bind at 1.
      destruct (getNextRenderTarget_total this rt (wrapUINT (halveToward dw sw))
                  (wrapUINT (halveToward dh sh)) w) as (s & w1 & -> & _ & Hs).
      specialize (Hs Hg). destruct (resource s) as [next|]; [|congruence].
      assert (Hd' : downscalable (halveToward dw sw) (halveToward dh sh) dw dh)
        by (unfold downscalable; auto).
      assert (Hf' : (downscaleFuel (halveToward dw sw) (halveToward dh sh) dw dh <= fuel)%nat).
      { unfold downscaleFuel in *.
        destruct (halveToward_le dw sw ltac:(lia)) as (Lw1 & Lw2).
        destruct (halveToward_le dh sh ltac:(lia)) as (Lh1 & Lh2).
        apply orb_true_iff in Hc. rewrite !Z.ltb_lt in Hc.
        destruct (Z_le_gt_dec sw (2 * dw)); destruct (Z_le_gt_dec sh (2 * dh)); lia. }
      assert (Hrec : forall w2, exists n rt' w',
                 downscale env fuel this next (halveToward dw sw) (halveToward dh sh)
                           dw dh dryRun w2 =
                   Ok (rt', chain (S n) dw dh (sw, sh)) w' /\
                 within2x dw dh (chain (S n) dw dh (sw, sh)) /\
                 forall k, (k < S n)%nat -> ~ within2x dw dh (chain k dw dh (sw, sh))).
      { intros w2.
        destruct (IH this next _ _ dw dh dryRun w2 Hd' Hg Hf') as (n & rt' & w' & E & Hw & Hk).
        exists n, rt', w'. split; [exact E|]. split; [exact Hw|].
        intros [|k] Hlt; [exact Hnot|]. apply (Hk k). lia. }
      unfold bind. destruct dryRun; simpl.
      * destruct (Hrec w1) as (n & rt' & w' & E & Hw & Hk). exists (S n), rt', w'. auto.
      * match goal with |- context [downscale env fuel this next _ _ dw dh false ?w2] =>
          destruct (Hrec w2) as (n & rt' & w' & E & Hw & Hk) end.
        exists (S n), rt', w'. auto.
    + exists O, rt, w. simpl. rewrite Hc. split; [reflexivity|]. split.
      * apply (loopTest_within2x _ _ _ _ Hd). exact Hc.
      * intros k Hk. lia.
Qed.

End Downscale.

(** C8. The downscale chain terminates for every source size and every
    positive destination size (within the range where [2 * dst] and
    [src + 1] are defined on [LONG]): with enough fuel the loop returns.
    Each step replaces the source size by
    [max(dst, (src + 1) / 2)] in both dimensions ([chain]); when every
    render-target request succeeds the loop returns the size after [n]
    steps, that size is within twice the destination in both dimensions,
    and no earlier size was; no step runs and nothing is requested when
    the source is already within twice the destination. *)
Theorem downscale_chain (env : Env) (fuel : nat) (this rt : HANDLE)
    (srcWidth srcHeight dstWidth dstHeight : Z) (dryRun : bool) (w : World) :
  downscalable srcWidth srcHeight dstWidth dstHeight ->
  (downscaleFuel srcWidth srcHeight dstWidth dstHeight <= fuel)%nat ->
  (exists res w',
     downscale env fuel this rt srcWidth srcHeight dstWidth dstHeight dryRun w = Ok res w') /\
  (grantsRenderTargets env ->
   exists n rt' w',
     downscale env fuel this rt srcWidth srcHeight dstWidth dstHeight dryRun w =
       Ok (rt', chain n dstWidth dstHeight (srcWidth, srcHeight)) w' /\
     within2x dstWidth dstHeight (chain n dstWidth dstHeight (srcWidth, srcHeight)) /\
     forall k, (k < n)%nat ->
               ~ within2x dstWidth dstHeight (chain k dstWidth dstHeight (srcWidth, srcHeight))) /\
  (within2x dstWidth dstHeight (srcWidth, srcHeight) ->
   downscale env fuel this rt srcWidth srcHeight dstWidth dstHeight dryRun w =
     Ok (rt, (srcWidth, srcHeight)) w).
Proof.
  intros Hd Hf. split; [|split].
  - apply downscale_terminates; assumption.
  - intros Hg. apply downscale_granted; assumption.
  - intros Hw. destruct fuel as [|fuel]; [unfold downscaleFuel in Hf; lia|].
    apply downscale_within; assumption.
Qed.

(** ** Reasoning about runs *)

(** [wp m Q w]: if [m] returns from [w], the result and the final state
    satisfy [Q]. *)
Definition wp {A} (m : M A) (Q : A -> World -> Prop) (w : World) : Prop :=
  match m w with
  | Ok a w' => Q a w'
  | Undefined => True
  | OutOfFuel => True
  end.

Lemma wp_ok {A} (m : M A) Q w a w' : wp m Q w -> m w = Ok a w' -> Q a w'.
Proof. unfold wp. intros H E. rewrite E in H. exact H. Qed.

Lemma wp_run {A} (m : M A) (Q : A -> World -> Prop) w a w1 :
  m w = Ok a w1 -> Q a w1 -> wp m Q w.
Proof. intros E H. unfold wp. rewrite E. exact H. Qed.

Lemma wp_intro {A} (m : M A) (Q : A -> World -> Prop) w :
  (forall a w', m w = Ok a w' -> Q a w') -> wp m Q w.
Proof. unfold wp. intros H. destruct (m w); auto. Qed.

Lemma wp_mono {A} (m : M A) (Q Q' : A -> World -> Prop) w :
  wp m Q w -> (forall a w', Q a w' -> Q' a w') -> wp m Q' w.
Proof. unfold wp. destruct (m w); auto. Qed.

Lemma wp_ret {A} (a : A) Q w : Q a w -> wp (ret a) Q w.
Proof. auto. Qed.

Lemma wp_bind {A B} (m : M A) (k : A -> M B) Q w :
  wp m (fun a w' => wp (k a) Q w') w -> wp (bind m k) Q w.
Proof. unfold wp, bind. destruct (m w); auto. Qed.

Lemma wp_orReturn {A B} (m : M (B + A)) (k : A -> M B) Q w :
  wp m (fun x w' => match x with inl b => Q b w' | inr a => wp (k a) Q w' end) w ->
  wp (orReturn m k) Q w.
Proof.
  intros H. unfold orReturn. apply wp_bind. eapply wp_mono; [exact H|].
  intros [b|a] w'; auto.
Qed.

Lemma wp_getWorld Q w : Q w w -> wp getWorld Q w.
Proof. auto. Qed.

Lemma wp_modifyWorld f Q w : Q tt (f w) -> wp (modifyWorld f) Q w.
Proof. auto. Qed.

Lemma wp_now Q w : Q (length (trace w)) w -> wp now Q w.
Proof. auto. Qed.

Lemma wp_emit e Q w : Q tt (set_trace (e :: trace w) w) -> wp (emit e) Q w.
Proof. auto. Qed.

Lemma wp_deref {A} (p : option A) Q w : (forall a, p = Some a -> Q a w) -> wp (deref p) Q w.
Proof. destruct p as [a|]; intros H; [exact (H a eq_refl) | exact I]. Qed.

Lemma wp_getResource h Q w :
  (forall r, resources w !! h = Some r -> Q r w) -> wp (getResource h) Q w.
Proof.
  intros H. unfold getResource. apply wp_bind, wp_getWorld, wp_deref. exact H.
Qed.

Lemma wp_modifyResource h f Q w :
  (forall r, resources w !! h = Some r -> Q tt (set_resources (<[h := f r]> (resources w)) w)) ->
  wp (modifyResource h f) Q w.
Proof.
  intros H. unfold modifyResource. apply wp_bind, wp_getResource. intros r Hr.
  apply wp_modifyWorld. auto.
Qed.

Lemma wp_lockDataAt h i Q w :
  (forall r l, resources w !! h = Some r -> m_lockData r !! i = Some l -> Q l w) ->
  wp (lockDataAt h i) Q w.
Proof.
  intros H. unfold lockDataAt. apply wp_bind, wp_getResource. intros r Hr.
  apply wp_deref. eauto.
Qed.

(** The state after [m_lockData[i]] of [h] was replaced by [l]. *)
Definition withLockData (h : HANDLE) (i : nat) (l : LockData) (r : Resource) (w : World) : World :=
  set_resources (<[h := set_m_lockData (<[i := l]> (m_lockData r)) r]> (resources w)) w.

Lemma wp_modifyLockData h i f Q w :
  (forall r l, resources w !! h = Some r -> m_lockData r !! i = Some l ->
               Q tt (withLockData h i (f l) r w)) ->
  wp (modifyLockData h i f) Q w.
Proof.
  intros H. unfold modifyLockData. apply wp_bind, wp_lockDataAt. intros r l Hr Hl.
  apply wp_modifyResource. intros r' Hr'. rewrite Hr in Hr'. injection Hr' as <-.
  apply H; assumption.
Qed.

(** *** Runs that stay within a relation

    [Steps R m]: whenever [m] returns, the final state is related to the
    initial one by the preorder [R]. *)

Definition Steps (R : World -> World -> Prop) {A} (m : M A) : Prop :=
  forall w, wp m (fun _ w' => R w w') w.

Section StepsRules.

Context (R : World -> World -> Prop) `{!PreOrder R}.

Lemma Steps_ret {A} (a : A) : Steps R (ret a).
Proof. intros w. apply wp_ret. reflexivity. Qed.

Lemma Steps_bind {A B} (m : M A) (k : A -> M B) :
  Steps R m -> (forall a, Steps R (k a)) -> Steps R (bind m k).
Proof.
  intros Hm Hk w. apply wp_bind. eapply wp_mono; [apply Hm|].
  intros a w1 H1. eapply wp_mono; [apply Hk|].
  intros b w2 H2. simpl in *. transitivity w1; assumption.
Qed.

Lemma Steps_orReturn {A B} (m : M (B + A)) (k : A -> M B) :
  Steps R m -> (forall a, Steps R (k a)) -> Steps R (orReturn m k).
Proof.
  intros Hm Hk. unfold orReturn. apply Steps_bind; [exact Hm|].
  intros [b|a]; [apply Steps_ret | apply Hk].
Qed.

Lemma Steps_when (b : bool) (m : M unit) : Steps R m -> Steps R (when b m).
Proof. destruct b; simpl; auto using Steps_ret. Qed.

Lemma Steps_undefined {A} : Steps R (@undefined A).
Proof. intros w. exact I. Qed.

Lemma Steps_outOfFuel {A} : Steps R (@outOfFuel A).
Proof. intros w. exact I. Qed.

Lemma Steps_getWorld : Steps R getWorld.
Proof. intros w. apply wp_getWorld. reflexivity. Qed.

Lemma Steps_now : Steps R now.
Proof. intros w. apply wp_now. reflexivity. Qed.

Lemma Steps_deref {A} (p : option A) : Steps R (deref p).
Proof. destruct p; [apply Steps_ret | apply Steps_undefined]. Qed.

Lemma Steps_getResource h : Steps R (getResource h).
Proof. unfold getResource. apply Steps_bind; [apply Steps_getWorld|]. intros. apply Steps_deref. Qed.

Lemma Steps_lockDataAt h i : Steps R (lockDataAt h i).
Proof.
  unfold lockDataAt. apply Steps_bind; [apply Steps_getResource|]. intros. apply Steps_deref.
Qed.

Lemma Steps_fixedSurfaceAt h i : Steps R (fixedSurfaceAt h i).
Proof.
  unfold fixedSurfaceAt. apply Steps_bind; [apply Steps_getResource|]. intros. apply Steps_deref.
Qed.

Lemma Steps_modifyWorld f : (forall w, R w (f w)) -> Steps R (modifyWorld f).
Proof. intros H w. apply wp_modifyWorld. apply H. Qed.

End StepsRules.

Lemma Steps_sub (R R' : World -> World -> Prop) {A} (m : M A) :
  (forall w w', R w w' -> R' w w') -> Steps R m -> Steps R' m.
Proof. intros Hs Hm w. eapply wp_mono; [apply Hm|]. simpl. auto. Qed.

Lemma wp_steps (R : World -> World -> Prop) {A} (m : M A) (Q : A -> World -> Prop) w :
  Steps R m -> (forall a w', R w w' -> Q a w') -> wp m Q w.
Proof. intros Hm HQ. eapply wp_mono; [apply Hm|]. simpl. auto. Qed.

(** [quiet]: the resources and the globals are as before; only the
    trace and the [LOG_ONCE] statics may differ. *)
Definition quiet (w w' : World) : Prop :=
  resources w' = resources w /\
  g_presentationRect w' = g_presentationRect w /\
  g_formatOverride w' = g_formatOverride w /\
  g_msaaOverride w' = g_msaaOverride w.

#[local] Instance quiet_preorder : PreOrder quiet.
Proof.
  split.
  - intros w. unfold quiet. auto.
  - intros a b c (H1 & H2 & H3 & H4) (H1' & H2' & H3' & H4'). unfold quiet.
    rewrite H1', H2', H3', H4'. auto.
Qed.

(** A flag that only rises, and a lock entry whose pointer and pitch
    stay and whose validity flags only rise. *)
Definition rises (b b' : bool) : Prop := b = true -> b' = true.

Definition grows (l l' : LockData) : Prop :=
  data l' = data l /\ pitch l' = pitch l /\
  rises (isSysMemUpToDate l) (isSysMemUpToDate l') /\
  rises (isVidMemUpToDate l) (isVidMemUpToDate l') /\
  rises (isMsaaUpToDate l) (isMsaaUpToDate l') /\
  rises (isMsaaResolvedUpToDate l) (isMsaaResolvedUpToDate l').

Lemma grows_refl l : grows l l.
Proof. unfold grows, rises. auto 10. Qed.

Lemma grows_trans a b c : grows a b -> grows b c -> grows a c.
Proof.
  unfold grows, rises.
  intros (D1 & P1 & S1 & V1 & M1 & R1) (D2 & P2 & S2 & V2 & M2 & R2).
  rewrite D2, P2. auto 10.
Qed.

(** [m_lockData[i]] of resource [h], when there is one. *)
Definition entry (h : HANDLE) (i : nat) (w : World) : option LockData :=
  match resources w !! h with
  | Some r => m_lockData r !! i
  | None => None
  end.

(** [touchG G h i]: nothing changes but entry [i] of the lock data of
    resource [h], whose old and new values are related by [G] (and the
    trace and the [LOG_ONCE] statics). *)
Definition touchG (G : LockData -> LockData -> Prop) (h : HANDLE) (i : nat) (w w' : World) : Prop :=
  g_presentationRect w' = g_presentationRect w /\
  g_formatOverride w' = g_formatOverride w /\
  g_msaaOverride w' = g_msaaOverride w /\
  (forall h', h' <> h -> resources w' !! h' = resources w !! h') /\
  match resources w !! h with
  | None => resources w' !! h = None
  | Some r =>
    exists ls, resources w' !! h = Some (set_m_lockData ls r) /\
               length ls = length (m_lockData r) /\
               (forall j, j <> i -> ls !! j = m_lockData r !! j) /\
               (forall l l', m_lockData r !! i = Some l -> ls !! i = Some l' -> G l l')
  end.

(** [touch]: the entry grows. [confined]: the entry changes in any way. *)
Definition touch : HANDLE -> nat -> World -> World -> Prop := touchG grows.
Definition confined : HANDLE -> nat -> World -> World -> Prop := touchG (fun _ _ => True).

Lemma set_m_lockData_same r : set_m_lockData (m_lockData r) r = r.
Proof. destruct r; reflexivity. Qed.

Lemma set_m_lockData_twice ls ls' r : set_m_lockData ls' (set_m_lockData ls r) = set_m_lockData ls' r.
Proof. destruct r; reflexivity. Qed.

Lemma m_lockData_set ls r : m_lockData (set_m_lockData ls r) = ls.
Proof. destruct r; reflexivity. Qed.

Section TouchG.

Variable G : LockData -> LockData -> Prop.
Hypothesis G_refl : forall l, G l l.
Hypothesis G_trans : forall a b c, G a b -> G b c -> G a c.

Lemma touchG_refl h i w : touchG G h i w w.
Proof.
  unfold touchG. do 4 (split; [auto|]).
  destruct (resources w !! h) as [r|] eqn:E; [|reflexivity].
  exists (m_lockData r). rewrite set_m_lockData_same.
  do 3 (split; [auto|]).
  intros x x' H1 H2. rewrite H1 in H2. injection H2 as <-. apply G_refl.
Qed.

Lemma touchG_trans h i a b c : touchG G h i a b -> touchG G h i b c -> touchG G h i a c.
Proof.
  intros (P1 & F1 & M1 & O1 & T1) (P2 & F2 & M2 & O2 & T2). unfold touchG.
  rewrite P2, F2, M2. do 3 (split; [auto|]). split.
  - intros h' Hh. rewrite O2, O1; auto.
  - destruct (resources a !! h) as [r|] eqn:Ea.
    + destruct T1 as (ls & Eb & L1 & J1 & G1). rewrite Eb in T2.
      destruct T2 as (ls' & Ec & L2 & J2 & G2).
      rewrite set_m_lockData_twice in Ec. rewrite m_lockData_set in L2, J2, G2.
      exists ls'. split; [exact Ec|]. split; [congruence|]. split.
      * intros j Hj. rewrite J2, J1; auto.
      * intros x x'' Hl Hl''.
        destruct (ls !! i) as [x'|] eqn:El.
        -- eapply G_trans; eauto.
        -- apply lookup_ge_None in El. apply lookup_lt_Some in Hl. lia.
    + rewrite T1 in T2. exact T2.
Qed.

Lemma touchG_preorder h i : PreOrder (touchG G h i).
Proof. split; [intros w; apply touchG_refl | intros a b c; apply touchG_trans]. Qed.

(** What [touchG] says about the entries. *)
Lemma touchG_entry_other h i w w' h' j :
  touchG G h i w w' -> (h', j) <> (h, i) -> entry h' j w' = entry h' j w.
Proof.
  intros (_ & _ & _ & O & T) Hne. unfold entry.
  destruct (decide (h' = h)) as [->|Hh]; [|rewrite O; auto].
  destruct (resources w !! h) as [r|]; [|rewrite T; reflexivity].
  destruct T as (ls & -> & _ & J & _). rewrite m_lockData_set. apply J. congruence.
Qed.

Lemma touchG_entry h i w w' l :
  touchG G h i w w' -> entry h i w = Some l -> exists l', entry h i w' = Some l' /\ G l l'.
Proof.
  intros (_ & _ & _ & _ & T). unfold entry.
  destruct (resources w !! h) as [r|]; [|discriminate].
  destruct T as (ls & -> & L & _ & Gi). rewrite m_lockData_set. intros Hl.
  destruct (ls !! i) as [l'|] eqn:El.
  - exists l'. split; [reflexivity|]. eauto.
  - apply lookup_ge_None in El. apply lookup_lt_Some in Hl. lia.
Qed.

Lemma touchG_entry_back h i w w' l' :
  touchG G h i w w' -> entry h i w' = Some l' -> exists l, entry h i w = Some l /\ G l l'.
Proof.
  intros (_ & _ & _ & _ & T). unfold entry.
  destruct (resources w !! h) as [r|]; [|rewrite T; discriminate].
  destruct T as (ls & -> & L & _ & Gi). rewrite m_lockData_set. intros Hl.
  destruct (m_lockData r !! i) as [l|] eqn:El.
  - exists l. split; [reflexivity|]. eauto.
  - apply lookup_ge_None in El. apply lookup_lt_Some in Hl. lia.
Qed.

Lemma touchG_resource h i w w' h' r :
  touchG G h i w w' -> resources w !! h' = Some r ->
  exists ls, resources w' !! h' = Some (set_m_lockData ls r) /\ length ls = length (m_lockData r).
Proof.
  intros (_ & _ & _ & O & T) Hr.
  destruct (decide (h' = h)) as [->|Hh].
  - rewrite Hr in T. destruct T as (ls & E & L & _). eauto.
  - exists (m_lockData r). rewrite set_m_lockData_same, O; auto.
Qed.

End TouchG.

#[local] Instance touch_preorder h i : PreOrder (touch h i).
Proof. apply touchG_preorder; [apply grows_refl | apply grows_trans]. Qed.

#[local] Instance confined_preorder h i : PreOrder (confined h i).
Proof. apply touchG_preorder; auto. Qed.

Lemma touch_confined h i w w' : touch h i w w' -> confined h i w w'.
Proof.
  intros (P & F & M & O & T). unfold confined, touchG. do 4 (split; [auto|]).
  destruct (resources w !! h) as [r|]; [|exact T].
  destruct T as (ls & E & L & J & _). exists ls. auto.
Qed.

Lemma quiet_touch h i w w' : quiet w w' -> touch h i w w'.
Proof.
  intros (E & P & F & G).
  pose proof (touchG_refl grows grows_refl h i w) as (_ & _ & _ & O & T).
  unfold touch, touchG. rewrite E. auto.
Qed.

Create HintDb steps discriminated.
Create HintDb rel discriminated.

#[local] Hint Resolve quiet_touch touch_confined : rel.

(** Decomposes a goal [Steps R m] along the structure of [m]; the calls
    it meets are closed by the lemmas of the database [steps], where needed
    through an inclusion of relations from the database [rel]. [special]
    is tried first at every step. *)
Ltac rule L := apply L; [typeclasses eauto | ..].

Ltac steps_with special :=
  repeat (cbv zeta; first
    [ special
    | lazymatch goal with
      | |- Steps _ (ret _) => rule Steps_ret
      | |- Steps _ undefined => apply Steps_undefined
      | |- Steps _ outOfFuel => apply Steps_outOfFuel
      | |- Steps _ getWorld => rule Steps_getWorld
      | |- Steps _ now => rule Steps_now
      | |- Steps _ (deref _) => rule Steps_deref
      | |- Steps _ (getResource _) => rule Steps_getResource
      | |- Steps _ (lockDataAt _ _) => rule Steps_lockDataAt
      | |- Steps _ (fixedSurfaceAt _ _) => rule Steps_fixedSurfaceAt
      | |- Steps _ (bind _ _) => rule Steps_bind; [|intros]
      | |- Steps _ (orReturn _ _) => rule Steps_orReturn; [|intros]
      | |- Steps _ (when _ _) => rule Steps_when
      | |- Steps _ (if ?b then _ else _) => destruct b
      | |- Steps _ (match ?x with _ => _ end) => destruct x
      end
    | solve [auto with steps]
    | eapply Steps_sub; cycle 1; [solve [eauto with steps] | solve [eauto with rel]] ]).

Ltac steps := steps_with ltac:(idtac; fail).

Section QuietCalls.

Variable env : Env.

Lemma emit_quiet e : Steps quiet (emit e).
Proof. apply Steps_modifyWorld. intros w. unfold quiet. auto. Qed.
Hint Resolve emit_quiet : steps.

Lemma pfnBlt_quiet d : Steps quiet (pfnBlt env d).
Proof. unfold pfnBlt. steps. Qed.

Lemma pfnLock_quiet d : Steps quiet (pfnLock env d).
Proof. unfold pfnLock. steps. Qed.

Lemma pfnUnlock_quiet d : Steps quiet (pfnUnlock env d).
Proof. unfold pfnUnlock. steps. Qed.

Lemma pfnColorFill_quiet d : Steps quiet (pfnColorFill env d).
Proof. unfold pfnColorFill. steps. Qed.

Lemma createPrivateResource_quiet d : Steps quiet (createPrivateResource env d).
Proof. unfold createPrivateResource. steps. Qed.

Lemma repoCall_quiet c : Steps quiet (repoCall env c).
Proof. unfold repoCall. steps. Qed.

Lemma textureBlt_quiet dst di dr src si sr lin : Steps quiet (textureBlt dst di dr src si sr lin).
Proof. unfold textureBlt. steps. Qed.

Lemma setBltSrc_quiet d : Steps quiet (setBltSrc env d).
Proof. unfold setBltSrc. steps. Qed.

Lemma logOnce_quiet logged setLogged m :
  (forall b w, quiet w (setLogged b w)) -> Steps quiet (logOnce logged setLogged m).
Proof. intros H. unfold logOnce. steps. apply Steps_modifyWorld. auto. Qed.

Lemma logUnsupportedMsaaDepthBufferResolve_quiet : Steps quiet logUnsupportedMsaaDepthBufferResolve.
Proof. apply logOnce_quiet. intros b w. unfold quiet. auto. Qed.

Hint Resolve pfnBlt_quiet pfnLock_quiet pfnUnlock_quiet pfnColorFill_quiet
  createPrivateResource_quiet repoCall_quiet textureBlt_quiet setBltSrc_quiet
  logUnsupportedMsaaDepthBufferResolve_quiet : steps.

Lemma getRect_quiet h i : Steps quiet (getRect h i).
Proof. unfold getRect. steps. Qed.

Lemma isValidRect_quiet h i r : Steps quiet (isValidRect h i r).
Proof. unfold isValidRect. steps. Qed.

Lemma clipRect_quiet h i r : Steps quiet (clipRect h i r).
Proof. unfold clipRect. steps. Qed.

Lemma scaleRect_quiet h r : Steps quiet (scaleRect h r).
Proof. unfold scaleRect. steps. Qed.

Lemma copySubResourceRegion_quiet dst di dr src si sr :
  Steps quiet (copySubResourceRegion env dst di dr src si sr).
Proof.
  unfold copySubResourceRegion. steps.
  apply logOnce_quiet. intros b w. unfold quiet. auto.
Qed.
Hint Resolve getRect_quiet isValidRect_quiet clipRect_quiet scaleRect_quiet
  copySubResourceRegion_quiet : steps.

Lemma copySubResource_quiet dst src i : Steps quiet (copySubResource env dst src i).
Proof. unfold copySubResource. steps. Qed.

Lemma copySubResourceH_quiet this dst src i : Steps quiet (copySubResourceH env this dst src i).
Proof. unfold copySubResourceH. steps. Qed.

Lemma notifyLock_quiet h i : Steps quiet (notifyLock env h i).
Proof. unfold notifyLock. steps. Qed.

Lemma getNextRenderTarget_quiet this rt w h : Steps quiet (getNextRenderTarget env this rt w h).
Proof. unfold getNextRenderTarget. steps. Qed.

Lemma resolveMsaaDepthBuffer_quiet h : Steps quiet (resolveMsaaDepthBuffer h).
Proof. unfold resolveMsaaDepthBuffer. steps. Qed.
Hint Resolve copySubResource_quiet copySubResourceH_quiet notifyLock_quiet
  getNextRenderTarget_quiet resolveMsaaDepthBuffer_quiet : steps.

Lemma downscale_quiet fuel : forall this rt sw sh dw dh dryRun,
  Steps quiet (downscale env fuel this rt sw sh dw dh dryRun).
Proof.
  induction fuel as [|fuel IH]; intros; simpl; steps.
Qed.

Lemma shaderBlt_quiet this d dst src : Steps quiet (shaderBlt env this d dst src).
Proof. unfold shaderBlt. steps. Qed.

Lemma clearRectInterior_quiet this i r : Steps quiet (clearRectInterior env this i r).
Proof. unfold clearRectInterior. steps. Qed.
Hint Resolve downscale_quiet shaderBlt_quiet clearRectInterior_quiet : steps.

Lemma clearRectExterior_quiet this i r : Steps quiet (clearRectExterior env this i r).
Proof. unfold clearRectExterior. steps. Qed.

Lemma presentLayeredWindowsLoop_quiet monitorRect dst di dr ws :
  Steps quiet (presentLayeredWindowsLoop env monitorRect dst di dr ws).
Proof. induction ws as [|x ws IH]; simpl; steps. Qed.
Hint Resolve clearRectExterior_quiet presentLayeredWindowsLoop_quiet : steps.

Lemma presentLayeredWindows_quiet this dst di dr :
  Steps quiet (presentLayeredWindows env this dst di dr).
Proof. unfold presentLayeredWindows. steps. Qed.

Lemma getMultisampleConfig_quiet this : Steps quiet (getMultisampleConfig env this).
Proof. unfold getMultisampleConfig. steps. Qed.

Lemma getFormatConfig_quiet this : Steps quiet (getFormatConfig env this).
Proof. unfold getFormatConfig. steps. Qed.

Lemma getScaledSize_quiet this : Steps quiet (getScaledSize env this).
Proof. unfold getScaledSize. steps. Qed.

End QuietCalls.

#[local] Hint Resolve emit_quiet pfnBlt_quiet pfnLock_quiet pfnUnlock_quiet pfnColorFill_quiet
  createPrivateResource_quiet repoCall_quiet textureBlt_quiet setBltSrc_quiet
  logUnsupportedMsaaDepthBufferResolve_quiet getRect_quiet isValidRect_quiet clipRect_quiet
  scaleRect_quiet copySubResourceRegion_quiet copySubResource_quiet copySubResourceH_quiet
  notifyLock_quiet getNextRenderTarget_quiet resolveMsaaDepthBuffer_quiet downscale_quiet
  shaderBlt_quiet clearRectInterior_quiet clearRectExterior_quiet
  presentLayeredWindowsLoop_quiet presentLayeredWindows_quiet getMultisampleConfig_quiet
  getFormatConfig_quiet getScaledSize_quiet : steps.

(** *** Materialization touches one lock entry *)

Lemma entry_withLockData h i x r w h' j :
  resources w !! h = Some r -> (i < length (m_lockData r))%nat ->
  entry h' j (withLockData h i x r w) =
    if decide ((h', j) = (h, i)) then Some x else entry h' j w.
Proof.
  intros Hr Hi. unfold entry, withLockData; simpl.
  destruct (decide (h' = h)) as [->|Hh].
  - rewrite lookup_insert_eq, m_lockData_set, Hr.
    destruct (decide (j = i)) as [->|Hj].
    + rewrite list_lookup_insert_eq by exact Hi.
      destruct (decide _) as [_|Hn]; [reflexivity|congruence].
    + rewrite list_lookup_insert_ne by congruence.
      destruct (decide _) as [E|_]; [congruence|reflexivity].
  - rewrite lookup_insert_ne by congruence.
    destruct (decide _) as [E|_]; [congruence|reflexivity].
Qed.

Lemma touchG_withLockData (G : LockData -> LockData -> Prop) h i l l' r w :
  resources w !! h = Some r -> m_lockData r !! i = Some l -> G l l' ->
  touchG G h i w (withLockData h i l' r w).
Proof.
  intros Hr Hl Hg. unfold touchG, withLockData; simpl.
  do 3 (split; [reflexivity|]). split.
  - intros h' Hh. apply lookup_insert_ne. congruence.
  - rewrite Hr. exists (<[i := l']> (m_lockData r)).
    rewrite lookup_insert_eq. split; [reflexivity|].
    split; [apply length_insert|]. split.
    + intros j Hj. apply list_lookup_insert_ne. congruence.
    + intros x x' Hx Hx'. rewrite Hl in Hx. injection Hx as <-.
      rewrite list_lookup_insert_eq in Hx' by (eapply lookup_lt_Some; eauto).
      injection Hx' as <-. exact Hg.
Qed.

(** The effect of [m_lockData[i].field = value] on the entries. *)
Lemma wp_modifyLockData_entry h i f Q w :
  (forall l w', entry h i w = Some l -> entry h i w' = Some (f l) ->
                (forall h' j, (h', j) <> (h, i) -> entry h' j w' = entry h' j w) ->
                confined h i w w' -> Q tt w') ->
  wp (modifyLockData h i f) Q w.
Proof.
  intros H. apply wp_modifyLockData. intros r l Hr Hl.
  assert (Hi : (i < length (m_lockData r))%nat) by (eapply lookup_lt_Some; eauto).
  apply (H l).
  - unfold entry. rewrite Hr. exact Hl.
  - rewrite (entry_withLockData h i (f l) r w h i Hr Hi).
    destruct (decide _); [reflexivity|congruence].
  - intros h' j Hne. rewrite (entry_withLockData h i (f l) r w h' j Hr Hi).
    destruct (decide _); [congruence|reflexivity].
  - eapply (touchG_withLockData (fun _ _ => True)); eauto.
Qed.

Lemma modifyLockData_confined h i f : Steps (confined h i) (modifyLockData h i f).
Proof.
  intros w. apply wp_modifyLockData. intros r l Hr Hl.
  eapply (touchG_withLockData (fun _ _ => True)); eauto.
Qed.

Lemma modifyLockData_touch h i f :
  (forall l, grows l (f l)) -> Steps (touch h i) (modifyLockData h i f).
Proof.
  intros Hf w. apply wp_modifyLockData. intros r l Hr Hl.
  eapply (touchG_withLockData grows); eauto.
Qed.

Lemma grows_setSysMemUpToDate l : grows l (setSysMemUpToDate true l).
Proof. unfold grows, rises; simpl. auto 10. Qed.
Lemma grows_setVidMemUpToDate l : grows l (setVidMemUpToDate true l).
Proof. unfold grows, rises; simpl. auto 10. Qed.
Lemma grows_setMsaaUpToDate l : grows l (setMsaaUpToDate true l).
Proof. unfold grows, rises; simpl. auto 10. Qed.
Lemma grows_setMsaaResolvedUpToDate l : grows l (setMsaaResolvedUpToDate true l).
Proof. unfold grows, rises; simpl. auto 10. Qed.
Lemma grows_setRefLocked b l : grows l (setRefLocked b l).
Proof. unfold grows, rises; simpl. auto 10. Qed.

#[local] Hint Resolve grows_setSysMemUpToDate grows_setVidMemUpToDate grows_setMsaaUpToDate
  grows_setMsaaResolvedUpToDate grows_setRefLocked : steps.

Lemma setSysMemUpToDate_touch h i : Steps (touch h i) (modifyLockData h i (setSysMemUpToDate true)).
Proof. apply modifyLockData_touch. auto with steps. Qed.
Lemma setVidMemUpToDate_touch h i : Steps (touch h i) (modifyLockData h i (setVidMemUpToDate true)).
Proof. apply modifyLockData_touch. auto with steps. Qed.
Lemma setMsaaUpToDate_touch h i : Steps (touch h i) (modifyLockData h i (setMsaaUpToDate true)).
Proof. apply modifyLockData_touch. auto with steps. Qed.
Lemma setMsaaResolvedUpToDate_touch h i :
  Steps (touch h i) (modifyLockData h i (setMsaaResolvedUpToDate true)).
Proof. apply modifyLockData_touch. auto with steps. Qed.
Lemma setRefLocked_touch h i b : Steps (touch h i) (modifyLockData h i (setRefLocked b)).
Proof. apply modifyLockData_touch. auto with steps. Qed.

#[local] Hint Resolve setSysMemUpToDate_touch setVidMemUpToDate_touch setMsaaUpToDate_touch
  setMsaaResolvedUpToDate_touch setRefLocked_touch : steps.

Section Materialization.

Variable env : Env.

Lemma loadFromLockRefResource_body_touch rec h i :
  Steps (touch h i) (rec h i) ->
  Steps (touch h i) (loadFromLockRefResource_body env rec h i).
Proof. intros Hrec. unfold loadFromLockRefResource_body. steps. Qed.

Lemma loadMsaaResolvedResource_body_touch rec h i :
  Steps (touch h i) (rec h i) ->
  Steps (touch h i) (loadMsaaResolvedResource_body env rec h i).
Proof.
  intros Hrec. pose proof (loadFromLockRefResource_body_touch rec h i Hrec).
  unfold loadMsaaResolvedResource_body. steps.
Qed.

Lemma loadVidMemResource_body_touch rec fuel h i :
  Steps (touch h i) (rec h i) ->
  Steps (touch h i) (loadVidMemResource_body env rec fuel h i).
Proof.
  intros Hrec. pose proof (loadMsaaResolvedResource_body_touch rec h i Hrec).
  unfold loadVidMemResource_body. steps.
Qed.

Lemma loadVidMemResource_touch fuel : forall h i,
  Steps (touch h i) (loadVidMemResource env fuel h i).
Proof.
  induction fuel as [|fuel IH]; intros h i; simpl.
  - apply Steps_outOfFuel.
  - apply loadVidMemResource_body_touch. apply IH.
Qed.

Lemma loadMsaaResolvedResource_touch fuel h i :
  Steps (touch h i) (loadMsaaResolvedResource env fuel h i).
Proof. apply loadMsaaResolvedResource_body_touch, loadVidMemResource_touch. Qed.

Lemma loadFromLockRefResource_touch fuel h i :
  Steps (touch h i) (loadFromLockRefResource env fuel h i).
Proof. apply loadFromLockRefResource_body_touch, loadVidMemResource_touch. Qed.

Hint Resolve loadVidMemResource_touch loadMsaaResolvedResource_touch
  loadFromLockRefResource_touch : steps.

Lemma loadMsaaResource_touch fuel h i : Steps (touch h i) (loadMsaaResource env fuel h i).
Proof. unfold loadMsaaResource. steps. Qed.

Lemma loadSysMemResource_touch fuel h i : Steps (touch h i) (loadSysMemResource env fuel h i).
Proof. unfold loadSysMemResource. steps. Qed.

Hint Resolve loadMsaaResource_touch loadSysMemResource_touch : steps.

Lemma prepareForBltSrc_touch fuel h d :
  Steps (touch h (SrcSubResourceIndex d)) (prepareForBltSrc env fuel h d).
Proof. unfold prepareForBltSrc. steps. Qed.

Lemma prepareForCpuRead_touch fuel h i : Steps (touch h i) (prepareForCpuRead env fuel h i).
Proof. unfold prepareForCpuRead. steps. Qed.

Lemma prepareForGpuRead_touch fuel h i : Steps (touch h i) (prepareForGpuRead env fuel h i).
Proof. unfold prepareForGpuRead. steps. Qed.

End Materialization.

#[local] Hint Resolve loadVidMemResource_touch loadMsaaResolvedResource_touch
  loadFromLockRefResource_touch loadMsaaResource_touch loadSysMemResource_touch
  prepareForBltSrc_touch prepareForCpuRead_touch prepareForGpuRead_touch : steps.

(** ** Invariant I1: every lock entry has a valid representation *)

Definition anyValid (l : LockData) : bool :=
  isSysMemUpToDate l || isVidMemUpToDate l || isMsaaUpToDate l || isMsaaResolvedUpToDate l.

Definition I1 (w : World) : Prop :=
  forall h i l, entry h i w = Some l -> anyValid l = true.

(** No resource leaves the table. *)
Definition alive (w w' : World) : Prop :=
  forall h, is_Some (resources w !! h) -> is_Some (resources w' !! h).

(** [keeps]: the step preserves I1. *)
Definition keeps (w w' : World) : Prop := alive w w' /\ (I1 w -> I1 w').

#[local] Instance keeps_preorder : PreOrder keeps.
Proof.
  split; unfold keeps, alive.
  - intros w. auto.
  - intros a b c (A1 & H1) (A2 & H2). auto.
Qed.

(** [sameLocks]: no lock entry changes. *)
Definition sameLocks (w w' : World) : Prop :=
  alive w w' /\ forall h i, entry h i w' = entry h i w.

#[local] Instance sameLocks_preorder : PreOrder sameLocks.
Proof.
  split; unfold sameLocks, alive.
  - intros w. auto.
  - intros a b c (A1 & H1) (A2 & H2). split; [auto|]. intros h i. rewrite H2. auto.
Qed.

Lemma grows_anyValid l l' : grows l l' -> anyValid l = true -> anyValid l' = true.
Proof.
  unfold grows, rises, anyValid. intros (_ & _ & S & V & Ms & Rs) H.
  repeat rewrite orb_true_iff in *. tauto.
Qed.

Lemma confined_alive h i w w' : confined h i w w' -> alive w w'.
Proof.
  intros T h' (r & Hr).
  destruct (touchG_resource _ h i w w' h' r T Hr) as (ls & E & _). rewrite E. eauto.
Qed.

(** A confined change that leaves a valid entry behind preserves I1. *)
Lemma confined_valid_keeps h i w w' :
  confined h i w w' -> (I1 w -> forall l, entry h i w' = Some l -> anyValid l = true) ->
  keeps w w'.
Proof.
  intros T Hv. split; [eapply confined_alive; eauto|].
  intros HI h' j l' He.
  destruct (decide ((h', j) = (h, i))) as [E|Hne].
  - injection E as -> ->. eauto.
  - rewrite (touchG_entry_other _ h i w w' h' j T Hne) in He. eauto.
Qed.

Lemma touch_keeps h i w w' : touch h i w w' -> keeps w w'.
Proof.
  intros T. apply (confined_valid_keeps h i); [apply touch_confined, T|].
  intros HI l' He.
  destruct (touchG_entry_back grows h i w w' l' T He) as (l & Hl & Hg).
  eapply grows_anyValid; eauto.
Qed.

Lemma quiet_sameLocks_resources w w' : resources w' = resources w -> sameLocks w w'.
Proof.
  intros E. split.
  - intros h. rewrite E. auto.
  - intros h i. unfold entry. rewrite E. reflexivity.
Qed.

Lemma quiet_sameLocks w w' : quiet w w' -> sameLocks w w'.
Proof. intros (E & _). apply quiet_sameLocks_resources, E. Qed.

Lemma sameLocks_keeps w w' : sameLocks w w' -> keeps w w'.
Proof. intros (A & H). split; [exact A|]. intros HI h i l He. rewrite H in He. eauto. Qed.

Lemma quiet_keeps w w' : quiet w w' -> keeps w w'.
Proof. intros H. apply sameLocks_keeps, quiet_sameLocks, H. Qed.

Lemma quiet_confined h i w w' : quiet w w' -> confined h i w w'.
Proof. intros H. apply touch_confined, quiet_touch, H. Qed.

#[local] Hint Resolve touch_keeps quiet_sameLocks sameLocks_keeps quiet_keeps quiet_confined : rel.

Lemma anyValid_setSysMemUpToDate l : anyValid (setSysMemUpToDate true l) = true.
Proof. reflexivity. Qed.
Lemma anyValid_setVidMemUpToDate l : anyValid (setVidMemUpToDate true l) = true.
Proof. unfold anyValid; simpl. rewrite orb_true_r. reflexivity. Qed.
Lemma anyValid_setMsaaUpToDate l : anyValid (setMsaaUpToDate true l) = true.
Proof. unfold anyValid; simpl. rewrite orb_true_r. reflexivity. Qed.
Lemma anyValid_setMsaaResolvedUpToDate l : anyValid (setMsaaResolvedUpToDate true l) = true.
Proof. unfold anyValid; simpl. rewrite orb_true_r. reflexivity. Qed.

#[local] Hint Resolve anyValid_setSysMemUpToDate anyValid_setVidMemUpToDate
  anyValid_setMsaaUpToDate anyValid_setMsaaResolvedUpToDate : steps.

Lemma clearUpToDateFlags_confined h i : Steps (confined h i) (clearUpToDateFlags h i).
Proof.
  unfold clearUpToDateFlags.
  repeat (rule Steps_bind; [apply modifyLockData_confined|intros]).
  apply modifyLockData_confined.
Qed.

(** [clearUpToDateFlags] followed by the write of one flag. *)
Lemma clear_set_keeps_end h i f :
  (forall l, anyValid (f l) = true) ->
  Steps keeps (bind (clearUpToDateFlags h i) (fun _ => modifyLockData h i f)).
Proof.
  intros Hf w. apply wp_bind.
  eapply wp_steps; [apply clearUpToDateFlags_confined|]. intros _ w1 Hc.
  apply wp_modifyLockData_entry. intros l w2 _ Hl2 _ Hc2.
  apply (confined_valid_keeps h i); [transitivity w1; assumption|].
  intros _ x Hx. rewrite Hl2 in Hx. injection Hx as <-. apply Hf.
Qed.

Lemma clear_set_keeps {A} h i f (rest : M A) :
  (forall l, anyValid (f l) = true) -> Steps keeps rest ->
  Steps keeps (bind (clearUpToDateFlags h i)
                    (fun _ => bind (modifyLockData h i f) (fun _ => rest))).
Proof.
  intros Hf Hrest w.
  pose proof (clear_set_keeps_end h i f Hf w) as H.
  unfold wp, bind in *.
  destruct (clearUpToDateFlags h i w) as [[] w1| |]; try exact I.
  destruct (modifyLockData h i f w1) as [[] w2| |]; try exact I.
  pose proof (Hrest w2) as H2. unfold wp in H2.
  destruct (rest w2) as [b w3| |]; try exact I.
  transitivity w2; assumption.
Qed.

(** A field of the resource other than its lock data changes. *)
Lemma modifyResource_sameLocks h f :
  (forall r, m_lockData (f r) = m_lockData r) -> Steps sameLocks (modifyResource h f).
Proof.
  intros Hf w. apply wp_modifyResource. intros r Hr. split.
  - intros h' Hs; simpl. destruct (decide (h' = h)) as [->|Hh].
    + rewrite lookup_insert_eq. eauto.
    + rewrite lookup_insert_ne by congruence. exact Hs.
  - intros h' i. unfold entry; simpl.
    destruct (decide (h' = h)) as [->|Hh].
    + rewrite lookup_insert_eq, Hr, Hf. reflexivity.
    + rewrite lookup_insert_ne by congruence. reflexivity.
Qed.

Lemma modifyWorld_sameLocks f :
  (forall w, resources (f w) = resources w) -> Steps sameLocks (modifyWorld f).
Proof.
  intros Hf. apply Steps_modifyWorld. intros w. apply quiet_sameLocks_resources. apply Hf.
Qed.

#[local] Hint Extern 1 (Steps _ (modifyResource _ _)) =>
  apply modifyResource_sameLocks; intros []; reflexivity : steps.
#[local] Hint Extern 1 (Steps _ (modifyWorld _)) =>
  apply modifyWorld_sameLocks; intros []; reflexivity : steps.

Lemma wp_conj {A} (m : M A) (Q1 Q2 : A -> World -> Prop) w :
  wp m Q1 w -> wp m Q2 w -> wp m (fun a w' => Q1 a w' /\ Q2 a w') w.
Proof. unfold wp. destruct (m w); auto. Qed.

(** Clearing flags of an entry that stays valid. *)
Lemma modifyLockData_valid_keeps h i f w :
  (I1 w -> forall l, entry h i w = Some l -> anyValid (f l) = true) ->
  wp (modifyLockData h i f) (fun _ w' => keeps w w') w.
Proof.
  intros Hv. apply wp_modifyLockData_entry. intros l w' Hl Hl' _ Hc.
  apply (confined_valid_keeps h i); [exact Hc|].
  intros HI x Hx. rewrite Hl' in Hx. injection Hx as <-. eauto.
Qed.

(** A new vector of lock entries, all valid. *)
Lemma modifyResource_valid_keeps h f :
  (forall r, Forall (fun l => anyValid l = true) (m_lockData (f r))) ->
  Steps keeps (modifyResource h f).
Proof.
  intros Hf w. apply wp_modifyResource. intros r Hr. split.
  - intros h' Hs; simpl. destruct (decide (h' = h)) as [->|Hh].
    + rewrite lookup_insert_eq. eauto.
    + rewrite lookup_insert_ne by congruence. exact Hs.
  - intros HI h' i l. unfold entry; simpl.
    destruct (decide (h' = h)) as [->|Hh].
    + rewrite lookup_insert_eq. intros Hl.
      exact (proj1 (Forall_lookup _ _) (Hf r) i l Hl).
    + rewrite lookup_insert_ne by congruence. apply (HI h' i l).
Qed.

Ltac ksteps_special :=
  lazymatch goal with
  | |- Steps keeps (bind (clearUpToDateFlags _ _) (fun _ => modifyLockData _ _ _)) =>
    apply clear_set_keeps_end; solve [auto with steps]
  | |- Steps keeps (bind (clearUpToDateFlags _ _) (fun _ => bind (modifyLockData _ _ _) _)) =>
    apply clear_set_keeps; [solve [auto with steps]|]
  end.

Ltac ksteps := steps_with ltac:(idtac; ksteps_special).

Section Invariant.

Variable env : Env.

(** When [loadVidMemResource] returns, video memory is up to date. *)
Lemma loadVidMemResource_vid fuel h i w :
  wp (loadVidMemResource env fuel h i)
     (fun _ w' => exists l, entry h i w' = Some l /\ isVidMemUpToDate l = true) w.
Proof.
  destruct fuel as [|fuel]; [exact I|]. simpl. unfold loadVidMemResource_body.
  apply wp_bind, wp_lockDataAt. intros r l Hr Hl.
  destruct (isVidMemUpToDate l) eqn:Hv.
  - apply wp_ret. exists l. unfold entry. rewrite Hr. auto.
  - apply wp_bind, wp_modifyLockData_entry. intros l0 w1 _ Hl1 _ _.
    pose proof (loadMsaaResolvedResource_body_touch env (loadVidMemResource env fuel) h i
                  (loadVidMemResource_touch env fuel h i)) as Hres.
    eapply (wp_steps (touch h i)); [steps|].
    intros _ w' T.
    destruct (touchG_entry grows h i w1 w' _ T Hl1) as (l' & Hl' & _ & _ & _ & V & _).
    exists l'. split; [exact Hl'|]. apply V. reflexivity.
Qed.

Lemma prepareForBltDstAt_keeps fuel h res i r :
  Steps keeps (prepareForBltDstAt env fuel h res i r).
Proof. unfold prepareForBltDstAt. ksteps. Qed.

Lemma prepareForBltDst_keeps fuel h d : Steps keeps (prepareForBltDst env fuel h d).
Proof. pose proof prepareForBltDstAt_keeps. unfold prepareForBltDst. ksteps. Qed.

Lemma prepareForCpuWrite_keeps fuel h i : Steps keeps (prepareForCpuWrite env fuel h i).
Proof. unfold prepareForCpuWrite. ksteps. Qed.

Lemma prepareForGpuWrite_keeps fuel h i : Steps keeps (prepareForGpuWrite env fuel h i).
Proof. unfold prepareForGpuWrite. ksteps. Qed.

Hint Resolve prepareForBltDstAt_keeps prepareForBltDst_keeps prepareForCpuWrite_keeps
  prepareForGpuWrite_keeps : steps.

Lemma bltLock_keeps fuel h d : Steps keeps (bltLock env fuel h d).
Proof. unfold bltLock. ksteps. Qed.

Lemma baseValid_clears (l : LockData) :
  isSysMemUpToDate l || isVidMemUpToDate l = true ->
  anyValid (setMsaaUpToDate false l) = true /\
  anyValid (setMsaaResolvedUpToDate false (setMsaaUpToDate false l)) = true /\
  anyValid (setRefLocked false (setMsaaResolvedUpToDate false (setMsaaUpToDate false l))) = true.
Proof.
  unfold anyValid; simpl. intros H. rewrite H. auto.
Qed.

(** The driver-lock path of a depth buffer: video memory is loaded
    before the multisample flags are cleared. *)
Lemma lock_flush_keeps fuel h b :
  Steps keeps
    (bind (loadVidMemResource env fuel h 0)
          (fun _ => when b (bind (modifyLockData h 0 (setMsaaUpToDate false))
                                 (fun _ => modifyLockData h 0 (setMsaaResolvedUpToDate false))))).
Proof.
  intros w. apply wp_bind.
  eapply wp_mono;
    [apply (wp_conj _ _ _ _ (loadVidMemResource_touch env fuel h 0%nat w)
                            (loadVidMemResource_vid fuel h 0%nat w))|].
  intros _ w1 (T & l1 & Hl1 & Hv). simpl in T.
  destruct b; simpl; [|apply wp_ret; eapply touch_keeps; eauto].
  assert (Hb : isSysMemUpToDate l1 || isVidMemUpToDate l1 = true)
    by (rewrite Hv; apply orb_true_r).
  destruct (baseValid_clears l1 Hb) as (V1 & V2 & _).
  apply wp_bind, wp_modifyLockData_entry. intros x w2 Hx Hx2 _ C2.
  rewrite Hl1 in Hx. injection Hx as <-.
  apply wp_modifyLockData_entry. intros y w3 Hy Hy3 _ C3.
  rewrite Hx2 in Hy. injection Hy as <-.
  transitivity w1; [eapply touch_keeps; eauto|].
  apply (confined_valid_keeps h 0%nat); [transitivity w2; assumption|].
  intros _ z Hz. rewrite Hy3 in Hz. injection Hz as <-. exact V2.
Qed.

Lemma lock_keeps fuel h d : Steps keeps (lock env fuel h d).
Proof.
  pose proof bltLock_keeps. unfold lock.
  steps_with ltac:(idtac; lazymatch goal with
                   | |- Steps keeps (bind (loadVidMemResource _ _ _ _) _) => apply lock_flush_keeps
                   end).
Qed.

Lemma unlock_quiet h d : Steps quiet (unlock env h d).
Proof. unfold unlock. steps. Qed.

Hint Resolve bltLock_keeps lock_keeps unlock_quiet : steps.

Lemma bltViaCpu_keeps fuel h d src : Steps keeps (bltViaCpu env fuel h d src).
Proof. unfold bltViaCpu. ksteps. Qed.

Lemma bltViaGpu_keeps fuel h d src : Steps keeps (bltViaGpu env fuel h d src).
Proof. unfold bltViaGpu. ksteps. Qed.

(** The presentation blit drops the video-memory copies of a source whose
    system-memory copy is valid. *)
Lemma presentation_drop_keeps {A} h i c (rest : M A) :
  Steps keeps rest ->
  Steps keeps
    (bind (lockDataAt h i)
          (fun l => bind (when (isSysMemUpToDate l && c)
                            (bind (modifyLockData h i (setVidMemUpToDate false))
                                  (fun _ => modifyLockData h i (setMsaaResolvedUpToDate false))))
                         (fun _ => rest))).
Proof.
  intros Hrest w. apply wp_bind, wp_lockDataAt. intros r l Hr Hl.
  assert (He : entry h i w = Some l) by (unfold entry; rewrite Hr; exact Hl).
  apply wp_bind.
  destruct (isSysMemUpToDate l && c) eqn:Hc; simpl.
  - apply andb_true_iff in Hc. destruct Hc as (Hs & _).
    apply wp_bind, wp_modifyLockData_entry. intros x w2 Hx Hx2 _ C2.
    rewrite He in Hx. injection Hx as <-.
    apply wp_modifyLockData_entry. intros y w3 Hy Hy3 _ C3.
    rewrite Hx2 in Hy. injection Hy as <-.
    eapply wp_mono; [apply Hrest|]. intros b w4 K. simpl in K.
    transitivity w3; [|exact K].
    apply (confined_valid_keeps h i); [transitivity w2; assumption|].
    intros _ z Hz. rewrite Hy3 in Hz. injection Hz as <-.
    unfold anyValid; simpl. rewrite Hs. reflexivity.
  - apply wp_ret. eapply wp_mono; [apply Hrest|]. intros b w4 K. exact K.
Qed.

Hint Resolve bltViaCpu_keeps bltViaGpu_keeps : steps.

Lemma presentationBlt_keeps fuel h d src : Steps keeps (presentationBlt env fuel h d src).
Proof.
  unfold presentationBlt.
  rule Steps_bind; [steps|intros s].
  rule Steps_bind; [|intros; ksteps].
  destruct (hasLockResource s); [|steps].
  apply presentation_drop_keeps. steps.
Qed.

Hint Resolve presentationBlt_keeps : steps.

Lemma blt_keeps fuel h d : Steps keeps (blt env fuel h d).
Proof. unfold blt. ksteps. Qed.

Lemma colorFill_keeps fuel h d : Steps keeps (colorFill env fuel h d).
Proof. unfold colorFill. ksteps. Qed.

(** One round of the loop of [updateConfig]: video memory is loaded
    from the multisample surfaces before their flags are cleared. *)
Lemma updateConfigFlush_round {A} fuel h i (rest : M A) :
  Steps keeps rest ->
  Steps keeps
    (bind (lockDataAt h i)
       (fun l =>
          bind (when (isMsaaUpToDate l || isMsaaResolvedUpToDate l)
                  (loadVidMemResource env fuel h i))
            (fun _ =>
               bind (modifyLockData h i (setMsaaUpToDate false))
                 (fun _ =>
                    bind (modifyLockData h i (setMsaaResolvedUpToDate false))
                      (fun _ => bind (modifyLockData h i (setRefLocked false))
                                     (fun _ => rest)))))).
Proof.
  intros Hrest w. apply wp_bind, wp_lockDataAt. intros r l Hr Hl.
  assert (He : entry h i w = Some l) by (unfold entry; rewrite Hr; exact Hl).
  apply wp_bind.
  assert (Hload : wp (when (isMsaaUpToDate l || isMsaaResolvedUpToDate l)
                        (loadVidMemResource env fuel h i))
                     (fun _ w1 => keeps w w1 /\
                        exists l1, entry h i w1 = Some l1 /\
                          (I1 w -> isSysMemUpToDate l1 || isVidMemUpToDate l1 = true)) w).
  { destruct (isMsaaUpToDate l || isMsaaResolvedUpToDate l) eqn:Hm; simpl.
    - eapply wp_mono;
        [apply (wp_conj _ _ _ _ (loadVidMemResource_touch env fuel h i w)
                                (loadVidMemResource_vid fuel h i w))|].
      intros _ w1 (T & l1 & Hl1 & Hv). simpl in T.
      split; [eapply touch_keeps; eauto|].
      exists l1. split; [exact Hl1|]. intros _. rewrite Hv. apply orb_true_r.
    - apply wp_ret. split; [reflexivity|]. exists l. split; [exact He|].
      intros HI. pose proof (HI h i l He) as Hv. unfold anyValid in Hv.
      apply orb_false_iff in Hm. destruct Hm as (Hm1 & Hm2).
      rewrite Hm1, Hm2, !orb_false_r in Hv. exact Hv. }
  eapply wp_mono; [exact Hload|]. intros _ w1 (K1 & l1 & Hl1 & Hb).
  apply wp_bind, wp_modifyLockData_entry. intros x w2 Hx Hx2 _ C2.
  rewrite Hl1 in Hx. injection Hx as <-.
  apply wp_bind, wp_modifyLockData_entry. intros y w3 Hy Hy3 _ C3.
  rewrite Hx2 in Hy. injection Hy as <-.
  apply wp_bind, wp_modifyLockData_entry. intros z w4 Hz Hz4 _ C4.
  rewrite Hy3 in Hz. injection Hz as <-.
  eapply wp_mono; [apply Hrest|]. intros b w5 K5. simpl in K5.
  transitivity w4; [|exact K5].
  assert (C14 : confined h i w1 w4) by (transitivity w2; [|transitivity w3]; assumption).
  split.
  - intros h' Hs. eapply confined_alive; [exact C14|]. apply K1. exact Hs.
  - intros HI. destruct K1 as (_ & K1). specialize (K1 HI).
    assert (K14 : keeps w1 w4).
    { apply (confined_valid_keeps h i); [exact C14|].
      intros _ v Hv. rewrite Hz4 in Hv. injection Hv as <-.
      apply (baseValid_clears l1 (Hb HI)). }
    apply K14. exact K1.
Qed.

Lemma updateConfigFlush_keeps fuel h count : forall i,
  Steps keeps (updateConfigFlush env fuel h i count).
Proof.
  induction count as [|count IH]; intros i; simpl.
  - rule Steps_ret.
  - apply updateConfigFlush_round. apply IH.
Qed.

Hint Resolve updateConfigFlush_keeps : steps.

Lemma updateConfig_keeps fuel h : Steps keeps (updateConfig env fuel h).
Proof. unfold updateConfig. ksteps. Qed.

Lemma setAsPrimary_keeps fuel h : Steps keeps (setAsPrimary env fuel h).
Proof. pose proof updateConfig_keeps. unfold setAsPrimary. ksteps. Qed.

(** *** Construction establishes I1 *)

Lemma length_resize n l : length (resize n l) = n.
Proof.
  unfold resize. rewrite length_app, length_take, length_replicate. lia.
Qed.

Lemma depthLockData_valid r : Forall (fun l => anyValid l = true) (depthLockData r).
Proof. unfold depthLockData. apply Forall_map, Forall_forall. intros l _. reflexivity. Qed.

Lemma callerLockData_valid r : Forall (fun l => anyValid l = true) (callerLockData r).
Proof.
  unfold callerLockData. apply Forall_lookup. intros i l Hl.
  rewrite list_lookup_imap in Hl.
  destruct (resize (SurfCount (m_origData r)) (m_lockData r) !! i) as [x|] eqn:Hx;
    [|discriminate]. simpl in Hl. injection Hl as <-.
  apply lookup_lt_Some in Hx. rewrite length_resize in Hx. unfold SurfCount in Hx.
  destruct (surfaceData (m_origData r) !! i) as [si|] eqn:Hs; [reflexivity|].
  apply lookup_ge_None in Hs. lia.
Qed.

Lemma sysMemLockData_valid surfaceInfo r :
  Forall (fun l => anyValid l = true) (sysMemLockData surfaceInfo r).
Proof.
  unfold sysMemLockData. apply Forall_lookup. intros i l Hl.
  rewrite list_lookup_imap in Hl.
  destruct (resize (length surfaceInfo) (m_lockData r) !! i) as [x|] eqn:Hx;
    [|discriminate]. simpl in Hl. injection Hl as <-.
  apply lookup_lt_Some in Hx. rewrite length_resize in Hx.
  destruct (surfaceInfo !! i) as [si|] eqn:Hs; [reflexivity|].
  apply lookup_ge_None in Hs. lia.
Qed.

Lemma createSysMemResource_keeps h surfaceInfo :
  Steps keeps (createSysMemResource env h surfaceInfo).
Proof.
  unfold createSysMemResource.
  steps_with ltac:(idtac; lazymatch goal with
                   | |- Steps keeps (modifyResource _ (fun r => set_m_lockData _ r)) =>
                     apply modifyResource_valid_keeps; intros r; rewrite m_lockData_set;
                     apply sysMemLockData_valid
                   end).
Qed.

Hint Resolve createSysMemResource_keeps : steps.

Lemma createLockResource_keeps h : Steps keeps (createLockResource env h).
Proof.
  unfold createLockResource.
  steps_with ltac:(idtac; lazymatch goal with
                   | |- Steps keeps (modifyResource _ (set_m_lockData [])) =>
                     apply modifyResource_valid_keeps; intros r; rewrite m_lockData_set;
                     apply Forall_nil_2
                   end).
Qed.

Lemma setFullscreenMode_sameLocks me b : Steps sameLocks (setFullscreenMode env me b).
Proof. unfold setFullscreenMode, calculatePresentationRect. steps. Qed.

Lemma fixResourceData_total me w :
  exists me', fixResourceData env me w = Ok me' w /\
              m_lockData me' = m_lockData me /\ m_origData me' = m_origData me.
Proof.
  unfold fixResourceData, bind, now, getWorld, ret.
  repeat match goal with
         | |- context [match ?x with _ => _ end] => destruct x
         end;
    (eexists; split; [reflexivity|]); destruct me; split; reflexivity.
Qed.

(** Entering a resource without lock entries into the table. *)
Lemma insertResource_keeps h r w :
  m_lockData r = [] -> keeps w (set_resources (<[h := r]> (resources w)) w).
Proof.
  intros Hr. split.
  - intros h' Hs; simpl. destruct (decide (h' = h)) as [->|Hh].
    + rewrite lookup_insert_eq. eauto.
    + rewrite lookup_insert_ne by congruence. exact Hs.
  - intros HI h' i l. unfold entry; simpl.
    destruct (decide (h' = h)) as [->|Hh].
    + rewrite lookup_insert_eq, Hr. discriminate.
    + rewrite lookup_insert_ne by congruence. apply (HI h' i l).
Qed.

Hint Resolve createLockResource_keeps setFullscreenMode_sameLocks updateConfig_keeps : steps.

Lemma Resource_new_keeps fuel d : Steps keeps (Resource_new env fuel d).
Proof.
  intros w. unfold Resource_new.
  apply wp_bind, wp_now. cbv zeta.
  set (me0 := initialResource d _).
  destruct (VertexBuffer _ && MightDrawFromLocked _ && negb _); [apply wp_ret; reflexivity|].
  apply wp_bind. eapply (wp_steps keeps); [steps|]. intros _ w1 K1.
  destruct (fixResourceData_total me0 w1) as (me1 & E1 & L1 & _).
  apply wp_bind. unfold wp at 1. rewrite E1.
  apply wp_bind, wp_deref. intros si0 _.
  apply wp_bind. eapply (wp_steps keeps); [steps|]. intros [result fixedData] w2 K2.
  destruct (FAILED result); [apply wp_ret; transitivity w1; assumption|].
  apply wp_bind, wp_modifyWorld.
  match goal with |- wp _ _ (set_resources (<[?h := ?r]> _) _) =>
    pose proof (insertResource_keeps h r w2 ltac:(destruct me1; exact L1)) as K3 end.
  eapply (wp_steps keeps).
  - steps_with ltac:(idtac; lazymatch goal with
                     | |- Steps keeps (modifyResource _ (fun r => set_m_lockData (depthLockData r) r)) =>
                       apply modifyResource_valid_keeps; intros r; rewrite m_lockData_set;
                       apply depthLockData_valid
                     | |- Steps keeps (modifyResource _ (fun r => set_m_lockData (callerLockData r) r)) =>
                       apply modifyResource_valid_keeps; intros r; rewrite m_lockData_set;
                       apply callerLockData_valid
                     end).
  - intros c w4 K4. transitivity w1; [exact K1|]. transitivity w2; [exact K2|].
    etransitivity; [exact K3|exact K4].
Qed.

End Invariant.

Ltac lockInit_special :=
  lazymatch goal with
  | |- Steps keeps (modifyResource _ (fun r => set_m_lockData (depthLockData r) r)) =>
    apply modifyResource_valid_keeps; intros r; rewrite m_lockData_set;
    apply depthLockData_valid
  | |- Steps keeps (modifyResource _ (fun r => set_m_lockData (callerLockData r) r)) =>
    apply modifyResource_valid_keeps; intros r; rewrite m_lockData_set;
    apply callerLockData_valid
  end.

(** ** The trace only grows *)

(** [extends]: every call recorded before is still there, followed by
    the calls made since. *)
Definition extends (w w' : World) : Prop := exists new, trace w' = new ++ trace w.

#[local] Instance extends_preorder : PreOrder extends.
Proof.
  split.
  - intros w. exists []. reflexivity.
  - intros a b c (n1 & T1) (n2 & T2). exists (n2 ++ n1).
    rewrite T2, T1, app_assoc. reflexivity.
Qed.

Lemma emit_extends e : Steps extends (emit e).
Proof. intros w. apply wp_emit. exists [e]. reflexivity. Qed.

Lemma modifyWorld_extends f :
  (forall w, trace (f w) = trace w) -> Steps extends (modifyWorld f).
Proof. intros Hf. apply Steps_modifyWorld. intros w. exists []. apply Hf. Qed.

Lemma modifyResource_extends h f : Steps extends (modifyResource h f).
Proof. intros w. apply wp_modifyResource. intros r Hr. exists []. reflexivity. Qed.

Lemma modifyLockData_extends h i f : Steps extends (modifyLockData h i f).
Proof. intros w. apply wp_modifyLockData. intros r l Hr Hl. exists []. reflexivity. Qed.

Create HintDb ext discriminated.

#[local] Hint Resolve emit_extends modifyResource_extends modifyLockData_extends : ext.
#[local] Hint Extern 1 (Steps extends (modifyWorld _)) =>
  apply modifyWorld_extends; intros []; reflexivity : ext.

Ltac esteps := steps_with ltac:(idtac; solve [auto with ext]).

Section Extends.

Variable env : Env.

Lemma pfnBlt_extends d : Steps extends (pfnBlt env d).
Proof. unfold pfnBlt. esteps. Qed.

Lemma pfnLock_extends d : Steps extends (pfnLock env d).
Proof. unfold pfnLock. esteps. Qed.

Lemma pfnUnlock_extends d : Steps extends (pfnUnlock env d).
Proof. unfold pfnUnlock. esteps. Qed.

Lemma repoCall_extends c : Steps extends (repoCall env c).
Proof. unfold repoCall. esteps. Qed.

Lemma textureBlt_extends dst di dr src si sr lin :
  Steps extends (textureBlt dst di dr src si sr lin).
Proof. unfold textureBlt. esteps. Qed.

Lemma setBltSrc_extends d : Steps extends (setBltSrc env d).
Proof. unfold setBltSrc. esteps. Qed.

Lemma logOnce_extends logged setLogged m :
  (forall b w, trace (setLogged b w) = trace w) ->
  Steps extends (logOnce logged setLogged m).
Proof. intros H. unfold logOnce. esteps. apply modifyWorld_extends. auto. Qed.

Lemma logUnsupportedMsaaDepthBufferResolve_extends :
  Steps extends logUnsupportedMsaaDepthBufferResolve.
Proof. apply logOnce_extends. reflexivity. Qed.

Hint Resolve pfnBlt_extends pfnLock_extends pfnUnlock_extends repoCall_extends
  textureBlt_extends setBltSrc_extends logUnsupportedMsaaDepthBufferResolve_extends : ext.

Lemma getRect_extends h i : Steps extends (getRect h i).
Proof. unfold getRect. esteps. Qed.

Lemma copySubResourceRegion_extends dst di dr src si sr :
  Steps extends (copySubResourceRegion env dst di dr src si sr).
Proof. unfold copySubResourceRegion. esteps. apply logOnce_extends. reflexivity. Qed.

Hint Resolve getRect_extends copySubResourceRegion_extends : ext.

Lemma copySubResource_extends dst src i : Steps extends (copySubResource env dst src i).
Proof. unfold copySubResource. esteps. Qed.

Lemma copySubResourceH_extends this dst src i :
  Steps extends (copySubResourceH env this dst src i).
Proof. unfold copySubResourceH. esteps. Qed.

Lemma notifyLock_extends h i : Steps extends (notifyLock env h i).
Proof. unfold notifyLock. esteps. Qed.

Lemma getNextRenderTarget_extends this rt w h :
  Steps extends (getNextRenderTarget env this rt w h).
Proof. unfold getNextRenderTarget. esteps. Qed.

Lemma resolveMsaaDepthBuffer_extends h : Steps extends (resolveMsaaDepthBuffer h).
Proof. unfold resolveMsaaDepthBuffer. esteps. Qed.

Hint Resolve copySubResource_extends copySubResourceH_extends notifyLock_extends
  getNextRenderTarget_extends resolveMsaaDepthBuffer_extends : ext.

Lemma downscale_extends fuel : forall this rt sw sh dw dh dryRun,
  Steps extends (downscale env fuel this rt sw sh dw dh dryRun).
Proof. induction fuel as [|fuel IH]; intros; simpl; esteps. Qed.

Lemma shaderBlt_extends this d dst src : Steps extends (shaderBlt env this d dst src).
Proof. unfold shaderBlt. esteps. Qed.

Hint Resolve downscale_extends shaderBlt_extends : ext.

Lemma loadFromLockRefResource_body_extends rec h i :
  Steps extends (rec h i) ->
  Steps extends (loadFromLockRefResource_body env rec h i).
Proof. intros Hrec. unfold loadFromLockRefResource_body. esteps. Qed.

Lemma loadMsaaResolvedResource_body_extends rec h i :
  Steps extends (rec h i) ->
  Steps extends (loadMsaaResolvedResource_body env rec h i).
Proof.
  intros Hrec. pose proof (loadFromLockRefResource_body_extends rec h i Hrec).
  unfold loadMsaaResolvedResource_body. esteps.
Qed.

Lemma loadVidMemResource_body_extends rec fuel h i :
  Steps extends (rec h i) ->
  Steps extends (loadVidMemResource_body env rec fuel h i).
Proof.
  intros Hrec. pose proof (loadMsaaResolvedResource_body_extends rec h i Hrec).
  unfold loadVidMemResource_body. esteps.
Qed.

Lemma loadVidMemResource_extends fuel : forall h i,
  Steps extends (loadVidMemResource env fuel h i).
Proof.
  induction fuel as [|fuel IH]; intros h i; simpl.
  - apply Steps_outOfFuel.
  - apply loadVidMemResource_body_extends. apply IH.
Qed.

Lemma loadMsaaResolvedResource_extends fuel h i :
  Steps extends (loadMsaaResolvedResource env fuel h i).
Proof. apply loadMsaaResolvedResource_body_extends, loadVidMemResource_extends. Qed.

Lemma loadFromLockRefResource_extends fuel h i :
  Steps extends (loadFromLockRefResource env fuel h i).
Proof. apply loadFromLockRefResource_body_extends, loadVidMemResource_extends. Qed.

Hint Resolve loadVidMemResource_extends loadMsaaResolvedResource_extends
  loadFromLockRefResource_extends : ext.

Lemma loadSysMemResource_extends fuel h i : Steps extends (loadSysMemResource env fuel h i).
Proof. unfold loadSysMemResource. esteps. Qed.

Lemma clearUpToDateFlags_extends h i : Steps extends (clearUpToDateFlags h i).
Proof. unfold clearUpToDateFlags. esteps. Qed.

Hint Resolve loadSysMemResource_extends clearUpToDateFlags_extends : ext.

Lemma prepareForCpuRead_extends fuel h i : Steps extends (prepareForCpuRead env fuel h i).
Proof. unfold prepareForCpuRead. esteps. Qed.

Lemma prepareForCpuWrite_extends fuel h i : Steps extends (prepareForCpuWrite env fuel h i).
Proof. unfold prepareForCpuWrite. esteps. Qed.

Hint Resolve prepareForCpuRead_extends prepareForCpuWrite_extends : ext.

Lemma bltLock_extends fuel h d : Steps extends (bltLock env fuel h d).
Proof. unfold bltLock. esteps. Qed.

Hint Resolve bltLock_extends : ext.

Lemma lock_extends fuel h d : Steps extends (lock env fuel h d).
Proof. unfold lock. esteps. Qed.

Lemma unlock_extends h d : Steps extends (unlock env h d).
Proof. unfold unlock. esteps. Qed.

Lemma getMultisampleConfig_extends this : Steps extends (getMultisampleConfig env this).
Proof. unfold getMultisampleConfig. esteps. Qed.

Lemma getFormatConfig_extends this : Steps extends (getFormatConfig env this).
Proof. unfold getFormatConfig. esteps. Qed.

Lemma getScaledSize_extends this : Steps extends (getScaledSize env this).
Proof. unfold getScaledSize. esteps. Qed.

End Extends.

#[local] Hint Resolve pfnBlt_extends pfnLock_extends pfnUnlock_extends repoCall_extends
  textureBlt_extends setBltSrc_extends logUnsupportedMsaaDepthBufferResolve_extends
  getRect_extends copySubResourceRegion_extends copySubResource_extends
  copySubResourceH_extends notifyLock_extends getNextRenderTarget_extends
  resolveMsaaDepthBuffer_extends downscale_extends shaderBlt_extends
  loadVidMemResource_extends loadMsaaResolvedResource_extends loadFromLockRefResource_extends
  loadSysMemResource_extends clearUpToDateFlags_extends prepareForCpuRead_extends
  prepareForCpuWrite_extends bltLock_extends lock_extends unlock_extends
  getMultisampleConfig_extends getFormatConfig_extends getScaledSize_extends : ext.

(** * The claims *)

(** ** Concrete collaborators and resources for the examples *)

(** A device with 8192x8192 textures and no depth resolve, a 1024x768
    primary surface on a 1920x1080 monitor, and a driver that accepts every
    call but, perhaps, the creation of a resource. What the surface
    repository hands out, what the driver answers to a creation, and the
    pending DirectDraw blit source are given. *)
Definition device (repo : nat -> RepoCall -> Surface)
    (create : nat -> Data -> HRESULT * HANDLE)
    (bltSrc : nat -> option (HANDLE * nat * RECT)) : Env := {|
  isMsaaDepthResolveSupported := false;
  dwMaxTextureWidth := 8192;
  dwMaxTextureHeight := 8192;
  formatOp_SRGBWRITE := fun _ => false;
  getFormatInfo_bytesPerPixel := fun f => if f =? D3DDDIFMT_P8 then 1 else 4;
  convertFrom32Bit := fun _ c => c;
  rect_transform := fun r _ _ => r;
  adapter_getMultisampleConfig := fun _ _ => (D3DDDIMULTISAMPLE_NONE, 0);
  adapter_getScaledSize := fun _ s => s;
  cfg_renderColorDepth := fun _ => 0;
  cfg_resolutionScaleFilterIsPoint := fun _ => true;
  cfg_bltFilterIsBilinear := fun _ => false;
  cfg_displayFilterIsBilinear := fun _ => false;
  ddraw_bltSrc := bltSrc;
  primary_monitorRect := fun _ => mkRECT 0 0 1024 768;
  realPrimary_monitorRect := fun _ => mkRECT 0 0 1920 1080;
  virtualScreen_surfaceDesc := fun _ _ => None;
  repo_inCreateSurface := fun _ => false;
  repo_answer := repo;
  repo_hasGammaRampTexture := fun _ => false;
  shader_isGammaRampDefault := fun _ => true;
  cursor_isEmulated := fun _ => false;
  window_visibleLayeredWindows := fun _ => [];
  heap_alloc := fun _ _ => 65536;
  surface_alignBuffer := fun p => p;
  surface_ALIGNMENT := 32;
  drv_createResource := create;
  drv_blt := fun _ _ => S_OK;
  drv_lock := fun _ _ => (S_OK, (4096, 64));
  drv_unlock := fun _ _ => S_OK;
  drv_colorFill := fun _ _ => S_OK
|}.

(** The repository has no surface to give; the driver creates every resource. *)
Definition env0 : Env :=
  device (fun _ _ => noSurface) (fun t _ => (S_OK, 100 + Z.of_nat t)) (fun _ => None).

(** The repository grants every request with resource 9. *)
Definition envGranting : Env :=
  device (fun _ _ => mkSurface (Some 9) 0 0) (fun t _ => (S_OK, 100 + Z.of_nat t)) (fun _ => None).

(** The driver is out of memory. *)
Definition envFailing : Env :=
  device (fun _ _ => noSurface) (fun _ _ => (E_OUTOFMEMORY, 0)) (fun _ => None).

(** A DirectDraw blit from resource 7 is pending. *)
Definition envPending : Env :=
  device (fun _ _ => noSurface) (fun t _ => (S_OK, 100 + Z.of_nat t))
         (fun _ => Some (7, 0%nat, mkRECT 0 0 64 64)).

Definition withFlags (f : D3DDDI_RESOURCEFLAGS) (r : Resource) : Resource :=
  set_m_fixedData (setFlags f (m_fixedData r))
    (mkResource (m_handle r) (setFlags f (m_origData r)) (m_fixedData r)
       (m_formatInfo_bytesPerPixel r) (m_lockBuffer r) (m_lockResource r) (m_lockData r)
       (m_lockRefSurface r) (m_msaaSurface r) (m_msaaResolvedSurface r) (m_nullSurface r)
       (m_formatConfig r) (m_multiSampleConfig r) (m_scaledSize r) (m_isOversized r)
       (m_isSurfaceRepoResource r) (m_isClampable r) (m_isPrimary r)
       (m_isPalettizedTextureUpToDate r)).

(** A 64x64 resource with one subresource and the given lock entry. *)
Definition plainResource (h : HANDLE) (fmt : D3DDDIFORMAT) (bpp : Z) (pool : D3DDDI_POOL)
    (lockResource : option HANDLE) (l : LockData) : Resource :=
  let d := mkData fmt pool D3DDDIMULTISAMPLE_NONE 0 [mkSurfaceInfo 64 64 0 0 0] noFlags h in
  mkResource h d d bpp None lockResource [l] noSurface noSurface noSurface noSurface
             fmt (D3DDDIMULTISAMPLE_NONE, 0) (64, 64) false false true false false.

Definition zbufferFlags : D3DDDI_RESOURCEFLAGS :=
  mkFlags false true false false false false false false false false
          false false false false false false false false false false.

(** A multisampled depth buffer in video memory as the constructor leaves
    it: no lock resource, multisample surface 2, resolved surface 3. *)
Definition depthResource (h : HANDLE) (l : LockData) : Resource :=
  set_m_msaaResolvedSurface (mkSurface (Some 3) 64 64)
    (set_m_msaaSurface (mkSurface (Some 2) 64 64)
       (withFlags zbufferFlags (plainResource h 80 2 D3DDDIPOOL_VIDEOMEMORY None l))).

Definition worldOf (rs : list (HANDLE * Resource)) : World :=
  mkWorld (list_to_map rs) emptyRECT D3DDDIFMT_UNKNOWN (D3DDDIMULTISAMPLE_NONE, 0) false false [].

(** The four validity flags of an entry, in the order system memory,
    video memory, multisample, resolved. *)
Definition flagsOf (l : LockData) : bool * bool * bool * bool :=
  (isSysMemUpToDate l, isVidMemUpToDate l, isMsaaUpToDate l, isMsaaResolvedUpToDate l).

(** ** Runs computed exactly *)

Lemma run_bind {A B} (m : M A) (k : A -> M B) w a w1 :
  m w = Ok a w1 -> bind m k w = k a w1.
Proof. unfold bind. intros ->. reflexivity. Qed.

Lemma run_getResource h w r : resources w !! h = Some r -> getResource h w = Ok r w.
Proof. unfold getResource, bind, getWorld, deref. intros ->. reflexivity. Qed.

Lemma run_lockDataAt h i w r l :
  resources w !! h = Some r -> m_lockData r !! i = Some l -> lockDataAt h i w = Ok l w.
Proof.
  intros Hr Hl. unfold lockDataAt. rewrite (run_bind _ _ _ _ _ (run_getResource _ _ _ Hr)).
  unfold deref. rewrite Hl. reflexivity.
Qed.

Lemma run_modifyResource h f w r :
  resources w !! h = Some r ->
  modifyResource h f w = Ok tt (set_resources (<[h := f r]> (resources w)) w).
Proof.
  intros Hr. unfold modifyResource. rewrite (run_bind _ _ _ _ _ (run_getResource _ _ _ Hr)).
  reflexivity.
Qed.

Lemma run_modifyLockData h i f w r l :
  resources w !! h = Some r -> m_lockData r !! i = Some l ->
  modifyLockData h i f w = Ok tt (withLockData h i (f l) r w).
Proof.
  intros Hr Hl. unfold modifyLockData.
  rewrite (run_bind _ _ _ _ _ (run_lockDataAt _ _ _ _ _ Hr Hl)).
  rewrite (run_modifyResource _ _ _ _ Hr). reflexivity.
Qed.

Lemma run_fixedSurfaceAt h i w r si :
  resources w !! h = Some r -> surfaceData (m_fixedData r) !! i = Some si ->
  fixedSurfaceAt h i w = Ok si w.
Proof.
  intros Hr Hs. unfold fixedSurfaceAt. rewrite (run_bind _ _ _ _ _ (run_getResource _ _ _ Hr)).
  unfold deref. rewrite Hs. reflexivity.
Qed.

Lemma bind_assoc {A B C} (m : M A) (k1 : A -> M B) (k2 : B -> M C) w :
  bind (bind m k1) k2 w = bind m (fun a => bind (k1 a) k2) w.
Proof. unfold bind. destruct (m w); reflexivity. Qed.

Lemma entry_lookup h i w r l :
  resources w !! h = Some r -> m_lockData r !! i = Some l -> entry h i w = Some l.
Proof. unfold entry. intros -> Hl. exact Hl. Qed.

(** ** C10: a lock on a multisampled resource *)

(** C10. [lock] on a resource whose fixed creation data has a multisample
    type other than NONE returns E_FAIL; the state (lock data, validity
    flags, trace of driver calls) and the lock argument are unchanged. *)
Theorem lock_multisampled_fails (env : Env) (fuel : nat) (this : HANDLE)
    (d : D3DDDIARG_LOCK) (w : World) (r : Resource) :
  resources w !! this = Some r ->
  MultisampleType (m_fixedData r) <> D3DDDIMULTISAMPLE_NONE ->
  lock env fuel this d w = Ok (E_FAIL, d) w.
Proof.
  intros Hr Hm. unfold lock. rewrite (run_bind _ _ _ _ _ (run_getResource _ _ _ Hr)).
  destruct (MultisampleType (m_fixedData r) =? D3DDDIMULTISAMPLE_NONE) eqn:E.
  - apply Z.eqb_eq in E. contradiction.
  - reflexivity.
Qed.

Definition multisampledWorld : World :=
  worldOf [(1, set_m_fixedData
                 (setMultisample 4 0 (m_fixedData
                    (plainResource 1 D3DDDIFMT_X8R8G8B8 4 D3DDDIPOOL_VIDEOMEMORY None newLockData)))
                 (plainResource 1 D3DDDIFMT_X8R8G8B8 4 D3DDDIPOOL_VIDEOMEMORY None newLockData))].

Lemma lock_multisampled_fails_witness :
  lock env0 3 1 emptyLock multisampledWorld = Ok (E_FAIL, emptyLock) multisampledWorld.
Proof.
  eapply (lock_multisampled_fails env0 3 1 emptyLock multisampledWorld).
  - reflexivity.
  - simpl. discriminate.
Defined.

(** ** C5: loading video memory twice *)

Lemma loadVidMemResource_valid (env : Env) (fuel : nat) (h : HANDLE) (i : nat) (w : World)
    (l : LockData) :
  entry h i w = Some l -> isVidMemUpToDate l = true ->
  loadVidMemResource env (S fuel) h i w = Ok tt w.
Proof.
  unfold entry. intros He Hv. destruct (resources w !! h) as [r|] eqn:Hr; [|discriminate].
  simpl. unfold loadVidMemResource_body.
  rewrite (run_bind _ _ _ _ _ (run_lockDataAt _ _ _ _ _ Hr He)). rewrite Hv. reflexivity.
Qed.

(** C5. [loadVidMemResource] is idempotent. When the video-memory flag of
    the subresource is set, the call returns at once and leaves the state,
    and with it the trace of copies, as it was. And after any call that
    returned, a second call returns at once with the state unchanged: the
    copy is performed at most once. *)
Theorem loadVidMemResource_idempotent (env : Env) (fuel fuel' : nat) (this : HANDLE)
    (i : nat) (w : World) :
  (forall l, entry this i w = Some l -> isVidMemUpToDate l = true ->
             loadVidMemResource env (S fuel) this i w = Ok tt w) /\
  (forall w1, loadVidMemResource env fuel this i w = Ok tt w1 ->
              loadVidMemResource env (S fuel') this i w1 = Ok tt w1).
Proof.
  split.
  - intros l. apply loadVidMemResource_valid.
  - intros w1 E.
    destruct (wp_ok _ _ _ _ _ (loadVidMemResource_vid env fuel this i w) E) as (l & Hl & Hv).
    exact (loadVidMemResource_valid env fuel' this i w1 l Hl Hv).
Qed.

(** A video-memory surface with a system-memory lock resource 5 that
    holds the only valid copy. *)
Definition staleVidMemWorld : World :=
  worldOf [(1, plainResource 1 D3DDDIFMT_X8R8G8B8 4 D3DDDIPOOL_VIDEOMEMORY (Some 5)
                 (setSysMemUpToDate true newLockData))].

(** The driver blits of a run. *)
Definition copies (w : World) : nat :=
  length (List.filter (fun e => match e with EvBlt _ => true | _ => false end) (trace w)).

Lemma loadVidMemResource_idempotent_witness :
  exists w1, loadVidMemResource env0 2 1 0 staleVidMemWorld = Ok tt w1 /\
             copies w1 = 1%nat /\
             loadVidMemResource env0 2 1 0 w1 = Ok tt w1.
Proof.
  eexists. split; [vm_compute; reflexivity|]. split; [vm_compute; reflexivity|].
  apply (proj2 (loadVidMemResource_idempotent env0 2 1 1 0 staleVidMemWorld)).
  vm_compute. reflexivity.
Defined.

(** ** C4: the CPU blit path *)

(** The CPU transfers of a run. *)
Definition cpuBlts (w : World) : nat :=
  length (List.filter
            (fun e => match e with EvCpuBlt _ _ _ _ _ _ _ _ _ _ _ => true | _ => false end)
            (trace w)).

(** Two palettized surfaces of ordinary size: a video-memory destination
    with lock resource 5 and a system-memory source. *)
Definition palettizedWorld : World :=
  worldOf [(1, plainResource 1 D3DDDIFMT_P8 1 D3DDDIPOOL_VIDEOMEMORY (Some 5)
                 (setVidMemUpToDate true (setSysMemUpToDate true newLockData)));
           (2, plainResource 2 D3DDDIFMT_P8 1 D3DDDIPOOL_SYSTEMMEM None
                 (setSysMemUpToDate true newLockData))].

Definition palettizedBlt : D3DDDIARG_BLT :=
  setDst 1 0 (mkRECT 0 0 64 64) (setSrc 2 0 (mkRECT 0 0 64 64) emptyBlt).


(** The guard [bltViaCpu] starts with, and its negation. *)
Definition cpuDeclined (me src : Resource) : Prop :=
  Format (m_fixedData me) <> Format (m_fixedData src) \/
  m_formatInfo_bytesPerPixel me = 0 \/
  (Format (m_fixedData me) <> D3DDDIFMT_P8 /\
   m_isOversized me = false /\ m_isOversized src = false).

Definition cpuTaken (me src : Resource) : Prop :=
  Format (m_fixedData me) = Format (m_fixedData src) /\
  m_formatInfo_bytesPerPixel me <> 0 /\
  (Format (m_fixedData me) = D3DDDIFMT_P8 \/
   m_isOversized me = true \/ m_isOversized src = true).

Lemma cpuDeclined_guard me src :
  negb (Format (m_fixedData me) =? Format (m_fixedData src)) ||
  (0 =? m_formatInfo_bytesPerPixel me) ||
  (negb (D3DDDIFMT_P8 =? Format (m_fixedData me)) &&
   negb (m_isOversized me) && negb (m_isOversized src)) =
  if decide (cpuDeclined me src) then true else false.
Proof.
  unfold cpuDeclined.
  destruct (Z.eqb_spec (Format (m_fixedData me)) (Format (m_fixedData src))) as [e1|n1];
    destruct (Z.eqb_spec 0 (m_formatInfo_bytesPerPixel me)) as [e2|n2];
    destruct (Z.eqb_spec D3DDDIFMT_P8 (Format (m_fixedData me))) as [e3|n3];
    destruct (m_isOversized me), (m_isOversized src); simpl;
    destruct (decide _) as [D|D]; try reflexivity; exfalso;
    try (apply D; clear D; first [left; assumption | right; left; congruence
                                  | right; right; repeat split; congruence]);
    destruct D as [D | [D | (D1 & D2 & D3)]]; congruence.
Qed.

Lemma cpuTaken_not_declined me src : cpuTaken me src <-> ~ cpuDeclined me src.
Proof.
  unfold cpuTaken, cpuDeclined. split.
  - intros (E & B & K) [D | [D | (D1 & D2 & D3)]]; [congruence | congruence |].
    destruct K as [K | [K | K]]; congruence.
  - intros N. split; [|split].
    + destruct (Z.eq_dec (Format (m_fixedData me)) (Format (m_fixedData src))); [assumption|].
      exfalso. apply N. left. assumption.
    + intros e. apply N. right. left. exact e.
    + destruct (Z.eq_dec (Format (m_fixedData me)) D3DDDIFMT_P8) as [e|n]; [left; exact e|].
      destruct (m_isOversized me) eqn:O1; [right; left; reflexivity|].
      destruct (m_isOversized src) eqn:O2; [right; right; reflexivity|].
      exfalso. apply N. right. right. auto.
Qed.

(** A CPU transfer, as an event of the trace. *)
Definition isCpuBlt (e : Event) : bool :=
  match e with EvCpuBlt _ _ _ _ _ _ _ _ _ _ _ => true | _ => false end.

(** The run has performed a CPU transfer. *)
Definition transferred (w w' : World) : Prop :=
  exists new, trace w' = new ++ trace w /\ Exists (fun e => isCpuBlt e = true) new.

Lemma transferred_extends a b c d e :
  extends a b -> trace c = e :: trace b -> isCpuBlt e = true -> extends c d ->
  transferred a d.
Proof.
  intros (n1 & T1) T2 He (n3 & T3). exists (n3 ++ e :: n1). split.
  - rewrite T3, T2, T1, <- app_assoc. reflexivity.
  - apply Exists_app. right. constructor. exact He.
Qed.

Lemma transferred_changes w : ~ transferred w w.
Proof.
  intros (new & T & X). destruct new as [|e new]; [inversion X|].
  apply (f_equal (@length Event)) in T. rewrite length_app in T. simpl in T. lia.
Qed.

(** [hr] is what a lock of the source or of the destination has returned. *)
Definition lockReturned (env : Env) (fuel : nat) (this srcResource : HANDLE)
    (hr : HRESULT) : Prop :=
  exists who d0 w0 x w1,
    (who = srcResource \/ who = this) /\ lock env fuel who d0 w0 = Ok (hr, x) w1.

(** Past its guard, [bltViaCpu] returns the failure of a lock, or has
    performed the transfer. *)
Lemma bltViaCpu_taken env fuel this d srcResource w me src :
  resources w !! this = Some me ->
  resources w !! srcResource = Some src ->
  cpuTaken me src ->
  wp (bltViaCpu env fuel this d srcResource)
     (fun hr w' => (FAILED hr = true /\ lockReturned env fuel this srcResource hr) \/
                   (SUCCEEDED hr = true /\ transferred w w')) w.
Proof.
  intros Hme Hsrc T. unfold bltViaCpu.
  apply wp_bind. apply (wp_run _ _ _ _ _ (run_getResource _ _ _ Hme)).
  apply wp_bind. apply (wp_run _ _ _ _ _ (run_getResource _ _ _ Hsrc)).
  rewrite cpuDeclined_guard.
  destruct (decide (cpuDeclined me src)) as [D|_];
    [exfalso; exact (proj1 (cpuTaken_not_declined me src) T D)|].
  cbv zeta.
  apply wp_bind, wp_intro. intros [result srcLock] w1 E1.
  pose proof (wp_ok _ _ _ _ _ (lock_extends env fuel srcResource _ w) E1) as X1.
  simpl in X1.
  destruct (FAILED result) eqn:F1.
  { apply wp_ret. left. split; [exact F1|].
    eexists srcResource, _, w, srcLock, w1. split; [left; reflexivity|exact E1]. }
  apply wp_bind, wp_intro. intros [result2 dstLock] w2 E2.
  pose proof (wp_ok _ _ _ _ _ (lock_extends env fuel this _ w1) E2) as X2.
  simpl in X2.
  assert (X12 : extends w w2) by (etransitivity; eassumption).
  destruct (SUCCEEDED result2) eqn:S2; cbn [when].
  - apply wp_bind, wp_bind.
    eapply (wp_steps extends); [esteps|]. intros srcLock' w3 X3.
    apply wp_bind.
    eapply (wp_steps extends); [esteps|]. intros dstLock' w4 X4.
    apply wp_bind, wp_emit.
    match goal with |- wp _ _ (set_trace (?e :: _) ?w0) =>
      set (ev := e); set (w5 := set_trace (e :: trace w0) w0) end.
    apply wp_bind. eapply (wp_steps extends); [apply unlock_extends|].
    intros _ w6 X6. apply wp_ret.
    apply wp_bind. eapply (wp_steps extends); [apply unlock_extends|].
    intros _ w7 X7. apply wp_ret. right. split; [exact S2|].
    apply (transferred_extends w w4 w5 w7 ev).
    + etransitivity; [exact X12|]. etransitivity; eassumption.
    + reflexivity.
    + reflexivity.
    + etransitivity; eassumption.
  - apply wp_bind, wp_ret.
    apply wp_bind. eapply (wp_steps extends); [apply unlock_extends|].
    intros _ w6 X6. apply wp_ret. left. split.
    + unfold SUCCEEDED in S2. unfold FAILED. apply Z.leb_gt in S2. apply Z.ltb_lt. exact S2.
    + eexists this, _, w1, dstLock, w2. split; [right; reflexivity|exact E2].
Qed.


(** Two 32-bit video-memory surfaces of ordinary size, each with a lock resource. *)
Definition ordinaryWorld : World :=
  worldOf [(1, plainResource 1 D3DDDIFMT_X8R8G8B8 4 D3DDDIPOOL_VIDEOMEMORY (Some 5)
                 (setVidMemUpToDate true newLockData));
           (2, plainResource 2 D3DDDIFMT_X8R8G8B8 4 D3DDDIPOOL_VIDEOMEMORY (Some 6)
                 (setVidMemUpToDate true newLockData))].


(** ** C3: a depth resolve the device cannot do *)

(** The state after [logUnsupportedMsaaDepthBufferResolve]. *)
Definition warned (w : World) : World :=
  if logged_msaaDepthResolve w then w
  else set_logged_msaaDepthResolve true
         (set_trace (EvLog UnsupportedMsaaDepthBufferResolve :: trace w) w).

Lemma run_logUnsupportedMsaaDepthBufferResolve w :
  logUnsupportedMsaaDepthBufferResolve w = Ok tt (warned w).
Proof.
  unfold logUnsupportedMsaaDepthBufferResolve, logOnce, warned, bind, getWorld.
  destruct (logged_msaaDepthResolve w); reflexivity.
Qed.

Lemma loadFromLockRefResource_idle env rec h i w r l :
  resources w !! h = Some r -> m_lockData r !! i = Some l -> isRefLocked l = false ->
  loadFromLockRefResource_body env rec h i w = Ok tt w.
Proof.
  intros Hr Hl Href. unfold loadFromLockRefResource_body.
  rewrite (run_bind _ _ _ _ _ (run_lockDataAt _ _ _ _ _ Hr Hl)). rewrite Href. reflexivity.
Qed.

(** A multisampled depth buffer whose multisample surface holds the only
    valid copy. *)
Definition msaaOnlyWorld : World :=
  worldOf [(1, depthResource 1 (setMsaaUpToDate true newLockData))].

(** C3, as the spec words it, fails: after the skipped resolve the
    resolved surface's validity flag is true, not false. *)
Lemma unsupported_depth_resolve_marks_valid :
  isMsaaDepthResolveSupported env0 = false /\
  exists l w' l',
    entry 1 0 msaaOnlyWorld = Some l /\
    isMsaaUpToDate l = true /\ isMsaaResolvedUpToDate l = false /\
    loadMsaaResolvedResource env0 2 1 0 msaaOnlyWorld = Ok tt w' /\
    entry 1 0 w' = Some l' /\ isMsaaResolvedUpToDate l' = true.
Proof.
  split; [reflexivity|]. do 3 eexists.
  split; [vm_compute; reflexivity|]. split; [reflexivity|]. split; [reflexivity|].
  split; [vm_compute; reflexivity|]. split; [vm_compute; reflexivity|]. reflexivity.
Qed.

(** C3, amended. For a depth-format resource on a device without depth
    resolve, [loadMsaaResolvedResource] on a subresource whose multisample
    flag is valid and whose resolved flag is not skips the resolve: no
    driver or shader call is made, the warning is written unless it was
    written before, and the resolved flag of the subresource is set to
    true. A second call returns at once with the state unchanged, so the
    warning appears once however often the function is called. *)
Theorem unsupported_depth_resolve (env : Env) (fuel : nat) (this : HANDLE) (i : nat)
    (w : World) (r : Resource) (l : LockData) :
  isMsaaDepthResolveSupported env = false ->
  resources w !! this = Some r -> m_lockData r !! i = Some l ->
  ZBuffer (Flags (m_fixedData r)) = true ->
  isMsaaUpToDate l = true -> isMsaaResolvedUpToDate l = false -> isRefLocked l = false ->
  let w1 := withLockData this i (setMsaaResolvedUpToDate true l) r (warned w) in
  loadMsaaResolvedResource env fuel this i w = Ok tt w1 /\
  loadMsaaResolvedResource env fuel this i w1 = Ok tt w1 /\
  entry this i w1 = Some (setMsaaResolvedUpToDate true l) /\
  trace w1 = (if logged_msaaDepthResolve w then trace w
              else EvLog UnsupportedMsaaDepthBufferResolve :: trace w) /\
  logged_msaaDepthResolve w1 = true.
Proof.
  intros Hs Hr Hl Hz Hm Hres Href w1.
  assert (Hr' : resources (warned w) !! this = Some r).
  { unfold warned. destruct (logged_msaaDepthResolve w); exact Hr. }
  assert (Hr1 : resources w1 !! this
                = Some (set_m_lockData (<[i := setMsaaResolvedUpToDate true l]> (m_lockData r)) r)).
  { unfold w1, withLockData. simpl. apply lookup_insert_eq. }
  assert (Hl1 : m_lockData (set_m_lockData (<[i := setMsaaResolvedUpToDate true l]> (m_lockData r)) r)
                  !! i = Some (setMsaaResolvedUpToDate true l)).
  { simpl. apply list_lookup_insert_eq. apply lookup_lt_Some in Hl. exact Hl. }
  split; [|split; [|split; [|split]]].
  - unfold loadMsaaResolvedResource, loadMsaaResolvedResource_body.
    rewrite (run_bind _ _ _ _ _ (loadFromLockRefResource_idle _ _ _ _ _ _ _ Hr Hl Href)).
    rewrite (run_bind _ _ _ _ _ (run_lockDataAt _ _ _ _ _ Hr Hl)).
    rewrite Hres, Hm. rewrite bind_assoc.
    rewrite (run_bind _ _ _ _ _ (run_getResource _ _ _ Hr)).
    rewrite Hz, Hs.
    rewrite (run_bind _ _ _ _ _ (run_logUnsupportedMsaaDepthBufferResolve w)).
    apply (run_modifyLockData _ _ _ _ _ _ Hr' Hl).
  - unfold loadMsaaResolvedResource, loadMsaaResolvedResource_body.
    rewrite (run_bind _ _ _ _ _ (loadFromLockRefResource_idle _ _ _ _ _ _ _ Hr1 Hl1 Href)).
    rewrite (run_bind _ _ _ _ _ (run_lockDataAt _ _ _ _ _ Hr1 Hl1)).
    reflexivity.
  - exact (entry_lookup _ _ _ _ _ Hr1 Hl1).
  - unfold w1, withLockData, warned. destruct (logged_msaaDepthResolve w); reflexivity.
  - unfold w1, withLockData, warned. destruct (logged_msaaDepthResolve w) eqn:E; simpl; auto.
Qed.

Lemma unsupported_depth_resolve_witness :
  exists w1, loadMsaaResolvedResource env0 2 1 0 msaaOnlyWorld = Ok tt w1 /\
             loadMsaaResolvedResource env0 2 1 0 w1 = Ok tt w1 /\
             trace w1 = [EvLog UnsupportedMsaaDepthBufferResolve].
Proof.
  pose proof (unsupported_depth_resolve env0 2 1 0 msaaOnlyWorld
                (depthResource 1 (setMsaaUpToDate true newLockData))
                (setMsaaUpToDate true newLockData)
                eq_refl eq_refl eq_refl eq_refl eq_refl eq_refl eq_refl)
    as (H1 & H2 & _ & H4 & _).
  eexists. split; [exact H1|]. split; [exact H2|]. exact H4.
Defined.

(** ** Construction that fails *)

(** The resource table is as before. *)
Definition sameResources (w w' : World) : Prop := resources w' = resources w.

#[local] Instance sameResources_preorder : PreOrder sameResources.
Proof.
  split; unfold sameResources.
  - intros w. reflexivity.
  - intros a b c H1 H2. rewrite H2. exact H1.
Qed.

Lemma quiet_sameResources w w' : quiet w w' -> sameResources w w'.
Proof. intros (E & _). exact E. Qed.

#[local] Hint Resolve quiet_sameResources : rel.

Lemma modifyWorld_sameResources f :
  (forall w, resources (f w) = resources w) -> Steps sameResources (modifyWorld f).
Proof. intros Hf. apply Steps_modifyWorld. intros w. apply Hf. Qed.

#[local] Hint Extern 1 (Steps sameResources (modifyWorld _)) =>
  apply modifyWorld_sameResources; intros []; reflexivity : steps.

Lemma setFullscreenMode_sameResources env me b :
  Steps sameResources (setFullscreenMode env me b).
Proof. unfold setFullscreenMode, calculatePresentationRect. steps. Qed.

(** The flag combination the constructor refuses. *)
Definition refused (d : Data) : bool :=
  VertexBuffer (Flags d) && MightDrawFromLocked (Flags d) && negb (isSystemMem (Pool d)).

#[local] Hint Resolve createLockResource_keeps updateConfig_keeps : steps.

(** What a constructor call that returns has done. *)
Lemma Resource_new_outcome env fuel d w :
  wp (Resource_new env fuel d)
     (fun c w' =>
        match c with
        | Thrown hr =>
          resources w' = resources w /\
          ((refused d = true /\ hr = E_FAIL /\ w' = w) \/
           (refused d = false /\ FAILED hr = true /\
            exists fixed tr, trace w' = EvCreateResource fixed :: tr /\
                             hr = fst (drv_createResource env (length tr) fixed)))
        | Built this request =>
          refused d = false /\ request = setHResource this d /\
          is_Some (resources w' !! this) /\
          exists fixed t, FAILED (fst (drv_createResource env t fixed)) = false /\
                          snd (drv_createResource env t fixed) = this
        end) w.
Proof.
  unfold Resource_new.
  apply wp_bind, wp_now. cbv zeta.
  set (me0 := initialResource d _).
  change (VertexBuffer (Flags (m_origData me0)) && MightDrawFromLocked (Flags (m_origData me0)) &&
          negb (isSystemMem (Pool (m_origData me0)))) with (refused d).
  destruct (refused d) eqn:Hrej; [apply wp_ret; auto|].
  apply wp_bind. eapply (wp_steps sameResources);
    [pose proof setFullscreenMode_sameResources; steps|]. intros _ w1 K1.
  destruct (fixResourceData_total env me0 w1) as (me1 & E1 & L1 & _).
  apply wp_bind. unfold wp at 1. rewrite E1.
  apply wp_bind, wp_deref. intros si0 _.
  unfold createPrivateResource.
  apply wp_bind, wp_bind, wp_now, wp_bind, wp_emit.
  match goal with |- context [drv_createResource env ?t ?x] =>
    set (fixed := x); destruct (drv_createResource env t fixed) as [hr h] eqn:Edrv end.
  apply wp_ret. simpl in Edrv.
  destruct (FAILED hr) eqn:Hf.
  - apply wp_ret. split; [exact K1|]. right. split; [reflexivity|]. split; [exact Hf|].
    exists fixed, (trace w1). split; [reflexivity|]. rewrite Edrv. reflexivity.
  - apply wp_bind, wp_modifyWorld.
    match goal with |- wp _ _ ?w3 => set (w3' := w3) end.
    assert (H3 : is_Some (resources w3' !! h)).
    { unfold w3'. simpl. rewrite lookup_insert_eq. eauto. }
    apply wp_bind. eapply (wp_steps keeps); [steps|]. intros _ w4 (A4 & _).
    apply wp_bind, wp_getResource. intros me Hme.
    apply wp_bind. eapply (wp_steps keeps); [steps_with ltac:(idtac; lockInit_special)|].
    intros _ w5 (A5 & _). apply wp_ret. simpl.
    split; [reflexivity|]. split; [reflexivity|]. split; [apply A5, A4, H3|].
    exists fixed, (length (trace w1)). rewrite Edrv. split; [exact Hf|reflexivity].
Qed.

(** What a failing construction leaves of the resource table. A request
    with both VertexBuffer and MightDrawFromLocked in a pool other than
    system memory is refused with E_FAIL before anything happens (the
    state, and with it the trace of driver calls, is unchanged). Whenever
    the constructor throws, the resource table is as it was before the
    call, and the error is either that E_FAIL or the failing result code
    of the driver's create call, which was the last thing done. An object
    is built, and entered into the table under the driver's handle, only
    after the driver accepted the creation; with a driver that fails every
    creation no object is built. *)
Theorem Resource_new_all_or_nothing (env : Env) (fuel : nat) (d : Data) (w : World) :
  (refused d = true -> Resource_new env fuel d w = Ok (Thrown E_FAIL) w) /\
  (forall hr w', Resource_new env fuel d w = Ok (Thrown hr) w' ->
     FAILED hr = true /\ resources w' = resources w /\
     ((refused d = true /\ hr = E_FAIL /\ w' = w) \/
      (refused d = false /\
       exists fixed tr, trace w' = EvCreateResource fixed :: tr /\
                        hr = fst (drv_createResource env (length tr) fixed)))) /\
  (forall this request w', Resource_new env fuel d w = Ok (Built this request) w' ->
     refused d = false /\ request = setHResource this d /\
     is_Some (resources w' !! this) /\
     exists fixed t, FAILED (fst (drv_createResource env t fixed)) = false /\
                     snd (drv_createResource env t fixed) = this) /\
  ((forall t x, FAILED (fst (drv_createResource env t x)) = true) ->
   forall c w', Resource_new env fuel d w = Ok c w' ->
     exists hr, c = Thrown hr /\ FAILED hr = true /\ resources w' = resources w).
Proof.
  pose proof (Resource_new_outcome env fuel d w) as O.
  assert (T : forall hr w', Resource_new env fuel d w = Ok (Thrown hr) w' ->
     FAILED hr = true /\ resources w' = resources w /\
     ((refused d = true /\ hr = E_FAIL /\ w' = w) \/
      (refused d = false /\
       exists fixed tr, trace w' = EvCreateResource fixed :: tr /\
                        hr = fst (drv_createResource env (length tr) fixed)))).
  { intros hr w' E. pose proof (wp_ok _ _ _ _ _ O E) as (R & C). simpl in C.
    destruct C as [(C1 & C2 & C3) | (C1 & C2 & C3)].
    - split; [rewrite C2; reflexivity|]. split; [exact R|]. left. auto.
    - split; [exact C2|]. split; [exact R|]. right. auto. }
  split; [|split; [exact T|split]].
  - intros Hrej. unfold Resource_new, bind, now.
    change (refused d) with
      (VertexBuffer (Flags d) && MightDrawFromLocked (Flags d) && negb (isSystemMem (Pool d)))
      in Hrej.
    simpl. rewrite Hrej. reflexivity.
  - intros this request w' E. exact (wp_ok _ _ _ _ _ O E).
  - intros Hfail c w' E. destruct c as [hr|this request].
    + destruct (T hr w' E) as (F & R & _). eauto.
    + destruct (wp_ok _ _ _ _ _ O E) as (_ & _ & _ & fixed & t & F & _).
      rewrite Hfail in F. discriminate.
Qed.

Definition vertexBufferFlags : D3DDDI_RESOURCEFLAGS :=
  mkFlags false false false false false false false false false false
          false false true false false false false false false true.

Definition plainRequest (pool : D3DDDI_POOL) (f : D3DDDI_RESOURCEFLAGS) (w h : Z) : Data :=
  mkData D3DDDIFMT_X8R8G8B8 pool D3DDDIMULTISAMPLE_NONE 0 [mkSurfaceInfo w h 0 0 0] f 0.

Lemma Resource_new_all_or_nothing_witness :
  Resource_new env0 3 (plainRequest D3DDDIPOOL_VIDEOMEMORY vertexBufferFlags 64 64) (worldOf [])
  = Ok (Thrown E_FAIL) (worldOf []) /\
  exists w', Resource_new envFailing 3 (plainRequest D3DDDIPOOL_VIDEOMEMORY noFlags 64 64)
               (worldOf []) = Ok (Thrown E_OUTOFMEMORY) w' /\
             resources w' = resources (worldOf []).
Proof.
  split.
  - apply (proj1 (Resource_new_all_or_nothing env0 3
                    (plainRequest D3DDDIPOOL_VIDEOMEMORY vertexBufferFlags 64 64) (worldOf []))).
    reflexivity.
  - eexists. split; [vm_compute; reflexivity|].
    eapply (proj1 (proj2 (Resource_new_all_or_nothing envFailing 3
                            (plainRequest D3DDDIPOOL_VIDEOMEMORY noFlags 64 64) (worldOf [])))
              E_OUTOFMEMORY).
    vm_compute. reflexivity.
Defined.

(** ** C1: the flags after a write *)

Inductive Representation := SysMem | VidMem | Msaa | MsaaResolved.

(** The flag of [k] is the only validity flag set. *)
Definition validOnly (k : Representation) (l : LockData) : Prop :=
  flagsOf l = match k with
              | SysMem => (true, false, false, false)
              | VidMem => (false, true, false, false)
              | Msaa => (false, false, true, false)
              | MsaaResolved => (false, false, false, true)
              end.

(** An entry after [clearUpToDateFlags]. *)
Definition cleared (l : LockData) : LockData :=
  setSysMemUpToDate false
    (setVidMemUpToDate false (setMsaaResolvedUpToDate false (setMsaaUpToDate false l))).

Lemma wp_bind_any {A B} (m : M A) (k : A -> M B) Q w :
  (forall a w1, wp (k a) Q w1) -> wp (bind m k) Q w.
Proof. intros H. unfold wp, bind. destruct (m w) as [a w1| |]; auto. apply H. Qed.

Lemma wp_clearUpToDateFlags h i Q w :
  (forall l w', entry h i w = Some l -> entry h i w' = Some (cleared l) ->
                (forall h' j, (h', j) <> (h, i) -> entry h' j w' = entry h' j w) -> Q tt w') ->
  wp (clearUpToDateFlags h i) Q w.
Proof.
  intros H. unfold clearUpToDateFlags.
  apply wp_bind, wp_modifyLockData_entry. intros l1 w1 E1 E1' O1 _.
  apply wp_bind, wp_modifyLockData_entry. intros l2 w2 E2 E2' O2 _.
  apply wp_bind, wp_modifyLockData_entry. intros l3 w3 E3 E3' O3 _.
  apply wp_modifyLockData_entry. intros l4 w4 E4 E4' O4 _.
  rewrite E1' in E2. injection E2 as <-.
  rewrite E2' in E3. injection E3 as <-.
  rewrite E3' in E4. injection E4 as <-.
  apply (H l1); [exact E1|exact E4'|].
  intros h' j Hne. rewrite O4, O3, O2, O1 by exact Hne. reflexivity.
Qed.

(** [clearUpToDateFlags] and the write of one flag leave that flag alone. *)
Lemma wp_clear_then_set h i f k (Q : unit -> World -> Prop) w :
  (forall l, validOnly k (f (cleared l))) ->
  (forall l w', entry h i w' = Some l -> validOnly k l -> Q tt w') ->
  wp (bind (clearUpToDateFlags h i) (fun _ => modifyLockData h i f)) Q w.
Proof.
  intros Hf H. apply wp_bind, wp_clearUpToDateFlags. intros l w1 E1 E1' _.
  apply wp_modifyLockData_entry. intros l2 w2 E2 E2' _ _.
  rewrite E1' in E2. injection E2 as <-.
  apply (H _ _ E2'). apply Hf.
Qed.

Lemma validOnly_written (k : Representation) (l : LockData) :
  validOnly k (match k with
               | SysMem => setSysMemUpToDate true (cleared l)
               | VidMem => setVidMemUpToDate true (cleared l)
               | Msaa => setMsaaUpToDate true (cleared l)
               | MsaaResolved => setMsaaResolvedUpToDate true (cleared l)
               end).
Proof. destruct k; reflexivity. Qed.

Lemma prepareForCpuWrite_only env fuel this i w r :
  resources w !! this = Some r -> hasLockResource r = true ->
  wp (prepareForCpuWrite env fuel this i)
     (fun _ w' => exists l, entry this i w' = Some l /\ validOnly SysMem l) w.
Proof.
  intros Hr Hg. unfold prepareForCpuWrite.
  apply wp_bind, wp_getResource. intros me Hme. rewrite Hr in Hme. injection Hme as <-.
  rewrite Hg. apply wp_bind_any. intros _ w1. apply wp_bind_any. intros _ w2.
  apply (wp_clear_then_set this i _ SysMem); [exact (validOnly_written SysMem)|].
  intros l w' E V. eauto.
Qed.

(** The representation a GPU write goes to. *)
Definition gpuTarget (r : Resource) : Representation :=
  if hasResource (m_msaaSurface r) then Msaa
  else if hasResource (m_msaaResolvedSurface r) then MsaaResolved
  else VidMem.

Lemma prepareForGpuWrite_only env fuel this i w r :
  resources w !! this = Some r ->
  hasLockResource r || hasResource (m_msaaResolvedSurface r) = true ->
  wp (prepareForGpuWrite env fuel this i)
     (fun _ w' => exists l, entry this i w' = Some l /\ validOnly (gpuTarget r) l) w.
Proof.
  intros Hr Hg. unfold prepareForGpuWrite, gpuTarget.
  apply wp_bind, wp_getResource. intros me Hme. rewrite Hr in Hme. injection Hme as <-.
  rewrite Hg.
  destruct (hasResource (m_msaaSurface r)); [|destruct (hasResource (m_msaaResolvedSurface r))];
    apply wp_bind_any; intros _ w1.
  - apply (wp_clear_then_set this i _ Msaa); [exact (validOnly_written Msaa)|]. eauto.
  - apply (wp_clear_then_set this i _ MsaaResolved); [exact (validOnly_written MsaaResolved)|].
    eauto.
  - apply (wp_clear_then_set this i _ VidMem); [exact (validOnly_written VidMem)|]. eauto.
Qed.

(** The resource a blit is sent to when it writes representation [k]. *)
Definition writtenTo (r : Resource) (this : HANDLE) (k : Representation) (dst : HANDLE) : Prop :=
  match k with
  | SysMem => False
  | VidMem => dst = this
  | Msaa => resource (m_msaaSurface r) = Some dst
  | MsaaResolved => resource (m_msaaResolvedSurface r) = Some dst
  end.

Lemma wp_quiet_entry {A} (m : M A) (Q : A -> World -> Prop) w :
  Steps quiet m ->
  (forall a w', (forall h i, entry h i w' = entry h i w) -> Q a w') ->
  wp m Q w.
Proof.
  intros Hm H. eapply wp_mono; [apply Hm|]. intros a w' (E & _). apply H.
  intros h i. unfold entry. rewrite E. reflexivity.
Qed.

Lemma prepareForBltDstAt_only env fuel this res i rect w r :
  resources w !! this = Some r ->
  hasLockResource r || hasResource (m_msaaResolvedSurface r) = true ->
  wp (prepareForBltDstAt env fuel this res i rect)
     (fun x w' => exists l k, entry this i w' = Some l /\ validOnly k l /\
                              writtenTo r this k (snd x)) w.
Proof.
  intros Hr Hg. unfold prepareForBltDstAt.
  apply wp_bind, wp_modifyResource. intros r0 Hr0. rewrite Hr in Hr0. injection Hr0 as <-.
  apply wp_bind, wp_getResource. intros me Hme. simpl in Hme.
  rewrite lookup_insert_eq in Hme. injection Hme as <-.
  change (hasLockResource (set_m_isPalettizedTextureUpToDate false r))
    with (hasLockResource r).
  change (m_msaaResolvedSurface (set_m_isPalettizedTextureUpToDate false r))
    with (m_msaaResolvedSurface r).
  change (m_msaaSurface (set_m_isPalettizedTextureUpToDate false r)) with (m_msaaSurface r).
  rewrite Hg. apply wp_bind_any. intros _ w1.
  apply wp_bind_any. intros l1 w2.
  destruct (isMsaaUpToDate l1); [|destruct (isMsaaResolvedUpToDate l1)].
  - apply wp_bind, wp_deref. intros msaa Hmsaa.
    apply wp_bind, wp_clearUpToDateFlags. intros l w3 E3 E3' _.
    apply wp_bind, wp_modifyLockData_entry. intros l4 w4 E4 E4' _ _.
    rewrite E3' in E4. injection E4 as <-.
    apply wp_bind. apply wp_quiet_entry; [apply scaleRect_quiet|]. intros rect' w5 E5.
    apply wp_ret. exists (setMsaaUpToDate true (cleared l)), Msaa.
    rewrite E5. split; [exact E4'|]. split; [reflexivity|exact Hmsaa].
  - apply wp_bind, wp_deref. intros resolved Hres.
    apply wp_bind, wp_clearUpToDateFlags. intros l w3 E3 E3' _.
    apply wp_bind, wp_modifyLockData_entry. intros l4 w4 E4 E4' _ _.
    rewrite E3' in E4. injection E4 as <-.
    apply wp_bind. apply wp_quiet_entry; [apply scaleRect_quiet|]. intros rect' w5 E5.
    apply wp_ret. exists (setMsaaResolvedUpToDate true (cleared l)), MsaaResolved.
    rewrite E5. split; [exact E4'|]. split; [reflexivity|exact Hres].
  - apply wp_bind_any. intros _ w3.
    apply wp_bind, wp_clearUpToDateFlags. intros l w4 E4 E4' _.
    apply wp_bind, wp_modifyLockData_entry. intros l5 w5 E5 E5' _ _.
    rewrite E4' in E5. injection E5 as <-.
    apply wp_ret. exists (setVidMemUpToDate true (cleared l)), VidMem.
    split; [exact E5'|]. split; reflexivity.
Qed.

(** A multisampled depth buffer as the constructor leaves it: every
    representation valid, and no lock resource. *)
Definition freshDepthWorld : World :=
  worldOf [(1, depthResource 1
                 (setMsaaResolvedUpToDate true
                    (setMsaaUpToDate true
                       (setVidMemUpToDate true (setSysMemUpToDate true newLockData)))))].

(** C1, as the spec words it, fails: [prepareForCpuWrite] on a resource
    without a lock resource returns with the flags as they were, here with
    the flags of video memory, of the multisample surface and of the
    resolved surface all set. *)
Lemma prepareForCpuWrite_keeps_all_flags :
  prepareForCpuWrite env0 2 1 0 freshDepthWorld = Ok tt freshDepthWorld /\
  exists l, entry 1 0 freshDepthWorld = Some l /\ flagsOf l = (true, true, true, true).
Proof. split; [reflexivity|]. eexists. split; reflexivity. Qed.

(** C1, amended. A write path that acts leaves exactly one validity flag
    of the subresource set, the flag of the representation written:
    [prepareForCpuWrite], on a resource with a lock resource, the
    system-memory flag; [prepareForGpuWrite], on a resource with a lock
    resource or a resolved surface, the flag of the multisample surface if
    there is one, else of the resolved surface if there is one, else of
    video memory; [prepareForBltDst], on such a resource, the flag of the
    representation whose resource it returns as the destination. On other
    resources the three functions leave every validity flag as it was. *)
Theorem write_paths_leave_one_flag (env : Env) (fuel : nat) (this : HANDLE) (w : World)
    (r : Resource) :
  resources w !! this = Some r ->
  (forall i w', prepareForCpuWrite env fuel this i w = Ok tt w' ->
     if hasLockResource r
     then exists l, entry this i w' = Some l /\ validOnly SysMem l
     else w' = w) /\
  (forall i w', prepareForGpuWrite env fuel this i w = Ok tt w' ->
     if hasLockResource r || hasResource (m_msaaResolvedSurface r)
     then exists l, entry this i w' = Some l /\ validOnly (gpuTarget r) l
     else w' = w) /\
  (forall d d' dst w', prepareForBltDst env fuel this d w = Ok (d', dst) w' ->
     if hasLockResource r || hasResource (m_msaaResolvedSurface r)
     then exists l k, entry this (DstSubResourceIndex d) w' = Some l /\ validOnly k l /\
                      writtenTo r this k dst
     else dst = this /\ forall h j, entry h j w' = entry h j w).
Proof.
  intros Hr. split; [|split].
  - intros i w' E. destruct (hasLockResource r) eqn:Hg.
    + exact (wp_ok _ _ _ _ _ (prepareForCpuWrite_only env fuel this i w r Hr Hg) E).
    + unfold prepareForCpuWrite in E.
      rewrite (run_bind _ _ _ _ _ (run_getResource _ _ _ Hr)), Hg in E.
      injection E as <-. reflexivity.
  - intros i w' E. destruct (hasLockResource r || hasResource (m_msaaResolvedSurface r)) eqn:Hg.
    + exact (wp_ok _ _ _ _ _ (prepareForGpuWrite_only env fuel this i w r Hr Hg) E).
    + unfold prepareForGpuWrite in E.
      rewrite (run_bind _ _ _ _ _ (run_getResource _ _ _ Hr)), Hg in E.
      injection E as <-. reflexivity.
  - intros d d' dst w' E. unfold prepareForBltDst, bind in E.
    destruct (prepareForBltDstAt env fuel this (hDstResource d) (DstSubResourceIndex d)
                (DstRect d) w) as [[[res rect] dst0] w1| |] eqn:EA; try discriminate.
    injection E as _ <- <-.
    destruct (hasLockResource r || hasResource (m_msaaResolvedSurface r)) eqn:Hg.
    + exact (wp_ok _ _ _ _ _
               (prepareForBltDstAt_only env fuel this _ _ _ w r Hr Hg) EA).
    + unfold prepareForBltDstAt in EA.
      rewrite (run_bind _ _ _ _ _ (run_modifyResource _ _ _ _ Hr)) in EA.
      assert (H0 : resources
                     (set_resources
                        (<[this := set_m_isPalettizedTextureUpToDate false r]> (resources w)) w)
                     !! this = Some (set_m_isPalettizedTextureUpToDate false r))
        by apply lookup_insert_eq.
      rewrite (run_bind _ _ _ _ _ (run_getResource _ _ _ H0)) in EA.
      change (hasLockResource (set_m_isPalettizedTextureUpToDate false r) ||
              hasResource (m_msaaResolvedSurface (set_m_isPalettizedTextureUpToDate false r)))
        with (hasLockResource r || hasResource (m_msaaResolvedSurface r)) in EA.
      rewrite Hg in EA. injection EA as _ _ <- <-.
      split; [reflexivity|]. intros h j. unfold entry. simpl.
      destruct (decide (h = this)) as [->|Hne].
      * rewrite lookup_insert_eq, Hr. reflexivity.
      * rewrite lookup_insert_ne by congruence. reflexivity.
Qed.

(** A video-memory surface with lock resource 5 and every flag but the
    resolved one set. *)
Definition lockableWorld : World :=
  worldOf [(1, plainResource 1 D3DDDIFMT_X8R8G8B8 4 D3DDDIPOOL_VIDEOMEMORY (Some 5)
                 (setSysMemUpToDate true (setVidMemUpToDate true newLockData)))].

Lemma write_paths_leave_one_flag_witness :
  exists w', prepareForCpuWrite env0 2 1 0 lockableWorld = Ok tt w' /\
             exists l, entry 1 0 w' = Some l /\ validOnly SysMem l.
Proof.
  eexists. split; [vm_compute; reflexivity|].
  refine (proj1 (write_paths_leave_one_flag env0 2 1 lockableWorld _ eq_refl) 0%nat _ _).
  vm_compute. reflexivity.
Defined.

(** ** C8: a run of the downscale chain *)

Lemma downscale_chain_witness :
  exists n rt' w',
    downscale envGranting 1801 1 1 1000 1000 100 100 true (worldOf []) =
      Ok (rt', chain n 100 100 (1000, 1000)) w' /\
    within2x 100 100 (chain n 100 100 (1000, 1000)) /\
    forall k, (k < n)%nat -> ~ within2x 100 100 (chain k 100 100 (1000, 1000)).
Proof.
  refine (proj1 (proj2 (downscale_chain envGranting 1801 1 1 1000 1000 100 100 true
                          (worldOf []) _ _)) _).
  - unfold downscalable, LONG_MIN, LONG_MAX. lia.
  - unfold downscaleFuel. simpl. lia.
  - intros t w h index. simpl. discriminate.
Defined.

(** ** C2: at least one representation is valid *)

(** What the loop of [updateConfig] makes of an entry: the flags of the
    multisample and the resolved surface are cleared, video memory is valid
    if one of them was set, and the flags of system and video memory that
    were set stay set. *)
Definition flushed (l l' : LockData) : Prop :=
  isMsaaUpToDate l' = false /\ isMsaaResolvedUpToDate l' = false /\
  (isMsaaUpToDate l || isMsaaResolvedUpToDate l = true -> isVidMemUpToDate l' = true) /\
  rises (isSysMemUpToDate l) (isSysMemUpToDate l') /\
  rises (isVidMemUpToDate l) (isVidMemUpToDate l').

Lemma updateConfigFlush_entries env fuel h count : forall i0 w,
  wp (updateConfigFlush env fuel h i0 count)
     (fun _ w' =>
        (forall h' j, h' <> h \/ (j < i0)%nat \/ (i0 + count <= j)%nat ->
                      entry h' j w' = entry h' j w) /\
        (forall i l, (i0 <= i < i0 + count)%nat -> entry h i w = Some l ->
                     exists l', entry h i w' = Some l' /\ flushed l l')) w.
Proof.
  induction count as [|count IH]; intros i0 w; simpl.
  - apply wp_ret. split; [reflexivity|]. intros i l Hi. lia.
  - apply wp_bind, wp_lockDataAt. intros r l0 Hr Hl.
    assert (He : entry h i0 w = Some l0) by exact (entry_lookup _ _ _ _ _ Hr Hl).
    apply wp_bind.
    assert (Hload : wp (when (isMsaaUpToDate l0 || isMsaaResolvedUpToDate l0)
                          (loadVidMemResource env fuel h i0))
                       (fun _ w1 => touch h i0 w w1 /\
                          (isMsaaUpToDate l0 || isMsaaResolvedUpToDate l0 = true ->
                           exists l1, entry h i0 w1 = Some l1 /\ isVidMemUpToDate l1 = true)) w).
    { destruct (isMsaaUpToDate l0 || isMsaaResolvedUpToDate l0); simpl.
      - eapply wp_mono;
          [apply (wp_conj _ _ _ _ (loadVidMemResource_touch env fuel h i0 w)
                                  (loadVidMemResource_vid env fuel h i0 w))|].
        intros _ w1 (T & V). split; [exact T|]. intros _. exact V.
      - apply wp_ret. split; [reflexivity|]. discriminate. }
    eapply wp_mono; [exact Hload|]. intros _ w1 (T & V).
    destruct (touchG_entry grows h i0 w w1 l0 T He) as (l1 & Hl1 & _ & _ & Gs & Gv & _).
    apply wp_bind, wp_modifyLockData_entry. intros x w2 Hx Hx2 O2 _.
    rewrite Hl1 in Hx. injection Hx as <-.
    apply wp_bind, wp_modifyLockData_entry. intros y w3 Hy Hy3 O3 _.
    rewrite Hx2 in Hy. injection Hy as <-.
    apply wp_bind, wp_modifyLockData_entry. intros z w4 Hz Hz4 O4 _.
    rewrite Hy3 in Hz. injection Hz as <-.
    eapply wp_mono; [apply (IH (S i0) w4)|]. intros _ w' (F & E).
    assert (Hother : forall h' j, (h', j) <> (h, i0) -> entry h' j w4 = entry h' j w).
    { intros h' j Hne. rewrite O4, O3, O2 by exact Hne.
      exact (touchG_entry_other grows h i0 w w1 h' j T Hne). }
    split.
    + intros h' j Hj. rewrite F by lia. apply Hother.
      intros Heq. injection Heq as -> ->. lia.
    + intros i l Hi Hli. destruct (decide (i = i0)) as [->|Hne].
      * rewrite He in Hli. injection Hli as <-.
        eexists. split; [rewrite F by lia; exact Hz4|].
        split; [reflexivity|]. split; [reflexivity|].
        split; [|split; [exact Gs|exact Gv]].
        intros Hc. destruct (V Hc) as (l1' & Hl1' & Hv).
        rewrite Hl1 in Hl1'. injection Hl1' as <-. exact Hv.
      * apply E; [lia|]. rewrite Hother; [exact Hli|]. congruence.
Qed.

(** *** The reconfiguration

    [updateConfig] goes on to reconfigure a resource that passes its first
    test and whose stored configuration differs from the one in force. *)

(** The first test of [updateConfig]: the resources it never reconfigures. *)
Definition configFixed (me : Resource) : bool :=
  let f := Flags (m_fixedData me) in
  m_isSurfaceRepoResource me || isSystemMem (Pool (m_fixedData me)) ||
  (D3DDDIFMT_P8 =? Format (m_fixedData me)) || MatchGdiPrimary f ||
  (negb (m_isPrimary me) && negb (RenderTarget f) && negb (ZBuffer f)) ||
  (negb (ZBuffer f) && negb (hasLockResource me)).

(** What [getMultisampleConfig], [getFormatConfig] and [getScaledSize]
    return at moment [t]. *)
Definition multisampleConfigAt (env : Env) (t : nat) (me : Resource) : Z * Z :=
  if negb (Texture (Flags (m_fixedData me))) &&
     (negb (m_isPrimary me) || RenderTarget (Flags (m_fixedData me)))
  then adapter_getMultisampleConfig env t (Format (m_fixedData me))
  else (D3DDDIMULTISAMPLE_NONE, 0).

Definition formatConfigAt (env : Env) (t : nat) (me : Resource) : D3DDDIFORMAT :=
  let fmt := Format (m_fixedData me) in
  if (D3DDDIFMT_X8R8G8B8 =? fmt) || (D3DDDIFMT_R5G6B5 =? fmt) then
    if cfg_renderColorDepth env t =? 16 then D3DDDIFMT_R5G6B5
    else if cfg_renderColorDepth env t =? 32 then D3DDDIFMT_X8R8G8B8
    else fmt
  else fmt.

Definition scaledSizeAt (env : Env) (t : nat) (me : Resource) (si0 : D3DDDI_SURFACEINFO)
    : Z * Z :=
  let size := (toLONG (Width si0), toLONG (Height si0)) in
  if negb (Texture (Flags (m_fixedData me))) then adapter_getScaledSize env t size else size.

(** The second test of [updateConfig]: the stored configuration is the
    one in force. *)
Definition configCurrent (env : Env) (t : nat) (me : Resource) (si0 : D3DDDI_SURFACEINFO)
    : bool :=
  pairZ_eqb (m_multiSampleConfig me) (multisampleConfigAt env t me) &&
  (m_formatConfig me =? formatConfigAt env t me) &&
  pairZ_eqb (m_scaledSize me) (scaledSizeAt env t me si0).

Lemma run_getMultisampleConfig env this w me :
  resources w !! this = Some me ->
  getMultisampleConfig env this w = Ok (multisampleConfigAt env (length (trace w)) me) w.
Proof.
  intros Hr. unfold getMultisampleConfig, multisampleConfigAt.
  rewrite (run_bind _ _ _ _ _ (run_getResource _ _ _ Hr)). unfold bind, now.
  destruct (negb _ && _); reflexivity.
Qed.

Lemma run_getFormatConfig env this w me :
  resources w !! this = Some me ->
  getFormatConfig env this w = Ok (formatConfigAt env (length (trace w)) me) w.
Proof.
  intros Hr. unfold getFormatConfig, formatConfigAt.
  rewrite (run_bind _ _ _ _ _ (run_getResource _ _ _ Hr)). unfold bind, now. cbv zeta.
  destruct (_ || _); [|reflexivity].
  destruct (_ =? 16); [reflexivity|]. destruct (_ =? 32); reflexivity.
Qed.

Lemma run_getScaledSize env this w me si0 :
  resources w !! this = Some me ->
  surfaceData (m_fixedData me) !! 0%nat = Some si0 ->
  getScaledSize env this w = Ok (scaledSizeAt env (length (trace w)) me si0) w.
Proof.
  intros Hr Hs. unfold getScaledSize, scaledSizeAt.
  rewrite (run_bind _ _ _ _ _ (run_fixedSurfaceAt _ _ _ _ _ Hr Hs)).
  rewrite (run_bind _ _ _ _ _ (run_getResource _ _ _ Hr)). unfold bind, now. cbv zeta.
  destruct (negb _); reflexivity.
Qed.

(** A driver blit that copies subresource [i] of [src] to subresource [i]
    of [dst]. *)
Definition copiesInto (dst src : HANDLE) (i : nat) (e : Event) : Prop :=
  match e with
  | EvBlt d => hDstResource d = dst /\ DstSubResourceIndex d = i /\
               hSrcResource d = src /\ SrcSubResourceIndex d = i
  | _ => False
  end.

(** The run has made such a copy. *)
Definition loaded (dst src : HANDLE) (i : nat) (w w' : World) : Prop :=
  exists new, trace w' = new ++ trace w /\ Exists (copiesInto dst src i) new.

Lemma loaded_extends dst src i a b c d :
  extends a b -> loaded dst src i b c -> extends c d -> loaded dst src i a d.
Proof.
  intros (n1 & T1) (n2 & T2 & X) (n3 & T3). exists (n3 ++ n2 ++ n1). split.
  - rewrite T3, T2, T1, <- !app_assoc. reflexivity.
  - apply Exists_app. right. apply Exists_app. left. exact X.
Qed.

Lemma static_set_m_lockData ls r :
  m_fixedData (set_m_lockData ls r) = m_fixedData r /\
  m_scaledSize (set_m_lockData ls r) = m_scaledSize r /\
  m_msaaResolvedSurface (set_m_lockData ls r) = m_msaaResolvedSurface r.
Proof. destruct r; repeat split. Qed.

Lemma loadVidMemResource_copies env fuel this i w r l si0 :
  resources w !! this = Some r -> m_lockData r !! i = Some l ->
  isVidMemUpToDate l = false ->
  isMsaaUpToDate l || isMsaaResolvedUpToDate l = true ->
  RenderTarget (Flags (m_fixedData r)) = false ->
  surfaceData (m_fixedData r) !! 0%nat = Some si0 ->
  ZBuffer (Flags (m_fixedData r)) || negb (isScaled si0 (m_scaledSize r)) = true ->
  wp (loadVidMemResource env fuel this i)
     (fun _ w' => exists resolved, resource (m_msaaResolvedSurface r) = Some resolved /\
                                   loaded this resolved i w w') w.
Proof.
  intros Hr Hl Hv Hm Hrt Hs Hz.
  destruct fuel as [|fuel]; [exact I|]. simpl. unfold loadVidMemResource_body.
  apply wp_bind. apply (wp_run _ _ _ _ _ (run_lockDataAt _ _ _ _ _ Hr Hl)).
  rewrite Hv.
  apply wp_bind. apply (wp_run _ _ _ _ _ (run_modifyLockData _ _ _ _ _ _ Hr Hl)).
  set (w1 := withLockData this i (setVidMemUpToDate true l) r w).
  assert (T1 : trace w1 = trace w) by reflexivity.
  assert (C1 : confined this i w w1).
  { eapply (touchG_withLockData (fun _ _ => True)); eauto. }
  apply wp_bind, wp_lockDataAt. intros r1 l1 Hr1 Hl1.
  assert (E1 : l1 = setVidMemUpToDate true l).
  { unfold w1, withLockData in Hr1. simpl in Hr1. rewrite lookup_insert_eq in Hr1.
    injection Hr1 as <-. rewrite m_lockData_set in Hl1.
    rewrite list_lookup_insert_eq in Hl1 by (eapply lookup_lt_Some; eauto).
    injection Hl1 as <-. reflexivity. }
  subst l1. change (isMsaaUpToDate (setVidMemUpToDate true l)) with (isMsaaUpToDate l).
  change (isMsaaResolvedUpToDate (setVidMemUpToDate true l)) with (isMsaaResolvedUpToDate l).
  rewrite Hm.
  apply wp_bind.
  eapply wp_mono;
    [apply (wp_conj _ _ _ _
              (loadMsaaResolvedResource_body_touch env (loadVidMemResource env fuel) this i
                 (loadVidMemResource_touch env fuel this i) w1)
              (loadMsaaResolvedResource_body_extends env (loadVidMemResource env fuel) this i
                 (loadVidMemResource_extends env fuel this i) w1))|].
  intros _ w2 (T2 & X2). simpl in T2, X2.
  assert (C2 : confined this i w w2).
  { transitivity w1; [exact C1|apply touch_confined; exact T2]. }
  destruct (touchG_resource _ this i w w2 this r C2 Hr) as (ls & Hr2 & _).
  destruct (static_set_m_lockData ls r) as (Sf & Ss & Sr).
  apply wp_bind. apply (wp_run _ _ _ _ _ (run_getResource _ _ _ Hr2)).
  apply wp_bind, wp_now. rewrite Sf, Hrt. cbn [negb orb].
  assert (Hs2 : surfaceData (m_fixedData (set_m_lockData ls r)) !! 0%nat = Some si0)
    by (rewrite Sf; exact Hs).
  apply wp_bind. apply (wp_run _ _ _ _ _ (run_fixedSurfaceAt _ _ _ _ _ Hr2 Hs2)).
  rewrite Ss, Hz, Sr.
  apply wp_bind, wp_deref. intros resolved Hres.
  apply wp_bind. unfold copySubResource.
  apply wp_bind. eapply (wp_steps extends); [apply getRect_extends|]. intros dstRect w3 X3.
  apply wp_bind. eapply (wp_steps extends); [apply getRect_extends|]. intros srcRect w4 X4.
  unfold copySubResourceRegion, pfnBlt.
  apply wp_bind, wp_bind, wp_now, wp_bind, wp_emit, wp_ret.
  match goal with |- wp _ _ (set_trace (?e :: _) ?w0) =>
    set (ev := e); set (w5 := set_trace (e :: trace w0) w0) end.
  apply wp_bind. eapply (wp_steps extends);
    [esteps; apply logOnce_extends; reflexivity|]. intros _ w6 X6.
  apply wp_ret, wp_ret. exists resolved. split; [exact Hres|].
  apply (loaded_extends _ _ _ w w4 w5 w6).
  - transitivity w1; [exists []; exact T1|]. transitivity w2; [exact X2|].
    transitivity w3; assumption.
  - exists [ev]. split; [reflexivity|]. constructor. simpl. auto.
  - exact X6.
Qed.

(** The loop of [updateConfig] loads video memory by a driver blit from
    the resolved surface for every entry that needs it, where
    [loadVidMemResource] takes the plain copy. *)
Lemma updateConfigFlush_loads env fuel h count : forall i0 w r si0,
  resources w !! h = Some r ->
  RenderTarget (Flags (m_fixedData r)) = false ->
  surfaceData (m_fixedData r) !! 0%nat = Some si0 ->
  ZBuffer (Flags (m_fixedData r)) || negb (isScaled si0 (m_scaledSize r)) = true ->
  wp (updateConfigFlush env fuel h i0 count)
     (fun _ w' =>
        extends w w' /\
        forall i l, (i0 <= i < i0 + count)%nat -> entry h i w = Some l ->
          isVidMemUpToDate l = false ->
          isMsaaUpToDate l || isMsaaResolvedUpToDate l = true ->
          exists resolved, resource (m_msaaResolvedSurface r) = Some resolved /\
                           loaded h resolved i w w') w.
Proof.
  induction count as [|count IH]; intros i0 w r si0 Hr Hrt Hs Hz; simpl.
  - apply wp_ret. split; [reflexivity|]. intros i l Hi. lia.
  - apply wp_bind, wp_lockDataAt. intros r0 l0 Hr0 Hl0.
    rewrite Hr in Hr0. injection Hr0 as <-.
    assert (He : entry h i0 w = Some l0) by exact (entry_lookup _ _ _ _ _ Hr Hl0).
    apply wp_bind.
    assert (Hload : wp (when (isMsaaUpToDate l0 || isMsaaResolvedUpToDate l0)
                          (loadVidMemResource env fuel h i0))
                       (fun _ w1 => touch h i0 w w1 /\ extends w w1 /\
                          (isVidMemUpToDate l0 = false ->
                           isMsaaUpToDate l0 || isMsaaResolvedUpToDate l0 = true ->
                           exists resolved,
                             resource (m_msaaResolvedSurface r) = Some resolved /\
                             loaded h resolved i0 w w1)) w).
    { destruct (isMsaaUpToDate l0 || isMsaaResolvedUpToDate l0) eqn:Hm; cbn [when].
      - destruct (isVidMemUpToDate l0) eqn:Hv.
        + eapply wp_mono;
            [apply (wp_conj _ _ _ _ (loadVidMemResource_touch env fuel h i0 w)
                                    (loadVidMemResource_extends env fuel h i0 w))|].
          intros _ w1 (T & X). split; [exact T|]. split; [exact X|]. discriminate.
        + eapply wp_mono;
            [apply (wp_conj _ _ _ _
                      (wp_conj _ _ _ _ (loadVidMemResource_touch env fuel h i0 w)
                                       (loadVidMemResource_extends env fuel h i0 w))
                      (loadVidMemResource_copies env fuel h i0 w r l0 si0
                         Hr Hl0 Hv Hm Hrt Hs Hz))|].
          intros _ w1 ((T & X) & L). auto.
      - apply wp_ret. split; [reflexivity|]. split; [reflexivity|]. discriminate. }
    eapply wp_mono; [exact Hload|]. intros _ w1 (T1 & X1 & L1).
    apply wp_bind.
    eapply wp_mono;
      [apply (wp_conj _ _ _ _ (modifyLockData_confined h i0 _ w1)
                              (modifyLockData_extends h i0 _ w1))|].
    intros _ w2 (C2 & X2).
    apply wp_bind.
    eapply wp_mono;
      [apply (wp_conj _ _ _ _ (modifyLockData_confined h i0 _ w2)
                              (modifyLockData_extends h i0 _ w2))|].
    intros _ w3 (C3 & X3).
    apply wp_bind.
    eapply wp_mono;
      [apply (wp_conj _ _ _ _ (modifyLockData_confined h i0 _ w3)
                              (modifyLockData_extends h i0 _ w3))|].
    intros _ w4 (C4 & X4). simpl in C2, X2, C3, X3, C4, X4.
    assert (C : confined h i0 w w4).
    { transitivity w1; [apply touch_confined; exact T1|].
      transitivity w2; [exact C2|]. transitivity w3; assumption. }
    assert (X : extends w1 w4).
    { transitivity w2; [exact X2|]. transitivity w3; assumption. }
    destruct (touchG_resource _ h i0 w w4 h r C Hr) as (ls & Hr4 & _).
    destruct (static_set_m_lockData ls r) as (Sf & Ss & Sr).
    eapply wp_mono;
      [apply (IH (S i0) w4 (set_m_lockData ls r) si0 Hr4);
       [rewrite Sf; exact Hrt | rewrite Sf; exact Hs | rewrite Sf, Ss; exact Hz]|].
    intros _ w' (X' & L'). rewrite Sr in L'.
    split; [transitivity w1; [exact X1|]; transitivity w4; assumption|].
    intros i l Hi Hl Hv Hm. destruct (decide (i = i0)) as [->|Hne].
    + rewrite He in Hl. injection Hl as <-.
      destruct (L1 Hv Hm) as (resolved & Hres & Ld). exists resolved. split; [exact Hres|].
      apply (loaded_extends _ _ _ w w w1 w'); [reflexivity|exact Ld|].
      transitivity w4; assumption.
    + assert (Hl4 : entry h i w4 = Some l).
      { rewrite (touchG_entry_other _ h i0 w w4 h i C); [exact Hl|]. congruence. }
      destruct (L' i l ltac:(lia) Hl4 Hv Hm) as (resolved & Hres & Ld).
      exists resolved. split; [exact Hres|].
      apply (loaded_extends _ _ _ w w4 w' w'); [|exact Ld|reflexivity].
      transitivity w1; assumption.
Qed.

Lemma steps_wp (R : World -> World -> Prop) {A} (m : M A) w :
  Steps R m -> wp m (fun _ w' => R w w') w.
Proof. intros H. apply H. Qed.

(** A reconfiguration, step by step: the three members are assigned; if
    the resource has a multisample or a resolved surface, the loop runs
    over all lock entries; what follows changes no lock entry. *)
Lemma updateConfig_reconfigures env fuel this w me si0 (Q : World -> Prop) :
  resources w !! this = Some me ->
  surfaceData (m_fixedData me) !! 0%nat = Some si0 ->
  configFixed me = false ->
  configCurrent env (length (trace w)) me si0 = false ->
  hasResource (m_msaaSurface me) || hasResource (m_msaaResolvedSurface me) = true ->
  (forall w3 me3,
     resources w3 !! this = Some me3 ->
     m_fixedData me3 = m_fixedData me -> m_lockData me3 = m_lockData me ->
     m_msaaResolvedSurface me3 = m_msaaResolvedSurface me ->
     m_scaledSize me3 = scaledSizeAt env (length (trace w)) me si0 ->
     sameLocks w w3 -> extends w w3 ->
     wp (updateConfigFlush env fuel this 0 (length (m_lockData me)))
        (fun _ w4 => forall w', sameLocks w4 w' -> extends w4 w' -> Q w') w3) ->
  wp (updateConfig env fuel this) (fun _ w' => Q w') w.
Proof.
  intros Hr Hs Hf Hc Hsurf HQ. unfold updateConfig.
  apply wp_bind. apply (wp_run _ _ _ _ _ (run_getResource _ _ _ Hr)). cbv zeta.
  unfold configFixed in Hf. cbv zeta in Hf. rewrite Hf.
  apply wp_bind. apply (wp_run _ _ _ _ _ (run_getMultisampleConfig env this w me Hr)).
  apply wp_bind. apply (wp_run _ _ _ _ _ (run_getFormatConfig env this w me Hr)).
  apply wp_bind. apply (wp_run _ _ _ _ _ (run_getScaledSize env this w me si0 Hr Hs)).
  unfold configCurrent in Hc. rewrite Hc.
  set (msaa := multisampleConfigAt env (length (trace w)) me).
  set (fc := formatConfigAt env (length (trace w)) me).
  set (ss := scaledSizeAt env (length (trace w)) me si0).
  apply wp_bind.
  apply (wp_run _ _ _ _ _ (run_modifyResource _ _ _ _ Hr)).
  pose proof (wp_ok _ _ _ _ _ (modifyResource_sameLocks this (set_m_multiSampleConfig msaa)
                                 ltac:(intros []; reflexivity) w)
                (run_modifyResource _ _ _ _ Hr)) as K1.
  pose proof (wp_ok _ _ _ _ _ (modifyResource_extends this (set_m_multiSampleConfig msaa) w)
                (run_modifyResource _ _ _ _ Hr)) as X1.
  simpl in K1, X1.
  match type of K1 with sameLocks _ ?x => set (w1 := x) in * end.
  assert (H1 : resources w1 !! this = Some (set_m_multiSampleConfig msaa me))
    by apply lookup_insert_eq.
  apply wp_bind.
  apply (wp_run _ _ _ _ _ (run_modifyResource _ _ _ _ H1)).
  pose proof (wp_ok _ _ _ _ _ (modifyResource_sameLocks this (set_m_formatConfig fc)
                                 ltac:(intros []; reflexivity) w1)
                (run_modifyResource _ _ _ _ H1)) as K2.
  pose proof (wp_ok _ _ _ _ _ (modifyResource_extends this (set_m_formatConfig fc) w1)
                (run_modifyResource _ _ _ _ H1)) as X2.
  simpl in K2, X2.
  match type of K2 with sameLocks _ ?x => set (w2 := x) in * end.
  assert (H2 : resources w2 !! this
               = Some (set_m_formatConfig fc (set_m_multiSampleConfig msaa me)))
    by apply lookup_insert_eq.
  apply wp_bind.
  apply (wp_run _ _ _ _ _ (run_modifyResource _ _ _ _ H2)).
  pose proof (wp_ok _ _ _ _ _ (modifyResource_sameLocks this (set_m_scaledSize ss)
                                 ltac:(intros []; reflexivity) w2)
                (run_modifyResource _ _ _ _ H2)) as K3.
  pose proof (wp_ok _ _ _ _ _ (modifyResource_extends this (set_m_scaledSize ss) w2)
                (run_modifyResource _ _ _ _ H2)) as X3.
  simpl in K3, X3.
  match type of K3 with sameLocks _ ?x => set (w3 := x) in * end.
  assert (H3 : resources w3 !! this
               = Some (set_m_scaledSize ss
                         (set_m_formatConfig fc (set_m_multiSampleConfig msaa me))))
    by apply lookup_insert_eq.
  rewrite Hsurf. cbn [when].
  apply wp_bind.
  eapply wp_mono.
  - apply (HQ w3 _ H3).
    + destruct me; reflexivity.
    + destruct me; reflexivity.
    + destruct me; reflexivity.
    + destruct me; reflexivity.
    + transitivity w1; [exact K1|]. transitivity w2; assumption.
    + transitivity w1; [exact X1|]. transitivity w2; assumption.
  - intros [] w4 H4. simpl in H4.
    eapply wp_mono;
      [apply (wp_conj _ (fun _ w' => sameLocks w4 w') (fun _ w' => extends w4 w'));
       apply steps_wp; [steps|esteps]|].
    intros _ w' (K & X). apply H4; assumption.
Qed.

Lemma updateConfig_flushes env fuel this w me si0 :
  resources w !! this = Some me ->
  surfaceData (m_fixedData me) !! 0%nat = Some si0 ->
  configFixed me = false ->
  configCurrent env (length (trace w)) me si0 = false ->
  hasResource (m_msaaSurface me) || hasResource (m_msaaResolvedSurface me) = true ->
  wp (updateConfig env fuel this)
     (fun _ w' =>
        (forall h j, h <> this -> entry h j w' = entry h j w) /\
        (forall i l, entry this i w = Some l ->
                     exists l', entry this i w' = Some l' /\ flushed l l')) w.
Proof.
  intros Hr Hs Hf Hc Hsurf.
  apply (updateConfig_reconfigures env fuel this w me si0 _ Hr Hs Hf Hc Hsurf).
  intros w3 me3 H3 _ L3 _ _ (_ & K3) _.
  eapply wp_mono; [apply (updateConfigFlush_entries env fuel this (length (m_lockData me)) 0 w3)|].
  intros _ w4 (F & E) w' (_ & K') _. split.
  - intros h j Hh. rewrite K', F by (left; exact Hh). apply K3.
  - intros i l Hl.
    assert (Hi : (i < length (m_lockData me))%nat).
    { unfold entry in Hl. rewrite Hr in Hl. eapply lookup_lt_Some; eauto. }
    rewrite <- K3 in Hl.
    destruct (E i l ltac:(lia) Hl) as (l' & Hl' & Fl).
    exists l'. rewrite K'. auto.
Qed.

Lemma updateConfig_loads env fuel this w me si0 :
  resources w !! this = Some me ->
  surfaceData (m_fixedData me) !! 0%nat = Some si0 ->
  configFixed me = false ->
  configCurrent env (length (trace w)) me si0 = false ->
  hasResource (m_msaaSurface me) || hasResource (m_msaaResolvedSurface me) = true ->
  RenderTarget (Flags (m_fixedData me)) = false ->
  ZBuffer (Flags (m_fixedData me)) ||
    negb (isScaled si0 (scaledSizeAt env (length (trace w)) me si0)) = true ->
  wp (updateConfig env fuel this)
     (fun _ w' =>
        forall i l, entry this i w = Some l -> isVidMemUpToDate l = false ->
          isMsaaUpToDate l || isMsaaResolvedUpToDate l = true ->
          exists resolved, resource (m_msaaResolvedSurface me) = Some resolved /\
                           loaded this resolved i w w') w.
Proof.
  intros Hr Hs Hf Hc Hsurf Hrt Hz.
  apply (updateConfig_reconfigures env fuel this w me si0 _ Hr Hs Hf Hc Hsurf).
  intros w3 me3 H3 F3 L3 R3 S3 (_ & K3) X3.
  eapply wp_mono;
    [apply (updateConfigFlush_loads env fuel this (length (m_lockData me)) 0 w3 me3 si0 H3);
     [rewrite F3; exact Hrt | rewrite F3; exact Hs | rewrite F3, S3; exact Hz]|].
  intros _ w4 (X4 & L) w' _ X' i l Hl Hv Hm.
  assert (Hi : (i < length (m_lockData me))%nat).
  { unfold entry in Hl. rewrite Hr in Hl. eapply lookup_lt_Some; eauto. }
  rewrite <- K3 in Hl.
  destruct (L i l ltac:(lia) Hl Hv Hm) as (resolved & Hres & Ld).
  exists resolved. rewrite <- R3. split; [exact Hres|].
  apply (loaded_extends _ _ _ w w3 w4 w'); assumption.
Qed.



Lemma I1_empty : I1 (worldOf []).
Proof. intros h i l. unfold entry. simpl. rewrite lookup_empty. discriminate. Qed.

(** A depth buffer that was configured for four samples and rendered to:
    valid in its multisample surface only. Its resolved surface is resource 3. *)
Definition renderedDepthWorld : World :=
  worldOf [(1, set_m_multiSampleConfig (4, 0)
                 (depthResource 1 (setMsaaUpToDate true newLockData)));
           (3, plainResource 3 80 2 D3DDDIPOOL_VIDEOMEMORY None
                 (setVidMemUpToDate true newLockData))].

Lemma I1_renderedDepthWorld : I1 renderedDepthWorld.
Proof.
  intros h i l. unfold entry, renderedDepthWorld, worldOf. simpl.
  destruct (decide (h = 1)) as [->|H1].
  - rewrite lookup_insert_eq. simpl. destruct i as [|i]; simpl; [|discriminate].
    intros E. injection E as <-. reflexivity.
  - rewrite lookup_insert_ne by congruence.
    destruct (decide (h = 3)) as [->|H3].
    + rewrite lookup_insert_eq. simpl. destruct i as [|i]; simpl; [|discriminate].
      intros E. injection E as <-. reflexivity.
    + rewrite lookup_insert_ne by congruence. rewrite lookup_empty. discriminate.
Qed.


(** ** What construction fixes

    The handle, the request as given and as fixed, the byte size of the
    format, the oversized flag and the repository flag are written by the
    constructor only. *)

Definition created (r r' : Resource) : Prop :=
  m_handle r' = m_handle r /\ m_origData r' = m_origData r /\
  m_fixedData r' = m_fixedData r /\
  m_formatInfo_bytesPerPixel r' = m_formatInfo_bytesPerPixel r /\
  m_isOversized r' = m_isOversized r /\
  m_isSurfaceRepoResource r' = m_isSurfaceRepoResource r.

(** [sameCreation]: every resource of the table is still there, with
    these members as they were. *)
Definition sameCreation (w w' : World) : Prop :=
  forall h r, resources w !! h = Some r ->
              exists r', resources w' !! h = Some r' /\ created r r'.

Lemma created_refl r : created r r.
Proof. unfold created. auto 10. Qed.

Lemma created_trans a b c : created a b -> created b c -> created a c.
Proof.
  unfold created. intros (H1 & H2 & H3 & H4 & H5 & H6) (G1 & G2 & G3 & G4 & G5 & G6).
  rewrite G1, G2, G3, G4, G5, G6. auto 10.
Qed.

#[local] Instance sameCreation_preorder : PreOrder sameCreation.
Proof.
  split.
  - intros w h r Hr. exists r. split; [exact Hr|apply created_refl].
  - intros a b c H1 H2 h r Hr.
    destruct (H1 h r Hr) as (r1 & Hr1 & C1). destruct (H2 h r1 Hr1) as (r2 & Hr2 & C2).
    exists r2. split; [exact Hr2|]. eapply created_trans; eauto.
Qed.

Lemma sameResources_sameCreation w w' : sameResources w w' -> sameCreation w w'.
Proof. intros E h r Hr. exists r. rewrite E. split; [exact Hr|apply created_refl]. Qed.

Lemma quiet_sameCreation w w' : quiet w w' -> sameCreation w w'.
Proof. intros H. apply sameResources_sameCreation, quiet_sameResources, H. Qed.

Lemma confined_sameCreation h i w w' : confined h i w w' -> sameCreation w w'.
Proof.
  intros T h' r Hr.
  destruct (touchG_resource _ h i w w' h' r T Hr) as (ls & E & _).
  exists (set_m_lockData ls r). split; [exact E|]. destruct r. unfold created. simpl. auto 10.
Qed.

Lemma touch_sameCreation h i w w' : touch h i w w' -> sameCreation w w'.
Proof. intros T. eapply confined_sameCreation, touch_confined, T. Qed.

#[local] Hint Resolve sameResources_sameCreation quiet_sameCreation confined_sameCreation
  touch_sameCreation : rel.

Lemma modifyResource_sameCreation h f :
  (forall r, created r (f r)) -> Steps sameCreation (modifyResource h f).
Proof.
  intros Hf w. apply wp_modifyResource. intros r Hr h' r' Hr'. simpl.
  destruct (decide (h' = h)) as [->|Hh].
  - rewrite lookup_insert_eq. rewrite Hr in Hr'. injection Hr' as <-. eauto.
  - rewrite lookup_insert_ne by congruence. exists r'. split; [exact Hr'|apply created_refl].
Qed.

Lemma modifyWorld_sameCreation f :
  (forall w, resources (f w) = resources w) -> Steps sameCreation (modifyWorld f).
Proof.
  intros Hf. apply Steps_modifyWorld. intros w. apply sameResources_sameCreation. apply Hf.
Qed.

#[local] Hint Extern 1 (Steps sameCreation (modifyResource _ _)) =>
  apply modifyResource_sameCreation; intros []; unfold created; simpl; auto 10 : steps.
#[local] Hint Extern 1 (Steps sameCreation (modifyWorld _)) =>
  apply modifyWorld_sameCreation; intros []; reflexivity : steps.
#[local] Hint Resolve modifyLockData_confined clearUpToDateFlags_confined : steps.

Section Creation.

Variable env : Env.

Lemma prepareForBltDstAt_sameCreation fuel h res i r :
  Steps sameCreation (prepareForBltDstAt env fuel h res i r).
Proof. unfold prepareForBltDstAt. steps. Qed.

Lemma prepareForBltDst_sameCreation fuel h d :
  Steps sameCreation (prepareForBltDst env fuel h d).
Proof. pose proof prepareForBltDstAt_sameCreation. unfold prepareForBltDst. steps. Qed.

Lemma prepareForCpuWrite_sameCreation fuel h i :
  Steps sameCreation (prepareForCpuWrite env fuel h i).
Proof. unfold prepareForCpuWrite. steps. Qed.

Lemma prepareForGpuWrite_sameCreation fuel h i :
  Steps sameCreation (prepareForGpuWrite env fuel h i).
Proof. unfold prepareForGpuWrite. steps. Qed.

Hint Resolve prepareForBltDstAt_sameCreation prepareForBltDst_sameCreation
  prepareForCpuWrite_sameCreation prepareForGpuWrite_sameCreation : steps.

Lemma bltLock_sameCreation fuel h d : Steps sameCreation (bltLock env fuel h d).
Proof. unfold bltLock. steps. Qed.

Hint Resolve bltLock_sameCreation : steps.

Lemma lock_sameCreation fuel h d : Steps sameCreation (lock env fuel h d).
Proof. unfold lock. steps. Qed.

Hint Resolve lock_sameCreation unlock_quiet : steps.

Lemma bltViaCpu_sameCreation fuel h d src : Steps sameCreation (bltViaCpu env fuel h d src).
Proof. unfold bltViaCpu. steps. Qed.

Lemma bltViaGpu_sameCreation fuel h d src : Steps sameCreation (bltViaGpu env fuel h d src).
Proof. unfold bltViaGpu. steps. Qed.

Hint Resolve bltViaCpu_sameCreation bltViaGpu_sameCreation : steps.

Lemma presentationBlt_sameCreation fuel h d src :
  Steps sameCreation (presentationBlt env fuel h d src).
Proof. unfold presentationBlt. steps. Qed.

Hint Resolve presentationBlt_sameCreation : steps.

Lemma blt_sameCreation fuel h d : Steps sameCreation (blt env fuel h d).
Proof. unfold blt. steps. Qed.

Lemma colorFill_sameCreation fuel h d : Steps sameCreation (colorFill env fuel h d).
Proof. unfold colorFill. steps. Qed.

Lemma updateConfigFlush_sameCreation fuel h count : forall i,
  Steps sameCreation (updateConfigFlush env fuel h i count).
Proof. induction count as [|count IH]; intros i; simpl; steps. Qed.

Hint Resolve updateConfigFlush_sameCreation : steps.

Lemma updateConfig_sameCreation fuel h : Steps sameCreation (updateConfig env fuel h).
Proof. unfold updateConfig. steps. Qed.

Hint Resolve updateConfig_sameCreation : steps.

Lemma setAsPrimary_sameCreation fuel h : Steps sameCreation (setAsPrimary env fuel h).
Proof. unfold setAsPrimary. steps. Qed.

Lemma createSysMemResource_sameCreation h surfaceInfo :
  Steps sameCreation (createSysMemResource env h surfaceInfo).
Proof. unfold createSysMemResource. steps. Qed.

Hint Resolve createSysMemResource_sameCreation : steps.

Lemma createLockResource_sameCreation h : Steps sameCreation (createLockResource env h).
Proof. unfold createLockResource. steps. Qed.

End Creation.

#[local] Hint Resolve updateConfig_sameCreation createLockResource_sameCreation : steps.

(** ** C6: the clamp of an oversized system-memory surface *)

Lemma clampSurface_spec env si :
  Width (fst (clampSurface env si)) = Z.min (Width si) (dwMaxTextureWidth env) /\
  Height (fst (clampSurface env si)) = Z.min (Height si) (dwMaxTextureHeight env) /\
  snd (clampSurface env si) =
    (dwMaxTextureWidth env <? Width si) || (dwMaxTextureHeight env <? Height si).
Proof.
  unfold clampSurface.
  destruct (dwMaxTextureWidth env <? Width si) eqn:Ew;
    change (Height (setWidth (dwMaxTextureWidth env) si)) with (Height si);
    destruct (dwMaxTextureHeight env <? Height si) eqn:Eh; simpl;
    try apply Z.ltb_lt in Ew; try apply Z.ltb_ge in Ew;
    try apply Z.ltb_lt in Eh; try apply Z.ltb_ge in Eh;
    (split; [lia|split; [lia|reflexivity]]).
Qed.

(** [fixResourceData] on a request the clamp applies to. *)
Lemma fixResourceData_clamps env me w si :
  MatchGdiPrimary (Flags (m_fixedData me)) = false ->
  g_formatOverride w = D3DDDIFMT_UNKNOWN ->
  Pool (m_fixedData me) = D3DDDIPOOL_SYSTEMMEM ->
  surfaceData (m_fixedData me) = [si] -> Depth si = 0 ->
  getFormatInfo_bytesPerPixel env (Format (m_fixedData me)) <> 0 ->
  exists me', fixResourceData env me w = Ok me' w /\
              surfaceData (m_fixedData me') = [fst (clampSurface env si)] /\
              m_isOversized me' = m_isOversized me || snd (clampSurface env si) /\
              m_lockData me' = m_lockData me /\ m_origData me' = m_origData me.
Proof.
  intros Hg Hf Hp Hs Hd Hb. unfold fixResourceData, bind, now, getWorld. cbv zeta.
  rewrite Hg, Hf. change (negb (D3DDDIFMT_UNKNOWN =? D3DDDIFMT_UNKNOWN)) with false. cbv iota.
  assert (E : forall fd, surfaceData fd = [si] -> Pool fd = D3DDDIPOOL_SYSTEMMEM ->
                         Format fd = Format (m_fixedData me) ->
    exists me', match surfaceData fd with
                | [si0] =>
                  if isSystemMem (Pool fd) && (0 =? Depth si0) &&
                     negb (0 =? getFormatInfo_bytesPerPixel env (Format fd))
                  then let '(si', oversized) := clampSurface env si0 in
                       ret (set_m_isOversized (m_isOversized me || oversized)
                              (set_m_fixedData (setSurfaceData [si'] fd) me))
                  else ret (set_m_fixedData fd me)
                | _ => ret (set_m_fixedData fd me)
                end w = Ok me' w /\
              surfaceData (m_fixedData me') = [fst (clampSurface env si)] /\
              m_isOversized me' = m_isOversized me || snd (clampSurface env si) /\
              m_lockData me' = m_lockData me /\ m_origData me' = m_origData me).
  { intros fd Es Ep Ef. rewrite Es, Ep, Ef, Hd.
    assert (Hb' : (0 =? getFormatInfo_bytesPerPixel env (Format (m_fixedData me))) = false)
      by (apply Z.eqb_neq; intros X; apply Hb; symmetry; exact X).
    rewrite Hb'. simpl.
    destruct (clampSurface env si) as [si' o]. eexists. split; [reflexivity|].
    destruct me, fd. simpl. auto. }
  destruct (negb (D3DDDIMULTISAMPLE_NONE =? fst (g_msaaOverride w))).
  - apply E; destruct (m_fixedData me); simpl in *; assumption || reflexivity.
  - apply E; [exact Hs|exact Hp|reflexivity].
Qed.

Lemma Resource_new_clamps env fuel d w si :
  Pool d = D3DDDIPOOL_SYSTEMMEM -> surfaceData d = [si] -> Depth si = 0 ->
  getFormatInfo_bytesPerPixel env (Format d) <> 0 ->
  MatchGdiPrimary (Flags d) = false -> g_formatOverride w = D3DDDIFMT_UNKNOWN ->
  wp (Resource_new env fuel d)
     (fun c w' =>
        match c with
        | Thrown _ => True
        | Built this _ =>
          exists r, resources w' !! this = Some r /\
                    surfaceData (m_fixedData r) = [fst (clampSurface env si)] /\
                    m_isOversized r = snd (clampSurface env si) /\
                    m_origData r = d
        end) w.
Proof.
  intros Hp Hs Hd Hb Hg Hf. unfold Resource_new.
  apply wp_bind, wp_now. cbv zeta.
  set (me0 := initialResource d _).
  destruct (VertexBuffer _ && MightDrawFromLocked _ && negb _); [apply wp_ret; exact I|].
  change (MatchGdiPrimary (Flags (m_origData me0))) with (MatchGdiPrimary (Flags d)).
  rewrite Hg. apply wp_bind, wp_ret.
  destruct (fixResourceData_clamps env me0 w si Hg Hf Hp Hs Hd Hb)
    as (me1 & E1 & S1 & O1 & _ & D1).
  apply wp_bind. unfold wp at 1. rewrite E1.
  apply wp_bind, wp_deref. intros si0 _.
  unfold createPrivateResource.
  apply wp_bind, wp_bind, wp_now, wp_bind, wp_emit.
  match goal with |- context [drv_createResource env ?t ?x] =>
    destruct (drv_createResource env t x) as [hr h] end.
  apply wp_ret.
  destruct (FAILED hr); [apply wp_ret; exact I|].
  apply wp_bind, wp_modifyWorld.
  match goal with |- wp _ _ (set_resources (<[?k := ?v]> _) ?w2) =>
    set (this := k); set (me3 := v); set (w3 := set_resources (<[k := v]> (resources w2)) w2) end.
  assert (H3 : resources w3 !! this = Some me3) by apply lookup_insert_eq.
  apply wp_bind. eapply (wp_steps sameCreation); [steps|]. intros _ w4 C4.
  apply wp_bind, wp_getResource. intros me Hme.
  apply wp_bind. eapply (wp_steps sameCreation); [steps|]. intros _ w5 C5.
  apply wp_ret.
  destruct (C4 this me3 H3) as (r4 & Hr4 & K4).
  destruct (C5 this r4 Hr4) as (r5 & Hr5 & K5).
  destruct (created_trans _ _ _ K4 K5) as (_ & KO & KF & _ & KV & _).
  exists r5. split; [exact Hr5|]. rewrite KF, KV, KO.
  unfold me3. destruct me1 as []. simpl in *. rewrite S1, O1, D1. auto.
Qed.

Lemma lock_unsampled env fuel this lk w r :
  resources w !! this = Some r ->
  MultisampleType (m_fixedData r) = D3DDDIMULTISAMPLE_NONE ->
  lock env fuel this lk w =
    match ddraw_bltSrc env (length (trace w)) with
    | Some (h, _, _) =>
      if h =? 0 then
        (if hasLockResource r || m_isOversized r then bltLock env fuel this lk
         else
           run when (negb (lock_ReadOnly lk))
                 (modifyResource this (set_m_isPalettizedTextureUpToDate false)) ;;
           run when (ZBuffer (Flags (m_fixedData r)) && hasResource (m_msaaResolvedSurface r))
                 (run loadVidMemResource env fuel this 0 ;;
                  when (negb (lock_ReadOnly lk))
                    (run modifyLockData this 0 (setMsaaUpToDate false) ;;
                     modifyLockData this 0 (setMsaaResolvedUpToDate false))) ;;
           pfnLock env lk) w
      else Ok (E_ABORT, lk) w
    | None =>
      (if hasLockResource r || m_isOversized r then bltLock env fuel this lk
       else
         run when (negb (lock_ReadOnly lk))
               (modifyResource this (set_m_isPalettizedTextureUpToDate false)) ;;
         run when (ZBuffer (Flags (m_fixedData r)) && hasResource (m_msaaResolvedSurface r))
               (run loadVidMemResource env fuel this 0 ;;
                when (negb (lock_ReadOnly lk))
                  (run modifyLockData this 0 (setMsaaUpToDate false) ;;
                   modifyLockData this 0 (setMsaaResolvedUpToDate false))) ;;
         pfnLock env lk) w
    end.
Proof.
  intros Hr Hm. unfold lock.
  rewrite (run_bind _ _ _ _ _ (run_getResource _ _ _ Hr)). rewrite Hm.
  change (negb (D3DDDIMULTISAMPLE_NONE =? D3DDDIMULTISAMPLE_NONE)) with false. cbv iota.
  unfold setBltSrc, bind at 1, bind at 1, now.
  destruct (ddraw_bltSrc env (length (trace w))) as [[[h i] rc]|]; simpl.
  - destruct (h =? 0); reflexivity.
  - reflexivity.
Qed.

(** The pointer [bltLock] hands out. *)
Definition lockedPtr (bpp : Z) (l : LockData) (lk : D3DDDIARG_LOCK) : Z :=
  if lock_AreaValid lk
  then wrapUINT (data l + wrapUINT (top (lock_Area lk) * pitch l + left (lock_Area lk) * bpp))
  else data l.

Lemma bltLock_plain env fuel this lk w r l :
  resources w !! this = Some r -> hasLockResource r = false ->
  m_lockData r !! lock_SubResourceIndex lk = Some l ->
  bltLock env fuel this lk w
  = Ok (S_OK, setLockResult (lockedPtr (m_formatInfo_bytesPerPixel r) l lk) (pitch l) lk) w.
Proof.
  intros Hr Hl Hd. unfold bltLock.
  rewrite (run_bind _ _ _ _ _ (run_getResource _ _ _ Hr)). rewrite Hl.
  unfold when. unfold bind at 1. unfold ret at 1.
  rewrite (run_bind _ _ _ _ _ (run_lockDataAt _ _ _ _ _ Hr Hd)). reflexivity.
Qed.

Definition gdiPrimaryFlags : D3DDDI_RESOURCEFLAGS :=
  mkFlags false false false false false false false false true false
          false false false false false false false false false false.

(** An oversized system-memory surface as the constructor leaves it. *)
Definition oversizedWorld : World :=
  worldOf [(1, set_m_isOversized true
                 (plainResource 1 D3DDDIFMT_X8R8G8B8 4 D3DDDIPOOL_SYSTEMMEM None
                    (setData 4096 36000 (setSysMemUpToDate true newLockData))))].

(** C6, as the spec words it, fails twice. A lock on an oversized resource
    made while a DirectDraw blit source is pending returns E_ABORT and is
    not served by [bltLock], which would have returned S_OK with the
    pointer. And a 9000x9000 system-memory request with the MatchGdiPrimary
    flag gets the size of the monitor, 1920x1080, not the maximum of
    8192x8192, and is not marked oversized. *)
Lemma oversize_clamp_exceptions :
  (lock envPending 3 1 emptyLock oversizedWorld = Ok (E_ABORT, emptyLock) oversizedWorld /\
   bltLock envPending 3 1 emptyLock oversizedWorld
   = Ok (S_OK, setLockResult 4096 36000 emptyLock) oversizedWorld) /\
  exists this request w' r,
    Resource_new env0 3 (plainRequest D3DDDIPOOL_SYSTEMMEM gdiPrimaryFlags 9000 9000) (worldOf [])
    = Ok (Built this request) w' /\
    dwMaxTextureWidth env0 = 8192 /\ dwMaxTextureHeight env0 = 8192 /\
    resources w' !! this = Some r /\
    surfaceData (m_fixedData r) = [mkSurfaceInfo 1920 1080 0 0 0] /\
    m_isOversized r = false.
Proof.
  split; [split; vm_compute; reflexivity|].
  do 4 eexists. split; [vm_compute; reflexivity|].
  split; [reflexivity|]. split; [reflexivity|].
  split; [vm_compute; reflexivity|]. split; reflexivity.
Qed.

(** C6, amended. A request without the MatchGdiPrimary flag, made while
    no format override is active, in the system-memory pool, with one
    subresource of zero Depth and a format of nonzero byte size: when the
    constructor returns the object, its fixed Width and Height are the
    requested ones cut down to dwMaxTextureWidth and dwMaxTextureHeight,
    the oversized flag is set exactly when one of them was cut, and the
    request as given is kept. A lock on an oversized resource that is not
    multisampled is served by [bltLock] when no DirectDraw blit source is
    pending, and refused with E_ABORT when one is; without a lock resource
    [bltLock] returns S_OK with the stored pointer and pitch and leaves
    the state, and so the trace of driver calls, as it was. *)
Theorem oversize_clamp (env : Env) (fuel : nat) :
  (forall d w si this request w',
     Pool d = D3DDDIPOOL_SYSTEMMEM -> surfaceData d = [si] -> Depth si = 0 ->
     getFormatInfo_bytesPerPixel env (Format d) <> 0 ->
     MatchGdiPrimary (Flags d) = false -> g_formatOverride w = D3DDDIFMT_UNKNOWN ->
     Resource_new env fuel d w = Ok (Built this request) w' ->
     exists r si', resources w' !! this = Some r /\
                   surfaceData (m_fixedData r) = [si'] /\
                   Width si' = Z.min (Width si) (dwMaxTextureWidth env) /\
                   Height si' = Z.min (Height si) (dwMaxTextureHeight env) /\
                   m_isOversized r = (dwMaxTextureWidth env <? Width si) ||
                                     (dwMaxTextureHeight env <? Height si) /\
                   m_origData r = d) /\
  (forall this lk w r,
     resources w !! this = Some r -> m_isOversized r = true ->
     MultisampleType (m_fixedData r) = D3DDDIMULTISAMPLE_NONE ->
     (ddraw_bltSrc env (length (trace w)) = None ->
      lock env fuel this lk w = bltLock env fuel this lk w /\
      (hasLockResource r = false ->
       forall l, m_lockData r !! lock_SubResourceIndex lk = Some l ->
         lock env fuel this lk w
         = Ok (S_OK, setLockResult (lockedPtr (m_formatInfo_bytesPerPixel r) l lk) (pitch l) lk)
              w)) /\
     (forall h i rc, ddraw_bltSrc env (length (trace w)) = Some (h, i, rc) -> h <> 0 ->
                     lock env fuel this lk w = Ok (E_ABORT, lk) w)).
Proof.
  split.
  - intros d w si this request w' Hp Hs Hd Hb Hg Hf E.
    destruct (wp_ok _ _ _ _ _ (Resource_new_clamps env fuel d w si Hp Hs Hd Hb Hg Hf) E)
      as (r & Hr & S & O & D).
    destruct (clampSurface_spec env si) as (Cw & Ch & Co).
    exists r, (fst (clampSurface env si)). rewrite <- Co. auto 10.
  - intros this lk w r Hr Ho Hm.
    pose proof (lock_unsampled env fuel this lk w r Hr Hm) as L.
    split.
    + intros Hb. rewrite Hb, Ho, orb_true_r in L. split; [exact L|].
      intros Hl l Hd. rewrite L. apply bltLock_plain; assumption.
    + intros h i rc Hb Hh. rewrite Hb in L. apply Z.eqb_neq in Hh. rewrite Hh in L. exact L.
Qed.

(** The scenario of the specification: 9000x9000 on a device of 8192x8192. *)
Definition hugeRequest : Data := plainRequest D3DDDIPOOL_SYSTEMMEM noFlags 9000 9000.

Definition hugeWorld : World :=
  match Resource_new env0 3 hugeRequest (worldOf []) with
  | Ok _ w => w
  | _ => worldOf []
  end.

Lemma oversize_clamp_witness :
  Resource_new env0 3 hugeRequest (worldOf []) = Ok (Built 100 (setHResource 100 hugeRequest))
                                                    hugeWorld /\
  (exists r si',
     resources hugeWorld !! 100 = Some r /\ surfaceData (m_fixedData r) = [si'] /\
     Width si' = 8192 /\ Height si' = 8192 /\ m_isOversized r = true /\
     m_origData r = hugeRequest) /\
  exists lk', lock env0 3 100 emptyLock hugeWorld = Ok (S_OK, lk') hugeWorld.
Proof.
  assert (E : Resource_new env0 3 hugeRequest (worldOf [])
              = Ok (Built 100 (setHResource 100 hugeRequest)) hugeWorld)
    by (vm_compute; reflexivity).
  split; [exact E|]. split.
  - exact (proj1 (oversize_clamp env0 3) hugeRequest (worldOf [])
             (mkSurfaceInfo 9000 9000 0 0 0) 100 (setHResource 100 hugeRequest) hugeWorld
             eq_refl eq_refl eq_refl ltac:(discriminate) eq_refl eq_refl E).
  - eexists. vm_compute. reflexivity.
Defined.

(** * Further properties of the resource code *)

(** ** Rectangles *)

(** The rectangle lies within a surface of the given size and is not empty. *)
Definition insideSurface (width height : Z) (rect : RECT) : Prop :=
  0 <= left rect < right rect /\ right rect <= width /\
  0 <= top rect < bottom rect /\ bottom rect <= height.

(** [isValidRect] decides whether the rectangle is a non-empty part
    of the subresource. A rectangle with a negative origin or without area
    is refused before the surface list is read, whatever the index. *)
Theorem isValidRect_decides (this : HANDLE) (i : nat) (rect : RECT) (w : World) :
  (~ (0 <= left rect < right rect /\ 0 <= top rect < bottom rect) ->
   isValidRect this i rect w = Ok false w) /\
  (forall r si, resources w !! this = Some r -> surfaceData (m_fixedData r) !! i = Some si ->
     exists b, isValidRect this i rect w = Ok b w /\
               (b = true <-> insideSurface (toLONG (Width si)) (toLONG (Height si)) rect)).
Proof.
  unfold isValidRect, insideSurface. split.
  - intros Hn.
    destruct ((0 <=? left rect) && (0 <=? top rect) && (left rect <? right rect) &&
              (top rect <? bottom rect)) eqn:E; [|reflexivity].
    exfalso. apply Hn. rewrite !andb_true_iff in E. lia.
  - intros r si Hr Hs.
    destruct ((0 <=? left rect) && (0 <=? top rect) && (left rect <? right rect) &&
              (top rect <? bottom rect)) eqn:E.
    + rewrite (run_bind _ _ _ _ _ (run_fixedSurfaceAt _ _ _ _ _ Hr Hs)).
      eexists. split; [reflexivity|]. rewrite !andb_true_iff in *. lia.
    + exists false. split; [reflexivity|]. split; [discriminate|].
      intros H. exfalso. rewrite !andb_false_iff in E. lia.
Qed.

(** [clipRect] cuts the rectangle to the surface: the result has no
    negative origin, does not reach past the surface and lies within the
    rectangle given; clipping it again changes nothing; and when it is not
    empty, [isValidRect] accepts it. *)
Theorem clipRect_within (this : HANDLE) (i : nat) (rect : RECT) (w : World)
    (r : Resource) (si : D3DDDI_SURFACEINFO) :
  resources w !! this = Some r -> surfaceData (m_fixedData r) !! i = Some si ->
  exists c, clipRect this i rect w = Ok c w /\
            0 <= left c /\ 0 <= top c /\
            right c <= toLONG (Width si) /\ bottom c <= toLONG (Height si) /\
            left rect <= left c /\ top rect <= top c /\
            right c <= right rect /\ bottom c <= bottom rect /\
            clipRect this i c w = Ok c w /\
            (left c < right c -> top c < bottom c -> isValidRect this i c w = Ok true w).
Proof.
  intros Hr Hs. unfold clipRect, isValidRect.
  rewrite (run_bind _ _ _ _ _ (run_fixedSurfaceAt _ _ _ _ _ Hr Hs)).
  set (W := toLONG (Width si)). set (H := toLONG (Height si)).
  eexists. split; [reflexivity|]. cbn [left top right bottom].
  repeat (split; [lia|]). split.
  - rewrite (run_bind _ _ _ _ _ (run_fixedSurfaceAt _ _ _ _ _ Hr Hs)). unfold ret.
    fold W H.
    replace (Z.max (Z.max (left rect) 0) 0) with (Z.max (left rect) 0) by lia.
    replace (Z.max (Z.max (top rect) 0) 0) with (Z.max (top rect) 0) by lia.
    replace (Z.min (Z.min (right rect) W) W) with (Z.min (right rect) W) by lia.
    replace (Z.min (Z.min (bottom rect) H) H) with (Z.min (bottom rect) H) by lia.
    reflexivity.
  - intros H1 H2.
    replace ((0 <=? Z.max (left rect) 0) && (0 <=? Z.max (top rect) 0) &&
             (Z.max (left rect) 0 <? Z.min (right rect) W) &&
             (Z.max (top rect) 0 <? Z.min (bottom rect) H)) with true
      by (symmetry; rewrite !andb_true_iff; lia).
    rewrite (run_bind _ _ _ _ _ (run_fixedSurfaceAt _ _ _ _ _ Hr Hs)). unfold ret.
    fold W H. f_equal. rewrite andb_true_iff. lia.
Qed.

Lemma clipRect_within_witness :
  exists c, clipRect 1 0 (mkRECT (-10) 5 100 20) lockableWorld = Ok c lockableWorld /\
            c = mkRECT 0 5 64 20 /\
            isValidRect 1 0 c lockableWorld = Ok true lockableWorld.
Proof.
  destruct (clipRect_within 1 0 (mkRECT (-10) 5 100 20) lockableWorld _ _ eq_refl eq_refl)
    as (c & E & _ & _ & _ & _ & _ & _ & _ & _ & _ & V).
  exists c. split; [exact E|].
  assert (Ec : c = mkRECT 0 5 64 20) by (vm_compute in E; injection E as <-; reflexivity).
  split; [exact Ec|]. apply V; rewrite Ec; simpl; lia.
Defined.

Definition validRectb (width height : Z) (rect : RECT) : bool :=
  (0 <=? left rect) && (0 <=? top rect) && (left rect <? right rect) &&
  (top rect <? bottom rect) && (right rect <=? width) && (bottom rect <=? height).

Lemma validRectb_iff width height rect :
  validRectb width height rect = true <-> insideSurface width height rect.
Proof. unfold validRectb, insideSurface. rewrite !andb_true_iff. lia. Qed.

Lemma run_isValidRect h i rect w r si :
  resources w !! h = Some r -> surfaceData (m_fixedData r) !! i = Some si ->
  isValidRect h i rect w = Ok (validRectb (toLONG (Width si)) (toLONG (Height si)) rect) w.
Proof.
  intros Hr Hs. unfold isValidRect, validRectb.
  destruct ((0 <=? left rect) && (0 <=? top rect) && (left rect <? right rect) &&
            (top rect <? bottom rect)).
  - rewrite (run_bind _ _ _ _ _ (run_fixedSurfaceAt _ _ _ _ _ Hr Hs)). reflexivity.
  - reflexivity.
Qed.

(** ** The blits that are dropped or passed on *)

(** The test [blt] starts with. *)
Definition depthBltUnsupported (env : Env) (me : Resource) : bool :=
  ZBuffer (Flags (m_fixedData me)) && hasResource (m_msaaSurface me) &&
  negb (isMsaaDepthResolveSupported env).

(** The blit as [DDraw::setBltSrc] leaves it at moment [t]: with the
    pending DirectDraw blit source in place of the caller's source, when
    there is one. *)
Definition withBltSrc (env : Env) (t : nat) (d : D3DDDIARG_BLT) : D3DDDIARG_BLT :=
  match ddraw_bltSrc env t with
  | Some (h, i, r) => setSrc h i r d
  | None => d
  end.

Lemma run_setBltSrc env d w :
  setBltSrc env d w = Ok (withBltSrc env (length (trace w)) d) w.
Proof.
  unfold setBltSrc, withBltSrc, bind, now.
  destruct (ddraw_bltSrc env (length (trace w))) as [[[h i] r]|]; reflexivity.
Qed.

Lemma run_pfnBlt env d w :
  pfnBlt env d w = Ok (drv_blt env (length (trace w)) d) (set_trace (EvBlt d :: trace w) w).
Proof. reflexivity. Qed.

Lemma blt_after_depth_test env fuel this d w me si :
  resources w !! this = Some me ->
  surfaceData (m_fixedData me) !! DstSubResourceIndex d = Some si ->
  depthBltUnsupported env me = false ->
  insideSurface (toLONG (Width si)) (toLONG (Height si)) (DstRect d) ->
  forall src ssi,
    let d' := withBltSrc env (length (trace w)) d in
    resources w !! hSrcResource d' = Some src ->
    surfaceData (m_fixedData src) !! SrcSubResourceIndex d' = Some ssi ->
    blt env fuel this d w =
      (if negb (validRectb (toLONG (Width ssi)) (toLONG (Height ssi)) (SrcRect d')) then ret S_OK
       else if isSystemMem (Pool (m_fixedData me)) && isSystemMem (Pool (m_fixedData src))
       then pfnBlt env d'
       else if MatchGdiPrimary (Flags (m_fixedData me))
       then presentationBlt env fuel this d' (hSrcResource d')
       else
         let* result := bltViaCpu env fuel this d' (hSrcResource d') in
         if negb (S_FALSE =? result) then ret result
         else bltViaGpu env fuel this d' (hSrcResource d')) w.
Proof.
  intros Hr Hs Hu Hv src ssi d' Hsrc Hss. unfold blt.
  rewrite (run_bind _ _ _ _ _ (run_getResource _ _ _ Hr)).
  fold (depthBltUnsupported env me). rewrite Hu.
  rewrite (run_bind _ _ _ _ _ (run_isValidRect _ _ _ _ _ _ Hr Hs)).
  rewrite (proj2 (validRectb_iff _ _ _) Hv). cbv [negb].
  rewrite (run_bind _ _ _ _ _ (run_setBltSrc env d w)). fold d'.
  unfold bind at 1, getWorld.
  destruct (decide (resources w !! hSrcResource d' = None)) as [E|_]; [congruence|].
  rewrite (run_bind _ _ _ _ _ (run_isValidRect _ _ _ _ _ _ Hsrc Hss)).
  rewrite (run_bind _ _ _ _ _ (run_getResource _ _ _ Hsrc)).
  reflexivity.
Qed.

(** [blt] drops a blit without touching anything: to a multisampled depth
    buffer on a device that cannot resolve depth (S_OK, and the warning is
    written once); with a destination rectangle that is not a non-empty
    part of the destination (S_OK, the state unchanged); with a source
    rectangle that is not a non-empty part of the source (the same),
    where source and source rectangle are those of the pending DirectDraw
    blit source when there is one, and the caller's otherwise. *)
Theorem blt_dropped (env : Env) (fuel : nat) (this : HANDLE) (d : D3DDDIARG_BLT)
    (w : World) (me : Resource) :
  resources w !! this = Some me ->
  (depthBltUnsupported env me = true -> blt env fuel this d w = Ok S_OK (warned w)) /\
  (forall si,
     depthBltUnsupported env me = false ->
     surfaceData (m_fixedData me) !! DstSubResourceIndex d = Some si ->
     (~ insideSurface (toLONG (Width si)) (toLONG (Height si)) (DstRect d) ->
      blt env fuel this d w = Ok S_OK w) /\
     (forall src ssi,
        let d' := withBltSrc env (length (trace w)) d in
        insideSurface (toLONG (Width si)) (toLONG (Height si)) (DstRect d) ->
        resources w !! hSrcResource d' = Some src ->
        surfaceData (m_fixedData src) !! SrcSubResourceIndex d' = Some ssi ->
        ~ insideSurface (toLONG (Width ssi)) (toLONG (Height ssi)) (SrcRect d') ->
        blt env fuel this d w = Ok S_OK w)).
Proof.
  intros Hr. split.
  - intros Hu. unfold blt. rewrite (run_bind _ _ _ _ _ (run_getResource _ _ _ Hr)).
    fold (depthBltUnsupported env me). rewrite Hu.
    rewrite (run_bind _ _ _ _ _ (run_logUnsupportedMsaaDepthBufferResolve w)). reflexivity.
  - intros si Hu Hs. split.
    + intros Hn. unfold blt. rewrite (run_bind _ _ _ _ _ (run_getResource _ _ _ Hr)).
      fold (depthBltUnsupported env me). rewrite Hu.
      rewrite (run_bind _ _ _ _ _ (run_isValidRect _ _ _ _ _ _ Hr Hs)).
      destruct (validRectb _ _ (DstRect d)) eqn:E; [|reflexivity].
      exfalso. apply Hn, validRectb_iff, E.
    + intros src ssi d' Hv Hsrc Hss Hn.
      rewrite (blt_after_depth_test env fuel this d w me si Hr Hs Hu Hv src ssi Hsrc Hss).
      fold d'. destruct (validRectb _ _ (SrcRect d')) eqn:E; [|reflexivity].
      exfalso. apply Hn, validRectb_iff, E.
Qed.

(** Three palettized system-memory surfaces. *)
Definition systemMemoryWorld : World :=
  worldOf [(1, plainResource 1 D3DDDIFMT_P8 1 D3DDDIPOOL_SYSTEMMEM None
                 (setSysMemUpToDate true newLockData));
           (2, plainResource 2 D3DDDIFMT_P8 1 D3DDDIPOOL_SYSTEMMEM None
                 (setSysMemUpToDate true newLockData));
           (7, plainResource 7 D3DDDIFMT_P8 1 D3DDDIPOOL_SYSTEMMEM None
                 (setSysMemUpToDate true newLockData))].

(** Resource 7 with a surface of 32x32 only. *)
Definition smallSource : Resource :=
  set_m_fixedData
    (setSurfaceData [mkSurfaceInfo 32 32 0 0 0]
       (m_fixedData (plainResource 7 D3DDDIFMT_P8 1 D3DDDIPOOL_SYSTEMMEM None
                       (setSysMemUpToDate true newLockData))))
    (plainResource 7 D3DDDIFMT_P8 1 D3DDDIPOOL_SYSTEMMEM None
       (setSysMemUpToDate true newLockData)).

Definition smallSourceWorld : World :=
  worldOf [(1, plainResource 1 D3DDDIFMT_P8 1 D3DDDIPOOL_SYSTEMMEM None
                 (setSysMemUpToDate true newLockData));
           (2, plainResource 2 D3DDDIFMT_P8 1 D3DDDIPOOL_SYSTEMMEM None
                 (setSysMemUpToDate true newLockData));
           (7, smallSource)].

(** The depth blit that is dropped with a warning; a destination
    rectangle one pixel too wide; an empty source rectangle; and a blit
    whose own source rectangle is fine, dropped because the rectangle of
    the pending DirectDraw blit source, 64x64, does not fit its 32x32
    surface. *)
Lemma blt_dropped_witness :
  blt env0 3 1 palettizedBlt freshDepthWorld = Ok S_OK (warned freshDepthWorld) /\
  blt env0 3 1 (setDst 1 0 (mkRECT 0 0 65 64) palettizedBlt) ordinaryWorld
  = Ok S_OK ordinaryWorld /\
  blt env0 3 1 (setSrc 2 0 (mkRECT 0 0 0 64) palettizedBlt) ordinaryWorld
  = Ok S_OK ordinaryWorld /\
  blt envPending 3 1 palettizedBlt smallSourceWorld = Ok S_OK smallSourceWorld.
Proof.
  split; [|split; [|split]].
  - apply (proj1 (blt_dropped env0 3 1 palettizedBlt freshDepthWorld
                    (depthResource 1
                       (setMsaaResolvedUpToDate true
                          (setMsaaUpToDate true
                             (setVidMemUpToDate true (setSysMemUpToDate true newLockData)))))
                    eq_refl)).
    reflexivity.
  - apply (proj2 (blt_dropped env0 3 1 (setDst 1 0 (mkRECT 0 0 65 64) palettizedBlt)
                    ordinaryWorld
                    (plainResource 1 D3DDDIFMT_X8R8G8B8 4 D3DDDIPOOL_VIDEOMEMORY (Some 5)
                       (setVidMemUpToDate true newLockData))
                    eq_refl) (mkSurfaceInfo 64 64 0 0 0) eq_refl eq_refl).
    unfold insideSurface. vm_compute. intros (_ & H & _). apply H. reflexivity.
  - apply (proj2 (proj2 (blt_dropped env0 3 1 (setSrc 2 0 (mkRECT 0 0 0 64) palettizedBlt)
                    ordinaryWorld
                    (plainResource 1 D3DDDIFMT_X8R8G8B8 4 D3DDDIPOOL_VIDEOMEMORY (Some 5)
                       (setVidMemUpToDate true newLockData))
                    eq_refl) (mkSurfaceInfo 64 64 0 0 0) eq_refl eq_refl)
                  (plainResource 2 D3DDDIFMT_X8R8G8B8 4 D3DDDIPOOL_VIDEOMEMORY (Some 6)
                     (setVidMemUpToDate true newLockData))
                  (mkSurfaceInfo 64 64 0 0 0)).
    + unfold insideSurface. vm_compute. repeat split; discriminate.
    + reflexivity.
    + reflexivity.
    + unfold insideSurface. vm_compute. intros ((_ & H) & _). discriminate H.
  - apply (proj2 (proj2 (blt_dropped envPending 3 1 palettizedBlt smallSourceWorld
                    (plainResource 1 D3DDDIFMT_P8 1 D3DDDIPOOL_SYSTEMMEM None
                       (setSysMemUpToDate true newLockData))
                    eq_refl) (mkSurfaceInfo 64 64 0 0 0) eq_refl eq_refl)
                  smallSource (mkSurfaceInfo 32 32 0 0 0)).
    + unfold insideSurface. vm_compute. repeat split; discriminate.
    + reflexivity.
    + reflexivity.
    + unfold insideSurface. vm_compute. intros (_ & H & _). apply H. reflexivity.
Defined.

(** A blit between two system-memory resources goes to the driver as it
    is after [DDraw::setBltSrc]: one driver blit with the caller's
    arguments, the source and source rectangle replaced by the pending
    DirectDraw blit source when there is one; the driver's result is
    returned, and no resource is changed. *)
Theorem blt_between_system_memory (env : Env) (fuel : nat) (this : HANDLE) (d : D3DDDIARG_BLT)
    (w : World) (me src : Resource) (si ssi : D3DDDI_SURFACEINFO) :
  let d' := withBltSrc env (length (trace w)) d in
  resources w !! this = Some me ->
  resources w !! hSrcResource d' = Some src ->
  surfaceData (m_fixedData me) !! DstSubResourceIndex d = Some si ->
  surfaceData (m_fixedData src) !! SrcSubResourceIndex d' = Some ssi ->
  depthBltUnsupported env me = false ->
  insideSurface (toLONG (Width si)) (toLONG (Height si)) (DstRect d) ->
  insideSurface (toLONG (Width ssi)) (toLONG (Height ssi)) (SrcRect d') ->
  Pool (m_fixedData me) = D3DDDIPOOL_SYSTEMMEM ->
  Pool (m_fixedData src) = D3DDDIPOOL_SYSTEMMEM ->
  blt env fuel this d w
  = Ok (drv_blt env (length (trace w)) d') (set_trace (EvBlt d' :: trace w) w).
Proof.
  intros d' Hr Hsrc Hs Hss Hu Hv Hvs Hp Hps.
  rewrite (blt_after_depth_test env fuel this d w me si Hr Hs Hu Hv src ssi Hsrc Hss).
  fold d'. rewrite (proj2 (validRectb_iff _ _ _) Hvs), Hp, Hps. reflexivity.
Qed.

(** The caller's blit from resource 2, and the same call while a
    DirectDraw blit from resource 7 is pending. *)
Lemma blt_between_system_memory_witness :
  blt env0 3 1 palettizedBlt systemMemoryWorld
  = Ok S_OK (set_trace [EvBlt palettizedBlt] systemMemoryWorld) /\
  blt envPending 3 1 palettizedBlt systemMemoryWorld
  = Ok S_OK (set_trace [EvBlt (setSrc 7 0 (mkRECT 0 0 64 64) palettizedBlt)] systemMemoryWorld).
Proof.
  split.
  - apply (blt_between_system_memory env0 3 1 palettizedBlt systemMemoryWorld
             (plainResource 1 D3DDDIFMT_P8 1 D3DDDIPOOL_SYSTEMMEM None
                (setSysMemUpToDate true newLockData))
             (plainResource 2 D3DDDIFMT_P8 1 D3DDDIPOOL_SYSTEMMEM None
                (setSysMemUpToDate true newLockData))
             (mkSurfaceInfo 64 64 0 0 0) (mkSurfaceInfo 64 64 0 0 0));
      try reflexivity; unfold insideSurface; vm_compute; repeat split; discriminate.
  - apply (blt_between_system_memory envPending 3 1 palettizedBlt systemMemoryWorld
             (plainResource 1 D3DDDIFMT_P8 1 D3DDDIPOOL_SYSTEMMEM None
                (setSysMemUpToDate true newLockData))
             (plainResource 7 D3DDDIFMT_P8 1 D3DDDIPOOL_SYSTEMMEM None
                (setSysMemUpToDate true newLockData))
             (mkSurfaceInfo 64 64 0 0 0) (mkSurfaceInfo 64 64 0 0 0));
      try reflexivity; unfold insideSurface; vm_compute; repeat split; discriminate.
Defined.

(** ** Colour fills *)

(** The rectangle [clipRect] makes of [rect] on a surface of the given size. *)
Definition clipped (width height : Z) (rect : RECT) : RECT :=
  mkRECT (Z.max (left rect) 0) (Z.max (top rect) 0)
         (Z.min (right rect) width) (Z.min (bottom rect) height).

Lemma run_clipRect h i rect w r si :
  resources w !! h = Some r -> surfaceData (m_fixedData r) !! i = Some si ->
  clipRect h i rect w = Ok (clipped (toLONG (Width si)) (toLONG (Height si)) rect) w.
Proof.
  intros Hr Hs. unfold clipRect.
  rewrite (run_bind _ _ _ _ _ (run_fixedSurfaceAt _ _ _ _ _ Hr Hs)). reflexivity.
Qed.

(** [colorFill] of a rectangle that has no area in common with the
    subresource returns S_OK and does nothing: no flag changes and neither
    the driver nor the CPU fill is called. *)
Theorem colorFill_outside_skipped (env : Env) (fuel : nat) (this : HANDLE)
    (d : D3DDDIARG_COLORFILL) (w : World) (r : Resource) (si : D3DDDI_SURFACEINFO) :
  resources w !! this = Some r ->
  surfaceData (m_fixedData r) !! cf_SubResourceIndex d = Some si ->
  right (cf_DstRect d) <= 0 \/ toLONG (Width si) <= left (cf_DstRect d) \/
  right (cf_DstRect d) <= left (cf_DstRect d) \/
  bottom (cf_DstRect d) <= 0 \/ toLONG (Height si) <= top (cf_DstRect d) \/
  bottom (cf_DstRect d) <= top (cf_DstRect d) ->
  colorFill env fuel this d w = Ok S_OK w.
Proof.
  intros Hr Hs Ho. unfold colorFill.
  rewrite (run_bind _ _ _ _ _ (run_clipRect _ _ _ _ _ _ Hr Hs)). unfold clipped.
  cbn [left top right bottom].
  replace ((Z.min (right (cf_DstRect d)) (toLONG (Width si)) <=? Z.max (left (cf_DstRect d)) 0) ||
           (Z.min (bottom (cf_DstRect d)) (toLONG (Height si)) <=? Z.max (top (cf_DstRect d)) 0))
    with true; [reflexivity|].
  symmetry. apply orb_true_iff. rewrite !Z.leb_le. lia.
Qed.

Definition fillOf (rect : RECT) : D3DDDIARG_COLORFILL := mkColorFill 1 0 rect 255.

Lemma colorFill_outside_skipped_witness :
  colorFill env0 3 1 (fillOf (mkRECT 64 0 80 10)) lockableWorld = Ok S_OK lockableWorld.
Proof.
  apply (colorFill_outside_skipped env0 3 1 (fillOf (mkRECT 64 0 80 10)) lockableWorld
           (plainResource 1 D3DDDIFMT_X8R8G8B8 4 D3DDDIPOOL_VIDEOMEMORY (Some 5)
              (setSysMemUpToDate true (setVidMemUpToDate true newLockData)))
           (mkSurfaceInfo 64 64 0 0 0) eq_refl eq_refl).
  right. left. vm_compute. discriminate.
Defined.

(** When the resource has a lock resource and only system memory holds
    the subresource (the system-memory flag set, the video-memory flag
    not), [colorFill] fills the clipped rectangle on the CPU: one CPU fill
    and no driver call, the resources and their flags unchanged, S_OK. *)
Theorem colorFill_in_system_memory (env : Env) (fuel : nat) (this : HANDLE)
    (d : D3DDDIARG_COLORFILL) (w : World) (r : Resource) (si : D3DDDI_SURFACEINFO)
    (l : LockData) :
  resources w !! this = Some r ->
  surfaceData (m_fixedData r) !! cf_SubResourceIndex d = Some si ->
  m_lockData r !! cf_SubResourceIndex d = Some l ->
  hasLockResource r = true ->
  isSysMemUpToDate l = true -> isVidMemUpToDate l = false ->
  let c := clipped (toLONG (Width si)) (toLONG (Height si)) (cf_DstRect d) in
  left c < right c -> top c < bottom c ->
  exists e, colorFill env fuel this d w = Ok S_OK (set_trace (e :: trace w) w) /\
            e = EvCpuColorFill (surfacePtr l c (m_formatInfo_bytesPerPixel r)) (pitch l)
                  (subL (right c) (left c)) (subL (bottom c) (top c))
                  (m_formatInfo_bytesPerPixel r)
                  (convertFrom32Bit env (Format (m_fixedData r)) (cf_Color d)).
Proof.
  intros Hr Hs Hl Hk Hsys Hvid c Hw Hh. unfold colorFill.
  rewrite (run_bind _ _ _ _ _ (run_clipRect _ _ _ _ _ _ Hr Hs)). fold c.
  replace ((right c <=? left c) || (bottom c <=? top c)) with false
    by (symmetry; apply orb_false_iff; rewrite !Z.leb_gt; lia).
  rewrite (run_bind _ _ _ _ _ (run_getResource _ _ _ Hr)).
  unfold orReturn. rewrite Hk. rewrite bind_assoc.
  rewrite (run_bind _ _ _ _ _ (run_lockDataAt _ _ _ _ _ Hr Hl)).
  rewrite Hsys, Hvid. eexists. split; reflexivity.
Qed.

Lemma colorFill_in_system_memory_witness :
  exists e, colorFill env0 3 1 (fillOf (mkRECT 0 0 80 10)) staleVidMemWorld
            = Ok S_OK (set_trace [e] staleVidMemWorld).
Proof.
  destruct (colorFill_in_system_memory env0 3 1 (fillOf (mkRECT 0 0 80 10)) staleVidMemWorld
              (plainResource 1 D3DDDIFMT_X8R8G8B8 4 D3DDDIPOOL_VIDEOMEMORY (Some 5)
                 (setSysMemUpToDate true newLockData))
              (mkSurfaceInfo 64 64 0 0 0) (setSysMemUpToDate true newLockData)
              eq_refl eq_refl eq_refl eq_refl eq_refl eq_refl)
    as (e & E & _).
  - vm_compute. reflexivity.
  - vm_compute. reflexivity.
  - exists e. exact E.
Defined.

(** ** Locking and unlocking an oversized surface *)

(** A lock of an oversized resource without lock resource, followed by
    its unlock, returns S_OK twice and leaves the state as it was: neither
    call reaches the driver, and no validity flag changes. *)
Theorem oversized_lock_unlock (env : Env) (fuel : nat) (this : HANDLE) (lk : D3DDDIARG_LOCK)
    (u : D3DDDIARG_UNLOCK) (w : World) (r : Resource) (l : LockData) :
  resources w !! this = Some r ->
  m_isOversized r = true -> hasLockResource r = false ->
  MultisampleType (m_fixedData r) = D3DDDIMULTISAMPLE_NONE ->
  ddraw_bltSrc env (length (trace w)) = None ->
  m_lockData r !! lock_SubResourceIndex lk = Some l ->
  (let* (hr, lk') := lock env fuel this lk in
   let* hr' := unlock env this u in
   ret (hr, hr', lock_pSurfData lk', lock_Pitch lk')) w
  = Ok (S_OK, S_OK, lockedPtr (m_formatInfo_bytesPerPixel r) l lk, pitch l) w.
Proof.
  intros Hr Ho Hk Hm Hb Hl.
  assert (L : lock env fuel this lk w
              = Ok (S_OK, setLockResult (lockedPtr (m_formatInfo_bytesPerPixel r) l lk)
                            (pitch l) lk) w).
  { rewrite (lock_unsampled env fuel this lk w r Hr Hm), Hb, Ho, orb_true_r.
    apply bltLock_plain; assumption. }
  rewrite (run_bind _ _ _ _ _ L).
  unfold unlock. rewrite bind_assoc.
  rewrite (run_bind _ _ _ _ _ (run_getResource _ _ _ Hr)).
  rewrite Ho, orb_true_r. reflexivity.
Qed.

Lemma oversized_lock_unlock_witness :
  (let* (hr, lk') := lock env0 3 1 emptyLock in
   let* hr' := unlock env0 1 (mkUnlock 1 0 false) in
   ret (hr, hr', lock_pSurfData lk', lock_Pitch lk')) oversizedWorld
  = Ok (S_OK, S_OK, 4096, 36000) oversizedWorld.
Proof.
  exact (oversized_lock_unlock env0 3 1 emptyLock (mkUnlock 1 0 false) oversizedWorld
           (set_m_isOversized true
              (plainResource 1 D3DDDIFMT_X8R8G8B8 4 D3DDDIPOOL_SYSTEMMEM None
                 (setData 4096 36000 (setSysMemUpToDate true newLockData))))
           (setData 4096 36000 (setSysMemUpToDate true newLockData))
           eq_refl eq_refl eq_refl eq_refl eq_refl eq_refl).
Defined.

(** ** Materialization *)

Lemma loadSysMemResource_sys env fuel h i w :
  wp (loadSysMemResource env fuel h i)
     (fun _ w' => exists l, entry h i w' = Some l /\ isSysMemUpToDate l = true) w.
Proof.
  unfold loadSysMemResource. apply wp_bind, wp_lockDataAt. intros r l Hr Hl.
  destruct (isSysMemUpToDate l) eqn:Hs; simpl.
  - apply wp_ret. exists l. split; [exact (entry_lookup _ _ _ _ _ Hr Hl)|exact Hs].
  - apply wp_bind_any. intros _ w1. apply wp_bind_any. intros me w2.
    apply wp_bind_any. intros _ w3. apply wp_bind_any. intros _ w4.
    apply wp_modifyLockData_entry. intros l4 w5 _ E _ _. eauto.
Qed.

Lemma loadMsaaResource_msaa env fuel h i w :
  wp (loadMsaaResource env fuel h i)
     (fun _ w' => exists l, entry h i w' = Some l /\ isMsaaUpToDate l = true) w.
Proof.
  unfold loadMsaaResource. apply wp_bind, wp_lockDataAt. intros r l Hr Hl.
  destruct (isMsaaUpToDate l) eqn:Hs; simpl.
  - apply wp_ret. exists l. split; [exact (entry_lookup _ _ _ _ _ Hr Hl)|exact Hs].
  - apply wp_bind_any. intros me w1. apply wp_bind_any. intros _ w2.
    apply wp_modifyLockData_entry. intros l4 w5 _ E _ _. eauto.
Qed.

Lemma loadMsaaResolvedResource_resolved env fuel h i w :
  wp (loadMsaaResolvedResource env fuel h i)
     (fun _ w' => exists l, entry h i w' = Some l /\ isMsaaResolvedUpToDate l = true) w.
Proof.
  unfold loadMsaaResolvedResource, loadMsaaResolvedResource_body.
  apply wp_bind_any. intros _ w1. apply wp_bind, wp_lockDataAt. intros r l Hr Hl.
  destruct (isMsaaResolvedUpToDate l) eqn:Hs.
  - apply wp_ret. exists l. split; [exact (entry_lookup _ _ _ _ _ Hr Hl)|exact Hs].
  - apply wp_bind_any. intros _ w2.
    apply wp_modifyLockData_entry. intros l4 w5 _ E _ _. eauto.
Qed.

(** Each materialization function, when it returns, has made the
    representation it is named after valid for the subresource. *)
Theorem materialization_validates (env : Env) (fuel : nat) (h : HANDLE) (i : nat) (w w' : World) :
  (loadSysMemResource env fuel h i w = Ok tt w' ->
   exists l, entry h i w' = Some l /\ isSysMemUpToDate l = true) /\
  (loadVidMemResource env fuel h i w = Ok tt w' ->
   exists l, entry h i w' = Some l /\ isVidMemUpToDate l = true) /\
  (loadMsaaResource env fuel h i w = Ok tt w' ->
   exists l, entry h i w' = Some l /\ isMsaaUpToDate l = true) /\
  (loadMsaaResolvedResource env fuel h i w = Ok tt w' ->
   exists l, entry h i w' = Some l /\ isMsaaResolvedUpToDate l = true).
Proof.
  split; [|split; [|split]]; intros E.
  - exact (wp_ok _ _ _ _ _ (loadSysMemResource_sys env fuel h i w) E).
  - exact (wp_ok _ _ _ _ _ (loadVidMemResource_vid env fuel h i w) E).
  - exact (wp_ok _ _ _ _ _ (loadMsaaResource_msaa env fuel h i w) E).
  - exact (wp_ok _ _ _ _ _ (loadMsaaResolvedResource_resolved env fuel h i w) E).
Qed.

Lemma materialization_validates_witness :
  exists w', loadSysMemResource env0 3 1 0 ordinaryWorld = Ok tt w' /\
             exists l, entry 1 0 w' = Some l /\ isSysMemUpToDate l = true.
Proof.
  eexists. split; [vm_compute; reflexivity|].
  apply (proj1 (materialization_validates env0 3 1 0 ordinaryWorld _)).
  vm_compute. reflexivity.
Defined.

(** [onlyValidates h i]: entry [i] of resource [h] keeps its pointer and
    pitch and every validity flag that was set; no other entry of any
    resource changes, nor do the presentation rectangle and the overrides. *)
Definition onlyValidates (h : HANDLE) (i : nat) (w w' : World) : Prop :=
  (forall h' j, (h', j) <> (h, i) -> entry h' j w' = entry h' j w) /\
  (forall l, entry h i w = Some l -> exists l', entry h i w' = Some l' /\ grows l l') /\
  g_presentationRect w' = g_presentationRect w /\
  g_formatOverride w' = g_formatOverride w /\
  g_msaaOverride w' = g_msaaOverride w.

Lemma touch_onlyValidates h i w w' : touch h i w w' -> onlyValidates h i w w'.
Proof.
  intros T. split; [|split].
  - intros h' j Hne. exact (touchG_entry_other grows h i w w' h' j T Hne).
  - intros l Hl. exact (touchG_entry grows h i w w' l T Hl).
  - destruct T as (P & F & M & _). auto.
Qed.

(** Materialization only validates: a load function changes nothing but
    the entry of its subresource, and clears no validity flag there. *)
Theorem materialization_only_validates (env : Env) (fuel : nat) (h : HANDLE) (i : nat)
    (w w' : World) :
  loadSysMemResource env fuel h i w = Ok tt w' \/
  loadVidMemResource env fuel h i w = Ok tt w' \/
  loadMsaaResource env fuel h i w = Ok tt w' \/
  loadMsaaResolvedResource env fuel h i w = Ok tt w' \/
  loadFromLockRefResource env fuel h i w = Ok tt w' ->
  onlyValidates h i w w'.
Proof.
  intros H. apply touch_onlyValidates.
  destruct H as [E|[E|[E|[E|E]]]].
  - exact (wp_ok _ _ _ _ _ (loadSysMemResource_touch env fuel h i w) E).
  - exact (wp_ok _ _ _ _ _ (loadVidMemResource_touch env fuel h i w) E).
  - exact (wp_ok _ _ _ _ _ (loadMsaaResource_touch env fuel h i w) E).
  - exact (wp_ok _ _ _ _ _ (loadMsaaResolvedResource_touch env fuel h i w) E).
  - exact (wp_ok _ _ _ _ _ (loadFromLockRefResource_touch env fuel h i w) E).
Qed.

Lemma materialization_only_validates_witness :
  exists w', loadVidMemResource env0 2 1 0 staleVidMemWorld = Ok tt w' /\
             onlyValidates 1 0 staleVidMemWorld w'.
Proof.
  eexists. split; [vm_compute; reflexivity|].
  apply (materialization_only_validates env0 2 1 0 staleVidMemWorld).
  right. left. vm_compute. reflexivity.
Defined.

(** The read paths only validate too: preparing a subresource for a CPU
    read, a GPU read or as the source of a blit clears no validity flag
    and changes no other entry. [prepareForGpuRead] returns the resolved
    surface when the resource has a lock resource and a resolved surface,
    and the resource itself otherwise. *)
Theorem read_paths_only_validate (env : Env) (fuel : nat) (h : HANDLE) (w w' : World) :
  (forall i, prepareForCpuRead env fuel h i w = Ok tt w' -> onlyValidates h i w w') /\
  (forall i res, prepareForGpuRead env fuel h i w = Ok res w' ->
     onlyValidates h i w w' /\
     forall r, resources w !! h = Some r ->
               res = if hasLockResource r
                     then default h (resource (m_msaaResolvedSurface r))
                     else h) /\
  (forall d res, prepareForBltSrc env fuel h d w = Ok res w' ->
     onlyValidates h (SrcSubResourceIndex d) w w' /\ res = h).
Proof.
  split; [|split].
  - intros i E. apply touch_onlyValidates.
    exact (wp_ok _ _ _ _ _ (prepareForCpuRead_touch env fuel h i w) E).
  - intros i res E. split.
    + apply touch_onlyValidates.
      exact (wp_ok _ _ _ _ _ (prepareForGpuRead_touch env fuel h i w) E).
    + intros r Hr. revert E. unfold prepareForGpuRead.
      rewrite (run_bind _ _ _ _ _ (run_getResource _ _ _ Hr)).
      destruct (hasLockResource r); [|intros E; injection E as <- _; reflexivity].
      unfold bind at 1.
      destruct (loadFromLockRefResource env fuel h i w) as [[] w1| |]; try discriminate.
      destruct (resource (m_msaaResolvedSurface r)) as [resolved|]; unfold bind;
        [destruct (loadMsaaResolvedResource env fuel h i w1) as [[] w2| |]
        |destruct (loadVidMemResource env fuel h i w1) as [[] w2| |]];
        try discriminate; intros E; injection E as <- _; reflexivity.
  - intros d res E. split.
    + apply touch_onlyValidates.
      exact (wp_ok _ _ _ _ _ (prepareForBltSrc_touch env fuel h d w) E).
    + revert E. unfold prepareForBltSrc, bind.
      destruct (getResource h w) as [me w1| |]; try discriminate.
      destruct (when _ _ w1) as [[] w2| |]; try discriminate.
      intros E. injection E as <- _. reflexivity.
Qed.

Lemma read_paths_only_validate_witness :
  exists w', prepareForCpuRead env0 3 1 0 ordinaryWorld = Ok tt w' /\
             onlyValidates 1 0 ordinaryWorld w'.
Proof.
  eexists. split; [vm_compute; reflexivity|].
  apply (proj1 (read_paths_only_validate env0 3 1 ordinaryWorld _) 0%nat).
  vm_compute. reflexivity.
Defined.

(** ** What the operations leave alone *)

(** The operations on a built resource never change what its
    construction fixed: after [lock], [unlock], [blt], [colorFill],
    [updateConfig] or [setAsPrimary] every resource of the table is still
    in the table, with its handle, its request as given and as fixed, the
    byte size of its format, its oversized flag and its repository flag. *)
Theorem creation_is_fixed (env : Env) (fuel : nat) (this : HANDLE) (w w' : World) :
  (exists d x, lock env fuel this d w = Ok x w') \/
  (exists d hr, unlock env this d w = Ok hr w') \/
  (exists d hr, blt env fuel this d w = Ok hr w') \/
  (exists d hr, colorFill env fuel this d w = Ok hr w') \/
  updateConfig env fuel this w = Ok tt w' \/
  setAsPrimary env fuel this w = Ok tt w' ->
  forall h r, resources w !! h = Some r ->
              exists r', resources w' !! h = Some r' /\ created r r'.
Proof.
  intros H. change (sameCreation w w').
  destruct H as [(d & x & E)|[(d & hr & E)|[(d & hr & E)|[(d & hr & E)|[E|E]]]]].
  - exact (wp_ok _ _ _ _ _ (lock_sameCreation env fuel this d w) E).
  - apply quiet_sameCreation. exact (wp_ok _ _ _ _ _ (unlock_quiet env this d w) E).
  - exact (wp_ok _ _ _ _ _ (blt_sameCreation env fuel this d w) E).
  - exact (wp_ok _ _ _ _ _ (colorFill_sameCreation env fuel this d w) E).
  - exact (wp_ok _ _ _ _ _ (updateConfig_sameCreation env fuel this w) E).
  - exact (wp_ok _ _ _ _ _ (setAsPrimary_sameCreation env fuel this w) E).
Qed.

Lemma creation_is_fixed_witness :
  exists w' r', blt env0 3 1 palettizedBlt palettizedWorld = Ok S_OK w' /\
                resources w' !! 1 = Some r' /\
                created (plainResource 1 D3DDDIFMT_P8 1 D3DDDIPOOL_VIDEOMEMORY (Some 5)
                           (setVidMemUpToDate true (setSysMemUpToDate true newLockData))) r'.
Proof.
  assert (E : exists w', blt env0 3 1 palettizedBlt palettizedWorld = Ok S_OK w')
    by (eexists; vm_compute; reflexivity).
  destruct E as (w' & E).
  destruct (creation_is_fixed env0 3 1 palettizedWorld w'
              (or_intror (or_intror (or_introl (ex_intro _ _ (ex_intro _ _ E)))))
              1 _ eq_refl) as (r' & Hr' & C).
  exists w', r'. auto.
Defined.

(** ** Fullscreen mode *)

Definition isFullscreenNow (w : World) : bool := negb (IsRectEmpty (g_presentationRect w)).

(** The state after fullscreen mode was entered with presentation rectangle [r]. *)
Definition entered (env : Env) (me : Resource) (si : D3DDDI_SURFACEINFO) (r : RECT)
    (w : World) : World :=
  let w1 := set_g_presentationRect r (set_trace (EvUpdatePalette :: trace w) w) in
  let w2 := set_trace (EvCursorClipRect (primary_monitorRect env (length (trace w1)))
                         :: trace w1) w1 in
  let w3 := if negb (EqualRect r (mkRECT 0 0 (toLONG (Width si)) (toLONG (Height si))))
            then set_trace (EvCursorEmulated true :: trace w2) w2 else w2 in
  set_trace (EvVirtualScreenFullscreen (MatchGdiPrimary (Flags (m_origData me))) :: trace w3) w3.

(** The state after fullscreen mode was left. *)
Definition left_ (w : World) : World :=
  set_trace (EvCursorClipRect emptyRECT :: EvCursorEmulated false ::
             EvVirtualScreenFullscreen false :: EvUpdatePalette :: trace w)
            (set_g_presentationRect emptyRECT w).

Lemma run_setFullscreenMode_same env me b w :
  isFullscreenNow w = b -> setFullscreenMode env me b w = Ok tt w.
Proof.
  intros H. unfold setFullscreenMode, bind, getWorld. fold (isFullscreenNow w).
  rewrite H. destruct b; reflexivity.
Qed.

Lemma run_setFullscreenMode_enter env me w si r :
  isFullscreenNow w = false ->
  calculateScaledRect (primary_monitorRect env (S (length (trace w))))
                      (realPrimary_monitorRect env (S (length (trace w)))) = Some r ->
  surfaceData (m_origData me) !! 0%nat = Some si ->
  setFullscreenMode env me true w = Ok tt (entered env me si r w).
Proof.
  intros H Hc Hs. unfold setFullscreenMode, bind at 1, getWorld. fold (isFullscreenNow w).
  rewrite H. cbn [Bool.eqb].
  unfold calculatePresentationRect, entered, bind, emit, modifyWorld, now, deref. simpl.
  rewrite Hc, Hs. simpl.
  destruct (negb (EqualRect r _)); reflexivity.
Qed.

Lemma run_setFullscreenMode_leave env me w :
  isFullscreenNow w = true -> setFullscreenMode env me false w = Ok tt (left_ w).
Proof.
  intros H. unfold setFullscreenMode, bind at 1, getWorld. fold (isFullscreenNow w).
  rewrite H. reflexivity.
Qed.

(** [setFullscreenMode] switches only when the mode differs from the one
    asked for. Asked for the mode that is on (a non-empty presentation
    rectangle means fullscreen) it does nothing. With monitor rectangles
    on which the arithmetic of [calculateScaledRect] is defined, entering
    sets the presentation rectangle to the primary monitor rectangle
    scaled into the real one; when that rectangle is not empty, entering
    again does nothing, and leaving empties the rectangle again, after
    which leaving again does nothing. The resource table is never touched. *)
Theorem setFullscreenMode_switches (env : Env) (me : Resource) (w : World)
    (si : D3DDDI_SURFACEINFO) :
  let srcRect := primary_monitorRect env (S (length (trace w))) in
  let dstRect := realPrimary_monitorRect env (S (length (trace w))) in
  surfaceData (m_origData me) !! 0%nat = Some si ->
  scalable srcRect dstRect ->
  IsRectEmpty (scaledRect srcRect dstRect) = false ->
  (forall b, isFullscreenNow w = b -> setFullscreenMode env me b w = Ok tt w) /\
  (isFullscreenNow w = false ->
   exists w1 w2,
     setFullscreenMode env me true w = Ok tt w1 /\
     g_presentationRect w1 = scaledRect srcRect dstRect /\ resources w1 = resources w /\
     setFullscreenMode env me true w1 = Ok tt w1 /\
     setFullscreenMode env me false w1 = Ok tt w2 /\
     g_presentationRect w2 = emptyRECT /\ resources w2 = resources w /\
     setFullscreenMode env me false w2 = Ok tt w2).
Proof.
  intros srcRect dstRect Hs Hsc Hr. set (r := scaledRect srcRect dstRect) in *.
  pose proof (calculateScaledRect_eq srcRect dstRect Hsc) as Hc. fold r in Hc.
  split.
  - intros b. apply run_setFullscreenMode_same.
  - intros H.
    assert (P1 : g_presentationRect (entered env me si r w) = r).
    { unfold entered. cbv zeta. destruct (negb (EqualRect r _)); reflexivity. }
    assert (R1 : resources (entered env me si r w) = resources w).
    { unfold entered. cbv zeta. destruct (negb (EqualRect r _)); reflexivity. }
    assert (F1 : isFullscreenNow (entered env me si r w) = true).
    { unfold isFullscreenNow. rewrite P1, Hr. reflexivity. }
    exists (entered env me si r w), (left_ (entered env me si r w)).
    split; [apply run_setFullscreenMode_enter; assumption|].
    split; [exact P1|]. split; [exact R1|].
    split; [apply run_setFullscreenMode_same; exact F1|].
    split; [apply run_setFullscreenMode_leave; exact F1|].
    split; [reflexivity|]. split; [exact R1|].
    apply run_setFullscreenMode_same. reflexivity.
Qed.

Lemma scalable_monitors :
  scalable (mkRECT 0 0 1024 768) (mkRECT 0 0 1920 1080).
Proof. unfold scalable, rectWidth, rectHeight, LONG_MAX; simpl; lia. Qed.

Lemma setFullscreenMode_switches_witness :
  exists w1 w2,
    setFullscreenMode env0 (initialResource hugeRequest false) true (worldOf []) = Ok tt w1 /\
    g_presentationRect w1 = mkRECT 240 0 1680 1080 /\
    setFullscreenMode env0 (initialResource hugeRequest false) false w1 = Ok tt w2 /\
    g_presentationRect w2 = emptyRECT.
Proof.
  destruct (proj2 (setFullscreenMode_switches env0 (initialResource hugeRequest false)
                     (worldOf []) (mkSurfaceInfo 9000 9000 0 0 0)
                     eq_refl scalable_monitors eq_refl) eq_refl)
    as (w1 & w2 & E1 & P1 & _ & _ & E2 & P2 & _).
  exists w1, w2. auto.
Defined.

(** ** C9: the presentation rectangle *)

(** [r] lies within [outer]. *)
Definition withinRect (r outer : RECT) : Prop :=
  left outer <= left r /\ left r <= right r /\ right r <= right outer /\
  top outer <= top r /\ top r <= bottom r /\ bottom r <= bottom outer.

(** The device with its real monitor to the right of a 1920 pixel wide one. *)
Definition onSecondMonitor (e : Env) : Env := {|
  isMsaaDepthResolveSupported := isMsaaDepthResolveSupported e;
  dwMaxTextureWidth := dwMaxTextureWidth e;
  dwMaxTextureHeight := dwMaxTextureHeight e;
  formatOp_SRGBWRITE := formatOp_SRGBWRITE e;
  getFormatInfo_bytesPerPixel := getFormatInfo_bytesPerPixel e;
  convertFrom32Bit := convertFrom32Bit e;
  rect_transform := rect_transform e;
  adapter_getMultisampleConfig := adapter_getMultisampleConfig e;
  adapter_getScaledSize := adapter_getScaledSize e;
  cfg_renderColorDepth := cfg_renderColorDepth e;
  cfg_resolutionScaleFilterIsPoint := cfg_resolutionScaleFilterIsPoint e;
  cfg_bltFilterIsBilinear := cfg_bltFilterIsBilinear e;
  cfg_displayFilterIsBilinear := cfg_displayFilterIsBilinear e;
  ddraw_bltSrc := ddraw_bltSrc e;
  primary_monitorRect := primary_monitorRect e;
  realPrimary_monitorRect := fun _ => mkRECT 1920 0 3840 1080;
  virtualScreen_surfaceDesc := virtualScreen_surfaceDesc e;
  repo_inCreateSurface := repo_inCreateSurface e;
  repo_answer := repo_answer e;
  repo_hasGammaRampTexture := repo_hasGammaRampTexture e;
  shader_isGammaRampDefault := shader_isGammaRampDefault e;
  cursor_isEmulated := cursor_isEmulated e;
  window_visibleLayeredWindows := window_visibleLayeredWindows e;
  heap_alloc := heap_alloc e;
  surface_alignBuffer := surface_alignBuffer e;
  surface_ALIGNMENT := surface_ALIGNMENT e;
  drv_createResource := drv_createResource e;
  drv_blt := drv_blt e;
  drv_lock := drv_lock e;
  drv_unlock := drv_unlock e;
  drv_colorFill := drv_colorFill e
|}.

(** C9, as the spec words it, fails: the rectangle does not always lie
    within the destination rectangle. For a 1024x768 primary surface
    presented on a 1920x1080 monitor at (1920, 0), entering fullscreen
    mode computes the rectangle (240, 0, 1680, 1080), which lies to the
    left of the monitor rectangle, not within it. *)
Lemma presentationRect_outside_destination :
  exists w',
    setFullscreenMode (onSecondMonitor env0) (initialResource hugeRequest false) true (worldOf [])
    = Ok tt w' /\
    calculateScaledRect (mkRECT 0 0 1024 768) (mkRECT 1920 0 3840 1080)
    = Some (g_presentationRect w') /\
    g_presentationRect w' = mkRECT 240 0 1680 1080 /\
    ~ withinRect (g_presentationRect w') (mkRECT 1920 0 3840 1080).
Proof.
  eexists. split; [vm_compute; reflexivity|]. split; [vm_compute; reflexivity|].
  split; [reflexivity|]. unfold withinRect. simpl. lia.
Qed.

(** C9. The presentation rectangle computed on entering fullscreen mode.
    When fullscreen mode is off and the monitor rectangles are such that
    the arithmetic of [calculateScaledRect] is defined (a non-empty source,
    sizes whose cross products fit an [int]), [setFullscreenMode(true)]
    returns with [g_presentationRect] set to [calculateScaledRect] of the
    primary and the real monitor rectangle. That rectangle keeps the
    aspect ratio of the source under integer division: it has height
    [dstHeight] and width [dstHeight * srcWidth / srcHeight] when
    [dstWidth * srcHeight > dstHeight * srcWidth], width [dstWidth] and
    height [dstWidth * srcHeight / srcWidth] otherwise. Its origin is
    [((dstWidth - width) / 2, (dstHeight - height) / 2)], so it lies within
    [(0, 0, dstWidth, dstHeight)], the destination moved to the origin,
    and within the destination itself when that starts at the origin. *)
Theorem presentationRect_centered (env : Env) (me : Resource) (si : D3DDDI_SURFACEINFO)
    (w : World) :
  let srcRect := primary_monitorRect env (S (length (trace w))) in
  let dstRect := realPrimary_monitorRect env (S (length (trace w))) in
  let srcWidth := rectWidth srcRect in
  let srcHeight := rectHeight srcRect in
  let dstWidth := rectWidth dstRect in
  let dstHeight := rectHeight dstRect in
  isFullscreenNow w = false ->
  surfaceData (m_origData me) !! 0%nat = Some si ->
  scalable srcRect dstRect ->
  exists w',
    setFullscreenMode env me true w = Ok tt w' /\
    calculateScaledRect srcRect dstRect = Some (g_presentationRect w') /\
    let r := g_presentationRect w' in
    (dstHeight * srcWidth < dstWidth * srcHeight ->
       rectHeight r = dstHeight /\ rectWidth r = dstHeight * srcWidth / srcHeight /\
       rectWidth r * srcHeight <= rectHeight r * srcWidth < (rectWidth r + 1) * srcHeight) /\
    (dstWidth * srcHeight <= dstHeight * srcWidth ->
       rectWidth r = dstWidth /\ rectHeight r = dstWidth * srcHeight / srcWidth /\
       rectHeight r * srcWidth <= rectWidth r * srcHeight < (rectHeight r + 1) * srcWidth) /\
    left r = (dstWidth - rectWidth r) / 2 /\
    top r = (dstHeight - rectHeight r) / 2 /\
    withinRect r (mkRECT 0 0 dstWidth dstHeight) /\
    (left dstRect = 0 -> top dstRect = 0 -> withinRect r dstRect).
Proof.
  intros srcRect dstRect srcWidth srcHeight dstWidth dstHeight Hoff Hsi Hsc.
  pose proof (calculateScaledRect_eq srcRect dstRect Hsc) as Hc.
  exists (entered env me si (scaledRect srcRect dstRect) w).
  split; [apply run_setFullscreenMode_enter; assumption|].
  assert (P : g_presentationRect (entered env me si (scaledRect srcRect dstRect) w)
              = scaledRect srcRect dstRect).
  { unfold entered. cbv zeta. destruct (negb (EqualRect _ _)); reflexivity. }
  rewrite P. split; [exact Hc|]. cbv zeta.
  pose proof (scaledRect_centered srcRect dstRect Hsc) as H. cbv zeta in H.
  destruct H as (A & B & L & T & X1 & X2 & Y1 & Y2).
  split; [exact A|]. split; [exact B|]. split; [exact L|]. split; [exact T|].
  set (r := scaledRect srcRect dstRect) in *. clearbody r.
  split.
  - unfold withinRect. cbn [left top right bottom]. fold dstWidth dstHeight in X2, Y2. lia.
  - intros Hl Ht. unfold withinRect.
    unfold rectWidth, rectHeight in X2, Y2. lia.
Qed.

(** A 1024x768 primary surface on a 1920x1080 monitor at the origin:
    pillarboxed, 240 pixels on either side. *)
Lemma presentationRect_centered_witness :
  exists w',
    setFullscreenMode env0 (initialResource hugeRequest false) true (worldOf []) = Ok tt w' /\
    rectWidth (g_presentationRect w') = 1440 /\ rectHeight (g_presentationRect w') = 1080 /\
    left (g_presentationRect w') = 240 /\ top (g_presentationRect w') = 0 /\
    withinRect (g_presentationRect w') (mkRECT 0 0 1920 1080).
Proof.
  destruct (presentationRect_centered env0 (initialResource hugeRequest false)
              (mkSurfaceInfo 9000 9000 0 0 0) (worldOf []) eq_refl eq_refl scalable_monitors)
    as (w' & E & _ & Hlt & _ & Hl & Ht & _ & Hin).
  exists w'. split; [exact E|].
  destruct Hlt as (Hh & Hw & _); [vm_compute; reflexivity|].
  change (rectHeight (realPrimary_monitorRect env0 1)) with 1080 in Hh, Ht.
  change (rectWidth (realPrimary_monitorRect env0 1)) with 1920 in Hl.
  change (rectHeight (realPrimary_monitorRect env0 1) *
          rectWidth (primary_monitorRect env0 1) /
          rectHeight (primary_monitorRect env0 1)) with 1440 in Hw.
  rewrite Hw in Hl. rewrite Hh in Ht.
  change ((1920 - 1440) / 2) with 240 in Hl. change ((1080 - 1080) / 2) with 0 in Ht.
  split; [exact Hw|]. split; [exact Hh|]. split; [exact Hl|]. split; [exact Ht|].
  exact (Hin eq_refl eq_refl).
Defined.

(** ** C7: a failed construction that stays in fullscreen mode *)

(** C7. A MatchGdiPrimary request made while fullscreen mode is off, on a
    device whose driver is out of memory: the constructor throws
    E_OUTOFMEMORY and the resource table is still empty, but fullscreen
    mode, entered before the driver was asked, stays on. The presentation
    rectangle is (240, 0, 1680, 1080) and no longer empty, the cursor is
    clipped and emulated, and the virtual screen is in fullscreen mode:
    the calls made are, in order, the palette update, the cursor clip
    rectangle, the cursor emulation, the fullscreen mode of the virtual
    screen and the driver's create call. Fullscreen mode is left by the
    destructor only, and no object was built to be destroyed. *)
Theorem Resource_new_failure_stays_fullscreen :
  exists w' fixed,
    Resource_new envFailing 3 (plainRequest D3DDDIPOOL_VIDEOMEMORY gdiPrimaryFlags 1024 768)
                 (worldOf [])
    = Ok (Thrown E_OUTOFMEMORY) w' /\
    refused (plainRequest D3DDDIPOOL_VIDEOMEMORY gdiPrimaryFlags 1024 768) = false /\
    resources w' = resources (worldOf []) /\
    isFullscreenNow (worldOf []) = false /\
    isFullscreenNow w' = true /\
    g_presentationRect w' = mkRECT 240 0 1680 1080 /\
    trace w' = [EvCreateResource fixed; EvVirtualScreenFullscreen true; EvCursorEmulated true;
                EvCursorClipRect (mkRECT 0 0 1024 768); EvUpdatePalette].
Proof.
  do 2 eexists. split; [vm_compute; reflexivity|].
  repeat split.
Qed.

(** ** A resource in system memory *)

Lemma fixResourceData_plain env me w :
  MatchGdiPrimary (Flags (m_fixedData me)) = false ->
  g_formatOverride w = D3DDDIFMT_UNKNOWN ->
  exists me', fixResourceData env me w = Ok me' w /\
              Pool (m_fixedData me') = Pool (m_fixedData me) /\
              Format (m_fixedData me') = Format (m_fixedData me) /\
              m_lockData me' = m_lockData me /\ m_origData me' = m_origData me /\
              m_lockResource me' = m_lockResource me /\
              m_isSurfaceRepoResource me' = m_isSurfaceRepoResource me.
Proof.
  intros Hg Hf. unfold fixResourceData, bind, now, getWorld. cbv zeta.
  rewrite Hg, Hf. change (negb (D3DDDIFMT_UNKNOWN =? D3DDDIFMT_UNKNOWN)) with false. cbv iota.
  destruct me as [? ? fd ? ? ? ? ? ? ? ? ? ? ? ? ? ? ? ?]. destruct fd. simpl.
  repeat match goal with
         | |- context [match ?x with _ => _ end] => destruct x
         end;
    (eexists; split; [reflexivity|]); simpl; auto 10.
Qed.

Lemma lookup_resize_nil n i :
  (i < n)%nat -> resize n [] !! i = Some newLockData.
Proof.
  intros Hi. unfold resize. rewrite take_nil. simpl. rewrite Nat.sub_0_r.
  apply lookup_replicate_2. exact Hi.
Qed.

Lemma Resource_new_system_memory env fuel d w :
  Pool d = D3DDDIPOOL_SYSTEMMEM ->
  getFormatInfo_bytesPerPixel env (Format d) <> 0 ->
  MatchGdiPrimary (Flags d) = false -> g_formatOverride w = D3DDDIFMT_UNKNOWN ->
  wp (Resource_new env fuel d)
     (fun c w' =>
        match c with
        | Thrown _ => True
        | Built this _ =>
          exists r, resources w' !! this = Some r /\
                    m_lockResource r = None /\
                    m_lockData r = callerLockData (set_m_lockData [] r) /\
                    m_origData r = d
        end) w.
Proof.
  intros Hp Hb Hg Hf. unfold Resource_new.
  apply wp_bind, wp_now. cbv zeta.
  set (me0 := initialResource d _).
  destruct (VertexBuffer _ && MightDrawFromLocked _ && negb _); [apply wp_ret; exact I|].
  change (MatchGdiPrimary (Flags (m_origData me0))) with (MatchGdiPrimary (Flags d)).
  rewrite Hg. apply wp_bind, wp_ret.
  destruct (fixResourceData_plain env me0 w Hg Hf) as (me1 & E1 & P1 & F1 & L1 & O1 & K1 & _).
  apply wp_bind. apply (wp_run _ _ _ _ _ E1).
  apply wp_bind, wp_deref. intros si0 _.
  unfold createPrivateResource.
  apply wp_bind, wp_bind, wp_now, wp_bind, wp_emit.
  match goal with |- context [drv_createResource env ?t ?x] =>
    destruct (drv_createResource env t x) as [hr h] end.
  apply wp_ret.
  destruct (FAILED hr); [apply wp_ret; exact I|].
  apply wp_bind, wp_modifyWorld.
  match goal with |- wp _ _ (set_resources (<[?k := ?v]> _) ?w2) =>
    set (this := k); set (me3 := v); set (w3 := set_resources (<[k := v]> (resources w2)) w2) end.
  assert (H3 : resources w3 !! this = Some me3) by apply lookup_insert_eq.
  assert (M3 : Pool (m_fixedData me3) = Pool (m_fixedData me1) /\
               m_formatInfo_bytesPerPixel me3
               = getFormatInfo_bytesPerPixel env (Format (m_fixedData me1)) /\
               m_origData me3 = m_origData me1 /\ m_lockData me3 = m_lockData me1 /\
               m_lockResource me3 = m_lockResource me1).
  { unfold me3. clear. destruct me1 as [? ? fd ? ? ? ? ? ? ? ? ? ? ? ? ? ? ? ?]. destruct fd.
    repeat split. }
  destruct M3 as (M3p & M3b & M3o & M3l & M3k).
  assert (Hpool : isSystemMem (Pool (m_fixedData me3)) = true).
  { rewrite M3p, P1. unfold me0. simpl. rewrite Hp. reflexivity. }
  assert (Hbpp : (0 =? m_formatInfo_bytesPerPixel me3) = false).
  { rewrite M3b, F1. apply Z.eqb_neq. intros X. apply Hb. symmetry. exact X. }
  assert (U : updateConfig env fuel this w3 = Ok tt w3).
  { unfold updateConfig. rewrite (run_bind _ _ _ _ _ (run_getResource _ _ _ H3)).
    rewrite Hpool, orb_true_r. reflexivity. }
  apply wp_bind. apply (wp_run _ _ _ _ _ U).
  apply wp_bind. apply (wp_run _ _ _ _ _ (run_getResource _ _ _ H3)).
  rewrite Hpool, Hbpp. cbn [negb andb].
  apply wp_bind. apply (wp_run _ _ _ _ _ (run_modifyResource _ _ _ _ H3)).
  apply wp_ret. eexists. split; [simpl; apply lookup_insert_eq|].
  assert (Hnil : m_lockData me3 = []) by (rewrite M3l, L1; reflexivity).
  assert (Hnone : m_lockResource me3 = None) by (rewrite M3k, K1; reflexivity).
  assert (Horig : m_origData me3 = d) by (rewrite M3o, O1; reflexivity).
  clear - Hnil Hnone Horig. clearbody me3. destruct me3. simpl in *. subst.
  repeat split; reflexivity.
Qed.

(** A resource created in system memory (no MatchGdiPrimary flag, no
    format override active, a format of nonzero byte size) gets no lock
    resource: its lock entries are the caller's own surfaces, with the
    pointer and pitch of the request as given, valid in system memory only. *)
Theorem system_memory_is_the_callers (env : Env) (fuel : nat) (d : Data) (w : World)
    (this : HANDLE) (request : Data) (w' : World) :
  Pool d = D3DDDIPOOL_SYSTEMMEM ->
  getFormatInfo_bytesPerPixel env (Format d) <> 0 ->
  MatchGdiPrimary (Flags d) = false -> g_formatOverride w = D3DDDIFMT_UNKNOWN ->
  Resource_new env fuel d w = Ok (Built this request) w' ->
  exists r, resources w' !! this = Some r /\
            m_lockResource r = None /\
            length (m_lockData r) = length (surfaceData d) /\
            forall i si, surfaceData d !! i = Some si ->
                         m_lockData r !! i
                         = Some (mkLockData (pSysMem si) (SysMemPitch si) true false false false
                                            false).
Proof.
  intros Hp Hb Hg Hf E.
  destruct (wp_ok _ _ _ _ _ (Resource_new_system_memory env fuel d w Hp Hb Hg Hf) E)
    as (r & Hr & Hk & Hl & Ho).
  exists r. split; [exact Hr|]. split; [exact Hk|]. rewrite Hl.
  unfold callerLockData. rewrite m_lockData_set.
  replace (m_origData (set_m_lockData [] r)) with d by (destruct r; simpl in *; congruence).
  split.
  - rewrite length_imap, length_resize. reflexivity.
  - intros i si Hsi. rewrite list_lookup_imap.
    rewrite lookup_resize_nil by (unfold SurfCount; eapply lookup_lt_Some; eauto).
    simpl. rewrite Hsi. reflexivity.
Qed.

Lemma system_memory_is_the_callers_witness :
  exists r, resources hugeWorld !! 100 = Some r /\
            m_lockResource r = None /\
            m_lockData r !! 0%nat = Some (mkLockData 0 0 true false false false false).
Proof.
  destruct (system_memory_is_the_callers env0 3 hugeRequest (worldOf []) 100
              (setHResource 100 hugeRequest) hugeWorld
              eq_refl ltac:(discriminate) eq_refl eq_refl)
    as (r & Hr & Hk & _ & Hl).
  - vm_compute. reflexivity.
  - exists r. split; [exact Hr|]. split; [exact Hk|].
    exact (Hl 0%nat (mkSurfaceInfo 9000 9000 0 0 0) eq_refl).
Defined.

(** ** What the downscale chain does to the outside *)

(** [emits P]: the run appends events that satisfy [P] to the trace and
    changes neither the resources nor the globals. *)
Definition emits (P : Event -> Prop) (w w' : World) : Prop :=
  (exists new, trace w' = new ++ trace w /\ Forall P new) /\
  resources w' = resources w /\
  g_presentationRect w' = g_presentationRect w /\
  g_formatOverride w' = g_formatOverride w /\
  g_msaaOverride w' = g_msaaOverride w /\
  logged_msaaDepthResolve w' = logged_msaaDepthResolve w /\
  logged_copyFailed w' = logged_copyFailed w.

#[local] Instance emits_preorder P : PreOrder (emits P).
Proof.
  split.
  - intros w. split; [exists []; split; [reflexivity|constructor]|]. auto 10.
  - intros a b c ((n1 & T1 & F1) & R1 & A1 & B1 & C1 & D1 & E1)
                 ((n2 & T2 & F2) & R2 & A2 & B2 & C2 & D2 & E2).
    split.
    + exists (n2 ++ n1). split; [rewrite T2, T1, app_assoc; reflexivity|].
      apply Forall_app; auto.
    + rewrite R2, A2, B2, C2, D2, E2. auto 10.
Qed.

Lemma emit_emits (P : Event -> Prop) e : P e -> Steps (emits P) (emit e).
Proof.
  intros HP w. apply wp_emit. split; [|simpl; auto 10].
  exists [e]. split; [reflexivity|]. constructor; [exact HP|constructor].
Qed.

(** A request to the repository, or a linear texture blit unless [dryRun]. *)
Definition downscaleEvent (dryRun : bool) (e : Event) : Prop :=
  match e with
  | EvRepo (GetTempRenderTarget _ _ _) => True
  | EvShader TextureBltLinear _ _ _ _ _ _ => dryRun = false
  | _ => False
  end.

#[local] Hint Extern 1 (Steps (emits _) (emit _)) =>
  apply emit_emits; simpl; auto : steps.

Lemma downscale_emits env dryRun fuel : forall this rt sw sh dw dh,
  Steps (emits (downscaleEvent dryRun)) (downscale env fuel this rt sw sh dw dh dryRun).
Proof.
  induction fuel as [|fuel IH]; intros this rt sw sh dw dh; simpl.
  - apply Steps_outOfFuel.
  - unfold getNextRenderTarget, repoCall, textureBlt. destruct dryRun; cbn [negb when]; steps.
Qed.

(** [downscale] leaves the resources, the three globals
    ([g_presentationRect], [g_formatOverride], [g_msaaOverride]) and the
    [LOG_ONCE] statics alone. All it does to the outside is ask the
    repository for temporary render targets and, unless it is a dry run,
    blit linearly from one target to the next: a dry run performs no
    blit at all. *)
Theorem downscale_only_requests_and_blits (env : Env) (fuel : nat) (this rt : HANDLE)
    (sw sh dw dh : Z) (dryRun : bool) (w w' : World) (res : HANDLE * (Z * Z)) :
  downscale env fuel this rt sw sh dw dh dryRun w = Ok res w' ->
  resources w' = resources w /\
  g_presentationRect w' = g_presentationRect w /\
  g_formatOverride w' = g_formatOverride w /\
  g_msaaOverride w' = g_msaaOverride w /\
  logged_msaaDepthResolve w' = logged_msaaDepthResolve w /\
  logged_copyFailed w' = logged_copyFailed w /\
  exists new, trace w' = new ++ trace w /\ Forall (downscaleEvent dryRun) new.
Proof.
  intros E.
  destruct (wp_ok _ _ _ _ _ (downscale_emits env dryRun fuel this rt sw sh dw dh w) E)
    as (T & R & P & F & M & L1 & L2).
  auto 10.
Qed.

Lemma downscale_only_requests_and_blits_witness :
  exists res w' new,
    downscale envGranting 10 1 1 1000 1000 100 100 true (worldOf []) = Ok res w' /\
    trace w' = new ++ [] /\ Forall (downscaleEvent true) new /\ length new = 5%nat.
Proof.
  assert (E : exists res w', downscale envGranting 10 1 1 1000 1000 100 100 true (worldOf [])
                             = Ok res w' /\ length (trace w') = 5%nat)
    by (do 2 eexists; split; vm_compute; reflexivity).
  destruct E as (res & w' & E & L).
  destruct (downscale_only_requests_and_blits envGranting 10 1 1 1000 1000 100 100 true
              (worldOf []) w' res E) as (_ & _ & _ & _ & _ & _ & new & T & F).
  exists res, w', new. split; [exact E|]. split; [exact T|]. split; [exact F|].
  rewrite T, app_nil_r in L. exact L.
Defined.

(** ** The driver lock of a depth buffer *)

Lemma lock_depth_buffer_wp env fuel this lk w r :
  resources w !! this = Some r ->
  ZBuffer (Flags (m_fixedData r)) = true -> hasResource (m_msaaResolvedSurface r) = true ->
  wp (run when (negb (lock_ReadOnly lk))
            (modifyResource this (set_m_isPalettizedTextureUpToDate false)) ;;
      run when (ZBuffer (Flags (m_fixedData r)) && hasResource (m_msaaResolvedSurface r))
            (run loadVidMemResource env fuel this 0 ;;
             when (negb (lock_ReadOnly lk))
               (run modifyLockData this 0 (setMsaaUpToDate false) ;;
                modifyLockData this 0 (setMsaaResolvedUpToDate false))) ;;
      pfnLock env lk)
     (fun x w' =>
        (exists l, entry this 0 w' = Some l /\ isVidMemUpToDate l = true /\
                   (lock_ReadOnly lk = false ->
                    isMsaaUpToDate l = false /\ isMsaaResolvedUpToDate l = false)) /\
        exists tr, trace w' = EvLock lk :: tr /\ fst x = fst (drv_lock env (length tr) lk)) w.
Proof.
  intros Hr Hz Hs. rewrite Hz, Hs. cbn [andb when].
  apply wp_bind_any. intros _ w1.
  apply wp_bind. apply wp_bind.
  eapply wp_mono; [apply (loadVidMemResource_vid env fuel this 0%nat w1)|].
  intros _ w2 (l2 & Hl2 & Hv2).
  assert (Hflags : wp (if negb (lock_ReadOnly lk)
                       then run modifyLockData this 0 (setMsaaUpToDate false) ;;
                            modifyLockData this 0 (setMsaaResolvedUpToDate false)
                       else ret tt)
                      (fun _ w3 =>
                         exists l, entry this 0 w3 = Some l /\ isVidMemUpToDate l = true /\
                                   (lock_ReadOnly lk = false ->
                                    isMsaaUpToDate l = false /\ isMsaaResolvedUpToDate l = false))
                      w2).
  { destruct (lock_ReadOnly lk); cbn [negb].
    - apply wp_ret. exists l2. split; [exact Hl2|]. split; [exact Hv2|]. discriminate.
    - apply wp_bind, wp_modifyLockData_entry. intros x w3 Hx Hx3 _ _.
      rewrite Hl2 in Hx. injection Hx as <-.
      apply wp_modifyLockData_entry. intros y w4 Hy Hy4 _ _.
      rewrite Hx3 in Hy. injection Hy as <-.
      eexists. split; [exact Hy4|]. split; [exact Hv2|]. intros _. split; reflexivity. }
  eapply wp_mono; [exact Hflags|]. intros _ w3 (l & Hl & Hv & Hm).
  unfold pfnLock. apply wp_bind, wp_now. apply wp_bind, wp_emit.
  destruct (drv_lock env (length (trace w3)) lk) as [hr [p s]] eqn:Ed.
  apply wp_ret. split.
  - exists l. split; [exact Hl|]. auto.
  - exists (trace w3). split; [reflexivity|]. rewrite Ed. reflexivity.
Qed.

(** A lock that goes to the driver (no lock resource, not oversized) on a
    depth buffer with a resolved surface first makes video memory valid for
    subresource 0; unless the lock is read-only, the flags of the
    multisample and the resolved surface of subresource 0 are cleared, so
    that what the caller writes is the only valid copy besides system
    memory. The driver's lock is the last thing done and its result is
    returned. *)
Theorem lock_depth_buffer (env : Env) (fuel : nat) (this : HANDLE) (lk : D3DDDIARG_LOCK)
    (w : World) (r : Resource) (x : HRESULT * D3DDDIARG_LOCK) (w' : World) :
  resources w !! this = Some r ->
  hasLockResource r = false -> m_isOversized r = false ->
  MultisampleType (m_fixedData r) = D3DDDIMULTISAMPLE_NONE ->
  ddraw_bltSrc env (length (trace w)) = None ->
  ZBuffer (Flags (m_fixedData r)) = true -> hasResource (m_msaaResolvedSurface r) = true ->
  lock env fuel this lk w = Ok x w' ->
  (exists l, entry this 0 w' = Some l /\ isVidMemUpToDate l = true /\
             (lock_ReadOnly lk = false ->
              isMsaaUpToDate l = false /\ isMsaaResolvedUpToDate l = false)) /\
  exists tr, trace w' = EvLock lk :: tr /\ fst x = fst (drv_lock env (length tr) lk).
Proof.
  intros Hr Hk Ho Hm Hb Hz Hs E.
  rewrite (lock_unsampled env fuel this lk w r Hr Hm), Hb, Hk, Ho in E. cbn [orb] in E.
  exact (wp_ok _ _ _ _ _ (lock_depth_buffer_wp env fuel this lk w r Hr Hz Hs) E).
Qed.

(** A depth buffer with a resolved surface and no multisample surface,
    whose resolved surface holds the only valid copy. *)
Definition resolvedOnlyWorld : World :=
  worldOf [(1, set_m_msaaSurface noSurface
                 (depthResource 1 (setMsaaResolvedUpToDate true newLockData)));
           (3, plainResource 3 80 2 D3DDDIPOOL_VIDEOMEMORY None newLockData)].

Lemma lock_depth_buffer_witness :
  exists x w' l,
    lock env0 3 1 emptyLock resolvedOnlyWorld = Ok x w' /\
    entry 1 0 w' = Some l /\ flagsOf l = (false, true, false, false).
Proof.
  assert (E : exists x w' l, lock env0 3 1 emptyLock resolvedOnlyWorld = Ok x w' /\
                             entry 1 0 w' = Some l /\ isSysMemUpToDate l = false)
    by (do 3 eexists; split; [vm_compute; reflexivity|split; vm_compute; reflexivity]).
  destruct E as (x & w' & l & E & Hl & Hsys).
  destruct (lock_depth_buffer env0 3 1 emptyLock resolvedOnlyWorld
              (set_m_msaaSurface noSurface
                 (depthResource 1 (setMsaaResolvedUpToDate true newLockData)))
              x w' eq_refl eq_refl eq_refl eq_refl eq_refl eq_refl eq_refl E)
    as ((l' & Hl' & Hv & Hf) & _).
  rewrite Hl in Hl'. injection Hl' as <-.
  destruct (Hf eq_refl) as (Hm & Hres).
  exists x, w', l. split; [exact E|]. split; [exact Hl|].
  unfold flagsOf. rewrite Hsys, Hv, Hm, Hres. reflexivity.
Defined.

(** ** The layout of the lock buffer *)

Lemma land_clear_low2 (x : Z) : 0 <= x < 4294967296 -> Z.land x 4294967292 = 4 * (x / 4).
Proof.
  intros Hx. apply Z.bits_inj'. intros n Hn.
  rewrite Z.land_spec.
  change 4294967292 with (Z.shiftl (Z.ones 30) 2).
  replace (4 * (x / 4)) with (Z.shiftl (Z.shiftr x 2) 2)
    by (rewrite Z.shiftl_mul_pow2, Z.shiftr_div_pow2 by lia; change (2 ^ 2) with 4; lia).
  rewrite !Z.shiftl_spec by lia.
  destruct (Z_lt_ge_dec n 2) as [Hlt|Hge].
  - rewrite (Z.testbit_neg_r (Z.ones 30)), (Z.testbit_neg_r (Z.shiftr x 2)) by lia.
    apply andb_false_r.
  - rewrite Z.shiftr_spec by lia. replace (n - 2 + 2) with n by lia.
    rewrite Z.testbit_ones by lia.
    destruct (Z_lt_ge_dec n 32) as [Hlt|Hge32].
    + replace ((0 <=? n - 2) && (n - 2 <? 30)) with true
        by (symmetry; apply andb_true_iff; rewrite Z.leb_le, Z.ltb_lt; lia).
      apply andb_true_r.
    + replace (Z.testbit x n) with false; [reflexivity|].
      symmetry. destruct (Z.eq_dec x 0) as [->|Hx0]; [apply Z.bits_0|].
      apply Z.bits_above_log2; [lia|].
      assert (Z.log2 x < 32) by (apply Z.log2_lt_pow2; lia). lia.
Qed.

Lemma roundUp_bounds (s a : Z) :
  0 <= s -> 0 < a ->
  s <= (s + a - 1) / a * a < s + a /\ ((s + a - 1) / a * a) mod a = 0.
Proof.
  intros Hs Ha. pose proof (div_bounds (s + a - 1) a ltac:(lia) Ha) as B.
  split; [nia|]. apply Z.mod_mul. lia.
Qed.

Section LockLayout.

Variable env : Env.
Variable bpp : Z.

(** The surface ends within the 32-bit buffer, with room for the alignment. *)
Definition fitsBuffer (p : D3DDDI_SURFACEINFO) : Prop :=
  0 <= pSysMem p /\ 0 <= SysMemPitch p * Height p /\
  pSysMem p + SysMemPitch p * Height p + surface_ALIGNMENT env <= 4294967296.

Definition fitsRow (si : D3DDDI_SURFACEINFO) : Prop :=
  0 <= Width si * bpp /\ Width si * bpp + 3 < 4294967296.

Hypothesis alignment_positive : 0 < surface_ALIGNMENT env.

Lemma lockSurfaceInfo_pitch prev si :
  fitsRow si ->
  SysMemPitch (lockSurfaceInfo env bpp prev si) mod 4 = 0 /\
  Width si * bpp <= SysMemPitch (lockSurfaceInfo env bpp prev si) <= Width si * bpp + 3.
Proof.
  intros (H0 & H1). unfold lockSurfaceInfo. cbn [SysMemPitch].
  unfold wrapUINT. rewrite (Z.mod_small (Width si * bpp + 3)) by lia.
  rewrite land_clear_low2 by lia.
  pose proof (div_bounds (Width si * bpp + 3) 4 ltac:(lia) ltac:(lia)) as B.
  split; [|lia]. rewrite Z.mul_comm. apply Z.mod_mul. lia.
Qed.

Lemma lockSurfaceInfo_offset p si :
  fitsBuffer p ->
  let q := lockSurfaceInfo env bpp (Some p) si in
  pSysMem p + SysMemPitch p * Height p <= pSysMem q /\
  pSysMem q < pSysMem p + SysMemPitch p * Height p + surface_ALIGNMENT env /\
  (pSysMem q - pSysMem p) mod surface_ALIGNMENT env = 0.
Proof.
  intros (H0 & H1 & H2) q. unfold q, lockSurfaceInfo. cbn [pSysMem].
  set (a := surface_ALIGNMENT env) in *. set (s := SysMemPitch p * Height p) in *.
  destruct (roundUp_bounds s a H1 alignment_positive) as (B & M).
  unfold wrapUINT.
  rewrite (Z.mod_small s) by lia.
  rewrite (Z.mod_small (s + a - 1)) by lia.
  rewrite (Z.mod_small ((s + a - 1) / a * a)) by lia.
  rewrite (Z.mod_small (pSysMem p + (s + a - 1) / a * a)) by lia.
  split; [lia|]. split; [lia|].
  replace (pSysMem p + (s + a - 1) / a * a - pSysMem p) with ((s + a - 1) / a * a) by lia.
  exact M.
Qed.

(** Each surface starts at a multiple of the alignment, has a pitch
    that is a multiple of four and holds a row, and starts where the
    surface before it has ended or later. *)
Fixpoint laidOut (prev : option D3DDDI_SURFACEINFO)
    (l L : list D3DDDI_SURFACEINFO) : Prop :=
  match l, L with
  | [], [] => True
  | si :: l', q :: L' =>
    Width q = Width si /\ Height q = Height si /\
    pSysMem q mod surface_ALIGNMENT env = 0 /\
    SysMemPitch q mod 4 = 0 /\ Width si * bpp <= SysMemPitch q <= Width si * bpp + 3 /\
    match prev with
    | Some p => pSysMem p + SysMemPitch p * Height p <= pSysMem q
    | None => pSysMem q = 0
    end /\
    laidOut (Some q) l' L'
  | _, _ => False
  end.

Lemma lockLayout_laidOut l : forall prev,
  match prev with
  | Some p => fitsBuffer p /\ pSysMem p mod surface_ALIGNMENT env = 0
  | None => True
  end ->
  Forall fitsRow l -> Forall fitsBuffer (lockLayout env bpp prev l) ->
  laidOut prev l (lockLayout env bpp prev l).
Proof.
  induction l as [|si l IH]; intros prev Hprev Hrow Hfit; simpl; [exact I|].
  simpl in Hfit. apply Forall_cons in Hfit. destruct Hfit as (Hq & Hrest).
  apply Forall_cons in Hrow. destruct Hrow as (Hsi & Hl).
  destruct (lockSurfaceInfo_pitch prev si Hsi) as (P4 & Pw).
  assert (Ha : pSysMem (lockSurfaceInfo env bpp prev si) mod surface_ALIGNMENT env = 0 /\
               match prev with
               | Some p => pSysMem p + SysMemPitch p * Height p
                           <= pSysMem (lockSurfaceInfo env bpp prev si)
               | None => pSysMem (lockSurfaceInfo env bpp prev si) = 0
               end).
  { destruct prev as [p|].
    - destruct Hprev as (Fp & Mp).
      destruct (lockSurfaceInfo_offset p si Fp) as (O1 & _ & O3).
      split; [|exact O1].
      replace (pSysMem (lockSurfaceInfo env bpp (Some p) si))
        with ((pSysMem (lockSurfaceInfo env bpp (Some p) si) - pSysMem p) + pSysMem p) by lia.
      rewrite Z.add_mod, O3, Mp by lia. simpl. apply Z.mod_0_l. lia.
    - split; [apply Z.mod_0_l; lia|reflexivity]. }
  destruct Ha as (Ma & Mo).
  repeat (split; [first [reflexivity|assumption|lia]|]).
  apply IH; [split; assumption|assumption|assumption].
Qed.

Lemma laidOut_length prev l L : laidOut prev l L -> length L = length l.
Proof.
  revert prev L. induction l as [|si l IH]; intros prev [|q L] H; simpl in *;
    try contradiction; [reflexivity|].
  destruct H as (_ & _ & _ & _ & _ & _ & H). f_equal. eapply IH, H.
Qed.

Lemma laidOut_lookup prev l L : laidOut prev l L ->
  forall i q, L !! i = Some q ->
    pSysMem q mod surface_ALIGNMENT env = 0 /\ SysMemPitch q mod 4 = 0 /\
    exists si, l !! i = Some si /\ Width q = Width si /\ Height q = Height si /\
               Width si * bpp <= SysMemPitch q <= Width si * bpp + 3.
Proof.
  revert prev L. induction l as [|si l IH]; intros prev [|q0 L] H i q Hq; simpl in *;
    try contradiction; try discriminate.
  destruct H as (Hw & Hh & Ma & M4 & Pw & _ & H).
  destruct i as [|i]; simpl in *.
  - injection Hq as <-. eauto 10.
  - eapply IH; eauto.
Qed.

Lemma laidOut_disjoint prev l L : laidOut prev l L ->
  forall i p q, L !! i = Some p -> L !! S i = Some q ->
    pSysMem p + SysMemPitch p * Height p <= pSysMem q.
Proof.
  revert prev L. induction l as [|si l IH]; intros prev [|q0 L] H i p q Hp Hq; simpl in *;
    try contradiction; try discriminate.
  destruct H as (_ & _ & _ & _ & _ & _ & H).
  destruct i as [|i]; simpl in *.
  - injection Hp as <-. destruct l as [|si1 l]; destruct L as [|q1 L]; simpl in *;
      try contradiction; try discriminate.
    injection Hq as <-. destruct H as (_ & _ & _ & _ & _ & Ho & _). exact Ho.
  - eapply IH; eauto.
Qed.

End LockLayout.

(** The layout [createLockResource] computes for the lock buffer, as long
    as the 32-bit arithmetic does not overflow (every row and every
    surface end fit): one surface per surface of the resource, of the same
    width and height; each pitch is a multiple of four that holds a row;
    the first surface starts at offset zero and every surface at a multiple
    of the alignment; and no surface starts before the one before it has
    ended. *)
Theorem lock_buffer_layout (env : Env) (bpp : Z) (l : list D3DDDI_SURFACEINFO) :
  0 < surface_ALIGNMENT env ->
  Forall (fitsRow bpp) l ->
  Forall (fitsBuffer env) (lockLayout env bpp None l) ->
  let L := lockLayout env bpp None l in
  length L = length l /\
  (forall q, L !! 0%nat = Some q -> pSysMem q = 0) /\
  (forall i q, L !! i = Some q ->
     pSysMem q mod surface_ALIGNMENT env = 0 /\ SysMemPitch q mod 4 = 0 /\
     exists si, l !! i = Some si /\ Width q = Width si /\ Height q = Height si /\
                Width si * bpp <= SysMemPitch q <= Width si * bpp + 3) /\
  (forall i p q, L !! i = Some p -> L !! S i = Some q ->
     pSysMem p + SysMemPitch p * Height p <= pSysMem q).
Proof.
  intros Ha Hrow Hfit L.
  pose proof (lockLayout_laidOut env bpp Ha l None I Hrow Hfit) as H. fold L in H.
  split; [eapply laidOut_length; eauto|]. split; [|split].
  - intros q Hq. destruct l as [|si l]; [discriminate|]. simpl in Hq. injection Hq as <-.
    reflexivity.
  - eapply laidOut_lookup; eauto.
  - eapply laidOut_disjoint; eauto.
Qed.

Lemma lock_buffer_layout_witness :
  lockLayout env0 4 None [mkSurfaceInfo 65 3 0 0 0; mkSurfaceInfo 32 32 0 0 0]
  = [mkSurfaceInfo 65 3 0 0 260; mkSurfaceInfo 32 32 0 800 128] /\
  forall i p q,
    lockLayout env0 4 None [mkSurfaceInfo 65 3 0 0 0; mkSurfaceInfo 32 32 0 0 0] !! i = Some p ->
    lockLayout env0 4 None [mkSurfaceInfo 65 3 0 0 0; mkSurfaceInfo 32 32 0 0 0] !! S i = Some q ->
    pSysMem p + SysMemPitch p * Height p <= pSysMem q.
Proof.
  split; [vm_compute; reflexivity|].
  apply (lock_buffer_layout env0 4 [mkSurfaceInfo 65 3 0 0 0; mkSurfaceInfo 32 32 0 0 0]).
  - reflexivity.
  - repeat constructor; vm_compute; discriminate.
  - repeat constructor; vm_compute; discriminate.
Defined.

(** ** The result of a shader blit *)

Ltac result_steps :=
  repeat (cbv beta iota; first
    [ lazymatch goal with
      | |- wp (ret _) _ _ => apply wp_ret
      | |- wp (bind _ _) _ _ => apply wp_bind_any; intros
      | |- wp (orReturn _ _) _ _ => apply wp_orReturn
      | |- wp (if FAILED ?r then _ else _) _ _ => destruct (FAILED r) eqn:?
      | |- wp (if ?b then _ else _) _ _ => destruct b
      | |- wp (match ?x with _ => _ end) _ _ => destruct x
      end
    | solve [left; reflexivity]
    | solve [right; assumption]
    | solve [right; reflexivity] ]).

Lemma shaderBlt_code env this d dst src w :
  wp (shaderBlt env this d dst src) (fun hr _ => hr = S_OK \/ FAILED hr = true) w.
Proof. unfold shaderBlt. result_steps. Qed.

(** [shaderBlt] returns S_OK or a failure code, never another success
    code, and changes no resource and no global. When it needs a temporary
    texture for the source (a source that is not a texture, or is in
    system memory, blitted to a resource that is not a depth buffer) and
    the repository has none, it returns E_OUTOFMEMORY after that one
    request, without having drawn anything. *)
Theorem shaderBlt_result (env : Env) (this : HANDLE) (d : D3DDDIARG_BLT)
    (dst src : HANDLE) (w : World) :
  (forall hr w', shaderBlt env this d dst src w = Ok hr w' ->
                 (hr = S_OK \/ FAILED hr = true) /\ quiet w w') /\
  (forall me s,
     resources w !! this = Some me -> resources w !! src = Some s ->
     negb (Texture (Flags (m_fixedData s))) || isSystemMem (Pool (m_fixedData s)) = true ->
     ZBuffer (Flags (m_fixedData me)) = false ->
     (forall c, resource (repo_answer env (length (trace w)) c) = None) ->
     exists c, shaderBlt env this d dst src w
               = Ok E_OUTOFMEMORY (set_trace (EvRepo c :: trace w) w)).
Proof.
  split.
  - intros hr w' E. split.
    + exact (wp_ok _ _ _ _ _ (shaderBlt_code env this d dst src w) E).
    + exact (wp_ok _ _ _ _ _ (shaderBlt_quiet env this d dst src w) E).
  - intros me s Hme Hs Hc Hz Hrepo. unfold shaderBlt.
    rewrite (run_bind _ _ _ _ _ (run_getResource _ _ _ Hme)).
    rewrite (run_bind _ _ _ _ _ (run_getResource _ _ _ Hs)).
    rewrite Hc, Hz. unfold orReturn, repoCall, bind, now, emit, modifyWorld, ret. simpl.
    rewrite Hrepo. eexists. reflexivity.
Qed.

Lemma shaderBlt_result_witness :
  exists c, shaderBlt env0 1 palettizedBlt 1 2 palettizedWorld
            = Ok E_OUTOFMEMORY (set_trace [EvRepo c] palettizedWorld).
Proof.
  apply (proj2 (shaderBlt_result env0 1 palettizedBlt 1 2 palettizedWorld)
           (plainResource 1 D3DDDIFMT_P8 1 D3DDDIPOOL_VIDEOMEMORY (Some 5)
              (setVidMemUpToDate true (setSysMemUpToDate true newLockData)))
           (plainResource 2 D3DDDIFMT_P8 1 D3DDDIPOOL_SYSTEMMEM None
              (setSysMemUpToDate true newLockData)));
    reflexivity.
Defined.

(** ** The lock resource *)

Lemma lookup_sysMemLockData surfaceInfo r i si :
  surfaceInfo !! i = Some si ->
  sysMemLockData surfaceInfo r !! i
  = Some (mkLockData (pSysMem si) (SysMemPitch si) true true
                     (hasResource (m_msaaSurface r)) (hasResource (m_msaaResolvedSurface r))
                     false).
Proof.
  intros Hs. unfold sysMemLockData. rewrite list_lookup_imap.
  destruct (resize (length surfaceInfo) (m_lockData r) !! i) as [x|] eqn:Hx.
  - simpl. rewrite Hs. reflexivity.
  - apply lookup_ge_None in Hx. rewrite length_resize in Hx.
    apply lookup_lt_Some in Hs. lia.
Qed.

Lemma length_sysMemLockData surfaceInfo r :
  length (sysMemLockData surfaceInfo r) = length surfaceInfo.
Proof. unfold sysMemLockData. rewrite length_imap, length_resize. reflexivity. Qed.

(** What [createSysMemResource] leaves of the resource: itself when the
    driver refused, else the lock resource and one entry per surface. *)
Lemma createSysMemResource_outcome env this surfaceInfo w r :
  resources w !! this = Some r ->
  wp (createSysMemResource env this surfaceInfo)
     (fun _ w' =>
        exists r', resources w' !! this = Some r' /\
                   (r' = r \/
                    exists h, r' = set_m_lockData
                                     (sysMemLockData surfaceInfo (set_m_lockResource (Some h) r))
                                     (set_m_lockResource (Some h) r))) w.
Proof.
  intros Hr. unfold createSysMemResource.
  apply wp_bind. apply (wp_run _ _ _ _ _ (run_getResource _ _ _ Hr)).
  unfold createPrivateResource.
  apply wp_bind, wp_bind, wp_now, wp_bind, wp_emit.
  match goal with |- context [drv_createResource env ?t ?x] =>
    destruct (drv_createResource env t x) as [hr h] end.
  apply wp_ret. destruct (SUCCEEDED hr); cbn [when].
  - apply wp_bind, wp_modifyResource. intros r0 Hr0. simpl in Hr0.
    rewrite Hr in Hr0. injection Hr0 as <-.
    apply wp_modifyResource. intros r1 Hr1. simpl in Hr1.
    rewrite lookup_insert_eq in Hr1. injection Hr1 as <-.
    eexists. split; [simpl; apply lookup_insert_eq|]. right. eexists. reflexivity.
  - apply wp_ret. exists r. split; [exact Hr|]. left. reflexivity.
Qed.

(** The resources [createLockResource] does not act on. *)
Definition lockResourceSkipped (r : Resource) : bool :=
  isSystemMem (Pool (m_fixedData r)) || m_isSurfaceRepoResource r ||
  (0 =? m_formatInfo_bytesPerPixel r) ||
  hasTypeFlagOtherThanRenderTarget (Flags (m_fixedData r)).

Lemma createLockResource_outcome env this w r :
  resources w !! this = Some r -> m_lockResource r = None ->
  wp (createLockResource env this)
     (fun _ w' =>
        if lockResourceSkipped r then w' = w
        else exists r', resources w' !! this = Some r' /\
               ((exists h, m_lockResource r' = Some h) /\
                length (m_lockData r') = length (surfaceData (m_fixedData r)) /\
                (forall i l, m_lockData r' !! i = Some l ->
                   isSysMemUpToDate l = true /\ isVidMemUpToDate l = true /\
                   isRefLocked l = false) \/
                m_lockResource r' = None /\ m_lockBuffer r' = None /\ m_lockData r' = [])) w.
Proof.
  intros Hr Hk. unfold createLockResource.
  apply wp_bind. apply (wp_run _ _ _ _ _ (run_getResource _ _ _ Hr)).
  fold (lockResourceSkipped r). destruct (lockResourceSkipped r); [apply wp_ret; reflexivity|].
  set (layout := lockLayout env (m_formatInfo_bytesPerPixel r) None (surfaceData (m_fixedData r))).
  apply wp_bind, wp_deref. intros back Hback.
  apply wp_bind, wp_now. apply wp_bind, wp_emit.
  apply wp_bind, wp_modifyResource. intros r0 Hr0. simpl in Hr0.
  rewrite Hr in Hr0. injection Hr0 as <-.
  match goal with |- wp _ _ ?w1 => set (w1' := w1) end.
  match goal with |- context [createSysMemResource env this ?si] => set (surfaceInfo := si) end.
  assert (H1 : resources w1' !! this
               = Some (set_m_lockBuffer (Some (heap_alloc env (length (trace w))
                         (wrapUINT (pSysMem back + wrapUINT (SysMemPitch back * Height back)
                                    + surface_ALIGNMENT env)))) r))
    by apply lookup_insert_eq.
  apply wp_bind.
  eapply wp_mono; [apply (createSysMemResource_outcome env this surfaceInfo w1' _ H1)|].
  intros _ w2 (r2 & Hr2 & Hcase).
  apply wp_bind. apply (wp_run _ _ _ _ _ (run_getResource _ _ _ Hr2)).
  destruct Hcase as [->|(h & ->)].
  - replace (hasLockResource (set_m_lockBuffer _ r)) with false
      by (unfold hasLockResource; destruct r; simpl in *; rewrite Hk; reflexivity).
    cbn [negb when].
    apply wp_bind, wp_modifyResource. intros r3 Hr3. rewrite Hr2 in Hr3. injection Hr3 as <-.
    apply wp_modifyResource. intros r4 Hr4. simpl in Hr4.
    rewrite lookup_insert_eq in Hr4. injection Hr4 as <-.
    eexists. split; [simpl; apply lookup_insert_eq|]. right.
    destruct r; simpl in *. auto.
  - replace (hasLockResource (set_m_lockData _ (set_m_lockResource (Some h) _))) with true
      by (unfold hasLockResource; destruct r; reflexivity).
    cbn [negb when]. apply wp_ret.
    eexists. split; [exact Hr2|]. left.
    rewrite m_lockData_set. split; [exists h; destruct r; reflexivity|].
    split.
    + rewrite length_sysMemLockData. unfold surfaceInfo. rewrite length_map.
      unfold layout. clear. generalize (@None D3DDDI_SURFACEINFO).
      induction (surfaceData (m_fixedData r)) as [|si l IH]; intros prev; simpl;
        [reflexivity|]. f_equal. apply IH.
    + intros i l Hl.
      destruct (surfaceInfo !! i) as [si|] eqn:Hsi.
      * rewrite (lookup_sysMemLockData surfaceInfo _ i si Hsi) in Hl. injection Hl as <-.
        repeat split.
      * apply lookup_ge_None in Hsi. apply lookup_lt_Some in Hl.
        rewrite length_sysMemLockData in Hl. lia.
Qed.

(** [createLockResource] leaves alone a resource in system memory, of
    the surface repository, of a format without byte size, or with a type
    flag other than RenderTarget. On any other resource (that has no lock
    resource yet) it ends in one of two states: with a lock resource and
    one lock entry per surface, each valid in system and in video memory;
    or, when the driver refused, with no lock resource, no lock buffer and
    no lock entries. *)
Theorem createLockResource_all_or_nothing (env : Env) (this : HANDLE) (w w' : World)
    (r : Resource) :
  resources w !! this = Some r -> m_lockResource r = None ->
  createLockResource env this w = Ok tt w' ->
  if lockResourceSkipped r then w' = w
  else exists r', resources w' !! this = Some r' /\
         ((exists h, m_lockResource r' = Some h) /\
          length (m_lockData r') = length (surfaceData (m_fixedData r)) /\
          (forall i l, m_lockData r' !! i = Some l ->
             isSysMemUpToDate l = true /\ isVidMemUpToDate l = true /\
             isRefLocked l = false) \/
          m_lockResource r' = None /\ m_lockBuffer r' = None /\ m_lockData r' = []).
Proof.
  intros Hr Hk E. exact (wp_ok _ _ _ _ _ (createLockResource_outcome env this w r Hr Hk) E).
Qed.

(** A plain video-memory surface before [createLockResource]. *)
Definition bareWorld : World :=
  worldOf [(1, set_m_lockData []
                 (plainResource 1 D3DDDIFMT_X8R8G8B8 4 D3DDDIPOOL_VIDEOMEMORY None newLockData))].

Lemma createLockResource_all_or_nothing_witness :
  (exists w' r', createLockResource env0 1 bareWorld = Ok tt w' /\
                 resources w' !! 1 = Some r' /\
                 m_lockResource r' = Some 101 /\ length (m_lockData r') = 1%nat) /\
  (exists w' r', createLockResource envFailing 1 bareWorld = Ok tt w' /\
                 resources w' !! 1 = Some r' /\
                 m_lockResource r' = None /\ m_lockData r' = []).
Proof.
  split.
  - do 2 eexists. split; [vm_compute; reflexivity|].
    split; [vm_compute; reflexivity|]. split; reflexivity.
  - assert (E : exists w', createLockResource envFailing 1 bareWorld = Ok tt w')
      by (eexists; vm_compute; reflexivity).
    destruct E as (w' & E).
    pose proof (createLockResource_all_or_nothing envFailing 1 bareWorld w'
                  (set_m_lockData []
                     (plainResource 1 D3DDDIFMT_X8R8G8B8 4 D3DDDIPOOL_VIDEOMEMORY None
                        newLockData))
                  eq_refl eq_refl E) as H.
    change (lockResourceSkipped _) with false in H. cbv iota in H.
    destruct H as (r' & Hr' & [((h & Hh) & _)|(Hn & _ & Hd)]).
    + exfalso. revert Hr' Hh. vm_compute in E. injection E as <-. vm_compute.
      intros X. injection X as <-. discriminate.
    + exists w', r'. auto.
Defined.

(** ** What a GPU read is given *)

(** [prepareForGpuRead] on a resource with a lock resource returns a
    representation that is up to date: the resolved surface, with its flag
    set, when there is one, and else the resource itself, with video
    memory valid. *)
Theorem prepareForGpuRead_up_to_date (env : Env) (fuel : nat) (h : HANDLE) (i : nat)
    (w w' : World) (r : Resource) (res : HANDLE) :
  resources w !! h = Some r -> hasLockResource r = true ->
  prepareForGpuRead env fuel h i w = Ok res w' ->
  exists l, entry h i w' = Some l /\
            match resource (m_msaaResolvedSurface r) with
            | Some resolved => res = resolved /\ isMsaaResolvedUpToDate l = true
            | None => res = h /\ isVidMemUpToDate l = true
            end.
Proof.
  intros Hr Hk E.
  assert (H : wp (prepareForGpuRead env fuel h i)
                 (fun res w' => exists l, entry h i w' = Some l /\
                    match resource (m_msaaResolvedSurface r) with
                    | Some resolved => res = resolved /\ isMsaaResolvedUpToDate l = true
                    | None => res = h /\ isVidMemUpToDate l = true
                    end) w).
  { unfold prepareForGpuRead.
    apply wp_bind. apply (wp_run _ _ _ _ _ (run_getResource _ _ _ Hr)). rewrite Hk.
    apply wp_bind_any. intros _ w1.
    destruct (resource (m_msaaResolvedSurface r)) as [resolved|].
    - apply wp_bind.
      eapply wp_mono; [apply (loadMsaaResolvedResource_resolved env fuel h i w1)|].
      intros _ w2 (l & Hl & Hv). apply wp_ret. eauto.
    - apply wp_bind.
      eapply wp_mono; [apply (loadVidMemResource_vid env fuel h i w1)|].
      intros _ w2 (l & Hl & Hv). apply wp_ret. eauto. }
  exact (wp_ok _ _ _ _ _ H E).
Qed.

Lemma prepareForGpuRead_up_to_date_witness :
  exists w' l, prepareForGpuRead env0 3 1 0 staleVidMemWorld = Ok 1 w' /\
               entry 1 0 w' = Some l /\ isVidMemUpToDate l = true.
Proof.
  assert (E : exists w', prepareForGpuRead env0 3 1 0 staleVidMemWorld = Ok 1 w')
    by (eexists; vm_compute; reflexivity).
  destruct E as (w' & E).
  destruct (prepareForGpuRead_up_to_date env0 3 1 0 staleVidMemWorld w'
              (plainResource 1 D3DDDIFMT_X8R8G8B8 4 D3DDDIPOOL_VIDEOMEMORY (Some 5)
                 (setSysMemUpToDate true newLockData))
              1 eq_refl eq_refl E) as (l & Hl & _ & Hv).
  exists w', l. auto.
Defined.

(** ** Rounding up *)

(** [divCeil] is the quotient rounded up, for a non-negative [n] and a
    positive [d] whose sum fits a [LONG]: the division is defined there,
    and its result [q] is the least with [n <= d * q]. *)
Theorem divCeil_rounds_up (n d : Z) :
  0 <= n -> 0 < d -> n + d <= LONG_MAX ->
  exists q, divCeil n d = Some q /\ d * (q - 1) < n <= d * q.
Proof.
  unfold LONG_MAX. intros Hn Hd Hs. unfold divCeil. cbv zeta.
  rewrite (divTraps_pos _ d Hd). eexists. split; [reflexivity|].
  unfold divL, subL, addL.
  rewrite (wrapLONG_id (n + d)) by (unfold LONG_MIN, LONG_MAX; lia).
  rewrite (wrapLONG_id (n + d - 1)) by (unfold LONG_MIN, LONG_MAX; lia).
  rewrite quot_div_pos by lia.
  pose proof (div_bounds (n + d - 1) d ltac:(lia) Hd) as B.
  rewrite wrapLONG_id; [lia|].
  unfold LONG_MIN, LONG_MAX. split; [|nia].
  assert (0 <= (n + d - 1) / d) by (apply Z.div_pos; lia). lia.
Qed.

Lemma divCeil_rounds_up_witness :
  exists q, divCeil 7 2 = Some q /\ 2 * (q - 1) < 7 <= 2 * q.
Proof. apply divCeil_rounds_up; unfold LONG_MAX; lia. Defined.

(** ** Clearing around a rectangle *)

(** The point lies in the rectangle. *)
Definition inRect (f : RECT) (x y : Z) : Prop :=
  left f <= x < right f /\ top f <= y < bottom f.

(** The strips [clearRectExterior] fills, in the order of the calls. *)
Definition exteriorRects (width height : Z) (r : RECT) : list RECT :=
  (if 0 <? left r then [mkRECT 0 0 (left r) height] else []) ++
  (if right r <? width then [mkRECT (right r) 0 width height] else []) ++
  (if 0 <? top r then [mkRECT (left r) 0 (right r) (top r)] else []) ++
  (if bottom r <? height then [mkRECT (left r) (bottom r) (right r) height] else []).

Lemma run_clearRectInterior env this i f w me :
  resources w !! this = Some me ->
  clearRectInterior env this i f w
  = Ok tt (set_trace (EvColorFill (mkColorFill (m_handle me) i f 0) :: trace w) w).
Proof.
  intros Hr. unfold clearRectInterior.
  rewrite (run_bind _ _ _ _ _ (run_getResource _ _ _ Hr)). reflexivity.
Qed.

Lemma run_clearRectExterior env this i r w me si :
  resources w !! this = Some me -> surfaceData (m_fixedData me) !! i = Some si ->
  clearRectExterior env this i r w
  = Ok tt (set_trace
             (rev (map (fun f => EvColorFill (mkColorFill (m_handle me) i f 0))
                       (exteriorRects (toLONG (Width si)) (toLONG (Height si)) r))
              ++ trace w) w).
Proof.
  intros Hr Hs. unfold clearRectExterior, exteriorRects.
  rewrite (run_bind _ _ _ _ _ (run_fixedSurfaceAt _ _ _ _ _ Hr Hs)).
  assert (Hstep : forall b f (k : M unit) w1,
            resources w1 !! this = Some me ->
            bind (when b (clearRectInterior env this i f)) (fun _ => k) w1
            = k (if b then set_trace (EvColorFill (mkColorFill (m_handle me) i f 0) :: trace w1) w1
                 else w1)).
  { intros b f k w1 H1. destruct b; cbn [when].
    - rewrite (run_bind _ _ _ _ _ (run_clearRectInterior env this i f w1 me H1)). reflexivity.
    - reflexivity. }
  rewrite Hstep by exact Hr.
  rewrite Hstep by (destruct (0 <? left r); exact Hr).
  rewrite Hstep by (destruct (0 <? left r); destruct (right r <? toLONG (Width si)); exact Hr).
  destruct (0 <? left r); destruct (right r <? toLONG (Width si)); destruct (0 <? top r);
    destruct (bottom r <? toLONG (Height si)); cbn [when];
    try (erewrite run_clearRectInterior by exact Hr); destruct w; reflexivity.
Qed.

Ltac strip_cases :=
  repeat match goal with
         | H : _ \/ _ |- _ => destruct H
         | H : False |- _ => contradiction
         | H : mkRECT _ _ _ _ = ?g |- _ => subst g
         end.

Lemma exteriorRects_partition width height r x y :
  0 <= left r <= right r -> right r <= width ->
  0 <= top r <= bottom r -> bottom r <= height ->
  0 <= x < width -> 0 <= y < height ->
  (inRect r x y -> forall f, In f (exteriorRects width height r) -> ~ inRect f x y) /\
  (~ inRect r x y ->
   exists f, In f (exteriorRects width height r) /\ inRect f x y /\
             forall g, In g (exteriorRects width height r) -> inRect g x y -> g = f).
Proof.
  intros Hl Hr Ht Hb Hx Hy. unfold exteriorRects, inRect.
  destruct (Z.ltb_spec 0 (left r)); destruct (Z.ltb_spec (right r) width);
    destruct (Z.ltb_spec 0 (top r)); destruct (Z.ltb_spec (bottom r) height);
    cbn [app In left top right bottom];
    (split;
     [ intros Hin f Hf; strip_cases; cbn [left top right bottom]; lia
     | intros Hout;
       destruct (Z_lt_ge_dec x (left r));
       [ exists (mkRECT 0 0 (left r) height)
       | destruct (Z_lt_ge_dec x (right r));
         [ destruct (Z_lt_ge_dec y (top r));
           [ exists (mkRECT (left r) 0 (right r) (top r))
           | destruct (Z_lt_ge_dec y (bottom r));
             [ exfalso; lia | exists (mkRECT (left r) (bottom r) (right r) height) ] ]
         | exists (mkRECT (right r) 0 width height) ] ];
       (split; [first [tauto | exfalso; lia]|]);
       (split; [cbn [left top right bottom]; lia|]);
       intros strip Hstrip Hin0; strip_cases; cbn [left top right bottom] in *;
       first [reflexivity | exfalso; lia] ]).
Qed.

(** [clearRectExterior] of a rectangle within the subresource fills up
    to four strips by driver colour fills, and does nothing else. The
    strips and the rectangle divide the surface between them: a point of
    the rectangle lies in no strip, and every other point of the surface
    lies in exactly one. *)
Theorem clearRectExterior_partitions (env : Env) (this : HANDLE) (i : nat) (r : RECT)
    (w : World) (me : Resource) (si : D3DDDI_SURFACEINFO) :
  resources w !! this = Some me -> surfaceData (m_fixedData me) !! i = Some si ->
  0 <= left r <= right r -> right r <= toLONG (Width si) ->
  0 <= top r <= bottom r -> bottom r <= toLONG (Height si) ->
  let strips := exteriorRects (toLONG (Width si)) (toLONG (Height si)) r in
  clearRectExterior env this i r w
  = Ok tt (set_trace (rev (map (fun f => EvColorFill (mkColorFill (m_handle me) i f 0)) strips)
                      ++ trace w) w) /\
  forall x y, 0 <= x < toLONG (Width si) -> 0 <= y < toLONG (Height si) ->
    (inRect r x y -> forall f, In f strips -> ~ inRect f x y) /\
    (~ inRect r x y ->
     exists f, In f strips /\ inRect f x y /\
               forall g, In g strips -> inRect g x y -> g = f).
Proof.
  intros Hr Hs Hl Hrt Ht Hb strips. split.
  - apply run_clearRectExterior; assumption.
  - intros x y Hx Hy. apply exteriorRects_partition; assumption.
Qed.

Lemma clearRectExterior_partitions_witness :
  clearRectExterior env0 1 0 (mkRECT 8 0 56 64) lockableWorld
  = Ok tt (set_trace [EvColorFill (mkColorFill 1 0 (mkRECT 56 0 64 64) 0);
                      EvColorFill (mkColorFill 1 0 (mkRECT 0 0 8 64) 0)] lockableWorld).
Proof.
  refine (proj1 (clearRectExterior_partitions env0 1 0 (mkRECT 8 0 56 64) lockableWorld
                   (plainResource 1 D3DDDIFMT_X8R8G8B8 4 D3DDDIPOOL_VIDEOMEMORY (Some 5)
                      (setSysMemUpToDate true (setVidMemUpToDate true newLockData)))
                   (mkSurfaceInfo 64 64 0 0 0) eq_refl eq_refl _ _ _ _));
    vm_compute; repeat split; discriminate.
Defined.

(** ** The colour key of a palettized texture *)

Record RGBQUAD := mkRGBQUAD {
  rgbBlue : Z;
  rgbGreen : Z;
  rgbRed : Z;
  rgbReserved : Z
}.

(** [rgbBlue += 0xFF == rgbBlue ? -1 : 1], on a byte. *)
Definition bumpBlue (c : RGBQUAD) : RGBQUAD :=
  mkRGBQUAD ((rgbBlue c + (if 255 =? rgbBlue c then -1 else 1)) mod 256)
            (rgbGreen c) (rgbRed c) (rgbReserved c).

Section ColorKey.

(** [operator==] on [RGBQUAD], of Common/Comparison.h. *)
Variable sameColor : RGBQUAD -> RGBQUAD -> bool.

(** The loop of [updatePalettizedTexture] over its copy of the palette,
    from index [i] on: an entry other than the colour key's that equals
    the colour key's gets its blue changed by one. [None] stands for a
    read past the end of the array. *)
Fixpoint separateColorKeyLoop (count i : nat) (paletteColorKeyIndex : nat)
    (palette : list RGBQUAD) : option (list RGBQUAD) :=
  match count with
  | O => Some palette
  | S count' =>
    if negb (i =? paletteColorKeyIndex)%nat then
      match palette !! i, palette !! paletteColorKeyIndex with
      | Some c, Some key =>
        separateColorKeyLoop count' (S i) paletteColorKeyIndex
          (if sameColor c key then <[i := bumpBlue c]> palette else palette)
      | _, _ => None
      end
    else separateColorKeyLoop count' (S i) paletteColorKeyIndex palette
  end.

(** The palette [updatePalettizedTexture] hands to the blitter: the
    device's when there is no colour key, else the copy after the loop. *)
Definition separateColorKey (paletteColorKeyIndex : Z) (palette : list RGBQUAD)
    : option (list RGBQUAD) :=
  if 0 <=? paletteColorKeyIndex
  then separateColorKeyLoop 256 0 (Z.to_nat paletteColorKeyIndex) palette
  else Some palette.

Hypothesis sameColor_blue : forall a b, sameColor a b = true -> rgbBlue a = rgbBlue b.

Lemma bumpBlue_differs c key :
  0 <= rgbBlue c <= 255 -> rgbBlue c = rgbBlue key -> sameColor (bumpBlue c) key = false.
Proof.
  intros Hb He. destruct (sameColor (bumpBlue c) key) eqn:E; [|reflexivity].
  apply sameColor_blue in E. exfalso. revert E. unfold bumpBlue. cbn [rgbBlue].
  destruct (255 =? rgbBlue c) eqn:E255.
  - apply Z.eqb_eq in E255. rewrite <- He, <- E255. vm_compute. discriminate.
  - apply Z.eqb_neq in E255. rewrite Z.mod_small by lia. lia.
Qed.

(** Entry [j] of the palette after the loop: not the colour of the key,
    and the original entry or that entry with its blue changed. *)
Definition separated (p0 : list RGBQUAD) (key : RGBQUAD) (j : nat) (c : RGBQUAD) : Prop :=
  sameColor c key = false /\
  exists c0, p0 !! j = Some c0 /\ (c = c0 \/ c = bumpBlue c0).

Lemma separateColorKeyLoop_spec p0 k key :
  p0 !! k = Some key ->
  Forall (fun c => 0 <= rgbBlue c <= 255) p0 ->
  forall count i p,
    (i + count = length p0)%nat -> length p = length p0 ->
    (forall j, (i <= j)%nat -> p !! j = p0 !! j) ->
    p !! k = Some key ->
    (forall j c, (j < i)%nat -> j <> k -> p !! j = Some c -> separated p0 key j c) ->
    exists p', separateColorKeyLoop count i k p = Some p' /\
               length p' = length p0 /\ p' !! k = Some key /\
               forall j c, j <> k -> p' !! j = Some c -> separated p0 key j c.
Proof.
  intros Hk Hbytes. induction count as [|count IH]; intros i p Hc Hlen Hrest Hkey Hdone.
  - exists p. split; [reflexivity|]. split; [exact Hlen|]. split; [exact Hkey|].
    intros j c Hj Hjc. apply Hdone; [|exact Hj|exact Hjc].
    apply lookup_lt_Some in Hjc. lia.
  - simpl. destruct (Nat.eqb_spec i k) as [->|Hik]; cbn [negb].
    + apply IH; [lia|exact Hlen| |exact Hkey|].
      * intros j Hj. apply Hrest. lia.
      * intros j c Hj Hjk Hjc. apply Hdone; [lia|exact Hjk|exact Hjc].
    + destruct (p !! i) as [c|] eqn:Hi;
        [|apply lookup_ge_None in Hi; lia].
      rewrite Hkey.
      assert (Hi0 : p0 !! i = Some c) by (rewrite <- Hrest by lia; exact Hi).
      assert (Hb : 0 <= rgbBlue c <= 255)
        by exact (proj1 (Forall_lookup _ _) Hbytes i c Hi0).
      destruct (sameColor c key) eqn:Hs.
      * apply IH.
        -- lia.
        -- rewrite length_insert. exact Hlen.
        -- intros j Hj. rewrite list_lookup_insert_ne by lia. apply Hrest. lia.
        -- rewrite list_lookup_insert_ne by congruence. exact Hkey.
        -- intros j x Hj Hjk Hjx. destruct (decide (j = i)) as [->|Hne].
           ++ rewrite list_lookup_insert_eq in Hjx by (apply lookup_lt_Some in Hi; exact Hi).
              injection Hjx as <-. split.
              ** apply bumpBlue_differs; [exact Hb|]. apply sameColor_blue. exact Hs.
              ** exists c. split; [exact Hi0|]. right. reflexivity.
           ++ rewrite list_lookup_insert_ne in Hjx by congruence.
              apply Hdone; [lia|exact Hjk|exact Hjx].
      * apply IH; [lia|exact Hlen| |exact Hkey|].
        -- intros j Hj. apply Hrest. lia.
        -- intros j x Hj Hjk Hjx. destruct (decide (j = i)) as [->|Hne].
           ++ rewrite Hi in Hjx. injection Hjx as <-. split; [exact Hs|].
              exists c. split; [exact Hi0|]. left. reflexivity.
           ++ apply Hdone; [lia|exact Hjk|exact Hjx].
Qed.

End ColorKey.

(** The palette a colour-keyed palettized texture is drawn with. Whatever
    [operator==] on colours is, as long as equal colours have equal blue:
    for a palette of 256 byte-valued entries and a colour key index below
    256, the loop ends, the entry of the colour key is untouched, every
    other entry is the original one or the original one with its blue
    changed by one, and no other entry has the colour of the key any more. *)
Theorem separateColorKey_isolates (sameColor : RGBQUAD -> RGBQUAD -> bool)
    (paletteColorKeyIndex : Z) (palette : list RGBQUAD) :
  (forall a b, sameColor a b = true -> rgbBlue a = rgbBlue b) ->
  length palette = 256%nat -> 0 <= paletteColorKeyIndex < 256 ->
  Forall (fun c => 0 <= rgbBlue c <= 255) palette ->
  exists p' key,
    separateColorKey sameColor paletteColorKeyIndex palette = Some p' /\
    palette !! Z.to_nat paletteColorKeyIndex = Some key /\
    length p' = 256%nat /\ p' !! Z.to_nat paletteColorKeyIndex = Some key /\
    forall j c, j <> Z.to_nat paletteColorKeyIndex -> p' !! j = Some c ->
                sameColor c key = false /\
                exists c0, palette !! j = Some c0 /\ (c = c0 \/ c = bumpBlue c0).
Proof.
  intros Hblue Hlen Hck Hbytes. unfold separateColorKey.
  replace (0 <=? paletteColorKeyIndex) with true by (symmetry; apply Z.leb_le; lia).
  destruct (palette !! Z.to_nat paletteColorKeyIndex) as [key|] eqn:Hk;
    [|apply lookup_ge_None in Hk; lia].
  destruct (separateColorKeyLoop_spec sameColor Hblue palette (Z.to_nat paletteColorKeyIndex) key
              Hk Hbytes 256 0 palette) as (p' & E & L & K & S);
    [lia|reflexivity|reflexivity|exact Hk|intros j c Hj; lia|].
  exists p', key. split; [exact E|]. split; [reflexivity|].
  split; [rewrite L; exact Hlen|]. split; [exact K|]. exact S.
Qed.

Definition sameRGB (a b : RGBQUAD) : bool :=
  (rgbBlue a =? rgbBlue b) && (rgbGreen a =? rgbGreen b) && (rgbRed a =? rgbRed b) &&
  (rgbReserved a =? rgbReserved b).

Lemma separateColorKey_isolates_witness :
  exists p' key,
    separateColorKey sameRGB 3 (replicate 256 (mkRGBQUAD 255 0 0 0)) = Some p' /\
    replicate 256 (mkRGBQUAD 255 0 0 0) !! Z.to_nat 3 = Some key /\
    length p' = 256%nat /\ p' !! Z.to_nat 3 = Some key /\
    forall j c, j <> Z.to_nat 3 -> p' !! j = Some c ->
                sameRGB c key = false /\
                exists c0, replicate 256 (mkRGBQUAD 255 0 0 0) !! j = Some c0 /\
                           (c = c0 \/ c = bumpBlue c0).
Proof.
  apply (separateColorKey_isolates sameRGB 3 (replicate 256 (mkRGBQUAD 255 0 0 0))).
  - intros a b H. unfold sameRGB in H. rewrite !andb_true_iff in H.
    destruct H as (((H & _) & _) & _). apply Z.eqb_eq. exact H.
  - apply length_replicate.
  - lia.
  - apply Forall_replicate. simpl. lia.
Defined.

(** ** I1 on the other paths *)

(** I1 is preserved on every other path into the lock data as well: by
    the write paths [prepareForCpuWrite], [prepareForGpuWrite] and
    [prepareForBltDst], by the read paths [prepareForCpuRead],
    [prepareForGpuRead] and [prepareForBltSrc], by the five
    materialization functions ([loadSysMemResource], [loadVidMemResource],
    [loadMsaaResource], [loadMsaaResolvedResource] and
    [loadFromLockRefResource]), by [bltLock], [bltViaCpu], [bltViaGpu] and
    [presentationBlt], and by [setAsPrimary] and [createLockResource].
    None of them removes a resource from the table. *)
Theorem I1_preserved_inside (env : Env) (fuel : nat) (h : HANDLE) (i : nat) (w w' : World) :
  prepareForCpuWrite env fuel h i w = Ok tt w' \/
  prepareForGpuWrite env fuel h i w = Ok tt w' \/
  (exists d x, prepareForBltDst env fuel h d w = Ok x w') \/
  prepareForCpuRead env fuel h i w = Ok tt w' \/
  (exists res, prepareForGpuRead env fuel h i w = Ok res w') \/
  (exists d res, prepareForBltSrc env fuel h d w = Ok res w') \/
  loadSysMemResource env fuel h i w = Ok tt w' \/
  loadVidMemResource env fuel h i w = Ok tt w' \/
  loadMsaaResource env fuel h i w = Ok tt w' \/
  loadMsaaResolvedResource env fuel h i w = Ok tt w' \/
  loadFromLockRefResource env fuel h i w = Ok tt w' \/
  (exists d x, bltLock env fuel h d w = Ok x w') \/
  (exists d src hr, bltViaCpu env fuel h d src w = Ok hr w') \/
  (exists d src hr, bltViaGpu env fuel h d src w = Ok hr w') \/
  (exists d src hr, presentationBlt env fuel h d src w = Ok hr w') \/
  setAsPrimary env fuel h w = Ok tt w' \/
  createLockResource env h w = Ok tt w' ->
  (I1 w -> I1 w') /\
  forall h', is_Some (resources w !! h') -> is_Some (resources w' !! h').
Proof.
  intros H.
  assert (K : keeps w w').
  { repeat match goal with
           | H : _ \/ _ |- _ => destruct H as [H|H]
           | H : exists _, _ |- _ => destruct H as (? & H)
           end.
    - exact (wp_ok _ _ _ _ _ (prepareForCpuWrite_keeps env fuel h i w) H).
    - exact (wp_ok _ _ _ _ _ (prepareForGpuWrite_keeps env fuel h i w) H).
    - exact (wp_ok _ _ _ _ _ (prepareForBltDst_keeps env fuel h _ w) H).
    - eapply touch_keeps. exact (wp_ok _ _ _ _ _ (prepareForCpuRead_touch env fuel h i w) H).
    - eapply touch_keeps. exact (wp_ok _ _ _ _ _ (prepareForGpuRead_touch env fuel h i w) H).
    - eapply touch_keeps. exact (wp_ok _ _ _ _ _ (prepareForBltSrc_touch env fuel h _ w) H).
    - eapply touch_keeps. exact (wp_ok _ _ _ _ _ (loadSysMemResource_touch env fuel h i w) H).
    - eapply touch_keeps. exact (wp_ok _ _ _ _ _ (loadVidMemResource_touch env fuel h i w) H).
    - eapply touch_keeps. exact (wp_ok _ _ _ _ _ (loadMsaaResource_touch env fuel h i w) H).
    - eapply touch_keeps.
      exact (wp_ok _ _ _ _ _ (loadMsaaResolvedResource_touch env fuel h i w) H).
    - eapply touch_keeps.
      exact (wp_ok _ _ _ _ _ (loadFromLockRefResource_touch env fuel h i w) H).
    - exact (wp_ok _ _ _ _ _ (bltLock_keeps env fuel h _ w) H).
    - exact (wp_ok _ _ _ _ _ (bltViaCpu_keeps env fuel h _ _ w) H).
    - exact (wp_ok _ _ _ _ _ (bltViaGpu_keeps env fuel h _ _ w) H).
    - exact (wp_ok _ _ _ _ _ (presentationBlt_keeps env fuel h _ _ w) H).
    - exact (wp_ok _ _ _ _ _ (setAsPrimary_keeps env fuel h w) H).
    - exact (wp_ok _ _ _ _ _ (createLockResource_keeps env h w) H). }
  destruct K as (A & K). split; [exact K|exact A].
Qed.

Lemma I1_lockableWorld : I1 lockableWorld.
Proof.
  intros h i l. unfold entry, lockableWorld, worldOf. simpl.
  destruct (decide (h = 1)) as [->|Hne].
  - rewrite lookup_insert_eq. simpl. destruct i as [|i]; simpl; [|discriminate].
    intros E. injection E as <-. reflexivity.
  - rewrite lookup_insert_ne by congruence. rewrite lookup_empty. discriminate.
Qed.

Lemma I1_preserved_inside_witness :
  exists w', prepareForCpuWrite env0 2 1 0 lockableWorld = Ok tt w' /\ I1 w'.
Proof.
  assert (E : exists w', prepareForCpuWrite env0 2 1 0 lockableWorld = Ok tt w')
    by (eexists; vm_compute; reflexivity).
  destruct E as (w' & E). exists w'. split; [exact E|].
  exact (proj1 (I1_preserved_inside env0 2 1 0 lockableWorld w' (or_introl E)) I1_lockableWorld).
Defined.
